(** * BeachdAI service worker: the orchestrator state machine

    A shallow embedding of [src/background.ts] (the agent orchestrator, its
    handlers and the decision service client), of the credential vault of
    [src/vault.ts], and of the types of [src/types.ts].

    The service worker keeps its state in module-level variables
    ([currentTask], [pendingCredentialValue]) and in [chrome.storage]; here
    that state is the record [Store], threaded through a small state and
    exception monad.  Every call that leaves the service worker (the decision
    service, the browser, the clock) is answered by a [World]: a family of
    functions indexed by the number of calls made so far, so that two calls
    never have to agree. *)

From Stdlib Require Import ZArith Lia Ascii String List Bool.
From stdpp Require Import base tactics option list gmap strings pretty.

Open Scope string_scope.
Open Scope nat_scope.

(** ** JavaScript strings and arrays *)

(** A character of a [string] is a UTF-16 code unit below 256: the strings
    of this development are the JavaScript strings made of such units. *)

(** [s.includes(needle)] *)
Fixpoint includes (needle s : string) : bool :=
  if String.prefix needle s then true
  else match s with
       | EmptyString => false
       | String _ s' => includes needle s'
       end.

(** The lower case of a code unit below 256: the letters [A] to [Z] and the
    capital letters from U+00C0 to U+00DE, the multiplication sign U+00D7
    apart, have theirs 32 units further. *)
Definition lower_ascii (c : ascii) : ascii :=
  let n := nat_of_ascii c in
  if ((65 <=? n) && (n <=? 90))
     || ((192 <=? n) && (n <=? 222) && negb (n =? 215))
  then ascii_of_nat (n + 32) else c.

(** [s.toLowerCase()] *)
Fixpoint toLowerCase (s : string) : string :=
  match s with
  | EmptyString => EmptyString
  | String c s' => String (lower_ascii c) (toLowerCase s')
  end.

(** The white space and the line terminators that [trim] strips, among the
    code units below 256: tab, line feed, vertical tab, form feed, carriage
    return, space and the no-break space U+00A0. *)
Definition is_space (c : ascii) : bool :=
  let n := nat_of_ascii c in
  (n =? 32) || ((9 <=? n) && (n <=? 13)) || (n =? 160).

(** [s.trim() === ''] *)
Fixpoint is_blank (s : string) : bool :=
  match s with
  | EmptyString => true
  | String c s' => is_space c && is_blank s'
  end.

(** [xs.slice(-n)] *)
Definition slice_last {A} (n : nat) (xs : list A) : list A :=
  drop (length xs - n) xs.

(** [xs.join(sep)] *)
Fixpoint join (sep : string) (xs : list string) : string :=
  match xs with
  | [] => ""
  | [x] => x
  | x :: rest => x +:+ sep +:+ join sep rest
  end.

(** Truthiness of an optional string: [undefined] and [''] are falsy. *)
Definition truthy (o : option string) : bool :=
  match o with
  | Some s => negb (String.eqb s "")
  | None => false
  end.

(** [o || dflt] on strings *)
Definition or_else (o : option string) (dflt : string) : string :=
  if truthy o then default dflt o else dflt.

(** The text JavaScript prints for an optional string inside a template. *)
Definition show (o : option string) : string := default "undefined" o.

(** [`${ms / 1000}`] for a whole number of milliseconds *)
Definition show_seconds (ms : nat) : string :=
  let whole := pretty (ms / 1000) in
  let r := ms mod 1000 in
  if r =? 0 then whole
  else
    let d1 := pretty (r / 100) in
    let d2 := pretty (r / 10 mod 10) in
    let d3 := pretty (r mod 10) in
    if r mod 100 =? 0 then whole +:+ "." +:+ d1
    else if r mod 10 =? 0 then whole +:+ "." +:+ d1 +:+ d2
    else whole +:+ "." +:+ d1 +:+ d2 +:+ d3.

(** ** [src/types.ts] *)

Inductive TaskStatus :=
| RESEARCHING | PLANNING | THINKING | VERIFYING | EXECUTING | WAITING
| COMPLETED | FAILED | STOPPED | REPLANNING | USER_INPUT_PENDING | TEACHING
| AWAITING_CREDENTIAL_NAME | AWAITING_PASSPHRASE.

#[global] Instance TaskStatus_eq_dec : EqDecision TaskStatus.
Proof. solve_decision. Defined.

Definition status_name (st : TaskStatus) : string :=
  match st with
  | RESEARCHING => "RESEARCHING" | PLANNING => "PLANNING"
  | THINKING => "THINKING" | VERIFYING => "VERIFYING"
  | EXECUTING => "EXECUTING" | WAITING => "WAITING"
  | COMPLETED => "COMPLETED" | FAILED => "FAILED" | STOPPED => "STOPPED"
  | REPLANNING => "REPLANNING" | USER_INPUT_PENDING => "USER_INPUT_PENDING"
  | TEACHING => "TEACHING"
  | AWAITING_CREDENTIAL_NAME => "AWAITING_CREDENTIAL_NAME"
  | AWAITING_PASSPHRASE => "AWAITING_PASSPHRASE"
  end.

(** The [action] tags of a [ManagerDecision]. *)
Inductive Action :=
| CLICK | TYPE | GOTO | SUBMIT | ANSWER | FAIL | READ | OPEN_TAB | SEARCH
| WAIT | LONG_WAIT | CHANGE_TAB | HELP_REPLAN | SCROLL_DOWN | PRESS_ESCAPE
| EXTRACT_TEXT | SEARCH_PAGE | PARTIAL_SUCCESS | SAVE_CREDENTIAL_VALUE
| FULL_PAGE_SEARCH.

#[global] Instance Action_eq_dec : EqDecision Action.
Proof. solve_decision. Defined.

Definition action_name (a : Action) : string :=
  match a with
  | CLICK => "CLICK" | TYPE => "TYPE" | GOTO => "GOTO" | SUBMIT => "SUBMIT"
  | ANSWER => "ANSWER" | FAIL => "FAIL" | READ => "READ"
  | OPEN_TAB => "OPEN_TAB" | SEARCH => "SEARCH" | WAIT => "WAIT"
  | LONG_WAIT => "LONG_WAIT" | CHANGE_TAB => "CHANGE_TAB"
  | HELP_REPLAN => "HELP_REPLAN" | SCROLL_DOWN => "SCROLL_DOWN"
  | PRESS_ESCAPE => "PRESS_ESCAPE" | EXTRACT_TEXT => "EXTRACT_TEXT"
  | SEARCH_PAGE => "SEARCH_PAGE" | PARTIAL_SUCCESS => "PARTIAL_SUCCESS"
  | SAVE_CREDENTIAL_VALUE => "SAVE_CREDENTIAL_VALUE"
  | FULL_PAGE_SEARCH => "FULL_PAGE_SEARCH"
  end.

Record ResearchData := {
  question : string;
  rd_answer : string;
  source : option string
}.

Record ResearcherDecision := {
  rs_thought : string;
  facts : list ResearchData;
  requires_browser : bool;
  requires_vault : bool
}.

(** The decision of the Manager.  [action] is [None] when the service
    answered without one (the [!decision.action] test of [handleAction]). *)
Record ManagerDecision := {
  thought : string;
  action : option Action;
  tabName : option string;
  selector : option string;
  text : option string;
  url : option string;
  answer : option string;
  reason : option string;
  duration : option nat;
  query : option string;
  value : option string
}.

(** [{ ...decision, action: a, selector: sel }] *)
Definition with_action (a : Action) (sel : option string) (d : ManagerDecision)
  : ManagerDecision :=
  {| thought := thought d; action := Some a; tabName := tabName d;
     selector := sel; text := text d; url := url d; answer := answer d;
     reason := reason d; duration := duration d; query := query d;
     value := value d |}.

Record CompletedTask := {
  ct_goal : string;
  ct_answer : string;
  ct_timestamp : nat
}.

Record HistoricalTask := {
  goal : string;
  timestamp : nat
}.

(** An action the content script recorded while the user drove the page. *)
Record RecordedAction := {
  ra_action : string;
  ra_selector : option string;
  ra_text : option string
}.

(** The main state object for a task ([AgentState]). *)
Record AgentState := {
  task_id : string;
  originalGoal : string;
  status : TaskStatus;
  plan : list string;
  currentStep : nat;
  stepFailureCount : nat;
  turn : nat;
  scratchpad : list string;
  createdAt : nat;
  researchData : list ResearchData;
  researcherDecision : option ResearcherDecision;
  finalAnswer : option string;
  failureReason : option string;
  lastFailedAction : option ManagerDecision;
  websiteFailures : gmap string nat;
  tabs : gmap string nat;
  activeTabName : string;
  isTraining : bool;
  isPartialSuccess : option bool;
  recordedActions : option (list RecordedAction);
  waitTimeoutId : option nat;
  isDeliberatePlan : bool;
  initialStrategy : option string
}.

(** Field updates ([task.f = v]). *)
Definition set_status v (t : AgentState) : AgentState :=
  {| task_id := task_id t; originalGoal := originalGoal t; status := v;
     plan := plan t; currentStep := currentStep t;
     stepFailureCount := stepFailureCount t; turn := turn t;
     scratchpad := scratchpad t; createdAt := createdAt t;
     researchData := researchData t;
     researcherDecision := researcherDecision t;
     finalAnswer := finalAnswer t; failureReason := failureReason t;
     lastFailedAction := lastFailedAction t;
     websiteFailures := websiteFailures t; tabs := tabs t;
     activeTabName := activeTabName t; isTraining := isTraining t;
     isPartialSuccess := isPartialSuccess t;
     recordedActions := recordedActions t;
     waitTimeoutId := waitTimeoutId t;
     isDeliberatePlan := isDeliberatePlan t;
     initialStrategy := initialStrategy t |}.

Definition set_plan v (t : AgentState) : AgentState :=
  {| task_id := task_id t; originalGoal := originalGoal t; status := status t;
     plan := v; currentStep := currentStep t;
     stepFailureCount := stepFailureCount t; turn := turn t;
     scratchpad := scratchpad t; createdAt := createdAt t;
     researchData := researchData t;
     researcherDecision := researcherDecision t;
     finalAnswer := finalAnswer t; failureReason := failureReason t;
     lastFailedAction := lastFailedAction t;
     websiteFailures := websiteFailures t; tabs := tabs t;
     activeTabName := activeTabName t; isTraining := isTraining t;
     isPartialSuccess := isPartialSuccess t;
     recordedActions := recordedActions t;
     waitTimeoutId := waitTimeoutId t;
     isDeliberatePlan := isDeliberatePlan t;
     initialStrategy := initialStrategy t |}.

Definition set_currentStep v (t : AgentState) : AgentState :=
  {| task_id := task_id t; originalGoal := originalGoal t; status := status t;
     plan := plan t; currentStep := v;
     stepFailureCount := stepFailureCount t; turn := turn t;
     scratchpad := scratchpad t; createdAt := createdAt t;
     researchData := researchData t;
     researcherDecision := researcherDecision t;
     finalAnswer := finalAnswer t; failureReason := failureReason t;
     lastFailedAction := lastFailedAction t;
     websiteFailures := websiteFailures t; tabs := tabs t;
     activeTabName := activeTabName t; isTraining := isTraining t;
     isPartialSuccess := isPartialSuccess t;
     recordedActions := recordedActions t;
     waitTimeoutId := waitTimeoutId t;
     isDeliberatePlan := isDeliberatePlan t;
     initialStrategy := initialStrategy t |}.

Definition set_stepFailureCount v (t : AgentState) : AgentState :=
  {| task_id := task_id t; originalGoal := originalGoal t; status := status t;
     plan := plan t; currentStep := currentStep t;
     stepFailureCount := v; turn := turn t;
     scratchpad := scratchpad t; createdAt := createdAt t;
     researchData := researchData t;
     researcherDecision := researcherDecision t;
     finalAnswer := finalAnswer t; failureReason := failureReason t;
     lastFailedAction := lastFailedAction t;
     websiteFailures := websiteFailures t; tabs := tabs t;
     activeTabName := activeTabName t; isTraining := isTraining t;
     isPartialSuccess := isPartialSuccess t;
     recordedActions := recordedActions t;
     waitTimeoutId := waitTimeoutId t;
     isDeliberatePlan := isDeliberatePlan t;
     initialStrategy := initialStrategy t |}.

Definition set_turn v (t : AgentState) : AgentState :=
  {| task_id := task_id t; originalGoal := originalGoal t; status := status t;
     plan := plan t; currentStep := currentStep t;
     stepFailureCount := stepFailureCount t; turn := v;
     scratchpad := scratchpad t; createdAt := createdAt t;
     researchData := researchData t;
     researcherDecision := researcherDecision t;
     finalAnswer := finalAnswer t; failureReason := failureReason t;
     lastFailedAction := lastFailedAction t;
     websiteFailures := websiteFailures t; tabs := tabs t;
     activeTabName := activeTabName t; isTraining := isTraining t;
     isPartialSuccess := isPartialSuccess t;
     recordedActions := recordedActions t;
     waitTimeoutId := waitTimeoutId t;
     isDeliberatePlan := isDeliberatePlan t;
     initialStrategy := initialStrategy t |}.

Definition set_scratchpad v (t : AgentState) : AgentState :=
  {| task_id := task_id t; originalGoal := originalGoal t; status := status t;
     plan := plan t; currentStep := currentStep t;
     stepFailureCount := stepFailureCount t; turn := turn t;
     scratchpad := v; createdAt := createdAt t;
     researchData := researchData t;
     researcherDecision := researcherDecision t;
     finalAnswer := finalAnswer t; failureReason := failureReason t;
     lastFailedAction := lastFailedAction t;
     websiteFailures := websiteFailures t; tabs := tabs t;
     activeTabName := activeTabName t; isTraining := isTraining t;
     isPartialSuccess := isPartialSuccess t;
     recordedActions := recordedActions t;
     waitTimeoutId := waitTimeoutId t;
     isDeliberatePlan := isDeliberatePlan t;
     initialStrategy := initialStrategy t |}.

Definition set_research facts' decision (t : AgentState) : AgentState :=
  {| task_id := task_id t; originalGoal := originalGoal t; status := status t;
     plan := plan t; currentStep := currentStep t;
     stepFailureCount := stepFailureCount t; turn := turn t;
     scratchpad := scratchpad t; createdAt := createdAt t;
     researchData := facts';
     researcherDecision := decision;
     finalAnswer := finalAnswer t; failureReason := failureReason t;
     lastFailedAction := lastFailedAction t;
     websiteFailures := websiteFailures t; tabs := tabs t;
     activeTabName := activeTabName t; isTraining := isTraining t;
     isPartialSuccess := isPartialSuccess t;
     recordedActions := recordedActions t;
     waitTimeoutId := waitTimeoutId t;
     isDeliberatePlan := isDeliberatePlan t;
     initialStrategy := initialStrategy t |}.

Definition set_finalAnswer v (t : AgentState) : AgentState :=
  {| task_id := task_id t; originalGoal := originalGoal t; status := status t;
     plan := plan t; currentStep := currentStep t;
     stepFailureCount := stepFailureCount t; turn := turn t;
     scratchpad := scratchpad t; createdAt := createdAt t;
     researchData := researchData t;
     researcherDecision := researcherDecision t;
     finalAnswer := v; failureReason := failureReason t;
     lastFailedAction := lastFailedAction t;
     websiteFailures := websiteFailures t; tabs := tabs t;
     activeTabName := activeTabName t; isTraining := isTraining t;
     isPartialSuccess := isPartialSuccess t;
     recordedActions := recordedActions t;
     waitTimeoutId := waitTimeoutId t;
     isDeliberatePlan := isDeliberatePlan t;
     initialStrategy := initialStrategy t |}.

Definition set_failureReason v (t : AgentState) : AgentState :=
  {| task_id := task_id t; originalGoal := originalGoal t; status := status t;
     plan := plan t; currentStep := currentStep t;
     stepFailureCount := stepFailureCount t; turn := turn t;
     scratchpad := scratchpad t; createdAt := createdAt t;
     researchData := researchData t;
     researcherDecision := researcherDecision t;
     finalAnswer := finalAnswer t; failureReason := v;
     lastFailedAction := lastFailedAction t;
     websiteFailures := websiteFailures t; tabs := tabs t;
     activeTabName := activeTabName t; isTraining := isTraining t;
     isPartialSuccess := isPartialSuccess t;
     recordedActions := recordedActions t;
     waitTimeoutId := waitTimeoutId t;
     isDeliberatePlan := isDeliberatePlan t;
     initialStrategy := initialStrategy t |}.

Definition set_lastFailedAction v (t : AgentState) : AgentState :=
  {| task_id := task_id t; originalGoal := originalGoal t; status := status t;
     plan := plan t; currentStep := currentStep t;
     stepFailureCount := stepFailureCount t; turn := turn t;
     scratchpad := scratchpad t; createdAt := createdAt t;
     researchData := researchData t;
     researcherDecision := researcherDecision t;
     finalAnswer := finalAnswer t; failureReason := failureReason t;
     lastFailedAction := v;
     websiteFailures := websiteFailures t; tabs := tabs t;
     activeTabName := activeTabName t; isTraining := isTraining t;
     isPartialSuccess := isPartialSuccess t;
     recordedActions := recordedActions t;
     waitTimeoutId := waitTimeoutId t;
     isDeliberatePlan := isDeliberatePlan t;
     initialStrategy := initialStrategy t |}.

Definition set_websiteFailures v (t : AgentState) : AgentState :=
  {| task_id := task_id t; originalGoal := originalGoal t; status := status t;
     plan := plan t; currentStep := currentStep t;
     stepFailureCount := stepFailureCount t; turn := turn t;
     scratchpad := scratchpad t; createdAt := createdAt t;
     researchData := researchData t;
     researcherDecision := researcherDecision t;
     finalAnswer := finalAnswer t; failureReason := failureReason t;
     lastFailedAction := lastFailedAction t;
     websiteFailures := v; tabs := tabs t;
     activeTabName := activeTabName t; isTraining := isTraining t;
     isPartialSuccess := isPartialSuccess t;
     recordedActions := recordedActions t;
     waitTimeoutId := waitTimeoutId t;
     isDeliberatePlan := isDeliberatePlan t;
     initialStrategy := initialStrategy t |}.

Definition set_tabs v (t : AgentState) : AgentState :=
  {| task_id := task_id t; originalGoal := originalGoal t; status := status t;
     plan := plan t; currentStep := currentStep t;
     stepFailureCount := stepFailureCount t; turn := turn t;
     scratchpad := scratchpad t; createdAt := createdAt t;
     researchData := researchData t;
     researcherDecision := researcherDecision t;
     finalAnswer := finalAnswer t; failureReason := failureReason t;
     lastFailedAction := lastFailedAction t;
     websiteFailures := websiteFailures t; tabs := v;
     activeTabName := activeTabName t; isTraining := isTraining t;
     isPartialSuccess := isPartialSuccess t;
     recordedActions := recordedActions t;
     waitTimeoutId := waitTimeoutId t;
     isDeliberatePlan := isDeliberatePlan t;
     initialStrategy := initialStrategy t |}.

Definition set_activeTabName v (t : AgentState) : AgentState :=
  {| task_id := task_id t; originalGoal := originalGoal t; status := status t;
     plan := plan t; currentStep := currentStep t;
     stepFailureCount := stepFailureCount t; turn := turn t;
     scratchpad := scratchpad t; createdAt := createdAt t;
     researchData := researchData t;
     researcherDecision := researcherDecision t;
     finalAnswer := finalAnswer t; failureReason := failureReason t;
     lastFailedAction := lastFailedAction t;
     websiteFailures := websiteFailures t; tabs := tabs t;
     activeTabName := v; isTraining := isTraining t;
     isPartialSuccess := isPartialSuccess t;
     recordedActions := recordedActions t;
     waitTimeoutId := waitTimeoutId t;
     isDeliberatePlan := isDeliberatePlan t;
     initialStrategy := initialStrategy t |}.

Definition set_isTraining v (t : AgentState) : AgentState :=
  {| task_id := task_id t; originalGoal := originalGoal t; status := status t;
     plan := plan t; currentStep := currentStep t;
     stepFailureCount := stepFailureCount t; turn := turn t;
     scratchpad := scratchpad t; createdAt := createdAt t;
     researchData := researchData t;
     researcherDecision := researcherDecision t;
     finalAnswer := finalAnswer t; failureReason := failureReason t;
     lastFailedAction := lastFailedAction t;
     websiteFailures := websiteFailures t; tabs := tabs t;
     activeTabName := activeTabName t; isTraining := v;
     isPartialSuccess := isPartialSuccess t;
     recordedActions := recordedActions t;
     waitTimeoutId := waitTimeoutId t;
     isDeliberatePlan := isDeliberatePlan t;
     initialStrategy := initialStrategy t |}.

Definition set_isPartialSuccess v (t : AgentState) : AgentState :=
  {| task_id := task_id t; originalGoal := originalGoal t; status := status t;
     plan := plan t; currentStep := currentStep t;
     stepFailureCount := stepFailureCount t; turn := turn t;
     scratchpad := scratchpad t; createdAt := createdAt t;
     researchData := researchData t;
     researcherDecision := researcherDecision t;
     finalAnswer := finalAnswer t; failureReason := failureReason t;
     lastFailedAction := lastFailedAction t;
     websiteFailures := websiteFailures t; tabs := tabs t;
     activeTabName := activeTabName t; isTraining := isTraining t;
     isPartialSuccess := v;
     recordedActions := recordedActions t;
     waitTimeoutId := waitTimeoutId t;
     isDeliberatePlan := isDeliberatePlan t;
     initialStrategy := initialStrategy t |}.

Definition set_recordedActions v (t : AgentState) : AgentState :=
  {| task_id := task_id t; originalGoal := originalGoal t; status := status t;
     plan := plan t; currentStep := currentStep t;
     stepFailureCount := stepFailureCount t; turn := turn t;
     scratchpad := scratchpad t; createdAt := createdAt t;
     researchData := researchData t;
     researcherDecision := researcherDecision t;
     finalAnswer := finalAnswer t; failureReason := failureReason t;
     lastFailedAction := lastFailedAction t;
     websiteFailures := websiteFailures t; tabs := tabs t;
     activeTabName := activeTabName t; isTraining := isTraining t;
     isPartialSuccess := isPartialSuccess t;
     recordedActions := v;
     waitTimeoutId := waitTimeoutId t;
     isDeliberatePlan := isDeliberatePlan t;
     initialStrategy := initialStrategy t |}.

Definition set_waitTimeoutId v (t : AgentState) : AgentState :=
  {| task_id := task_id t; originalGoal := originalGoal t; status := status t;
     plan := plan t; currentStep := currentStep t;
     stepFailureCount := stepFailureCount t; turn := turn t;
     scratchpad := scratchpad t; createdAt := createdAt t;
     researchData := researchData t;
     researcherDecision := researcherDecision t;
     finalAnswer := finalAnswer t; failureReason := failureReason t;
     lastFailedAction := lastFailedAction t;
     websiteFailures := websiteFailures t; tabs := tabs t;
     activeTabName := activeTabName t; isTraining := isTraining t;
     isPartialSuccess := isPartialSuccess t;
     recordedActions := recordedActions t;
     waitTimeoutId := v;
     isDeliberatePlan := isDeliberatePlan t;
     initialStrategy := initialStrategy t |}.

Definition set_isDeliberatePlan v (t : AgentState) : AgentState :=
  {| task_id := task_id t; originalGoal := originalGoal t; status := status t;
     plan := plan t; currentStep := currentStep t;
     stepFailureCount := stepFailureCount t; turn := turn t;
     scratchpad := scratchpad t; createdAt := createdAt t;
     researchData := researchData t;
     researcherDecision := researcherDecision t;
     finalAnswer := finalAnswer t; failureReason := failureReason t;
     lastFailedAction := lastFailedAction t;
     websiteFailures := websiteFailures t; tabs := tabs t;
     activeTabName := activeTabName t; isTraining := isTraining t;
     isPartialSuccess := isPartialSuccess t;
     recordedActions := recordedActions t;
     waitTimeoutId := waitTimeoutId t;
     isDeliberatePlan := v;
     initialStrategy := initialStrategy t |}.

Definition set_initialStrategy v (t : AgentState) : AgentState :=
  {| task_id := task_id t; originalGoal := originalGoal t; status := status t;
     plan := plan t; currentStep := currentStep t;
     stepFailureCount := stepFailureCount t; turn := turn t;
     scratchpad := scratchpad t; createdAt := createdAt t;
     researchData := researchData t;
     researcherDecision := researcherDecision t;
     finalAnswer := finalAnswer t; failureReason := failureReason t;
     lastFailedAction := lastFailedAction t;
     websiteFailures := websiteFailures t; tabs := tabs t;
     activeTabName := activeTabName t; isTraining := isTraining t;
     isPartialSuccess := isPartialSuccess t;
     recordedActions := recordedActions t;
     waitTimeoutId := waitTimeoutId t;
     isDeliberatePlan := isDeliberatePlan t;
     initialStrategy := v |}.

(** ** Decisions of the other roles ([src/background.ts]) *)

Record PlannerDecision := {
  pd_thought : string;
  pd_plan : list string
}.

Record PresenterDecision := {
  summary : string;
  call_to_action : option string
}.

Inductive TriageDecision := Standard_Flow | Deliberate_Flow.

Record TeacherSummaryDecision := {
  ts_summary : string
}.

Record ExpertPersona := {
  ep_name : string;
  ep_title : string;
  ep_persona : string;
  ep_model : string
}.

(** What the content script answers to [EXTRACT_PAGE_SNAPSHOT]. *)
Record PageSnapshot := {
  ps_url : string;
  ps_title : string;
  mainContent : string;
  interactiveElements : list string
}.

(** Parsed JSON, the [any] of the decision service client. *)
#[warnings="-register-all"]
Inductive JSON :=
| JNull
| JBool (b : bool)
| JNum (n : Z)
| JStr (s : string)
| JArr (items : list JSON)
| JObj (fields : list (string * JSON)).

(** JavaScript truthiness of a parsed value. *)
Definition json_truthy (j : JSON) : bool :=
  match j with
  | JNull => false
  | JBool b => b
  | JNum n => negb (Z.eqb n 0)
  | JStr s => negb (String.eqb s "")
  | JArr _ | JObj _ => true
  end.

(** [j.name] for a value that is not [null]: [None] is [undefined], which
    is also what a string, a number, a boolean or an array gives for the
    names read in this development. *)
Definition field (name : string) (j : JSON) : option JSON :=
  match j with
  | JObj fields => snd <$> List.find (fun kv => String.eqb (fst kv) name) fields
  | _ => None
  end.

(** Truthiness of a property that may be [undefined]. *)
Definition field_truthy (name : string) (j : JSON) : bool :=
  match field name j with
  | Some v => json_truthy v
  | None => false
  end.

(** The Verifier's decision is the parsed JSON of its reply, cast to
    [VerifierDecision] without a check: it may lack [is_safe], or not be an
    object at all. *)
Definition VerifierDecision : Type := JSON.

(** The verdict [getVerifierDecision] returns when the call fails. *)
Definition failOpen : VerifierDecision :=
  JObj [("is_safe", JBool true);
        ("reason", JStr "Verifier agent failed, defaulting to safe.")].

(** The two final actions the Presenter is asked about. *)
Inductive PresenterAction := PresentAnswer | PresentPartialSuccess.

#[global] Instance PresenterAction_eq_dec : EqDecision PresenterAction.
Proof. solve_decision. Defined.

(** The data the three Planner prompts of [getPlannerDecision] interpolate. *)
Inductive PlannerPrompt :=
| InitialPlanPrompt (originalGoal : string) (isDeliberate : option bool)
    (research : list ResearchData) (similarTasks : list CompletedTask)
| UserReplanPrompt (originalGoal : string) (failedPlan : list string)
    (failingStep : nat) (history : list string)
| FailureReplanPrompt (originalGoal : string) (research : list ResearchData)
    (failedPlan : list string) (failingStep : nat) (history : list string)
    (failures : gmap string nat).

(** ** Errors and promises *)

Inductive ErrorKind := PlainError | TypeError | SyntaxError.

#[global] Instance ErrorKind_eq_dec : EqDecision ErrorKind.
Proof. solve_decision. Defined.

Record JsError := {
  kind : ErrorKind;
  message : string
}.

Definition mkError (msg : string) : JsError :=
  {| kind := PlainError; message := msg |}.

(** The settlement of an awaited promise. *)
Inductive Outcome (A : Type) :=
| Resolved (a : A)
| Rejected (e : JsError).
Arguments Resolved {A} a.
Arguments Rejected {A} e.

(** What the content script answers to [EXECUTE_ACTION]. *)
Inductive ActionResponse :=
| ActionExecuted (extracted : option string)
| ActionFailed (error : string)
| NoResponse.

(** ** Calls that are not awaited

    [handleStartTask] starts [runDeliberateFlow] and [handleRecordedAction]
    starts [saveLearnedAction] without [await].  Such a call runs as far as
    its first [await] inside the handler and goes on later, one awaited answer
    at a time, between whatever else happens.  A stage is what the suspended
    call remembers: its local variables, at the [await] it stands at. *)

Inductive DeliberateStage :=
| AwaitingPersonas
| AwaitingTable (personas : list ExpertPersona) (tables : list JSON)
    (p : ExpertPersona) (rest : list ExpertPersona)
| AwaitingRevision (personas : list ExpertPersona)
    (agentTables : gmap string JSON) (revisedSolutions : list JSON)
    (p : ExpertPersona) (rest : list ExpertPersona)
| AwaitingConsensus
| DeliberateDone.

(** [saveLearnedAction] awaits the tab, then the stored tools
    ([chrome.storage.local.get]), then their writing
    ([chrome.storage.local.set]). *)
Inductive LearningStage :=
| AwaitingTab (payload : RecordedAction)
| ReadingTools (payload : RecordedAction) (hostname taskDescription : string)
| WritingTools (learnedTools : gmap string (gmap string (list RecordedAction)))
| LearningDone.

Inductive Suspended :=
| Debating (stage : DeliberateStage)
| Learning (stage : LearningStage).

(** ** The state of the service worker *)

(** Messages leaving the service worker ([chrome.runtime.sendMessage],
    [chrome.tabs.sendMessage] without an awaited answer). *)
Inductive Message :=
| MsgTaskUpdate (task : AgentState)
| MsgHistoricalTasksUpdate (tasks : list HistoricalTask)
| MsgTab (tabId : option nat) (request : string).

(** [chrome.storage.local] *)
Record LocalStorage := {
  historicalTasks : list HistoricalTask;
  completedTasks : list CompletedTask;
  learnedTools : gmap string (gmap string (list RecordedAction));
  beachdai_secure_vault : option (gmap string (string * string));
  beachdai_vault_salt : option string;
  beachdai_vault_check : option string
}.

Definition set_historicalTasks v (l : LocalStorage) : LocalStorage :=
  {| historicalTasks := v; completedTasks := completedTasks l;
     learnedTools := learnedTools l;
     beachdai_secure_vault := beachdai_secure_vault l;
     beachdai_vault_salt := beachdai_vault_salt l;
     beachdai_vault_check := beachdai_vault_check l |}.

Definition set_completedTasks v (l : LocalStorage) : LocalStorage :=
  {| historicalTasks := historicalTasks l; completedTasks := v;
     learnedTools := learnedTools l;
     beachdai_secure_vault := beachdai_secure_vault l;
     beachdai_vault_salt := beachdai_vault_salt l;
     beachdai_vault_check := beachdai_vault_check l |}.

Definition set_learnedTools v (l : LocalStorage) : LocalStorage :=
  {| historicalTasks := historicalTasks l; completedTasks := completedTasks l;
     learnedTools := v;
     beachdai_secure_vault := beachdai_secure_vault l;
     beachdai_vault_salt := beachdai_vault_salt l;
     beachdai_vault_check := beachdai_vault_check l |}.

Definition set_secure_vault v (l : LocalStorage) : LocalStorage :=
  {| historicalTasks := historicalTasks l; completedTasks := completedTasks l;
     learnedTools := learnedTools l;
     beachdai_secure_vault := v;
     beachdai_vault_salt := beachdai_vault_salt l;
     beachdai_vault_check := beachdai_vault_check l |}.

(** The module-level variables, the two storage areas, the armed timers,
    the messages sent so far and the calls started without [await], in the
    order they were started.  [taskRef] is the identity of the object
    [currentTask] points to: [handleStartTask] and [handleStartTeaching]
    allocate a new object, every other handler mutates the one in place. *)
Record Store := {
  currentTask : option AgentState;
  taskRef : nat;
  allocated : nat;
  pendingCredentialValue : option string;
  local : LocalStorage;
  beachdai_session_key : option string;
  timers : gset nat;
  nextTimer : nat;
  outbox : list Message;
  calls : nat;
  unawaited : list Suspended
}.

Definition set_currentTask v (s : Store) : Store :=
  {| currentTask := v; taskRef := taskRef s; allocated := allocated s;
     pendingCredentialValue := pendingCredentialValue s; local := local s;
     beachdai_session_key := beachdai_session_key s; timers := timers s;
     nextTimer := nextTimer s; outbox := outbox s; calls := calls s;
     unawaited := unawaited s |}.

(** [currentTask = { ... }]: a new object. *)
Definition set_newTask v (s : Store) : Store :=
  {| currentTask := Some v; taskRef := allocated s;
     allocated := S (allocated s);
     pendingCredentialValue := pendingCredentialValue s; local := local s;
     beachdai_session_key := beachdai_session_key s; timers := timers s;
     nextTimer := nextTimer s; outbox := outbox s; calls := calls s;
     unawaited := unawaited s |}.

Definition set_pendingCredentialValue v (s : Store) : Store :=
  {| currentTask := currentTask s; taskRef := taskRef s;
     allocated := allocated s;
     pendingCredentialValue := v; local := local s;
     beachdai_session_key := beachdai_session_key s; timers := timers s;
     nextTimer := nextTimer s; outbox := outbox s; calls := calls s;
     unawaited := unawaited s |}.

Definition set_local v (s : Store) : Store :=
  {| currentTask := currentTask s; taskRef := taskRef s;
     allocated := allocated s;
     pendingCredentialValue := pendingCredentialValue s; local := v;
     beachdai_session_key := beachdai_session_key s; timers := timers s;
     nextTimer := nextTimer s; outbox := outbox s; calls := calls s;
     unawaited := unawaited s |}.

Definition set_session_key v (s : Store) : Store :=
  {| currentTask := currentTask s; taskRef := taskRef s;
     allocated := allocated s;
     pendingCredentialValue := pendingCredentialValue s; local := local s;
     beachdai_session_key := v; timers := timers s;
     nextTimer := nextTimer s; outbox := outbox s; calls := calls s;
     unawaited := unawaited s |}.

Definition set_timers v n (s : Store) : Store :=
  {| currentTask := currentTask s; taskRef := taskRef s;
     allocated := allocated s;
     pendingCredentialValue := pendingCredentialValue s; local := local s;
     beachdai_session_key := beachdai_session_key s; timers := v;
     nextTimer := n; outbox := outbox s; calls := calls s;
     unawaited := unawaited s |}.

Definition set_outbox v (s : Store) : Store :=
  {| currentTask := currentTask s; taskRef := taskRef s;
     allocated := allocated s;
     pendingCredentialValue := pendingCredentialValue s; local := local s;
     beachdai_session_key := beachdai_session_key s; timers := timers s;
     nextTimer := nextTimer s; outbox := v; calls := calls s;
     unawaited := unawaited s |}.

Definition set_calls v (s : Store) : Store :=
  {| currentTask := currentTask s; taskRef := taskRef s;
     allocated := allocated s;
     pendingCredentialValue := pendingCredentialValue s; local := local s;
     beachdai_session_key := beachdai_session_key s; timers := timers s;
     nextTimer := nextTimer s; outbox := outbox s; calls := v;
     unawaited := unawaited s |}.

Definition set_unawaited v (s : Store) : Store :=
  {| currentTask := currentTask s; taskRef := taskRef s;
     allocated := allocated s;
     pendingCredentialValue := pendingCredentialValue s; local := local s;
     beachdai_session_key := beachdai_session_key s; timers := timers s;
     nextTimer := nextTimer s; outbox := outbox s; calls := calls s;
     unawaited := v |}.

(** ** The monad of handlers *)

(** A handler either returns, throws, or is cut off because the budget of
    nested [agentOrchestrator] calls ran out; each outcome carries the store
    the handler left behind. *)
Inductive Result (A : Type) :=
| Return (a : A) (s : Store)
| Throw (e : JsError) (s : Store)
| Exhausted (s : Store).
Arguments Return {A} a s.
Arguments Throw {A} e s.
Arguments Exhausted {A} s.

Definition M (A : Type) : Type := Store -> Result A.

Definition ret {A} (a : A) : M A := fun s => Return a s.

Definition bind {A B} (m : M A) (k : A -> M B) : M B :=
  fun s =>
    match m s with
    | Return a s' => k a s'
    | Throw e s' => Throw e s'
    | Exhausted s' => Exhausted s'
    end.

Definition throw {A} (e : JsError) : M A := fun s => Throw e s.

(** [try { m } catch (error) { handler error }] *)
Definition try_catch {A} (m : M A) (handler : JsError -> M A) : M A :=
  fun s =>
    match m s with
    | Throw e s' => handler e s'
    | r => r
    end.

Definition get : M Store := fun s => Return s s.
Definition modify (f : Store -> Store) : M unit := fun s => Return tt (f s).

Declare Scope js_scope.
Delimit Scope js_scope with js.
Notation "x <- m ;; k" := (bind m (fun x => k))
  (at level 100, m at next level, right associativity) : js_scope.
Notation "m ;; k" := (bind m (fun _ => k))
  (at level 100, right associativity) : js_scope.
Open Scope js_scope.

(** The store a result carries. *)
Definition final {A} (r : Result A) : Store :=
  match r with
  | Return _ s | Throw _ s | Exhausted s => s
  end.

(** Reading a property of [currentTask] when it is [null] is a [TypeError]. *)
Definition null_task : JsError :=
  {| kind := TypeError; message := "Cannot read properties of null" |}.

Definition theTask : M AgentState :=
  fun s =>
    match currentTask s with
    | Some t => Return t s
    | None => Throw null_task s
    end.

Definition modifyTask (f : AgentState -> AgentState) : M unit :=
  fun s =>
    match currentTask s with
    | Some t => Return tt (set_currentTask (Some (f t)) s)
    | None => Throw null_task s
    end.

Definition send (m : Message) : M unit :=
  modify (fun s => set_outbox (outbox s ++ [m]) s).

(** An awaited answer from outside: the [calls s]-th one. *)
Definition ask {A} (oracle : nat -> A) : M A :=
  fun s => Return (oracle (calls s)) (set_calls (S (calls s)) s).

(** [await p], with [p] settled by the world. *)
Definition await {A} (oracle : nat -> Outcome A) : M A :=
  o <- ask oracle ;;
  match o with
  | Resolved a => ret a
  | Rejected e => throw e
  end.

(** ** The world outside the service worker *)

(** What [navigator.geolocation] and the stored [defaultLocation] give
    [getUserLocation]. *)
Inductive Geolocation :=
| Position (coords : string)
| GeolocationFailed (defaultLocation : option string)
| GeolocationUnavailable (defaultLocation : option string).

(** How an [EXTRACT_PAGE_SNAPSHOT] request ends, under the two-minute
    [withTimeout] of [runNextTurn]. *)
Inductive Observation :=
| Snapshot (snapshot : PageSnapshot)
| EmptyResponse
| ObservationFailed (e : JsError)
| TimedOut.

(** Every function of a [World] that stands for an awaited call takes first
    the number of calls made so far. *)
Record World := {
  Date_now : nat -> nat;
  Math_random : nat -> string;
  AES_encrypt : string -> string -> string;
  AES_decrypt : string -> string -> Outcome string;
  PBKDF2 : string -> string -> string;
  JSON_stringify : list ResearchData -> string;
  String_of : JSON -> string;
  URL_hostname : string -> option string;
  geolocation : nat -> Geolocation;
  newTaskUrl : nat -> string;
  triage_call : nat -> string -> Outcome TriageDecision;
  researcher_call : nat -> string -> string -> Outcome ResearcherDecision;
  planner_call : nat -> PlannerPrompt -> Outcome (option PlannerDecision);
  manager_call : nat -> option AgentState -> PageSnapshot ->
                 option (string * list RecordedAction) ->
                 Outcome (option ManagerDecision);
  verifier_call : nat -> string -> Outcome VerifierDecision;
  presenter_call : nat -> AgentState -> PresenterAction -> string ->
                   Outcome (option PresenterDecision);
  teacher_call : nat -> string -> list RecordedAction ->
                 Outcome (option TeacherSummaryDecision);
  relevant_tool : nat -> string -> gmap string (list RecordedAction) ->
                  option (string * list RecordedAction);
  tabs_get : nat -> option nat -> Outcome (option string);
  tabs_create : nat -> option string -> Outcome (option nat);
  tabs_update : nat -> nat -> Outcome unit;
  tabs_query : nat -> Outcome (list nat);
  tabs_query_active : nat -> Outcome (option (option nat * option string));
  observation : nat -> option nat -> Observation;
  execute_on_page : nat -> nat -> ManagerDecision -> Outcome ActionResponse;
  searchPage : nat -> option string -> nat -> Outcome (list string)
}.

Definition dq : string := String (ascii_of_nat 34) EmptyString.
Definition nl : string := String (ascii_of_nat 10) EmptyString.

(** A number is truthy unless it is [undefined] or [0]. *)
Definition truthy_num (o : option nat) : bool :=
  match o with
  | Some (S _) => true
  | _ => false
  end.

(** ** Notifications *)

Definition updateUI : M unit :=
  s <- get ;;
  match currentTask s with
  | Some t => send (MsgTaskUpdate t)
  | None => ret tt
  end.

Definition addToScratchpad (log : string) : M unit :=
  s <- get ;;
  match currentTask s with
  | Some _ =>
      modifyTask (fun t => set_scratchpad (scratchpad t ++ [log]) t) ;;
      updateUI
  | None => ret tt
  end.

Definition updateTaskStatus (st : TaskStatus) (why : option string) : M unit :=
  s <- get ;;
  match currentTask s with
  | Some _ =>
      modifyTask (set_status st) ;;
      (if truthy why
       then modifyTask (set_failureReason why) ;;
            addToScratchpad ("Error: " +:+ show why)
       else ret tt) ;;
      updateUI
  | None => ret tt
  end.

(** A call that is not awaited: what it throws is lost to the caller. *)
Definition detached (m : M unit) : M unit :=
  try_catch m (fun _ => ret tt).

(** A call that is not awaited and stands at an [await] when the handler
    goes on: it is left among the suspended calls. *)
Definition leave (call : Suspended) : M unit :=
  modify (fun s => set_unawaited (unawaited s ++ [call]) s).

(** [const x = await call] for a call that settled as [o] *)
Definition settled {A} (o : Outcome A) : M A :=
  match o with
  | Resolved a => ret a
  | Rejected e => throw e
  end.

(** The message of a caught error ([error instanceof Error ? error.message
    : ...]; every error of this model is an [Error]). *)
Definition error_message (e : JsError) : string := message e.

Section Knowledge.

Variable W : World.

(** ** Task history and learned tools *)

Definition saveHistoricalTask (g : string) : M unit :=
  if is_blank g then ret tt
  else
    s <- get ;;
    let stored := historicalTasks (local s) in
    if existsb (fun task => String.eqb (goal task) g) stored then ret tt
    else
      now <- ask (Date_now W) ;;
      let newHistoricalTask := {| goal := g; timestamp := now |} in
      let updatedTasks := take 10 (newHistoricalTask :: stored) in
      modify (fun s => set_local (set_historicalTasks updatedTasks (local s)) s) ;;
      send (MsgHistoricalTasksUpdate updatedTasks).

Definition saveCompletedTask : M unit :=
  s <- get ;;
  match currentTask s with
  | None => ret tt
  | Some t =>
      if negb (truthy (finalAnswer t)) then ret tt
      else
        let stored := completedTasks (local s) in
        now <- ask (Date_now W) ;;
        let newCompletedTask :=
          {| ct_goal := originalGoal t;
             ct_answer := default "" (finalAnswer t);
             ct_timestamp := now |} in
        let updatedTasks := take 50 (newCompletedTask :: stored) in
        modify (fun s => set_local (set_completedTasks updatedTasks (local s)) s) ;;
        saveHistoricalTask (originalGoal t)
  end.

Definition handleDeleteHistoricalTask (ts : nat) : M unit :=
  s <- get ;;
  let updatedTasks :=
    filter (fun task => timestamp task <> ts) (historicalTasks (local s)) in
  modify (fun s => set_local (set_historicalTasks updatedTasks (local s)) s) ;;
  send (MsgHistoricalTasksUpdate updatedTasks).

Definition split_words (s : string) : list string :=
  (fix go (cur : string) (s : string) : list string :=
     match s with
     | EmptyString => [cur]
     | String c s' =>
         if Ascii.eqb c " "%char then cur :: go "" s'
         else go (cur +:+ String c EmptyString) s'
     end) "" s.

Definition getSimilarCompletedTasks (g : string) : M (list CompletedTask) :=
  s <- get ;;
  let goalKeywords := split_words (toLowerCase g) in
  let similar (task : CompletedTask) : bool :=
    let taskKeywords := split_words (toLowerCase (ct_goal task)) in
    let commonKeywords :=
      List.filter (fun k => existsb (String.eqb k) taskKeywords) goalKeywords in
    length goalKeywords <? 2 * length commonKeywords in
  ret (take 3 (List.filter similar (completedTasks (local s)))).

Definition starts_with_http (u : option string) : bool :=
  match u with
  | Some u => String.prefix "http" u
  | None => false
  end.

Definition hostname_of (u : string) : M string :=
  match URL_hostname W u with
  | Some h => ret h
  | None => throw {| kind := TypeError; message := "Invalid URL" |}
  end.

Definition saveLearnedTool (g : string) (actions : list RecordedAction) : M unit :=
  match actions with
  | [] => ret tt
  | _ =>
      active <- await (tabs_query_active W) ;;
      match active with
      | Some (_, Some u) =>
          if negb (String.prefix "http" u) then ret tt
          else
            hostname <- hostname_of u ;;
            modify (fun s =>
              let tools := learnedTools (local s) in
              let forHost := default ∅ (tools !! hostname) in
              set_local
                (set_learnedTools (<[hostname := <[g := actions]> forHost]> tools)
                                  (local s)) s)
      | Some (_, None) => ret tt
      | None => throw {| kind := TypeError;
                         message := "Cannot read properties of undefined" |}
      end
  end.

(** [saveLearnedAction] is never awaited ([handleRecordedAction] is its one
    caller), so it is given as the code between its [await]s.  What it throws
    after the first of them is the rejection of a promise nobody holds: the
    call ends there. *)

(** As far as [await chrome.tabs.get(...)]. *)
Definition saveLearnedAction_begin (payload : RecordedAction)
  : M LearningStage :=
  s <- get ;;
  match currentTask s with
  | None => ret LearningDone
  | Some _ => ret (AwaitingTab payload)
  end.

(** From the tab to [await chrome.storage.local.get('learnedTools')]; [o] is
    the URL of the tab.  The task read here is the current one of that
    moment. *)
Definition saveLearnedAction_located (payload : RecordedAction)
    (o : Outcome (option string)) : M LearningStage :=
  try_catch
    (tabUrl <- settled o ;;
     if negb (starts_with_http tabUrl) then ret LearningDone
     else
       hostname <- hostname_of (default "" tabUrl) ;;
       t <- theTask ;;
       let taskDescription :=
         or_else (plan t !! currentStep t) (originalGoal t) in
       ret (ReadingTools payload hostname taskDescription))
    (fun _ => ret LearningDone).

(** The storage answers the read: the tools are those stored at that
    moment, and the action is pushed on the copy the call holds, up to
    [await chrome.storage.local.set({ learnedTools })]. *)
Definition saveLearnedAction_read (payload : RecordedAction)
    (hostname taskDescription : string) : M LearningStage :=
  s <- get ;;
  let tools := learnedTools (local s) in
  let forHost : gmap string (list RecordedAction) :=
    default ∅ (tools !! hostname) in
  let recorded := default [] (forHost !! taskDescription) in
  ret (WritingTools
         (<[hostname := <[taskDescription := (recorded ++ [payload])%list]> forHost]>
            tools)).

(** The storage carries the write out: the copy replaces what is stored. *)
Definition saveLearnedAction_written
    (tools : gmap string (gmap string (list RecordedAction)))
  : M LearningStage :=
  modify (fun s => set_local (set_learnedTools tools (local s)) s) ;;
  ret LearningDone.

Definition getLearnedToolsForHost (hostname : string)
  : M (option (gmap string (list RecordedAction))) :=
  s <- get ;;
  ret (learnedTools (local s) !! hostname).

Definition getRelevantLearnedTool (g : string)
    (allTools : option (gmap string (list RecordedAction)))
  : M (option (string * list RecordedAction)) :=
  match allTools with
  | None => ret None
  | Some tools =>
      if decide (size tools = 0) then ret None
      else ask (fun n => relevant_tool W n g tools)
  end.

(** ** The credential vault ([src/vault.ts]) *)

Definition CHECK_STRING : string := "beachdai_vault_check_string".

Definition deriveKey (passphrase salt : string) : string :=
  PBKDF2 W passphrase salt.

Definition getSessionKey : M (option string) :=
  s <- get ;;
  ret (if truthy (beachdai_session_key s) then beachdai_session_key s else None).

Definition isVaultUnlocked : M bool :=
  s <- get ;;
  ret (truthy (beachdai_session_key s)).

Definition unlockVault (passphrase : string) : M bool :=
  s <- get ;;
  if negb (truthy (beachdai_vault_salt (local s))) then ret false
  else
    let key := deriveKey passphrase (default "" (beachdai_vault_salt (local s))) in
    if negb (truthy (beachdai_vault_check (local s))) then ret false
    else
      match AES_decrypt W (default "" (beachdai_vault_check (local s))) key with
      | Resolved decryptedCheck =>
          if String.eqb decryptedCheck CHECK_STRING
          then modify (set_session_key (Some key)) ;; ret true
          else ret false
      | Rejected _ => ret false
      end.

Definition encryptAndSaveCredential (name v : string) : M string :=
  key <- getSessionKey ;;
  match key with
  | None => throw (mkError "Vault is locked. Please unlock it first.")
  | Some key =>
      s <- get ;;
      let vault := default ∅ (beachdai_secure_vault (local s)) in
      let encryptedValue := AES_encrypt W v key in
      now <- ask (Date_now W) ;;
      rnd <- ask (Math_random W) ;;
      let credentialId := "cred-" +:+ pretty now +:+ "-" +:+ rnd in
      modify (fun s =>
        set_local
          (set_secure_vault (Some (<[credentialId := (name, encryptedValue)]> vault))
                            (local s)) s) ;;
      ret ("{{VAULT_CREDENTIAL." +:+ credentialId +:+ "}}")
  end.

End Knowledge.

(** ** Events ([AgentEvent]) with their payloads *)

Inductive AgentEvent :=
| START_TASK (goal : string)
| STOP_TASK
| RESET_TASK_SESSION
| TAKE_OVER
| GO_AUTONOMOUS
| RECORDED_ACTION (payload : RecordedAction)
| RUN_NEXT_TURN
| RESEARCH_COMPLETE (payload : option ResearcherDecision)
| RESEARCH_FAILED
| PLAN_COMPLETE (payload : option PlannerDecision)
| PLAN_FAILED
| ACTION_COMPLETE (payload : option ManagerDecision)
| ACTION_FAILED (payload : option ManagerDecision)
| REPLAN_COMPLETE (payload : option PlannerDecision)
| REPLAN_FAILED
| TEXT_EXTRACTED (payload : option (option string))
| START_TEACHING (goal : string)
| STOP_TEACHING
| UNLOCK_VAULT (passphrase : string)
| GET_HISTORICAL_TASKS
| HISTORICAL_TASKS_UPDATE
| ATTEMPT_STRATEGY (plan : list string)
| DELETE_HISTORICAL_TASK (timestamp : nat)
| SAVE_CREDENTIAL (name : string).

(** The [replanContext] argument of [getPlannerDecision]. *)
Record ReplanContext := {
  rc_failedPlan : list string;
  rc_failingStep : nat;
  rc_history : list string;
  rc_isUserInitiated : bool;
  rc_websiteFailures : gmap string nat
}.

Section DecisionRoles.

Variable W : World.

(** ** Decision roles *)

Definition getUserLocation : M string :=
  g <- ask (geolocation W) ;;
  match g with
  | Position coords => ret coords
  | GeolocationFailed defaultLocation =>
      (if truthy defaultLocation
       then addToScratchpad
              ("System Alert: Geolocation failed. Using default location from settings: "
               +:+ show defaultLocation)
       else ret tt) ;;
      ret (or_else defaultLocation "Not available")
  | GeolocationUnavailable defaultLocation =>
      (if truthy defaultLocation
       then addToScratchpad
              ("System Alert: Geolocation not available. Using default location from settings: "
               +:+ show defaultLocation)
       else ret tt) ;;
      ret (or_else defaultLocation "Not available")
  end.

(** Of the pre-flight context only the location is kept: the date and the
    manifest version go into prompts and nowhere else. *)
Definition getPreflightContext : M string := getUserLocation.

Definition getTriageDecision (g : string) : M TriageDecision :=
  o <- ask (fun n => triage_call W n g) ;;
  match o with
  | Resolved response => ret response
  | Rejected _ => ret Standard_Flow
  end.

Definition getResearcherFacts (g location : string) : M ResearcherDecision :=
  await (fun n => researcher_call W n g location).

Definition getVerifierDecision (u : string) : M VerifierDecision :=
  o <- ask (fun n => verifier_call W n u) ;;
  match o with
  | Resolved response => ret response
  | Rejected _ => ret failOpen
  end.

Definition getTeacherSummaryDecision (g : string) (actions : list RecordedAction)
  : M (option TeacherSummaryDecision) :=
  o <- ask (fun n => teacher_call W n g actions) ;;
  match o with
  | Resolved response => ret response
  | Rejected _ => ret None
  end.

Definition getPlannerDecision (g : string) (research : list ResearchData)
    (replanContext : option ReplanContext) : M (option PlannerDecision) :=
  similarTasks <- getSimilarCompletedTasks g ;;
  _ <- getPreflightContext ;;
  s <- get ;;
  let prompt :=
    match replanContext with
    | Some rc =>
        if rc_isUserInitiated rc
        then UserReplanPrompt g (rc_failedPlan rc) (rc_failingStep rc)
               (rc_history rc)
        else FailureReplanPrompt g research (rc_failedPlan rc)
               (rc_failingStep rc) (rc_history rc) (rc_websiteFailures rc)
    | None =>
        InitialPlanPrompt g (isDeliberatePlan <$> currentTask s) research
          similarTasks
    end in
  o <- ask (fun n => planner_call W n prompt) ;;
  match o with
  | Resolved response => ret response
  | Rejected _ => ret None
  end.

Definition getManagerDecision (pageSnapshot : PageSnapshot)
    (learned : option (string * list RecordedAction))
  : M (option ManagerDecision) :=
  _ <- getPreflightContext ;;
  s <- get ;;
  o <- ask (fun n => manager_call W n (currentTask s) pageSnapshot learned) ;;
  match o with
  | Resolved response => ret response
  | Rejected _ => ret None
  end.

Definition getPresenterDecision (a : PresenterAction)
    (managerReason : option string) : M (option PresenterDecision) :=
  s <- get ;;
  match currentTask s with
  | None => ret None
  | Some t =>
      o <- ask (fun n => presenter_call W n t a (or_else managerReason "N/A")) ;;
      match o with
      | Resolved response => ret response
      | Rejected _ => ret None
      end
  end.

(** ** Observation *)

Definition observeCurrentState (tabId : option nat) : M PageSnapshot :=
  o <- ask (fun n => observation W n tabId) ;;
  match o with
  | Snapshot snapshot => ret snapshot
  | EmptyResponse => throw (mkError "Empty response from content script")
  | ObservationFailed e => throw e
  | TimedOut =>
      throw (mkError
        "Page observation timed out. The website may be stuck in a loading state.")
  end.

Definition getStartTab : M (option nat) :=
  try_catch
    (u <- ask (newTaskUrl W) ;;
     addToScratchpad ("Starting task on a new tab with URL: " +:+ u) ;;
     newTab <- await (fun n => tabs_create W n (Some u)) ;;
     ret newTab)
    (fun _ => ret None).

(** A fresh task object, as [handleStartTask] and [handleStartTeaching]
    build it. *)
Definition newTask (taskId g : string) (st : TaskStatus) (firstLog : string)
    (created : nat) (training : bool)
    (recorded : option (list RecordedAction)) : AgentState :=
  {| task_id := taskId; originalGoal := g; status := st; plan := [];
     currentStep := 0; stepFailureCount := 0; turn := 0;
     scratchpad := [firstLog]; createdAt := created; researchData := [];
     researcherDecision := None; finalAnswer := None; failureReason := None;
     lastFailedAction := None; websiteFailures := ∅; tabs := ∅;
     activeTabName := "main"; isTraining := training;
     isPartialSuccess := None; recordedActions := recorded;
     waitTimeoutId := None; isDeliberatePlan := false;
     initialStrategy := None |}.

End DecisionRoles.

(** ** Timers *)

(** [setTimeout] arms a timer and returns its (positive) id; the callbacks of
    this program are all the long-wait resume of [handleAction]. *)
Definition setTimeout : M nat :=
  s <- get ;;
  let id := S (nextTimer s) in
  modify (set_timers ({[id]} ∪ timers s) id) ;;
  ret id.

Definition clearTimeout (id : nat) : M unit :=
  modify (fun s => set_timers (timers s ∖ {[id]}) (nextTimer s) s).

Section Handlers.

Variable W : World.

(** The recursive call [agentOrchestrator(event, payload)]. *)
Variable self : AgentEvent -> M unit.

Definition bump_failure (hostname : string) (t : AgentState) : AgentState :=
  set_websiteFailures
    (<[hostname := default 0 (websiteFailures t !! hostname) + 1]>
       (websiteFailures t)) t.

Definition failure_count (hostname : string) (t : AgentState) : nat :=
  default 0 (websiteFailures t !! hostname).

(** [await chrome.tabs.get(id).catch(() => null)], then [.url] *)
Definition tabUrlOrNull (tabId : option nat) : M (option string) :=
  o <- ask (fun n => tabs_get W n tabId) ;;
  match o with
  | Resolved u => ret u
  | Rejected _ => ret None
  end.

(** [handleStuckState] once the task is in [REPLANNING]: the Planner is asked
    for a new plan and its answer dispatched. *)
Definition requestReplan (isUserInitiated : bool) : M unit :=
  t <- theTask ;;
  let replanContext :=
    {| rc_failedPlan := plan t;
       rc_failingStep := currentStep t + 1;
       rc_history := slice_last 10 (scratchpad t);
       rc_isUserInitiated := isUserInitiated;
       rc_websiteFailures := websiteFailures t |} in
  newPlanDecision <-
    getPlannerDecision W (originalGoal t) (researchData t)
      (Some replanContext) ;;
  match newPlanDecision with
  | Some d => self (REPLAN_COMPLETE (Some d))
  | None => self REPLAN_FAILED
  end.

Definition handleStuckState (isUserInitiated : bool) : M unit :=
  s <- get ;;
  match currentTask s with
  | None => ret tt
  | Some t0 =>
      let failureReason :=
        if isUserInitiated
        then "User has performed some actions and is handing control back to the agent."
        else match lastFailedAction t0 with
             | None =>
                 "The agent was unable to decide on a next action from the current state."
             | Some d =>
                 "The action '" +:+ show (action_name <$> action d)
                 +:+ "' on selector '" +:+ show (selector d)
                 +:+ "' has failed multiple times."
             end in
      addToScratchpad
        ("System Alert: " +:+ failureReason +:+ " I must re-plan my approach.") ;;
      updateTaskStatus REPLANNING None ;;
      requestReplan isUserInitiated
  end.

(** The statuses in which [runNextTurn] skips the turn. *)
Definition non_execution_state (st : TaskStatus) : bool :=
  match st with
  | COMPLETED | FAILED | STOPPED | USER_INPUT_PENDING | TEACHING
  | RESEARCHING | WAITING | AWAITING_CREDENTIAL_NAME | AWAITING_PASSPHRASE =>
      true
  | _ => false
  end.

Definition runNextTurn : M unit :=
  s <- get ;;
  match currentTask s with
  | None => ret tt
  | Some t0 =>
      if non_execution_state (status t0) then ret tt
      else if decide (length (plan t0) = 0) then
        presenterDecision <-
          getPresenterDecision W PresentAnswer
            (Some "All necessary information was gathered during the research phase.") ;;
        match presenterDecision with
        | Some p =>
            modifyTask (set_finalAnswer (Some (summary p))) ;;
            updateTaskStatus COMPLETED None ;;
            detached (saveCompletedTask W)
        | None =>
            updateTaskStatus FAILED
              (Some "Presenter agent failed to generate a final answer from research data.")
        end
      else
        gotTab <-
          (if decide (size (tabs t0) = 0) then
             startTab <- getStartTab W ;;
             if truthy_num startTab then
               modifyTask (fun t => set_tabs (<["main" := default 0 startTab]> (tabs t)) t) ;;
               ret true
             else
               updateTaskStatus FAILED
                 (Some "Could not get a valid browser tab to start the task.") ;;
               ret false
           else ret true) ;;
        if negb gotTab then ret tt
        else
          modifyTask (fun t => set_turn (turn t + 1) t) ;;
          updateTaskStatus THINKING None ;;
          t <- theTask ;;
          let activeTabId := tabs t !! activeTabName t in
          observed <-
            try_catch
              (snapshot <- observeCurrentState W activeTabId ;; ret (Some snapshot))
              (fun error =>
                 s <- get ;;
                 match currentTask s with
                 | Some _ =>
                     u <- tabUrlOrNull activeTabId ;;
                     hostname <-
                       (if truthy u then hostname_of W (default "" u)
                        else ret "unknown_site") ;;
                     modifyTask (bump_failure hostname) ;;
                     t <- theTask ;;
                     addToScratchpad
                       ("System Alert: Failed to observe " +:+ hostname
                        +:+ ". Reason: " +:+ message error
                        +:+ ". Failure count for this site is now "
                        +:+ pretty (failure_count hostname t)
                        +:+ ". Triggering a replan.")
                 | None =>
                     addToScratchpad
                       "System Alert: Failed to observe the current tab. It may have crashed or been closed. Triggering a replan."
                 end ;;
                 handleStuckState false ;;
                 ret None) ;;
          match observed with
          | None => ret tt
          | Some pageSnapshot =>
              let truncatedSnapshot :=
                {| ps_url := ps_url pageSnapshot;
                   ps_title := ps_title pageSnapshot;
                   mainContent := substring 0 4000 (mainContent pageSnapshot);
                   interactiveElements :=
                     take 50 (interactiveElements pageSnapshot) |} in
              t <- theTask ;;
              addToScratchpad
                ("Observation on tab '" +:+ activeTabName t
                 +:+ "': The page title is " +:+ dq +:+ ps_title pageSnapshot
                 +:+ dq +:+ ". Snapshot has been truncated for efficiency.") ;;
              hostname <- hostname_of W (ps_url pageSnapshot) ;;
              allLearnedTools <- getLearnedToolsForHost hostname ;;
              t <- theTask ;;
              relevantTool <-
                getRelevantLearnedTool W (originalGoal t) allLearnedTools ;;
              try_catch
                (decision <- getManagerDecision W truncatedSnapshot relevantTool ;;
                 match decision with
                 | Some d => self (ACTION_COMPLETE (Some d))
                 | None =>
                     addToScratchpad
                       "System Alert: The Manager agent failed to produce a decision. Attempting to recover by replanning." ;;
                     handleStuckState false
                 end)
                (fun error =>
                   if includes "API_LIMIT_REACHED" (message error) then
                     addToScratchpad ("System Alert: " +:+ message error) ;;
                     presenterDecision <-
                       getPresenterDecision W PresentPartialSuccess
                         (Some (message error)) ;;
                     match presenterDecision with
                     | Some p =>
                         modifyTask (set_finalAnswer (Some (summary p))) ;;
                         (if truthy (call_to_action p)
                          then modifyTask (fun t =>
                                 set_finalAnswer
                                   (Some (show (finalAnswer t) +:+ nl +:+ nl
                                          +:+ show (call_to_action p))) t)
                          else ret tt) ;;
                         modifyTask (set_isPartialSuccess (Some true)) ;;
                         updateTaskStatus COMPLETED None ;;
                         detached (saveCompletedTask W)
                     | None =>
                         updateTaskStatus STOPPED
                           (Some "API limit reached during partial autonomous execution.")
                     end
                   else
                     addToScratchpad
                       ("System Alert: The Manager agent encountered an error: "
                        +:+ message error
                        +:+ ". Attempting to recover by replanning.") ;;
                     handleStuckState false)
          end
  end.

(** [executeAction]; the selector rewrite of [sanitizedDecision] only changes
    the payload sent to the page. *)
Definition executeAction (decision : ManagerDecision) (tabId : nat) : M bool :=
  let failed_status (response : ActionResponse) : M unit :=
    match response with
    | ActionFailed error => throw (mkError error)
    | _ => ret tt
    end in
  try_catch
    (match action decision with
     | Some SEARCH =>
         let typePayload := with_action TYPE (selector decision) decision in
         response <- await (fun n => execute_on_page W n tabId typePayload) ;;
         failed_status response ;;
         let submitPayload := with_action SUBMIT (selector decision) decision in
         response <- await (fun n => execute_on_page W n tabId submitPayload) ;;
         failed_status response
     | Some SEARCH_PAGE =>
         results <- await (fun n => searchPage W n (query decision) tabId) ;;
         addToScratchpad
           ("Search results for query " +:+ dq +:+ show (query decision) +:+ dq
            +:+ ":" +:+ nl +:+ join nl results)
     | Some EXTRACT_TEXT =>
         response <- await (fun n => execute_on_page W n tabId decision) ;;
         match response with
         | ActionExecuted extracted => self (TEXT_EXTRACTED (Some extracted))
         | ActionFailed error =>
             throw (mkError (if String.eqb error "" then "Failed to extract text."
                             else error))
         | NoResponse =>
             throw {| kind := TypeError;
                      message := "Cannot read properties of undefined" |}
         end
     | _ =>
         response <- await (fun n => execute_on_page W n tabId decision) ;;
         failed_status response
     end ;;
     ret true)
    (fun error =>
       addToScratchpad
         ("Failed to execute action '" +:+ show (action_name <$> action decision)
          +:+ "' on selector '" +:+ show (selector decision)
          +:+ "'. Reason: " +:+ message error) ;;
       ret false).

End Handlers.

Section Dispatch.

Variable W : World.
Variable self : AgentEvent -> M unit.

(** The callback [handleAction] hands to [setTimeout] for a [LONG_WAIT]. *)
Definition longWaitElapsed : M unit :=
  s <- get ;;
  match currentTask s with
  | Some t =>
      if decide (status t = WAITING) then
        addToScratchpad "Long wait complete. Resuming task." ;;
        modifyTask (set_waitTimeoutId None) ;;
        self (ACTION_COMPLETE None)
      else ret tt
  | None => ret tt
  end.

Definition needsVerification (decision : ManagerDecision) : bool :=
  match action decision with
  | Some GOTO | Some OPEN_TAB => true
  | Some CLICK =>
      match selector decision with
      | Some sel => includes "a" (toLowerCase sel)
      | None => false
      end
  | _ => false
  end.

Definition is_click_or_submit (a : Action) : bool :=
  match a with
  | CLICK | SUBMIT => true
  | _ => false
  end.

Definition tabName_for (n : nat) : string := "tab_" +:+ pretty (n + 1).

(** The end of [handleAction], after the [switch]. *)
Definition afterAction (decision : ManagerDecision) (a : Action)
    (preActionTabIds : list nat) (targetTabId : option nat) (success : bool)
  : M unit :=
  (if success && is_click_or_submit a then
     postActionTabIds <- await (tabs_query W) ;;
     match List.find (fun id => negb (existsb (Nat.eqb id) preActionTabIds))
                     postActionTabIds with
     | Some (S _ as newTabId) =>
         t <- theTask ;;
         let newTabName := tabName_for (size (tabs t)) in
         modifyTask (fun t => set_tabs (<[newTabName := newTabId]> (tabs t)) t) ;;
         modifyTask (set_activeTabName newTabName) ;;
         addToScratchpad
           ("System: Detected new tab opened by action. Switched focus to '"
            +:+ newTabName +:+ "'.") ;;
         await (fun n => tabs_update W n newTabId)
     | _ => ret tt
     end
   else ret tt) ;;
  if decide (a = EXTRACT_TEXT) then ret tt
  else if success then self (ACTION_COMPLETE None)
  else self (ACTION_FAILED (Some decision)).

Definition presentFinal (decision : ManagerDecision) (a : PresenterAction)
  : M unit :=
  presenterDecision <- getPresenterDecision W a (reason decision) ;;
  match presenterDecision with
  | Some p =>
      modifyTask (set_finalAnswer (Some (summary p))) ;;
      (if truthy (call_to_action p)
       then modifyTask (fun t =>
              set_finalAnswer
                (Some (show (finalAnswer t) +:+ nl +:+ nl
                       +:+ show (call_to_action p))) t)
       else ret tt) ;;
      modifyTask (set_isPartialSuccess
                    (Some (bool_decide (a = PresentPartialSuccess)))) ;;
      updateTaskStatus COMPLETED None ;;
      detached (saveCompletedTask W)
  | None =>
      updateTaskStatus FAILED
        (Some "Presenter agent failed to generate a final answer.")
  end.

(** [handleAction] from [updateTaskStatus('EXECUTING')] on: the action is
    carried out. *)
Definition performAction (decision : ManagerDecision) (a : Action) : M unit :=
        updateTaskStatus EXECUTING None ;;
        t <- theTask ;;
        (if negb (String.eqb (thought decision) "")
         then addToScratchpad
                ("Turn " +:+ pretty (turn t) +:+ ": " +:+ thought decision)
         else addToScratchpad
                ("Turn " +:+ pretty (turn t)
                 +:+ ": Warning - The manager decided on an action without providing a thought.")) ;;
        preActionTabIds <-
          (if is_click_or_submit a then await (tabs_query W) else ret []) ;;
        match a with
        | OPEN_TAB =>
            newTab <- await (fun n => tabs_create W n (url decision)) ;;
            if truthy_num newTab then
              t <- theTask ;;
              let newTabName :=
                or_else (tabName decision) (tabName_for (size (tabs t))) in
              modifyTask (fun t =>
                set_tabs (<[newTabName := default 0 newTab]> (tabs t)) t) ;;
              modifyTask (set_activeTabName newTabName) ;;
              addToScratchpad
                ("Action: Opened new tab named '" +:+ newTabName
                 +:+ "' and switched focus.") ;;
              afterAction decision a preActionTabIds newTab true
            else
              addToScratchpad "Failed to open new tab." ;;
              afterAction decision a preActionTabIds None false
        | CHANGE_TAB =>
            t <- theTask ;;
            let targetTabId := tabs t !! or_else (tabName decision) "" in
            if negb (truthy (tabName decision)) || negb (truthy_num targetTabId)
            then
              addToScratchpad
                ("Failed to change tab: Tab name '" +:+ show (tabName decision)
                 +:+ "' does not exist.") ;;
              afterAction decision a preActionTabIds targetTabId false
            else
              await (fun n => tabs_update W n (default 0 targetTabId)) ;;
              modifyTask (set_activeTabName (show (tabName decision))) ;;
              addToScratchpad
                ("Action: Changed active tab to '" +:+ show (tabName decision)
                 +:+ "'.") ;;
              afterAction decision a preActionTabIds targetTabId true
        | CLICK | TYPE | GOTO | SUBMIT | SEARCH | SCROLL_DOWN | PRESS_ESCAPE
        | READ | EXTRACT_TEXT | SEARCH_PAGE =>
            t <- theTask ;;
            let targetTabNameForAction :=
              or_else (tabName decision) (activeTabName t) in
            let targetTabId := tabs t !! targetTabNameForAction in
            if negb (truthy_num targetTabId) then
              addToScratchpad
                ("Failed to execute action '" +:+ action_name a
                 +:+ "'. Reason: Agent tried to act on a tab named '"
                 +:+ targetTabNameForAction +:+ "' which does not exist.") ;;
              afterAction decision a preActionTabIds targetTabId false
            else
              await (fun n => tabs_update W n (default 0 targetTabId)) ;;
              modifyTask (set_activeTabName targetTabNameForAction) ;;
              let actionToExecute :=
                if decide (a = READ)
                then with_action EXTRACT_TEXT (Some "body") decision
                else decision in
              success <-
                executeAction W self actionToExecute (default 0 targetTabId) ;;
              afterAction decision a preActionTabIds targetTabId success
        | WAIT =>
            let waitDuration :=
              match duration decision with
              | Some (S _ as d) => d
              | _ => 3000
              end in
            addToScratchpad
              ("Action: Waiting for " +:+ show_seconds waitDuration
               +:+ " seconds for page to settle.") ;;
            afterAction decision a preActionTabIds None true
        | LONG_WAIT =>
            updateTaskStatus WAITING None ;;
            addToScratchpad
              "Action: Beginning a long wait for a generative process to complete. The agent will resume in 5 minutes." ;;
            id <- setTimeout ;;
            modifyTask (set_waitTimeoutId (Some id))
        | SAVE_CREDENTIAL_VALUE =>
            if truthy (value decision) then
              modify (set_pendingCredentialValue (value decision)) ;;
              updateTaskStatus AWAITING_CREDENTIAL_NAME None ;;
              addToScratchpad
                "I need to save a credential. Please provide a name for it."
            else
              addToScratchpad
                "System Alert: SAVE_CREDENTIAL_VALUE action was called without a value." ;;
              self (ACTION_FAILED (Some decision))
        | HELP_REPLAN =>
            addToScratchpad
              "Action: Agent has requested help and is triggering a replan." ;;
            handleStuckState W self false
        | ANSWER => presentFinal decision PresentAnswer
        | PARTIAL_SUCCESS => presentFinal decision PresentPartialSuccess
        | FAIL => updateTaskStatus FAILED (reason decision)
        | FULL_PAGE_SEARCH =>
            addToScratchpad
              ("System Alert: Manager returned an unknown action: '"
               +:+ action_name a
               +:+ "'. This is a critical error. The agent will attempt to replan.") ;;
            handleStuckState W self false
        end.

(** [verifierDecision && !verifierDecision.is_safe] *)
Definition vetoes (verifierDecision : VerifierDecision) : bool :=
  json_truthy verifierDecision && negb (field_truthy "is_safe" verifierDecision).

(** [`${v}`] for a property of parsed JSON: a string is itself, a missing
    property is [undefined], anything else is what the runtime prints. *)
Definition template (v : option JSON) : string :=
  match v with
  | None => "undefined"
  | Some (JStr text) => text
  | Some j => String_of W j
  end.

Definition handleAction (payload : ManagerDecision) : M unit :=
  let decision := payload in
  s <- get ;;
  match currentTask s, action decision with
  | None, _ => ret tt
  | Some _, None =>
      addToScratchpad
        "System Alert: The manager failed to return a valid action. Triggering a replan." ;;
      handleStuckState W self false
  | Some _, Some a =>
      if needsVerification decision && truthy (url decision) then
        updateTaskStatus VERIFYING None ;;
        addToScratchpad ("Verifying URL: " +:+ show (url decision)) ;;
        verifierDecision <- getVerifierDecision W (show (url decision)) ;;
        if vetoes verifierDecision then
          addToScratchpad
            ("Security Alert: Navigation to " +:+ show (url decision)
             +:+ " blocked. Reason: "
             +:+ template (field "reason" verifierDecision)) ;;
          self (ACTION_FAILED (Some decision))
        else
          addToScratchpad "Verification successful. Proceeding with action." ;;
          performAction decision a
      else performAction decision a
  end.

End Dispatch.

(** ** The debate flow ([runDeliberateFlow])

    [handleStartTask] starts [runDeliberateFlow] without awaiting it: the
    flow runs as far as its first [await] and then continues, one awaited
    call at a time, between whatever events arrive.  Each definition below is
    the code between two consecutive [await]s. *)

(** The [catch] of [runDeliberateFlow]. *)
Definition deliberateCatch (m : M DeliberateStage) : M DeliberateStage :=
  try_catch m
    (fun error =>
       s <- get ;;
       match currentTask s with
       | None => ret DeliberateDone
       | Some _ =>
           updateTaskStatus FAILED (Some (message error)) ;;
           ret DeliberateDone
       end).

(** [if (!currentTask) return;] *)
Definition unlessCleared (k : M DeliberateStage) : M DeliberateStage :=
  s <- get ;;
  match currentTask s with
  | None => ret DeliberateDone
  | Some _ => k
  end.

(** [personas.forEach((p, i) => { if (values[i]) o[p.name] = values[i] })] *)
Fixpoint byPersona (personas : list ExpertPersona) (values : list JSON)
  : gmap string JSON :=
  match personas, values with
  | p :: ps, v :: vs =>
      let earlier : gmap string JSON :=
        if json_truthy v then {[ep_name p := v]} else ∅ in
      byPersona ps vs ∪ earlier
  | _, _ => ∅
  end.

Definition runDeliberateFlow_begin : M DeliberateStage :=
  addToScratchpad "Deliberate Flow selected. Generating expert personas..." ;;
  ret AwaitingPersonas.

Definition nextRevision (personas : list ExpertPersona)
    (agentTables : gmap string JSON) (revisedSolutions : list JSON)
    (rest : list ExpertPersona) : M DeliberateStage :=
  match rest with
  | p :: rest' =>
      unlessCleared
        (ret (AwaitingRevision personas agentTables revisedSolutions p rest'))
  | [] =>
      unlessCleared
        (addToScratchpad "Revised solutions provided." ;;
         unlessCleared
           (addToScratchpad "Generating final consensus..." ;;
            ret AwaitingConsensus))
  end.

Definition nextTable (personas : list ExpertPersona) (tables : list JSON)
    (rest : list ExpertPersona) : M DeliberateStage :=
  match rest with
  | p :: rest' => unlessCleared (ret (AwaitingTable personas tables p rest'))
  | [] =>
      unlessCleared
        (let agentTables := byPersona personas tables in
         addToScratchpad "Initial tables created." ;;
         unlessCleared
           (addToScratchpad
              "Experts are reviewing peer tables and providing revised solutions..." ;;
            nextRevision personas agentTables [] personas))
  end.

Definition personasGenerated (o : Outcome (list ExpertPersona))
  : M DeliberateStage :=
  deliberateCatch
    (personas <-
       try_catch (settled o)
         (fun _ => throw (mkError "Could not generate or parse dynamic personas.")) ;;
     unlessCleared
       (addToScratchpad
          ("Personas generated: " +:+ join ", " (ep_name <$> personas)) ;;
        updateTaskStatus THINKING None ;;
        addToScratchpad "Experts are creating initial solution tables..." ;;
        nextTable personas [] personas)).

Definition tableReceived (personas : list ExpertPersona) (tables : list JSON)
    (rest : list ExpertPersona) (o : Outcome JSON) : M DeliberateStage :=
  deliberateCatch
    (table <- settled o ;;
     nextTable personas (tables ++ [table]) rest).

Definition revisionReceived (personas : list ExpertPersona)
    (agentTables : gmap string JSON) (revisedSolutions : list JSON)
    (rest : list ExpertPersona) (o : Outcome JSON) : M DeliberateStage :=
  deliberateCatch
    (solution <- settled o ;;
     nextRevision personas agentTables (revisedSolutions ++ [solution]) rest).

Definition consensusReceived (W : World)
    (o : Outcome (string * list string)) : M DeliberateStage :=
  deliberateCatch
    (consensusResponse <- settled o ;;
     unlessCleared
       (addToScratchpad "Final consensus generated." ;;
        let callToAction :=
          "<p><em>This is a strategic solution. If you wish, the system can autonomously attempt to execute the browser-based steps of this plan.</em></p>" in
        modifyTask (set_finalAnswer (Some (fst consensusResponse +:+ callToAction))) ;;
        modifyTask (set_plan (snd consensusResponse)) ;;
        modifyTask (set_isDeliberatePlan true) ;;
        updateTaskStatus COMPLETED None ;;
        detached (saveCompletedTask W) ;;
        ret DeliberateDone)).

(** ** Teaching ([handleStartTeaching], [handleStopTeaching]) *)

(** [currentTask !== task], for the object [task] was bound to *)
Definition replaced (task : nat) (s : Store) : bool :=
  match currentTask s with
  | Some _ => negb (taskRef s =? task)
  | None => true
  end.

Section Teaching.

Variable W : World.

Definition handleStartTeaching (g : string) : M unit :=
  now <- ask (Date_now W) ;;
  created <- ask (Date_now W) ;;
  modify (set_newTask
            (newTask ("task-" +:+ pretty now) g TEACHING
               ("Teaching session started for: " +:+ dq +:+ g +:+ dq)
               created true (Some []))) ;;
  active <- await (tabs_query_active W) ;;
  match active with
  | Some (Some (S _ as id), _) =>
      modifyTask (fun t => set_tabs (<["main" := id]> (tabs t)) t) ;;
      send (MsgTab (Some id) "START_LEARNING")
  | _ => ret tt
  end ;;
  updateUI.

(** Up to the awaited summary: the task object and the arguments of the
    summary call, or [None] when the handler returns at once. *)
Definition handleStopTeaching_begin
  : M (option (nat * string * list RecordedAction)) :=
  s <- get ;;
  match currentTask s with
  | None => ret None
  | Some task =>
      if negb (bool_decide (status task = TEACHING)) then ret None
      else
        let activeTabId := tabs task !! activeTabName task in
        (if truthy_num activeTabId
         then send (MsgTab activeTabId "STOP_LEARNING")
         else ret tt) ;;
        addToScratchpad
          "Teaching session finished. Now summarizing what was learned." ;;
        updateUI ;;
        ret (Some (taskRef s, originalGoal task,
                   default [] (recordedActions task)))
  end.

(** From the summary to the awaited [saveLearnedTool]; [true] when the
    handler goes on. *)
Definition handleStopTeaching_summarized (task : nat)
    (teacherDecision : option TeacherSummaryDecision) : M bool :=
  s <- get ;;
  if replaced task s then ret false
  else
    let summaryText :=
      match teacherDecision with
      | Some d => ts_summary d
      | None =>
          "I recorded the steps you took, but I was unable to create a summary."
      end in
    modifyTask (set_finalAnswer (Some summaryText)) ;;
    t <- theTask ;;
    saveLearnedTool W (originalGoal t) (default [] (recordedActions t)) ;;
    ret true.

(** After [saveLearnedTool]. *)
Definition handleStopTeaching_saved (task : nat) : M unit :=
  s <- get ;;
  if replaced task s then ret tt
  else
    updateTaskStatus COMPLETED None ;;
    detached (saveCompletedTask W).

(** [handleStopTeaching] when nothing else runs during its awaits. *)
Definition handleStopTeaching : M unit :=
  started <- handleStopTeaching_begin ;;
  match started with
  | None => ret tt
  | Some (task, g, actions) =>
      teacherDecision <- getTeacherSummaryDecision W g actions ;;
      continue <- handleStopTeaching_summarized task teacherDecision ;;
      if (continue : bool) then handleStopTeaching_saved task else ret tt
  end.

End Teaching.

(** ** The orchestrator ([agentOrchestrator]) *)

Section Orchestrator.

Variable W : World.
Variable self : AgentEvent -> M unit.

(** [handleStartTask] up to the first [updateUI()]: the prior task is
    archived and replaced. *)
Definition replaceTask (g : string) : M unit :=
  s <- get ;;
  match currentTask s with
  | Some prior =>
      if decide (status prior = USER_INPUT_PENDING)
      then saveHistoricalTask W (originalGoal prior)
      else ret tt
  | None => ret tt
  end ;;
  now <- ask (Date_now W) ;;
  created <- ask (Date_now W) ;;
  modify (set_newTask
            (newTask ("task-" +:+ pretty now) g RESEARCHING ("Goal: " +:+ g)
               created false None)) ;;
  updateUI.

(** The [try] block of [handleStartTask]. *)
Definition researchTask (g : string) : M unit :=
  try_catch
    (triageDecision <- getTriageDecision W g ;;
     addToScratchpad
       ("Triage decision: " +:+
        match triageDecision with
        | Standard_Flow => "Standard_Flow"
        | Deliberate_Flow => "Deliberate_Flow"
        end) ;;
     match triageDecision with
     | Deliberate_Flow =>
         stage <- runDeliberateFlow_begin ;;
         leave (Debating stage)
     | Standard_Flow =>
         location <- getPreflightContext W ;;
         addToScratchpad
           ("Pre-flight context established. Location: " +:+ location) ;;
         researcherDecision <- getResearcherFacts W g location ;;
         addToScratchpad
           ("Researcher thought: " +:+ rs_thought researcherDecision) ;;
         self (RESEARCH_COMPLETE (Some researcherDecision))
     end)
    (fun error => updateTaskStatus FAILED (Some (message error))).

Definition handleStartTask (g : string) : M unit :=
  replaceTask g ;;
  researchTask g.

Definition cancelWaitTimeout : M unit :=
  t <- theTask ;;
  match waitTimeoutId t with
  | Some (S _ as id) =>
      clearTimeout id ;;
      modifyTask (set_waitTimeoutId None)
  | _ => ret tt
  end.

Definition handleStopTask : M unit :=
  s <- get ;;
  match currentTask s with
  | Some _ =>
      cancelWaitTimeout ;;
      t <- theTask ;;
      (if decide (status t = USER_INPUT_PENDING)
       then saveHistoricalTask W (originalGoal t)
       else ret tt) ;;
      updateTaskStatus STOPPED
        (Some "You have requested to stop the autonomous goal.") ;;
      modify (set_currentTask None)
  | None => ret tt
  end.

Definition handleResetTaskSession : M unit :=
  s <- get ;;
  match currentTask s with
  | Some _ =>
      cancelWaitTimeout ;;
      modify (set_currentTask None) ;;
      updateUI
  | None => ret tt
  end.

Definition handleTakeOver : M unit :=
  s <- get ;;
  match currentTask s with
  | Some _ =>
      modifyTask (set_isTraining true) ;;
      updateTaskStatus USER_INPUT_PENDING
        (Some "Waiting for user to demonstrate the next step.") ;;
      t <- theTask ;;
      send (MsgTab (tabs t !! activeTabName t) "START_LEARNING")
  | None => ret tt
  end.

Definition handleGoAutonomous : M unit :=
  s <- get ;;
  match currentTask s with
  | Some _ =>
      modifyTask (set_isTraining false) ;;
      addToScratchpad
        "System: User has clicked 'Go Autonomous'. Stopping learning mode and triggering a replan." ;;
      t <- theTask ;;
      send (MsgTab (tabs t !! activeTabName t) "STOP_LEARNING") ;;
      handleStuckState W self true
  | None => ret tt
  end.

Definition handleRecordedAction (payload : RecordedAction) : M unit :=
  s <- get ;;
  match currentTask s with
  | None => ret tt
  | Some t =>
      (if isTraining t && bool_decide (status t = USER_INPUT_PENDING) then
         addToScratchpad
           ("User demonstrated action: " +:+ ra_action payload
            +:+ " on selector " +:+ show (ra_selector payload)) ;;
         stage <- saveLearnedAction_begin payload ;;
         leave (Learning stage)
       else ret tt) ;;
      t <- theTask ;;
      if decide (status t = TEACHING) then
        modifyTask (fun t =>
          set_recordedActions
            ((fun recorded => (recorded ++ [payload])%list) <$> recordedActions t) t) ;;
        addToScratchpad
          ("Action Recorded: " +:+ ra_action payload +:+ " "
           +:+ or_else (ra_selector payload) "" +:+ " "
           +:+ or_else (ra_text payload) "")
      else ret tt
  end.

Definition planFor (goal_ : string) (research : list ResearchData) : M unit :=
  planDecision <- getPlannerDecision W goal_ research None ;;
  match planDecision with
  | Some d => self (PLAN_COMPLETE (Some d))
  | None => self PLAN_FAILED
  end.

Definition handleUnlockVault (passphrase : string) : M unit :=
  s <- get ;;
  match currentTask s with
  | None => ret tt
  | Some _ =>
      success <- unlockVault W passphrase ;;
      if (success : bool) then
        t <- theTask ;;
        match researcherDecision t with
        | None =>
            addToScratchpad
              "Error: Cannot re-run research step. Researcher decision is missing." ;;
            updateTaskStatus FAILED
              (Some "Could not resume task after unlocking vault.")
        | Some _ =>
            addToScratchpad
              "Vault unlocked successfully. Proceeding to planning phase." ;;
            updateTaskStatus PLANNING None ;;
            t <- theTask ;;
            planFor (originalGoal t) (researchData t)
        end
      else
        addToScratchpad "Vault unlock failed. Please try the passphrase again." ;;
        updateUI
  end.

Definition handleSaveCredential (name : string) : M unit :=
  s <- get ;;
  match currentTask s, pendingCredentialValue s with
  | Some t, Some pending =>
      if bool_decide (status t = AWAITING_CREDENTIAL_NAME)
         && negb (String.eqb pending "")
      then
        try_catch
          (placeholder <- encryptAndSaveCredential W name pending ;;
           addToScratchpad
             ("User saved a credential named " +:+ dq +:+ name +:+ dq
              +:+ ". The agent can now use the placeholder: " +:+ placeholder) ;;
           modify (set_pendingCredentialValue None) ;;
           self RUN_NEXT_TURN)
          (fun error =>
             addToScratchpad ("Error saving credential: " +:+ message error) ;;
             updateTaskStatus FAILED
               (Some ("Could not save credential: " +:+ message error)))
      else
        addToScratchpad
          ("Warning: Received SAVE_CREDENTIAL event in an invalid state. Current status: "
           +:+ status_name (status t))
  | Some t, None =>
      addToScratchpad
        ("Warning: Received SAVE_CREDENTIAL event in an invalid state. Current status: "
         +:+ status_name (status t))
  | None, _ =>
      addToScratchpad
        "Warning: Received SAVE_CREDENTIAL event in an invalid state. Current status: undefined"
  end.

(** The assignments of the [ATTEMPT_STRATEGY] case. *)
Definition attemptStrategy (strategy : list string) (t : AgentState)
  : AgentState :=
  let t := set_isDeliberatePlan true t in
  let t :=
    set_initialStrategy
      (if truthy (finalAnswer t) then finalAnswer t else None) t in
  let t := set_finalAnswer None t in
  set_plan strategy t.

(** The bookkeeping of an [ACTION_FAILED] in [EXECUTING], up to the test of
    the counter. *)
Definition recordFailure (decision : ManagerDecision) : M unit :=
  t <- theTask ;;
  u <- tabUrlOrNull W (tabs t !! activeTabName t) ;;
  (if truthy u then
     hostname <- hostname_of W (default "" u) ;;
     modifyTask (bump_failure hostname) ;;
     t <- theTask ;;
     addToScratchpad
       ("System Alert: Incrementing failure count for " +:+ hostname
        +:+ " to " +:+ pretty (failure_count hostname t) +:+ ".")
   else ret tt) ;;
  modifyTask (fun t =>
    set_lastFailedAction (Some decision)
      (set_stepFailureCount (stepFailureCount t + 1) t)).

(** A successful step: the body shared by [EXECUTING] and [WAITING]. *)
Definition stepCompleted (t : AgentState) : AgentState :=
  let t := set_lastFailedAction None t in
  let t := set_stepFailureCount 0 t in
  if currentStep t + 1 <? length (plan t)
  then set_currentStep (currentStep t + 1) t
  else t.

(** The [switch (currentTask.status)] of [agentOrchestrator]. *)
Definition onStatus (event : AgentEvent) (t : AgentState) : M unit :=
  match status t with
  | AWAITING_PASSPHRASE | AWAITING_CREDENTIAL_NAME => ret tt
  | RESEARCHING =>
      match event with
      | RESEARCH_COMPLETE (Some researcherDecision) =>
          modifyTask (set_research (facts researcherDecision)
                        (Some researcherDecision)) ;;
          addToScratchpad
            ("Research complete. Facts learned: "
             +:+ JSON_stringify W (facts researcherDecision)) ;;
          unlocked <- isVaultUnlocked ;;
          if requires_vault researcherDecision && negb unlocked then
            addToScratchpad
              "Task requires vault access, but vault is locked. Awaiting passphrase." ;;
            updateTaskStatus AWAITING_PASSPHRASE None
          else if requires_browser researcherDecision then
            updateTaskStatus PLANNING None ;;
            t <- theTask ;;
            planFor (originalGoal t) (researchData t)
          else
            presenterDecision <-
              getPresenterDecision W PresentAnswer
                (Some "The Researcher answered the question directly without needing to use the browser.") ;;
            match presenterDecision with
            | Some p =>
                modifyTask (set_finalAnswer (Some (summary p))) ;;
                updateTaskStatus COMPLETED None ;;
                detached (saveCompletedTask W)
            | None =>
                let finalAnswer :=
                  join nl (rd_answer <$> facts researcherDecision) in
                modifyTask (set_finalAnswer (Some finalAnswer)) ;;
                updateTaskStatus COMPLETED None ;;
                detached (saveCompletedTask W)
            end
      | RESEARCH_FAILED =>
          updateTaskStatus FAILED
            (Some "Researcher failed to gather necessary facts.")
      | _ => ret tt
      end
  | PLANNING =>
      match event with
      | PLAN_COMPLETE (Some payload) =>
          modifyTask (set_plan (pd_plan payload)) ;;
          addToScratchpad ("Planner thought: " +:+ pd_thought payload) ;;
          updateUI ;;
          self RUN_NEXT_TURN
      | PLAN_FAILED =>
          updateTaskStatus FAILED (Some "Planner failed to create a plan.")
      | _ => ret tt
      end
  | THINKING =>
      match event with
      | ACTION_COMPLETE (Some payload) => handleAction W self payload
      | ACTION_FAILED _ =>
          updateTaskStatus FAILED
            (Some "Manager (Gemini) failed to make a decision.")
      | _ => ret tt
      end
  | VERIFYING => ret tt
  | EXECUTING =>
      match event with
      | ACTION_COMPLETE _ =>
          modifyTask stepCompleted ;;
          self RUN_NEXT_TURN
      | TEXT_EXTRACTED (Some payload) =>
          match payload with
          | Some extracted =>
              addToScratchpad
                ("Extracted Text: " +:+ substring 0 200 extracted +:+ "...") ;;
              self RUN_NEXT_TURN
          | None =>
              throw {| kind := TypeError;
                       message := "Cannot read properties of undefined" |}
          end
      | ACTION_FAILED (Some decision) =>
          recordFailure decision ;;
          t <- theTask ;;
          if 3 <=? stepFailureCount t then
            addToScratchpad
              ("System Alert: The agent has failed "
               +:+ pretty (stepFailureCount t)
               +:+ " times on this step. The current page may be problematic. Triggering a replan.") ;;
            handleStuckState W self false
          else self RUN_NEXT_TURN
      | _ => ret tt
      end
  | REPLANNING =>
      match event with
      | REPLAN_COMPLETE (Some payload) =>
          modifyTask (fun t => set_currentStep 0 (set_plan (pd_plan payload) t)) ;;
          addToScratchpad
            ("Replanning successful. New Plan: " +:+ pd_thought payload) ;;
          modifyTask (fun t => set_lastFailedAction None (set_stepFailureCount 0 t)) ;;
          updateUI ;;
          self RUN_NEXT_TURN
      | REPLAN_FAILED =>
          updateTaskStatus FAILED
            (Some "Replanning failed. The agent is unable to find a new path forward.")
      | _ => ret tt
      end
  | TEACHING | WAITING =>
      match event with
      | ACTION_COMPLETE _ =>
          modifyTask stepCompleted ;;
          self RUN_NEXT_TURN
      | _ => ret tt
      end
  | USER_INPUT_PENDING | COMPLETED | FAILED | STOPPED => ret tt
  end.

(** One call of [agentOrchestrator], its nested calls going to [self]. *)
Definition orchestrate (event : AgentEvent) : M unit :=
  match event with
  | STOP_TASK => handleStopTask
  | START_TASK g => handleStartTask g
  | RESET_TASK_SESSION => handleResetTaskSession
  | ATTEMPT_STRATEGY strategy =>
      s <- get ;;
      match currentTask s with
      | Some _ =>
          modifyTask (attemptStrategy strategy) ;;
          updateTaskStatus PLANNING None ;;
          self (PLAN_COMPLETE
                  (Some {| pd_thought := "Executing deliberate strategy.";
                           pd_plan := strategy |}))
      | None => ret tt
      end
  | TAKE_OVER => handleTakeOver
  | GO_AUTONOMOUS => handleGoAutonomous
  | RECORDED_ACTION payload => handleRecordedAction payload
  | START_TEACHING g => handleStartTeaching W g
  | STOP_TEACHING => handleStopTeaching W
  | UNLOCK_VAULT passphrase => handleUnlockVault passphrase
  | DELETE_HISTORICAL_TASK ts => handleDeleteHistoricalTask ts
  | SAVE_CREDENTIAL name => handleSaveCredential name
  | _ =>
      s <- get ;;
      match currentTask s with
      | None => ret tt
      | Some t =>
          onStatus event t ;;
          match event with
          | RUN_NEXT_TURN => runNextTurn W self
          | _ => ret tt
          end
      end
  end.

End Orchestrator.

(** [agentOrchestrator], with a budget of nested calls: each call of the
    handler by itself spends one unit, and a call with none left is cut off
    where it stands. *)
Fixpoint agentOrchestrator (W : World) (fuel : nat) (event : AgentEvent)
  : M unit :=
  match fuel with
  | 0 => fun s => Exhausted s
  | S fuel' => orchestrate W (agentOrchestrator W fuel') event
  end.

(** The runtime firing timer [id]: nothing happens unless it is still armed. *)
Definition fireTimer (W : World) (fuel : nat) (id : nat) : M unit :=
  s <- get ;;
  if decide (id ∈ timers s) then
    clearTimeout id ;;
    longWaitElapsed (agentOrchestrator W fuel)
  else ret tt.

(** ** Suspended calls going on *)

(** What a suspended call is given when it goes on: the settlement of the
    call it awaits, or, for a storage request, the moment the storage serves
    it. *)
Inductive Settlement :=
| PersonasSettled (o : Outcome (list ExpertPersona))
| ReplySettled (o : Outcome JSON)
| ConsensusSettled (o : Outcome (string * list string))
| TabSettled (o : Outcome (option string))
| StorageServed.

(** A suspended call runs from the [await] it stands at to the next one.  A
    settlement that is not the one it awaits leaves it where it is. *)
Definition continue (W : World) (call : Suspended) (answer : Settlement)
  : M Suspended :=
  match call, answer with
  | Debating AwaitingPersonas, PersonasSettled o =>
      stage <- personasGenerated o ;; ret (Debating stage)
  | Debating (AwaitingTable personas tables _ rest), ReplySettled o =>
      stage <- tableReceived personas tables rest o ;; ret (Debating stage)
  | Debating (AwaitingRevision personas agentTables revisedSolutions _ rest),
    ReplySettled o =>
      stage <- revisionReceived personas agentTables revisedSolutions rest o ;;
      ret (Debating stage)
  | Debating AwaitingConsensus, ConsensusSettled o =>
      stage <- consensusReceived W o ;; ret (Debating stage)
  | Learning (AwaitingTab payload), TabSettled o =>
      stage <- saveLearnedAction_located W payload o ;; ret (Learning stage)
  | Learning (ReadingTools payload hostname taskDescription), StorageServed =>
      stage <- saveLearnedAction_read payload hostname taskDescription ;;
      ret (Learning stage)
  | Learning (WritingTools tools), StorageServed =>
      stage <- saveLearnedAction_written tools ;; ret (Learning stage)
  | _, _ => ret call
  end.

(** The [i]-th of the calls started without [await] goes on. *)
Definition resume (W : World) (i : nat) (answer : Settlement) : M unit :=
  s <- get ;;
  match unawaited s !! i with
  | Some call =>
      call' <- continue W call answer ;;
      modify (fun s => set_unawaited (<[i := call']> (unawaited s)) s)
  | None => ret tt
  end.

(** What happens to the service worker: an event reaches the orchestrator,
    a timer fires, or a suspended call goes on. *)
Inductive Occurrence :=
| Arrives (event : AgentEvent)
| Fires (id : nat)
| Settles (i : nat) (answer : Settlement).

Definition occur (W : World) (fuel : nat) (o : Occurrence) : M unit :=
  match o with
  | Arrives event => agentOrchestrator W fuel event
  | Fires id => fireTimer W fuel id
  | Settles i answer => resume W i answer
  end.

(** ** The decision service client ([geminiCall])

    The handlers above see a decision call only through its settlement.  The
    client itself is modelled here over the transport: [fetch] answers the
    [n]-th request, [JSON_parse] is the runtime's parser ([None] when it
    throws a [SyntaxError]).  The state counts the requests sent and keeps
    the back-off delays waited (without their random jitter). *)

Record HttpResponse := {
  ok : bool;
  http_status : nat;
  body_text : Outcome string
}.

(** [await fetch(...)]: a response, or a rejection (network failure, or the
    abort of the 90-second timer). *)
Inductive FetchOutcome :=
| Responded (response : HttpResponse)
| FetchRejected (e : JsError).

Record ClientState := {
  requests : nat;
  delays : list nat
}.

(** What [geminiCall] resolves to: parsed JSON, or the raw text when no JSON
    was asked for. *)
Inductive Answer :=
| Parsed (j : JSON)
| RawText (textContent : string).

(** How the retry loop ends. *)
Inductive LoopExit :=
| GotBody (responseText : string)
| NotRetried (response : HttpResponse)
| RetriesExhausted (e : JsError)
| NeverAsked.

Definition maxRetries : nat := 5.

(** [s.indexOf(c)] and [s.lastIndexOf(c)], [None] for [-1] *)
Fixpoint indexOf (c : ascii) (s : string) : option nat :=
  match s with
  | EmptyString => None
  | String c' s' => if Ascii.eqb c c' then Some 0 else S <$> indexOf c s'
  end.

Fixpoint lastIndexOf (c : ascii) (s : string) : option nat :=
  match s with
  | EmptyString => None
  | String c' s' =>
      match lastIndexOf c s' with
      | Some i => Some (S i)
      | None => if Ascii.eqb c c' then Some 0 else None
      end
  end.

(** [s.substring(from, to + 1)] when [from !== -1 && to > from], else [''] *)
Definition between (open close : ascii) (s : string) : option string :=
  match indexOf open s, lastIndexOf close s with
  | Some from, Some to =>
      if from <? to then Some (substring from (to + 1 - from) s) else None
  | _, _ => None
  end.

(** The substring between the outermost braces, else between the outermost
    square brackets, else the empty string. *)
Definition extractJsonString (s : string) : string :=
  match between "{" "}" s with
  | Some inner => inner
  | None => default "" (between "[" "]" s)
  end.

(** [s.replace(/[\n\r\t]/g, '')] *)
Fixpoint stripControl (s : string) : string :=
  match s with
  | EmptyString => EmptyString
  | String c s' =>
      let n := nat_of_ascii c in
      if (n =? 10) || (n =? 13) || (n =? 9) then stripControl s'
      else String c (stripControl s')
  end.

(** [result.candidates?.[0]?.content?.parts?.find(part => part.text)?.text],
    for an envelope in which the text of a part is a string, as the API
    gives it: a part whose [text] is of another type counts as having
    none. *)
Definition textPart (result : JSON) : option string :=
  match field "candidates" result with
  | Some (JArr (candidate :: _)) =>
      match field "content" candidate with
      | Some content =>
          match field "parts" content with
          | Some (JArr parts) =>
              match List.find
                      (fun part => default false (json_truthy <$> field "text" part))
                      parts with
              | Some part =>
                  match field "text" part with
                  | Some (JStr t) => Some t
                  | _ => None
                  end
              | None => None
              end
          | _ => None
          end
      | None => None
      end
  | _ => None
  end.

Section DecisionServiceClient.

Variable JSON_parse : string -> option JSON.
Variable fetch : nat -> string -> string -> bool -> bool -> FetchOutcome.
Variable googleApiKey : option string.

Definition syntaxError : JsError :=
  {| kind := SyntaxError; message := "Unexpected token in JSON" |}.

(** The [while (attempt < maxRetries)] loop, [left] iterations from its
    bound. *)
Fixpoint retryLoop (left attempt : nat) (model prompt : string)
    (useTool expectJson : bool) (st : ClientState) : LoopExit * ClientState :=
  match left with
  | 0 => (NeverAsked, st)
  | S left' =>
      let attempt := attempt + 1 in
      let asked := {| requests := S (requests st); delays := delays st |} in
      let caught (error : JsError) : LoopExit * ClientState :=
        if maxRetries <=? attempt then (RetriesExhausted error, asked)
        else
          retryLoop left' attempt model prompt useTool expectJson
            {| requests := requests asked;
               delays := delays asked ++ [2 ^ attempt * 1000] |} in
      match fetch (requests st) model prompt useTool expectJson with
      | Responded response =>
          if ok response then
            match body_text response with
            | Resolved responseText => (GotBody responseText, asked)
            | Rejected error => caught error
            end
          else if (http_status response =? 503) || (http_status response =? 429)
          then caught (mkError ("Gemini API error: "
                                +:+ pretty (http_status response)
                                +:+ ". Retrying..."))
          else (NotRetried response, asked)
      | FetchRejected error => caught error
      end
  end.

Definition correctionPrompt (responseText : string) : string :=
  "The following text is supposed to be a single, valid JSON object, but it is malformed. Please fix it. Pay special attention to unescaped double quotes within string values. Respond with ONLY the corrected, valid JSON object and nothing else."
  +:+ nl +:+ nl +:+ "Malformed Text:" +:+ nl +:+ "```" +:+ nl +:+ responseText
  +:+ nl +:+ "```" +:+ nl.

(** The first [try] block: the envelope is parsed, its text part found and,
    when JSON is expected, parsed, with the local repair when that fails. *)
Definition readResponse (responseText : string) (expectJson : bool)
  : Outcome Answer :=
  match JSON_parse responseText with
  | None => Rejected syntaxError
  | Some JNull =>
      Rejected {| kind := TypeError;
                  message := "Cannot read properties of null" |}
  | Some result =>
      match textPart result with
      | None => Rejected (mkError "No text part found in Gemini response.")
      | Some textContent =>
          if expectJson then
            match JSON_parse textContent with
            | Some parsed => Resolved (Parsed parsed)
            | None =>
                let jsonString := extractJsonString textContent in
                if negb (String.eqb jsonString "") then
                  match JSON_parse (stripControl jsonString) with
                  | Some parsed => Resolved (Parsed parsed)
                  | None =>
                      Rejected (mkError
                        ("Failed to parse extracted JSON. Content: " +:+ dq
                         +:+ jsonString +:+ dq))
                  end
                else
                  Rejected (mkError
                    ("Could not find a valid JSON object or array in the text content. Full response: "
                     +:+ dq +:+ textContent +:+ dq))
            end
          else Resolved (RawText textContent)
      end
  end.

(** One call of [geminiCall]; [self] is the call it makes to itself. *)
Definition geminiCall_body
    (self : string -> bool -> string -> bool -> ClientState ->
            Outcome Answer * ClientState)
    (prompt : string) (useTool : bool) (model : string) (expectJson : bool)
    (st : ClientState) : Outcome Answer * ClientState :=
  if negb (truthy googleApiKey) then
    (Rejected (mkError
       "Google API key not found. Please set it in the extension options."), st)
  else
    match retryLoop maxRetries 0 model prompt useTool expectJson st with
    | (RetriesExhausted error, st') => (Rejected error, st')
    | (NeverAsked, st') =>
        (Rejected (mkError
           "Gemini API call failed to get a successful response. Final status: undefined. Body: undefined"),
         st')
    | (NotRetried response, st') =>
        let errorBody :=
          match body_text response with
          | Resolved b => b
          | Rejected _ => "Could not read error body."
          end in
        (Rejected (mkError
           ("Gemini API call failed to get a successful response. Final status: "
            +:+ pretty (http_status response) +:+ ". Body: " +:+ errorBody)),
         st')
    | (GotBody responseText, st') =>
        match readResponse responseText expectJson with
        | Resolved answer => (Resolved answer, st')
        | Rejected e =>
            if expectJson && bool_decide (kind e = SyntaxError) then
              match self (correctionPrompt responseText) false model false st' with
              | (Rejected e', st'') => (Rejected e', st'')
              | (Resolved corrected, st'') =>
                  let correctedResponseText :=
                    match corrected with
                    | RawText t => t
                    | Parsed _ => ""
                    end in
                  let jsonString := extractJsonString correctedResponseText in
                  if negb (String.eqb jsonString "") then
                    match JSON_parse jsonString with
                    | Some parsed => (Resolved (Parsed parsed), st'')
                    | None =>
                        (Rejected (mkError
                           ("Self-healing failed. Final corrected text was not valid JSON: "
                            +:+ dq +:+ jsonString +:+ dq)), st'')
                    end
                  else
                    (Rejected (mkError
                       ("Self-healing failed. Could not extract JSON from corrected text: "
                        +:+ dq +:+ correctedResponseText +:+ dq)), st'')
              end
            else (Rejected e, st')
        end
    end.

(** The call [geminiCall] makes to itself asks for no JSON, and such a call
    makes none ([geminiCall_unfold] below): two levels tie the knot. *)
Definition geminiCall : string -> bool -> string -> bool -> ClientState ->
                        Outcome Answer * ClientState :=
  geminiCall_body
    (geminiCall_body
       (fun _ _ _ _ st => (Rejected (mkError "unreachable"), st))).

End DecisionServiceClient.

(** * Properties *)

(** ** Event sequences *)

(** The events the orchestrator sends to itself, all of them dispatched on
    the status of the task. *)
Definition internal (e : AgentEvent) : bool :=
  match e with
  | RUN_NEXT_TURN | RESEARCH_COMPLETE _ | RESEARCH_FAILED | PLAN_COMPLETE _
  | PLAN_FAILED | ACTION_COMPLETE _ | ACTION_FAILED _ | REPLAN_COMPLETE _
  | REPLAN_FAILED | TEXT_EXTRACTED _ | GET_HISTORICAL_TASKS
  | HISTORICAL_TASKS_UPDATE => true
  | _ => false
  end.

(** The store after one event, however its handling ended. *)
Definition after (W : World) (fuel : nat) (event : AgentEvent) (s : Store)
  : Store :=
  final (agentOrchestrator W fuel event s).

(** Events handled one after the other, each to its end. *)
Fixpoint dispatchAll (W : World) (fuel : nat) (events : list AgentEvent)
    (s : Store) : Store :=
  match events with
  | [] => s
  | e :: rest => dispatchAll W fuel rest (after W fuel e s)
  end.

(** The store after one occurrence, however it ended, and after a run of
    them, each taken to its end before the next. *)
Definition next (W : World) (fuel : nat) (o : Occurrence) (s : Store)
  : Store :=
  final (occur W fuel o s).

Fixpoint session (W : World) (fuel : nat) (run : list Occurrence)
    (s : Store) : Store :=
  match run with
  | [] => s
  | o :: rest => session W fuel rest (next W fuel o s)
  end.

(** ** The step invariant *)

(** [currentStep] is within the plan, or still [0]; and it is [0] as long as
    the task has not been planned. *)
Definition step_inv (t : AgentState) : Prop :=
  (currentStep t = 0 \/ currentStep t < length (plan t)) /\
  (status t = RESEARCHING \/ status t = PLANNING \/
   status t = AWAITING_PASSPHRASE -> currentStep t = 0).

Definition step_inv_store (s : Store) : Prop :=
  match currentTask s with
  | Some t => step_inv t
  | None => True
  end.

(** The events that install a plan without resetting [currentStep]. *)
Definition installs_plan (e : AgentEvent) : bool :=
  match e with
  | ATTEMPT_STRATEGY _ | UNLOCK_VAULT _ => true
  | _ => false
  end.

Definition at_first_step (s : Store) : Prop :=
  match currentTask s with
  | Some t => currentStep t = 0
  | None => True
  end.

(** The occurrences that install a plan without resetting [currentStep]:
    those events, and the consensus of a debate flow reaching the task. *)
Definition replans (o : Occurrence) : bool :=
  match o with
  | Arrives e => installs_plan e
  | Settles _ (ConsensusSettled _) => true
  | _ => false
  end.

(** A run in which the plan-installing occurrences come only while
    [currentStep] is [0]. *)
Fixpoint well_timed (W : World) (fuel : nat) (run : list Occurrence)
    (s : Store) : Prop :=
  match run with
  | [] => True
  | o :: rest =>
      (replans o = true -> at_first_step s) /\
      well_timed W fuel rest (next W fuel o s)
  end.

(** ** What the turn loop leaves alone *)

(** How a task may differ after internal events: same goal, no failure
    tally lower, the step invariant kept. *)
Definition task_rel (t t' : AgentState) : Prop :=
  originalGoal t' = originalGoal t /\
  (forall h, failure_count h t <= failure_count h t') /\
  (step_inv t -> step_inv t').

(** How the store may differ after internal events: the vault is untouched
    and the task object is the same one. *)
Definition turn_rel (s s' : Store) : Prop :=
  beachdai_secure_vault (local s') = beachdai_secure_vault (local s) /\
  taskRef s' = taskRef s /\
  match currentTask s, currentTask s' with
  | Some t, Some t' => task_rel t t'
  | None, None => True
  | _, _ => False
  end.

(** The vault alone. *)
Definition vault_rel (s s' : Store) : Prop :=
  beachdai_secure_vault (local s') = beachdai_secure_vault (local s).

(** The step invariant alone. *)
Definition inv_rel (s s' : Store) : Prop :=
  step_inv_store s -> step_inv_store s'.

(** The step invariant, for a task still at its first step. *)
Definition first_rel (s s' : Store) : Prop :=
  step_inv_store s /\ at_first_step s ->
  step_inv_store s' /\ at_first_step s'.

(** A plan step mentions a host. *)
Definition references (host step : string) : bool := includes host step.

(** ** Handlers that respect a relation *)

Section Respects.

Variable R : Store -> Store -> Prop.
Hypothesis R_refl : forall s, R s s.
Hypothesis R_trans : forall a b c, R a b -> R b c -> R a c.

(** Whatever the outcome, the store it leaves is related to the one the
    handler started from. *)
Definition respects {A} (m : M A) : Prop := forall s, R s (final (m s)).

Lemma respects_ret {A} (a : A) : respects (ret a).
Proof. intros s. apply R_refl. Qed.

Lemma respects_throw {A} (e : JsError) : respects (@throw A e).
Proof. intros s. apply R_refl. Qed.

Lemma respects_get : respects get.
Proof. intros s. apply R_refl. Qed.

Lemma respects_theTask : respects theTask.
Proof. intros s. unfold theTask. destruct (currentTask s); apply R_refl. Qed.

Lemma respects_bind {A B} (m : M A) (k : A -> M B) :
  respects m -> (forall a, respects (k a)) -> respects (bind m k).
Proof.
  intros Hm Hk s. unfold bind. specialize (Hm s).
  destruct (m s) as [a s'|e s'|s']; cbn [final] in *; auto.
  eapply R_trans; [exact Hm|]. apply Hk.
Qed.

Lemma respects_try_catch {A} (m : M A) (h : JsError -> M A) :
  respects m -> (forall e, respects (h e)) -> respects (try_catch m h).
Proof.
  intros Hm Hh s. unfold try_catch. specialize (Hm s).
  destruct (m s) as [a s'|e s'|s']; cbn [final] in *; auto.
  eapply R_trans; [exact Hm|]. apply Hh.
Qed.

Lemma respects_modify (f : Store -> Store) :
  (forall s, R s (f s)) -> respects (modify f).
Proof. intros H s. apply H. Qed.

Lemma respects_modifyTask (f : AgentState -> AgentState) :
  (forall s t, currentTask s = Some t ->
               R s (set_currentTask (Some (f t)) s)) ->
  respects (modifyTask f).
Proof.
  intros H s. unfold modifyTask.
  destruct (currentTask s) eqn:E; cbn [final]; auto.
Qed.

Lemma respects_ask {A} (o : nat -> A) :
  (forall s n, R s (set_calls n s)) -> respects (ask o).
Proof. intros H s. apply H. Qed.

(** A first write whose effect is known, then a continuation that respects
    the relation. *)
Lemma respects_after_write {B} (f : AgentState -> AgentState)
    (k : unit -> M B) (s : Store) (t : AgentState) :
  currentTask s = Some t ->
  R s (set_currentTask (Some (f t)) s) ->
  respects (k tt) ->
  R s (final (bind (modifyTask f) k s)).
Proof.
  intros Ht Hw Hk. unfold bind, modifyTask. rewrite Ht.
  eapply R_trans; [exact Hw|]. apply Hk.
Qed.

End Respects.

Ltac head_of t :=
  lazymatch t with
  | ?f _ => head_of f
  | _ => t
  end.

(** [resp leaf] walks a handler along its binds and branches; [leaf] closes
    the obligations its writes leave. *)
Ltac resp leaf :=
  lazymatch goal with
  | |- respects _ (bind _ _) => apply respects_bind; resp leaf
  | |- respects _ (ret _) => apply respects_ret; resp leaf
  | |- respects _ (throw _) => apply respects_throw; resp leaf
  | |- respects _ get => apply respects_get; resp leaf
  | |- respects _ theTask => apply respects_theTask; resp leaf
  | |- respects _ (try_catch _ _) => apply respects_try_catch; resp leaf
  | |- respects _ (modify _) => apply respects_modify; resp leaf
  | |- respects _ (modifyTask _) => apply respects_modifyTask; resp leaf
  | |- respects _ (ask _) => apply respects_ask; resp leaf
  | |- respects _ (match ?x with _ => _ end) => destruct x; resp leaf
  | |- respects _ (let _ := _ in _) => cbv zeta; resp leaf
  | |- respects _ ((fun _ => _) _) => cbv beta; resp leaf
  | |- respects _ ?m =>
      first [ solve [eauto 3]
            | let h := head_of m in unfold h; resp leaf ]
  | |- forall _, respects _ _ => intro; resp leaf
  | |- _ => first [ assumption | leaf ]
  end.

Ltac fields :=
  cbn [ currentTask taskRef allocated pendingCredentialValue local
        beachdai_session_key timers nextTimer outbox calls unawaited
        set_currentTask set_newTask set_pendingCredentialValue set_local
        set_session_key set_timers set_outbox set_calls set_unawaited
        historicalTasks completedTasks learnedTools beachdai_secure_vault
        beachdai_vault_salt beachdai_vault_check
        set_historicalTasks set_completedTasks set_learnedTools
        set_secure_vault
        task_id originalGoal status plan currentStep stepFailureCount turn
        scratchpad createdAt researchData researcherDecision finalAnswer
        failureReason lastFailedAction websiteFailures tabs activeTabName
        isTraining isPartialSuccess recordedActions waitTimeoutId
        isDeliberatePlan initialStrategy
        set_status set_plan set_currentStep set_stepFailureCount set_turn
        set_scratchpad set_research set_finalAnswer set_failureReason
        set_lastFailedAction set_websiteFailures set_tabs set_activeTabName
        set_isTraining set_isPartialSuccess set_recordedActions
        set_waitTimeoutId set_isDeliberatePlan set_initialStrategy
        bump_failure attemptStrategy newTask ] in *.

(** ** The turn loop respects [turn_rel] *)

Lemma task_rel_refl t : task_rel t t.
Proof. unfold task_rel. split; [reflexivity|]. split; [intros; lia|tauto]. Qed.

Lemma task_rel_trans a b c : task_rel a b -> task_rel b c -> task_rel a c.
Proof.
  intros (Hg1 & Hf1 & Hi1) (Hg2 & Hf2 & Hi2). split; [congruence|]. split.
  - intros h. specialize (Hf1 h). specialize (Hf2 h). lia.
  - tauto.
Qed.

Lemma turn_rel_refl s : turn_rel s s.
Proof.
  unfold turn_rel. split; [reflexivity|]. split; [reflexivity|].
  destruct (currentTask s); auto using task_rel_refl.
Qed.

Lemma turn_rel_trans a b c : turn_rel a b -> turn_rel b c -> turn_rel a c.
Proof.
  unfold turn_rel. intros (Hv1 & Hr1 & H1) (Hv2 & Hr2 & H2).
  split; [congruence|]. split; [congruence|].
  destruct (currentTask a), (currentTask b), (currentTask c); try tauto.
  eauto using task_rel_trans.
Qed.

Lemma bump_le (wf : gmap string nat) (host h : string) :
  default 0 (wf !! h)
  <= default 0 (<[host := default 0 (wf !! host) + 1]> wf !! h).
Proof.
  destruct (decide (host = h)) as [->|Hne].
  - rewrite lookup_insert_eq. simpl. lia.
  - rewrite lookup_insert_ne by done. lia.
Qed.

Ltac leaf_turn :=
  intros; unfold turn_rel, task_rel, step_inv, failure_count; fields;
  repeat match goal with
         | H : currentTask ?s = _ |- _ => rewrite H; clear H
         end;
  fields;
  repeat match goal with
         | |- _ /\ _ => split
         | |- True => exact I
         | |- ?x = ?x => reflexivity
         | |- forall _, _ => intro
         | |- _ <= _ => first [ apply bump_le | lia ]
         | |- match currentTask ?s with _ => _ end => destruct (currentTask s)
         end;
  try solve [ intuition (first [ congruence | discriminate | lia ]) ].

Section TurnLoop.

Variable W : World.
Variable self : AgentEvent -> M unit.
Hypothesis self_respects :
  forall e, internal e = true -> respects turn_rel (self e).

Let Hrefl := turn_rel_refl.
Let Htrans := turn_rel_trans.

Lemma addToScratchpad_turn log : respects turn_rel (addToScratchpad log).
Proof. resp leaf_turn. Qed.

Lemma handleStuckState_turn b : respects turn_rel (handleStuckState W self b).
Proof. pose proof addToScratchpad_turn. resp leaf_turn. Qed.

Lemma executeAction_turn d tab :
  respects turn_rel (executeAction W self d tab).
Proof. pose proof addToScratchpad_turn. resp leaf_turn. Qed.

Lemma runNextTurn_turn : respects turn_rel (runNextTurn W self).
Proof.
  pose proof addToScratchpad_turn. pose proof handleStuckState_turn.
  resp leaf_turn.
Qed.

Lemma afterAction_turn d a pre target success :
  respects turn_rel (afterAction W self d a pre target success).
Proof. pose proof addToScratchpad_turn. resp leaf_turn. Qed.

Lemma presentFinal_turn d a : respects turn_rel (presentFinal W d a).
Proof. pose proof addToScratchpad_turn. resp leaf_turn. Qed.

Lemma performAction_turn d a : respects turn_rel (performAction W self d a).
Proof.
  pose proof addToScratchpad_turn. pose proof handleStuckState_turn.
  pose proof executeAction_turn. pose proof afterAction_turn.
  pose proof presentFinal_turn.
  resp leaf_turn.
Qed.

Lemma handleAction_turn d : respects turn_rel (handleAction W self d).
Proof.
  pose proof addToScratchpad_turn. pose proof handleStuckState_turn.
  pose proof performAction_turn.
  resp leaf_turn.
Qed.

End TurnLoop.

(** ** Notifications as store updates *)

(** The notification helpers always return; these are the stores they
    return. *)
Definition notified (s : Store) : Store :=
  match currentTask s with
  | Some t => set_outbox (outbox s ++ [MsgTaskUpdate t]) s
  | None => s
  end.

Definition logged (log : string) (s : Store) : Store :=
  match currentTask s with
  | Some t =>
      notified
        (set_currentTask (Some (set_scratchpad (scratchpad t ++ [log]) t)) s)
  | None => s
  end.

Definition statusSet (st : TaskStatus) (why : option string) (s : Store)
  : Store :=
  match currentTask s with
  | Some t =>
      let s1 := set_currentTask (Some (set_status st t)) s in
      let s2 :=
        if truthy why
        then logged ("Error: " +:+ show why)
               (set_currentTask
                  (Some (set_failureReason why (set_status st t))) s1)
        else s1 in
      notified s2
  | None => s
  end.

Lemma updateUI_eq s : updateUI s = Return tt (notified s).
Proof.
  unfold updateUI, notified, bind, get, send, modify, ret.
  destruct (currentTask s); reflexivity.
Qed.

Lemma addToScratchpad_eq log s : addToScratchpad log s = Return tt (logged log s).
Proof.
  unfold addToScratchpad, logged, bind, get, modifyTask, ret.
  destruct (currentTask s) eqn:E; [|reflexivity].
  rewrite E. apply updateUI_eq.
Qed.

Lemma updateTaskStatus_eq st why s :
  updateTaskStatus st why s = Return tt (statusSet st why s).
Proof.
  unfold updateTaskStatus, statusSet, bind, get, modifyTask, ret.
  destruct (currentTask s) eqn:E; [|reflexivity].
  rewrite E. destruct (truthy why).
  - fields. rewrite addToScratchpad_eq. apply updateUI_eq.
  - apply updateUI_eq.
Qed.

Lemma modifyTask_eq f s t :
  currentTask s = Some t ->
  modifyTask f s = Return tt (set_currentTask (Some (f t)) s).
Proof. intros E. unfold modifyTask. rewrite E. reflexivity. Qed.

Lemma isVaultUnlocked_eq s :
  isVaultUnlocked s = Return (truthy (beachdai_session_key s)) s.
Proof. reflexivity. Qed.

Lemma bind_eq {A B} (m : M A) (k : A -> M B) s a s' :
  m s = Return a s' -> bind m k s = k a s'.
Proof. intros E. unfold bind. rewrite E. reflexivity. Qed.

Lemma respects_apply (R : Store -> Store -> Prop) {A} (m : M A) s :
  respects R m -> R s (final (m s)).
Proof. intros H. apply H. Qed.

(** [by_structure leaf] proves a goal about one store from the handler's
    structure. *)
Ltac by_structure leaf :=
  lazymatch goal with
  | |- ?R ?s (final (?m ?s)) =>
      apply (respects_apply R m s); resp leaf
  end.

Ltac leaf_fact :=
  unfold stepCompleted, statusSet, logged, notified;
  intros; unfold turn_rel, task_rel, step_inv, failure_count; fields;
  repeat match goal with
         | H : currentTask ?s = _ |- _ => rewrite H; clear H
         end;
  fields;
  repeat match goal with
         | H : status _ = _ |- _ => rewrite H in *
         | |- context [if ?b then _ else _] => destruct b eqn:?; fields
         end;
  repeat match goal with
         | H : (_ <? _) = true |- _ => apply Nat.ltb_lt in H
         | H : (_ <? _) = false |- _ => apply Nat.ltb_ge in H
         end;
  repeat match goal with
         | |- _ /\ _ => split
         | |- True => exact I
         | |- ?x = ?x => reflexivity
         | |- forall _, _ => intro
         | |- _ <= _ => lia
         end;
  try solve [ intuition (first [ congruence | discriminate | lia ]) ].

Section Dispatching.

Variable W : World.
Variable self : AgentEvent -> M unit.
Hypothesis self_respects :
  forall e, internal e = true -> respects turn_rel (self e).

Let Hrefl := turn_rel_refl.
Let Htrans := turn_rel_trans.
Let Hlog := addToScratchpad_turn.
Let Hstuck := handleStuckState_turn W self self_respects.
Let Hact := handleAction_turn W self self_respects.

Lemma planFor_turn g research : respects turn_rel (planFor W self g research).
Proof. resp leaf_turn. Qed.

(** The [RESEARCH_COMPLETE] case: the status only leaves [RESEARCHING] for
    [PLANNING] or [AWAITING_PASSPHRASE] while [currentStep] is still [0]. *)
Lemma researchComplete_turn rd t s :
  currentTask s = Some t -> status t = RESEARCHING ->
  turn_rel s (final (onStatus W self (RESEARCH_COMPLETE (Some rd)) t s)).
Proof.
  intros Ht Hst. unfold onStatus. rewrite Hst.
  rewrite (bind_eq _ _ _ _ _ (modifyTask_eq _ _ _ Ht)).
  rewrite (bind_eq _ _ _ _ _ (addToScratchpad_eq _ _)).
  rewrite (bind_eq _ _ _ _ _ (isVaultUnlocked_eq _)).
  set (s1 := logged _ _).
  assert (Hs1 : turn_rel s s1) by (subst s1; leaf_fact).
  assert (Ht1 : exists t1, currentTask s1 = Some t1 /\ status t1 = RESEARCHING
                           /\ currentStep t1 = currentStep t
                           /\ (step_inv t -> step_inv t1)).
  { subst s1. unfold logged, notified. fields. rewrite ?Ht. fields.
    eexists; split; [reflexivity|]. fields. unfold step_inv. fields.
    rewrite Hst. auto. }
  destruct Ht1 as (t1 & Ht1 & Hst1 & Hcs1 & Hinv1).
  clearbody s1.
  eapply turn_rel_trans; [exact Hs1|]. clear Hs1.
  destruct (requires_vault rd && negb (truthy (beachdai_session_key s1))).
  - rewrite (bind_eq _ _ _ _ _ (addToScratchpad_eq _ _)).
    rewrite updateTaskStatus_eq. cbn [final].
    generalize Ht1 Hst1. leaf_fact.
  - destruct (requires_browser rd).
    + rewrite (bind_eq _ _ _ _ _ (updateTaskStatus_eq _ _ _)).
      apply (turn_rel_trans _ (statusSet PLANNING None s1)).
      2: { pose proof planFor_turn. by_structure leaf_turn. }
      generalize Ht1 Hst1. leaf_fact.
    + by_structure leaf_turn.
Qed.

Lemma onStatus_turn event t s :
  currentTask s = Some t ->
  turn_rel s (final (onStatus W self event t s)).
Proof.
  intros Ht.
  destruct (status t) eqn:Hst;
    destruct event as [| | | | | | |[rd|]| |[p|]| |[d|]|[d|]|[p|]| |[x|]| | | | | | | |];
    first
      [ solve [unfold onStatus; rewrite Hst; apply turn_rel_refl]
      | solve [apply researchComplete_turn; assumption]
      | solve [unfold onStatus; rewrite Hst;
               eapply respects_after_write;
               [ exact turn_rel_trans | exact Ht | generalize Hst; leaf_fact
               | resp leaf_turn ]]
      | solve [unfold onStatus; rewrite Hst; by_structure leaf_turn] ].
Qed.

Lemma orchestrate_turn event :
  internal event = true -> respects turn_rel (orchestrate W self event).
Proof.
  intros Hint s.
  pose proof (runNextTurn_turn W self self_respects) as Hturn.
  destruct event; try discriminate Hint; unfold orchestrate;
    unfold bind at 1, get at 1;
    (destruct (currentTask s) as [t|] eqn:Ht; [|apply turn_rel_refl]);
    pose proof (onStatus_turn) as Hon;
    match goal with
    | |- turn_rel s (final (bind (onStatus W self ?e t) ?k s)) =>
        specialize (Hon e t s Ht); unfold bind;
        destruct (onStatus W self e t s) as [[] s1|err s1|s1];
        cbn [final] in *; try exact Hon;
        (eapply turn_rel_trans; [exact Hon|]);
        first [ apply turn_rel_refl | apply Hturn ]
    end.
Qed.

End Dispatching.

(** Every internal event, handled with any budget, respects [turn_rel]. *)
Lemma agentOrchestrator_turn W fuel event :
  internal event = true -> respects turn_rel (agentOrchestrator W fuel event).
Proof.
  revert event. induction fuel as [|fuel IH]; intros event Hint.
  - intros s. apply turn_rel_refl.
  - cbn [agentOrchestrator]. apply orchestrate_turn; assumption.
Qed.

(** ** One dispatch, unfolded *)

Lemma bind_ret_unit (m : M unit) s : bind m (fun _ => ret tt) s = m s.
Proof. unfold bind, ret. destruct (m s) as [[] s'|e s'|s']; reflexivity. Qed.

(** An internal event other than [RUN_NEXT_TURN] is the status switch and
    nothing else. *)
Lemma dispatch_eq W fuel event s t :
  currentTask s = Some t ->
  internal event = true -> event <> RUN_NEXT_TURN ->
  agentOrchestrator W (S fuel) event s
  = onStatus W (agentOrchestrator W fuel) event t s.
Proof.
  intros Ht Hint Hne. cbn [agentOrchestrator].
  destruct event; try discriminate Hint; try congruence;
    unfold orchestrate; unfold bind at 1, get at 1; rewrite Ht;
    apply bind_ret_unit.
Qed.

(** [RUN_NEXT_TURN] in a status that skips the turn does nothing. *)
Lemma run_next_turn_skipped W fuel s t :
  currentTask s = Some t ->
  non_execution_state (status t) = true ->
  agentOrchestrator W (S fuel) RUN_NEXT_TURN s = Return tt s.
Proof.
  intros Ht Hskip. cbn [agentOrchestrator]. unfold orchestrate.
  unfold bind at 1, get at 1. rewrite Ht.
  assert (Hon : onStatus W (agentOrchestrator W fuel) RUN_NEXT_TURN t s
                = Return tt s).
  { unfold onStatus. destruct (status t); try discriminate Hskip; reflexivity. }
  rewrite (bind_eq _ _ _ _ _ Hon).
  unfold runNextTurn, bind, get. rewrite Ht, Hskip. reflexivity.
Qed.

(** Taking the store apart, so that a handler run on it computes. *)
Ltac open_store s :=
  let t := fresh "t" in
  let l := fresh "l" in
  destruct s as [t ?s_ref ?s_alloc ?s_pending l ?s_key ?s_timers ?s_next
                   ?s_outbox ?s_calls ?s_unawaited];
  destruct l as [?l_hist ?l_done ?l_tools ?l_vault ?l_salt ?l_check];
  fields.

Ltac open_task t :=
  destruct t as [?t_id ?t_goal ?t_status ?t_plan ?t_step ?t_fails ?t_turn
                   ?t_pad ?t_created ?t_data ?t_research ?t_final ?t_reason
                   ?t_last ?t_sites ?t_tabs ?t_active ?t_training ?t_partial
                   ?t_recorded ?t_wait ?t_deliberate ?t_initial];
  fields.

Ltac run :=
  cbv beta iota zeta delta
    [ bind ret get modify modifyTask theTask send ask await settled throw
      try_catch final detached updateUI addToScratchpad updateTaskStatus
      hostname_of tabUrlOrNull isVaultUnlocked getSessionKey setTimeout
      clearTimeout bump_failure stepCompleted recordFailure attemptStrategy
      newTask cancelWaitTimeout getVerifierDecision leave
      notified logged statusSet
      truthy truthy_num or_else show from_option id negb andb orb
      currentTask taskRef allocated pendingCredentialValue local
      beachdai_session_key timers nextTimer outbox calls unawaited
      set_currentTask set_newTask set_pendingCredentialValue set_local
      set_session_key set_timers set_outbox set_calls set_unawaited
      historicalTasks completedTasks learnedTools beachdai_secure_vault
      beachdai_vault_salt beachdai_vault_check
      set_historicalTasks set_completedTasks set_learnedTools set_secure_vault
      task_id originalGoal status plan currentStep stepFailureCount turn
      scratchpad createdAt researchData researcherDecision finalAnswer
      failureReason lastFailedAction websiteFailures tabs activeTabName
      isTraining isPartialSuccess recordedActions waitTimeoutId
      isDeliberatePlan initialStrategy
      set_status set_plan set_currentStep set_stepFailureCount set_turn
      set_scratchpad set_research set_finalAnswer set_failureReason
      set_lastFailedAction set_websiteFailures set_tabs set_activeTabName
      set_isTraining set_isPartialSuccess set_recordedActions
      set_waitTimeoutId set_isDeliberatePlan set_initialStrategy ].

(** ** Step failures *)

Lemma recordFailure_counts W d s s1 t :
  currentTask s = Some t ->
  recordFailure W d s = Return tt s1 ->
  exists t1, currentTask s1 = Some t1 /\ status t1 = status t /\
             plan t1 = plan t /\ currentStep t1 = currentStep t /\
             stepFailureCount t1 = stepFailureCount t + 1.
Proof.
  intros Ht. open_store s. subst. open_task t.
  unfold recordFailure; run.
  destruct (tabs_get W s_calls (t_tabs !! t_active)) as [[u|]|e];
    try (intros [= <-]; eexists; split; [reflexivity|]; fields; auto).
  destruct (String.eqb u ""); run;
    try (intros [= <-]; eexists; split; [reflexivity|]; fields; auto).
  destruct (URL_hostname W u); run;
    try (intros [= <-]; eexists; split; [reflexivity|]; fields; auto).
  discriminate.
Qed.

(** Claim C2.  In [EXECUTING], a failed action adds one to
    [stepFailureCount]; while the count stays below 3 the turn is run again,
    and the failure that brings it to 3 puts the task in [REPLANNING] and
    asks for a new plan; a completed action sets the count back to 0 before
    the next turn. *)
Theorem C2_escalation_threshold (W : World) (fuel : nat)
    (d : ManagerDecision) (completed : option ManagerDecision)
    (s s1 : Store) (t : AgentState) :
  currentTask s = Some t -> status t = EXECUTING ->
  recordFailure W d s = Return tt s1 ->
  (exists t1, currentTask s1 = Some t1 /\ status t1 = EXECUTING /\
              stepFailureCount t1 = stepFailureCount t + 1) /\
  (stepFailureCount t + 1 < 3 ->
   agentOrchestrator W (S fuel) (ACTION_FAILED (Some d)) s
   = agentOrchestrator W fuel RUN_NEXT_TURN s1) /\
  (3 <= stepFailureCount t + 1 ->
   exists s2 t2,
     currentTask s2 = Some t2 /\ status t2 = REPLANNING /\
     stepFailureCount t2 = stepFailureCount t + 1 /\
     agentOrchestrator W (S fuel) (ACTION_FAILED (Some d)) s
     = requestReplan W (agentOrchestrator W fuel) false s2) /\
  agentOrchestrator W (S fuel) (ACTION_COMPLETE completed) s
  = agentOrchestrator W fuel RUN_NEXT_TURN
      (set_currentTask (Some (stepCompleted t)) s) /\
  stepFailureCount (stepCompleted t) = 0.
Proof.
  intros Ht Hst Hrec.
  destruct (recordFailure_counts W d s s1 t Ht Hrec)
    as (t1 & Ht1 & Hst1 & _ & _ & Hc1).
  assert (Hfail :
    agentOrchestrator W (S fuel) (ACTION_FAILED (Some d)) s
    = (if 3 <=? stepFailureCount t1
       then
         (addToScratchpad
            ("System Alert: The agent has failed "
             +:+ pretty (stepFailureCount t1)
             +:+ " times on this step. The current page may be problematic. Triggering a replan.") ;;
          handleStuckState W (agentOrchestrator W fuel) false) s1
       else agentOrchestrator W fuel RUN_NEXT_TURN s1)).
  { rewrite (dispatch_eq W fuel _ s t Ht) by (reflexivity || discriminate).
    unfold onStatus. rewrite Hst.
    rewrite (bind_eq _ _ _ _ _ Hrec).
    unfold bind at 1, theTask at 1. rewrite Ht1.
    destruct (3 <=? stepFailureCount t1); reflexivity. }
  split; [exists t1; rewrite Hst1; auto|].
  split; [|split; [|split]].
  - intros Hlt. rewrite Hfail.
    destruct (3 <=? stepFailureCount t1) eqn:E; [|reflexivity].
    apply Nat.leb_le in E. lia.
  - intros Hge. rewrite Hfail.
    destruct (3 <=? stepFailureCount t1) eqn:E;
      [|apply Nat.leb_gt in E; lia].
    rewrite (bind_eq _ _ _ _ _ (addToScratchpad_eq _ _)).
    unfold handleStuckState.
    set (s' := logged _ s1).
    assert (Hs' : exists t', currentTask s' = Some t' /\
                             stepFailureCount t' = stepFailureCount t1).
    { subst s'. unfold logged, notified. rewrite Ht1. fields.
      eexists; split; [reflexivity|]. reflexivity. }
    destruct Hs' as (t' & Ht' & Hc'). clearbody s'.
    unfold bind at 1, get at 1. rewrite Ht'.
    rewrite (bind_eq _ _ _ _ _ (addToScratchpad_eq _ _)).
    rewrite (bind_eq _ _ _ _ _ (updateTaskStatus_eq _ _ _)).
    eexists _, _. split; [|split; [|split; [|reflexivity]]].
    + unfold statusSet, logged, notified. rewrite Ht'. fields. reflexivity.
    + reflexivity.
    + fields. lia.
  - rewrite (dispatch_eq W fuel _ s t Ht) by (reflexivity || discriminate).
    unfold onStatus. rewrite Hst.
    rewrite (bind_eq _ _ _ _ _ (modifyTask_eq _ _ _ Ht)). reflexivity.
  - unfold stepCompleted. fields.
    destruct (_ <? _); reflexivity.
Qed.

(** ** Sample worlds and stores *)

Definition emptyLocal : LocalStorage :=
  {| historicalTasks := []; completedTasks := []; learnedTools := ∅;
     beachdai_secure_vault := None; beachdai_vault_salt := None;
     beachdai_vault_check := None |}.

Definition emptyStore : Store :=
  {| currentTask := None; taskRef := 0; allocated := 0;
     pendingCredentialValue := None; local := emptyLocal;
     beachdai_session_key := None; timers := ∅; nextTimer := 0;
     outbox := []; calls := 0; unawaited := [] |}.

(** A task for the goal "book a flight", its main tab open, at [step] of
    [steps] after [fails] failed attempts. *)
Definition exampleTask (st : TaskStatus) (steps : list string)
    (step fails : nat) : AgentState :=
  set_stepFailureCount fails
    (set_currentStep step
       (set_plan steps
          (set_tabs {["main" := 7]}
             (newTask "task-1" "book a flight" st "Goal: book a flight" 1
                false None)))).

Definition storeOf (t : AgentState) : Store := set_newTask t emptyStore.

Definition exampleDecision (a : Action) : ManagerDecision :=
  {| thought := "next"; action := Some a; tabName := None;
     selector := Some "#go"; text := None; url := None; answer := None;
     reason := None; duration := None; query := None; value := None |}.

(** A world in which Triage answers [flow], the Researcher asks for the
    browser, the Planner always answers [steps], the Manager always decides
    [decision], every action fails on a page of kayak.com, and the Presenter
    answers. *)
Definition exampleWorld (flow : TriageDecision) (steps : list string)
    (decision : ManagerDecision) : World :=
  {| Date_now := fun n => 1000 + n;
     Math_random := fun _ => "k3y";
     AES_encrypt := fun v k => "aes(" +:+ v +:+ ")";
     AES_decrypt := fun c k => Resolved CHECK_STRING;
     PBKDF2 := fun p salt => p +:+ salt;
     JSON_stringify := fun _ => "[]";
     String_of := fun _ => "[object Object]";
     URL_hostname := fun _ => Some "kayak.com";
     geolocation := fun _ => Position "33.7, -84.4";
     newTaskUrl := fun _ => "https://www.google.com";
     triage_call := fun _ _ => Resolved flow;
     researcher_call := fun _ _ _ =>
       Resolved {| rs_thought := "needs the browser"; facts := [];
                   requires_browser := true; requires_vault := false |};
     planner_call := fun _ _ =>
       Resolved (Some {| pd_thought := "as planned"; pd_plan := steps |});
     manager_call := fun _ _ _ _ => Resolved (Some decision);
     verifier_call := fun _ _ => Rejected (mkError "503");
     presenter_call := fun _ _ _ _ =>
       Resolved (Some {| summary := "done"; call_to_action := None |});
     teacher_call := fun _ _ _ => Resolved None;
     relevant_tool := fun _ _ _ => None;
     tabs_get := fun _ _ => Resolved (Some "https://kayak.com/flights");
     tabs_create := fun _ _ => Resolved (Some 7);
     tabs_update := fun _ _ => Resolved tt;
     tabs_query := fun _ => Resolved [7];
     tabs_query_active := fun _ => Resolved None;
     observation := fun _ _ =>
       Snapshot {| ps_url := "https://kayak.com/flights"; ps_title := "Kayak";
                   mainContent := ""; interactiveElements := [] |};
     execute_on_page := fun _ _ _ => Resolved (ActionFailed "no such element");
     searchPage := fun _ _ _ => Resolved [] |}.

Definition clickWorld : World :=
  exampleWorld Standard_Flow ["Go to kayak.com"; "Search flights"]
    (exampleDecision CLICK).

Example C2_escalation_threshold_witness :
  let s := storeOf (exampleTask EXECUTING ["a"; "b"; "c"] 1 2) in
  let s1 := final (recordFailure clickWorld (exampleDecision CLICK) s) in
  exists s2 t2,
    currentTask s2 = Some t2 /\ status t2 = REPLANNING /\
    stepFailureCount t2 = 3 /\
    agentOrchestrator clickWorld 1 (ACTION_FAILED (Some (exampleDecision CLICK))) s
    = requestReplan clickWorld (agentOrchestrator clickWorld 0) false s2.
Proof.
  intros s s1.
  destruct (C2_escalation_threshold clickWorld 0 (exampleDecision CLICK) None
              s s1 (exampleTask EXECUTING ["a"; "b"; "c"] 1 2)
              eq_refl eq_refl eq_refl) as (_ & _ & H & _).
  apply H. vm_compute. lia.
Defined.

(** ** Stopping and resetting *)

Lemma archived_head g now stored :
  existsb (fun task => String.eqb (goal task) g)
    (take 10 ({| goal := g; timestamp := now |} :: stored)) = true.
Proof. cbn. rewrite String.eqb_refl. reflexivity. Qed.

(** After [saveHistoricalTask g] the history holds [g], unless [g] is
    blank. *)
Lemma saveHistoricalTask_archives W g s :
  is_blank g = false ->
  exists s', saveHistoricalTask W g s = Return tt s' /\
    currentTask s' = currentTask s /\ timers s' = timers s /\
    pendingCredentialValue s' = pendingCredentialValue s /\
    existsb (fun task => String.eqb (goal task) g)
      (historicalTasks (local s')) = true.
Proof.
  intros Hg. unfold saveHistoricalTask. rewrite Hg.
  unfold bind at 1, get at 1.
  destruct (existsb _ (historicalTasks (local s))) eqn:E.
  - exists s. auto.
  - eexists. split; [reflexivity|]. fields. repeat split.
    apply archived_head.
Qed.

Lemma cancelWaitTimeout_eq s t :
  currentTask s = Some t ->
  exists s', cancelWaitTimeout s = Return tt s' /\
    (exists t', currentTask s' = Some t' /\ status t' = status t /\
                originalGoal t' = originalGoal t) /\
    (forall id, waitTimeoutId t = Some (S id) -> S id ∉ timers s') /\
    timers s' ⊆ timers s /\
    local s' = local s /\ outbox s' = outbox s /\
    pendingCredentialValue s' = pendingCredentialValue s.
Proof.
  intros Ht. unfold cancelWaitTimeout, bind, theTask. rewrite Ht.
  destruct (waitTimeoutId t) as [[|id]|] eqn:E.
  - exists s. split; [reflexivity|]. split; [eauto|].
    split; [intros ? [=]|]. auto.
  - unfold clearTimeout, modify, modifyTask. fields. rewrite Ht.
    eexists. split; [reflexivity|]. fields. split; [eauto|].
    split; [|split; [set_solver|auto]].
    intros id' [= <-]. set_solver.
  - exists s. split; [reflexivity|]. split; [eauto|].
    split; [intros ? [=]|]. auto.
Qed.

Lemma statusSet_spec st why s t :
  currentTask s = Some t ->
  exists t', currentTask (statusSet st why s) = Some t' /\ status t' = st /\
    originalGoal t' = originalGoal t /\
    last (outbox (statusSet st why s)) = Some (MsgTaskUpdate t') /\
    timers (statusSet st why s) = timers s /\
    local (statusSet st why s) = local s /\
    pendingCredentialValue (statusSet st why s) = pendingCredentialValue s.
Proof.
  intros E. unfold statusSet. rewrite E. cbv zeta.
  destruct (truthy why); unfold logged, notified; fields;
    eexists; (split; [reflexivity|]); fields; rewrite last_snoc;
    repeat split.
Qed.

Lemma stop_absent W fuel s :
  currentTask s = None ->
  agentOrchestrator W (S fuel) STOP_TASK s = Return tt s.
Proof.
  intros E. cbn [agentOrchestrator orchestrate]. unfold handleStopTask, bind, get.
  rewrite E. reflexivity.
Qed.

Lemma reset_absent W fuel s :
  currentTask s = None ->
  agentOrchestrator W (S fuel) RESET_TASK_SESSION s = Return tt s.
Proof.
  intros E. cbn [agentOrchestrator orchestrate].
  unfold handleResetTaskSession, bind, get. rewrite E. reflexivity.
Qed.

Lemma reset_present W fuel s t :
  currentTask s = Some t ->
  exists s', agentOrchestrator W (S fuel) RESET_TASK_SESSION s = Return tt s' /\
    currentTask s' = None /\
    (forall id, waitTimeoutId t = Some (S id) -> S id ∉ timers s') /\
    local s' = local s /\ outbox s' = outbox s /\
    pendingCredentialValue s' = pendingCredentialValue s.
Proof.
  intros Ht. cbn [agentOrchestrator orchestrate].
  unfold handleResetTaskSession. unfold bind at 1, get at 1. rewrite Ht.
  destruct (cancelWaitTimeout_eq s t Ht)
    as (s1 & E1 & _ & Htimer & _ & Hlocal & Hout & Hpend).
  rewrite (bind_eq _ _ _ _ _ E1).
  eexists. split; [reflexivity|]. fields. auto.
Qed.

Lemma stop_present W fuel s t :
  currentTask s = Some t ->
  exists s', agentOrchestrator W (S fuel) STOP_TASK s = Return tt s' /\
    currentTask s' = None /\
    (forall id, waitTimeoutId t = Some (S id) -> S id ∉ timers s') /\
    (status t = USER_INPUT_PENDING -> is_blank (originalGoal t) = false ->
     existsb (fun task => String.eqb (goal task) (originalGoal t))
       (historicalTasks (local s')) = true) /\
    (status t <> USER_INPUT_PENDING -> local s' = local s) /\
    (exists t', last (outbox s') = Some (MsgTaskUpdate t') /\
                status t' = STOPPED) /\
    pendingCredentialValue s' = pendingCredentialValue s.
Proof.
  intros Ht. cbn [agentOrchestrator orchestrate].
  unfold handleStopTask. unfold bind at 1, get at 1. rewrite Ht.
  destruct (cancelWaitTimeout_eq s t Ht)
    as (s1 & E1 & (t1 & Ht1 & Hst1 & Hg1) & Htimer & _ & Hlocal & Hout & Hpend).
  rewrite (bind_eq _ _ _ _ _ E1).
  unfold bind at 1, theTask at 1. rewrite Ht1.
  assert (Harch : exists s2,
    (if decide (status t1 = USER_INPUT_PENDING)
     then saveHistoricalTask W (originalGoal t1) else ret tt) s1 = Return tt s2 /\
    currentTask s2 = Some t1 /\ timers s2 = timers s1 /\
    pendingCredentialValue s2 = pendingCredentialValue s1 /\
    (status t = USER_INPUT_PENDING -> is_blank (originalGoal t) = false ->
     existsb (fun task => String.eqb (goal task) (originalGoal t))
       (historicalTasks (local s2)) = true) /\
    (status t <> USER_INPUT_PENDING -> local s2 = local s)).
  { destruct (decide (status t1 = USER_INPUT_PENDING)) as [Hp|Hp].
    - destruct (is_blank (originalGoal t1)) eqn:Hb.
      + exists s1. unfold saveHistoricalTask. rewrite Hb.
        split; [reflexivity|]. repeat split; auto; try congruence.
      + destruct (saveHistoricalTask_archives W _ s1 Hb)
          as (s2 & E2 & Hc2 & Ht2 & Hp2 & Hh2).
        exists s2. split; [exact E2|]. repeat split; try congruence.
        intros _ _. rewrite <- Hg1. exact Hh2.
    - exists s1. split; [reflexivity|]. repeat split; auto; congruence. }
  destruct Harch as (s2 & E2 & Ht2 & Htm2 & Hp2 & Hh2 & Hl2).
  rewrite (bind_eq _ _ _ _ _ E2).
  rewrite (bind_eq _ _ _ _ _ (updateTaskStatus_eq _ _ _)).
  destruct (statusSet_spec STOPPED
              (Some "You have requested to stop the autonomous goal.") s2 t1 Ht2)
    as (t3 & _ & Hst3 & _ & Hlast & Htm3 & Hl3 & Hp3).
  eexists. split; [reflexivity|]. fields.
  split; [reflexivity|]. split.
  { intros id Hid. rewrite Htm3, Htm2. auto. }
  split; [rewrite Hl3; exact Hh2|]. split; [rewrite Hl3; exact Hl2|]. split.
  { eauto. }
  congruence.
Qed.

(** A timer that was cancelled never runs its callback. *)
Lemma cancelled_timer_is_silent W fuel id s :
  id ∉ timers s -> fireTimer W fuel id s = Return tt s.
Proof.
  intros H. unfold fireTimer, bind, get.
  destruct (decide (id ∈ timers s)); [contradiction|reflexivity].
Qed.

(** Claim C6 (as the code has it).  On a present task, [STOP_TASK] cancels
    the pending resume timer, archives the goal when the task was in
    [USER_INPUT_PENDING] (and leaves storage alone otherwise), broadcasts the
    task as [STOPPED] and discards it.  [RESET_TASK_SESSION] cancels the
    timer and discards the task too, but it archives nothing, whatever the
    status, and broadcasts nothing; a second reset changes nothing, and on
    an absent task either event returns with the store unchanged. *)
Theorem C6_stop_and_reset (W : World) (fuel : nat) (s : Store) (t : AgentState) :
  currentTask s = Some t ->
  (exists s',
     agentOrchestrator W (S fuel) STOP_TASK s = Return tt s' /\
     currentTask s' = None /\
     (forall id, waitTimeoutId t = Some (S id) -> S id ∉ timers s') /\
     (status t = USER_INPUT_PENDING -> is_blank (originalGoal t) = false ->
      existsb (fun task => String.eqb (goal task) (originalGoal t))
        (historicalTasks (local s')) = true) /\
     (status t <> USER_INPUT_PENDING -> local s' = local s) /\
     (exists t', last (outbox s') = Some (MsgTaskUpdate t') /\
                 status t' = STOPPED)) /\
  (exists s',
     agentOrchestrator W (S fuel) RESET_TASK_SESSION s = Return tt s' /\
     currentTask s' = None /\
     (forall id, waitTimeoutId t = Some (S id) -> S id ∉ timers s') /\
     local s' = local s /\ outbox s' = outbox s /\
     agentOrchestrator W (S fuel) RESET_TASK_SESSION s' = Return tt s') /\
  (forall s0, currentTask s0 = None ->
     agentOrchestrator W (S fuel) RESET_TASK_SESSION s0 = Return tt s0 /\
     agentOrchestrator W (S fuel) STOP_TASK s0 = Return tt s0).
Proof.
  intros Ht. split; [|split].
  - destruct (stop_present W fuel s t Ht)
      as (s' & E & Hnone & Htimer & Harch & Hlocal & Hout & _).
    exists s'. auto 10.
  - destruct (reset_present W fuel s t Ht)
      as (s' & E & Hnone & Htimer & Hlocal & Hout & _).
    exists s'. repeat (split; [assumption|]).
    apply reset_absent, Hnone.
  - intros s0 H0. split; [apply reset_absent|apply stop_absent]; exact H0.
Qed.

Example C6_stop_and_reset_witness :
  let s := storeOf (exampleTask USER_INPUT_PENDING ["a"] 0 0) in
  exists s',
    agentOrchestrator clickWorld 1 RESET_TASK_SESSION s = Return tt s' /\
    currentTask s' = None /\ local s' = local s /\ outbox s' = outbox s.
Proof.
  intros s.
  destruct (C6_stop_and_reset clickWorld 0 s
              (exampleTask USER_INPUT_PENDING ["a"] 0 0) eq_refl)
    as (_ & (s' & E & Hnone & _ & Hlocal & Hout & _) & _).
  exists s'. auto.
Defined.

(** The same task, awaiting user input, once stopped and once reset: the
    stop archives its goal, the reset leaves the history empty. *)
Example C6_reset_does_not_archive :
  let s := storeOf (exampleTask USER_INPUT_PENDING ["a"] 0 0) in
  goal <$> historicalTasks (local (after clickWorld 1 STOP_TASK s))
  = ["book a flight"] /\
  historicalTasks (local (after clickWorld 1 RESET_TASK_SESSION s)) = [] /\
  currentTask (after clickWorld 1 RESET_TASK_SESSION s) = None /\
  outbox (after clickWorld 1 RESET_TASK_SESSION s) = [].
Proof. vm_compute. repeat split. Qed.

(** ** The long wait *)

Lemma stepCompleted_facts t :
  status (stepCompleted t) = status t /\
  plan (stepCompleted t) = plan t /\
  turn (stepCompleted t) = turn t /\
  stepFailureCount (stepCompleted t) = 0 /\
  currentStep (stepCompleted t)
  = (if currentStep t + 1 <? length (plan t)
     then currentStep t + 1 else currentStep t).
Proof.
  unfold stepCompleted. fields.
  destruct (currentStep t + 1 <? length (plan t)); repeat split.
Qed.

(** [ACTION_COMPLETE] on a waiting task: the step is counted as completed,
    and the turn that follows is skipped. *)
Lemma resume_in_waiting W fuel payload s t :
  currentTask s = Some t -> status t = WAITING ->
  agentOrchestrator W (S (S fuel)) (ACTION_COMPLETE payload) s
  = Return tt (set_currentTask (Some (stepCompleted t)) s).
Proof.
  intros Ht Hst.
  rewrite (dispatch_eq W (S fuel) _ s t Ht) by (reflexivity || discriminate).
  unfold onStatus. rewrite Hst.
  rewrite (bind_eq _ _ _ _ _ (modifyTask_eq _ _ _ Ht)).
  apply (run_next_turn_skipped W fuel _ (stepCompleted t)); [reflexivity|].
  destruct (stepCompleted_facts t) as (-> & _). rewrite Hst. reflexivity.
Qed.

(** The [LONG_WAIT] case of [handleAction]: it returns at once, the task
    waiting and the resume timer armed. *)
Lemma long_wait_begins W self d s t :
  currentTask s = Some t ->
  exists s1 t1,
    performAction W self d LONG_WAIT s = Return tt s1 /\
    currentTask s1 = Some t1 /\ status t1 = WAITING /\
    waitTimeoutId t1 = Some (S (nextTimer s)) /\
    timers s1 = {[S (nextTimer s)]} ∪ timers s /\
    plan t1 = plan t /\ currentStep t1 = currentStep t /\
    turn t1 = turn t /\ calls s1 = calls s.
Proof.
  intros Ht. open_store s. subst. open_task t.
  unfold performAction, is_click_or_submit; run.
  destruct (String.eqb (thought d) ""); run;
    eexists _, _; (split; [reflexivity|]); fields; repeat split.
Qed.

(** The timer firing on a waiting task. *)
Lemma resume_fires W fuel id s t :
  currentTask s = Some t -> status t = WAITING -> id ∈ timers s ->
  exists s2 t2,
    fireTimer W (S (S fuel)) id s = Return tt s2 /\
    currentTask s2 = Some t2 /\ status t2 = WAITING /\
    stepFailureCount t2 = 0 /\
    currentStep t2
    = (if currentStep t + 1 <? length (plan t)
       then currentStep t + 1 else currentStep t) /\
    turn t2 = turn t /\ waitTimeoutId t2 = None /\
    calls s2 = calls s /\ timers s2 = timers s ∖ {[id]}.
Proof.
  intros Ht Hst Hid. unfold fireTimer. unfold bind at 1, get at 1.
  destruct (decide (id ∈ timers s)); [|contradiction].
  unfold clearTimeout. unfold bind at 1, modify at 1.
  set (s1 := set_timers _ _ s).
  assert (Ht1 : currentTask s1 = Some t) by exact Ht.
  unfold longWaitElapsed. unfold bind at 1, get at 1. rewrite Ht1.
  destruct (decide (status t = WAITING)); [|contradiction].
  rewrite (bind_eq _ _ _ _ _ (addToScratchpad_eq _ _)).
  set (s1' := logged _ s1).
  assert (Hs1' : exists t', currentTask s1' = Some t' /\ status t' = WAITING /\
            plan t' = plan t /\ currentStep t' = currentStep t /\
            turn t' = turn t /\ calls s1' = calls s /\
            timers s1' = timers s ∖ {[id]}).
  { subst s1' s1. unfold logged. fields. rewrite Ht. unfold notified.
    fields. eexists. split; [reflexivity|]. fields. auto 10. }
  destruct Hs1' as (t' & Ht' & Hst' & Hp & Hc & Htn & Hcalls & Htimers).
  clearbody s1'.
  rewrite (bind_eq _ _ _ _ _ (modifyTask_eq _ _ _ Ht')).
  rewrite (resume_in_waiting W fuel None _ (set_waitTimeoutId None t'))
    by (fields; first [reflexivity | assumption]).
  destruct (stepCompleted_facts (set_waitTimeoutId None t'))
    as (E1 & E2 & E3 & E4 & E5).
  eexists _, _. split; [reflexivity|]. fields.
  split; [reflexivity|]. rewrite E1, E3, E4, E5. fields.
  rewrite Hp, Hc. repeat split; try assumption.
  unfold stepCompleted. fields. destruct (_ <? _); reflexivity.
Qed.

(** Claim C8 (what the code does).  A [LONG_WAIT] puts the task in
    [WAITING], arms one timer and returns.  When that timer fires on the
    waiting task, the failure count is set to 0 and [currentStep] advances
    up to the last index, as for a completed step; but the task is left in
    [WAITING], where the next turn is skipped: no turn is counted, nothing
    is asked of the page or the Manager, and no timer is left armed.  After
    a [STOP_TASK] the timer is cancelled, and its firing does nothing. *)
Theorem C8_long_wait (W : World) (fuel : nat) (d : ManagerDecision)
    (s : Store) (t : AgentState) :
  currentTask s = Some t ->
  exists s1 t1 id,
    performAction W (agentOrchestrator W fuel) d LONG_WAIT s = Return tt s1 /\
    currentTask s1 = Some t1 /\ status t1 = WAITING /\
    waitTimeoutId t1 = Some id /\ id ∈ timers s1 /\
    (exists s2 t2,
       fireTimer W (S (S fuel)) id s1 = Return tt s2 /\
       currentTask s2 = Some t2 /\ status t2 = WAITING /\
       stepFailureCount t2 = 0 /\
       currentStep t2
       = (if currentStep t + 1 <? length (plan t)
          then currentStep t + 1 else currentStep t) /\
       turn t2 = turn t /\ calls s2 = calls s /\
       timers s2 = timers s1 ∖ {[id]}) /\
    (exists s3,
       agentOrchestrator W (S fuel) STOP_TASK s1 = Return tt s3 /\
       currentTask s3 = None /\
       fireTimer W (S (S fuel)) id s3 = Return tt s3).
Proof.
  intros Ht.
  destruct (long_wait_begins W (agentOrchestrator W fuel) d s t Ht)
    as (s1 & t1 & E1 & Ht1 & Hst1 & Hid & Htimers & Hp1 & Hc1 & Htn1 & Hcalls1).
  assert (Hin : S (nextTimer s) ∈ timers s1).
  { rewrite Htimers. apply elem_of_union_l, elem_of_singleton. reflexivity. }
  exists s1, t1, (S (nextTimer s)).
  repeat (split; [assumption|]). split.
  - destruct (resume_fires W fuel _ s1 t1 Ht1 Hst1 Hin)
      as (s2 & t2 & E2 & Ht2 & Hst2 & Hf2 & Hc2 & Htn2 & _ & Hcalls2 & Htm2).
    exists s2, t2. rewrite Hp1, Hc1 in Hc2.
    repeat (split; [congruence|]). exact Htm2.
  - destruct (stop_present W fuel s1 t1 Ht1)
      as (s3 & E3 & Hnone & Hcancel & _).
    exists s3. split; [exact E3|]. split; [exact Hnone|].
    apply cancelled_timer_is_silent, Hcancel, Hid.
Qed.

Example C8_long_wait_witness :
  let s := storeOf (exampleTask THINKING ["a"; "b"; "c"] 0 2) in
  exists s1 s2 t2,
    performAction clickWorld (agentOrchestrator clickWorld 0)
      (exampleDecision LONG_WAIT) LONG_WAIT s = Return tt s1 /\
    fireTimer clickWorld 2 1 s1 = Return tt s2 /\
    currentTask s2 = Some t2 /\ status t2 = WAITING /\ currentStep t2 = 1 /\
    turn t2 = 0 /\ calls s2 = 0.
Proof.
  intros s.
  destruct (C8_long_wait clickWorld 0 (exampleDecision LONG_WAIT) s
              (exampleTask THINKING ["a"; "b"; "c"] 0 2) eq_refl)
    as (s1 & t1 & id & E1 & Ht1 & _ & Hid & _ & (s2 & t2 & E2 & H2) & _).
  assert (Hid1 : id = 1).
  { vm_compute in E1. injection E1 as <-. vm_compute in Ht1.
    injection Ht1 as <-. vm_compute in Hid. injection Hid as <-. reflexivity. }
  subst id. exists s1, s2, t2.
  destruct H2 as (Ht2 & Hst2 & _ & Hc2 & Htn2 & Hcalls2 & _).
  repeat split; assumption.
Defined.

(** The same completion event, on a task that is executing and on one that
    is waiting: the first takes the next turn (turn 1, the Manager asked),
    the second takes none. *)
Example C8_resume_takes_no_turn :
  let executing := storeOf (exampleTask EXECUTING ["a"; "b"] 0 0) in
  let waiting := storeOf (exampleTask WAITING ["a"; "b"] 0 0) in
  (status <$> currentTask (after clickWorld 2 (ACTION_COMPLETE None) executing),
   turn <$> currentTask (after clickWorld 2 (ACTION_COMPLETE None) executing))
  = (Some THINKING, Some 1) /\
  agentOrchestrator clickWorld 2 (ACTION_COMPLETE None) waiting
  = Return tt (storeOf (exampleTask WAITING ["a"; "b"] 1 0)) /\
  agentOrchestrator clickWorld 2 RUN_NEXT_TURN
    (storeOf (exampleTask WAITING ["a"; "b"] 1 0))
  = Return tt (storeOf (exampleTask WAITING ["a"; "b"] 1 0)).
Proof. vm_compute. repeat split. Qed.

(** ** The Verifier *)

Lemma calls_logged log s : calls (logged log s) = calls s.
Proof.
  unfold logged, notified. destruct (currentTask s) eqn:E; [|reflexivity].
  fields. reflexivity.
Qed.

Lemma calls_statusSet st why s : calls (statusSet st why s) = calls s.
Proof.
  unfold statusSet. destruct (currentTask s) eqn:E; [|reflexivity].
  cbv zeta. destruct (truthy why); unfold logged, notified; fields; reflexivity.
Qed.

Lemma getVerifierDecision_eq W u s :
  getVerifierDecision W u s
  = Return
      (match verifier_call W (calls s) u with
       | Resolved response => response
       | Rejected _ => failOpen
       end)
      (set_calls (S (calls s)) s).
Proof.
  unfold getVerifierDecision, bind, ask.
  destruct (verifier_call W (calls s) u); reflexivity.
Qed.

(** [handleAction] on a decision that needs verification, up to the
    verdict. *)
Lemma handleAction_verifies W self d a s t :
  currentTask s = Some t -> action d = Some a ->
  needsVerification d = true -> truthy (url d) = true ->
  let asked :=
    logged ("Verifying URL: " +:+ show (url d)) (statusSet VERIFYING None s) in
  let answered := set_calls (S (calls s)) asked in
  let verdict :=
    match verifier_call W (calls s) (show (url d)) with
    | Resolved response => response
    | Rejected _ => failOpen
    end in
  handleAction W self d s
  = (if vetoes verdict then
       addToScratchpad
         ("Security Alert: Navigation to " +:+ show (url d)
          +:+ " blocked. Reason: " +:+ template W (field "reason" verdict)) ;;
       self (ACTION_FAILED (Some d))
     else
       addToScratchpad "Verification successful. Proceeding with action." ;;
       performAction W self d a) answered.
Proof.
  intros Ht Ha Hneeds Hurl. cbv zeta.
  unfold handleAction. unfold bind at 1, get at 1. rewrite Ht, Ha.
  rewrite Hneeds, Hurl. cbn [andb].
  rewrite (bind_eq _ _ _ _ _ (updateTaskStatus_eq _ _ _)).
  rewrite (bind_eq _ _ _ _ _ (addToScratchpad_eq _ _)).
  rewrite (bind_eq _ _ _ _ _ (getVerifierDecision_eq _ _ _)).
  rewrite calls_logged, calls_statusSet. reflexivity.
Qed.

(** The [ACTION_FAILED] that a blocked navigation dispatches finds the task
    in [VERIFYING], where the orchestrator takes no action on it. *)
Lemma failure_while_verifying_is_dropped W fuel d s t :
  currentTask s = Some t -> status t = VERIFYING ->
  agentOrchestrator W (S fuel) (ACTION_FAILED d) s = Return tt s.
Proof.
  intros Ht Hst.
  rewrite (dispatch_eq W fuel _ s t Ht) by (reflexivity || discriminate).
  unfold onStatus. rewrite Hst. reflexivity.
Qed.

(** The task while the Verifier is asked, and after a line is logged. *)
Lemma verifying_task log1 log2 n s t :
  currentTask s = Some t ->
  let s' := logged log2
              (set_calls n (logged log1 (statusSet VERIFYING None s))) in
  currentTask s'
  = Some (set_scratchpad (scratchpad t ++ [log1; log2])
            (set_status VERIFYING t)) /\
  calls s' = n /\ local s' = local s /\ timers s' = timers s /\
  taskRef s' = taskRef s /\ unawaited s' = unawaited s.
Proof.
  intros Ht. cbv zeta. unfold statusSet, logged, notified. rewrite Ht.
  cbn [truthy]. fields. rewrite <- app_assoc. repeat split.
Qed.

(** A world that differs by what its Verifier answers. *)
Definition with_verifier (answer : nat -> string -> Outcome VerifierDecision)
    (W : World) : World :=
  {| Date_now := Date_now W;
     Math_random := Math_random W;
     AES_encrypt := AES_encrypt W;
     AES_decrypt := AES_decrypt W;
     PBKDF2 := PBKDF2 W;
     JSON_stringify := JSON_stringify W;
     String_of := String_of W;
     URL_hostname := URL_hostname W;
     geolocation := geolocation W;
     newTaskUrl := newTaskUrl W;
     triage_call := triage_call W;
     researcher_call := researcher_call W;
     planner_call := planner_call W;
     manager_call := manager_call W;
     verifier_call := answer;
     presenter_call := presenter_call W;
     teacher_call := teacher_call W;
     relevant_tool := relevant_tool W;
     tabs_get := tabs_get W;
     tabs_create := tabs_create W;
     tabs_update := tabs_update W;
     tabs_query := tabs_query W;
     tabs_query_active := tabs_query_active W;
     observation := observation W;
     execute_on_page := execute_on_page W;
     searchPage := searchPage W |}.

(** Claim C10.  For a decision that needs verification and carries a URL,
    handled by the orchestrator itself.  When the Verifier call is rejected
    the verdict is the fail-open one and [handleAction] carries the action
    out as after a successful verification, and so it does for every verdict
    that does not veto.  A verdict vetoes when it is truthy and its
    [is_safe] is falsy, missing included, so not only when it says
    [is_safe = false].  After a veto the action is not carried out, and the
    [ACTION_FAILED] dispatched in its place is dropped: [handleAction]
    returns with the task in [VERIFYING], its failure count, failure tally,
    last failed action, step and turn as they were, and nothing asked of the
    world but the verdict. *)
Theorem C10_verifier_verdicts (W : World) (fuel : nat)
    (d : ManagerDecision) (a : Action) (s : Store) (t : AgentState) :
  currentTask s = Some t -> action d = Some a ->
  needsVerification d = true -> truthy (url d) = true ->
  let self := agentOrchestrator W (S fuel) in
  let asked :=
    logged ("Verifying URL: " +:+ show (url d)) (statusSet VERIFYING None s) in
  let answered := set_calls (S (calls s)) asked in
  let proceeds :=
    (addToScratchpad "Verification successful. Proceeding with action." ;;
     performAction W self d a) answered in
  (forall e, verifier_call W (calls s) (show (url d)) = Rejected e ->
     getVerifierDecision W (show (url d)) asked = Return failOpen answered /\
     handleAction W self d s = proceeds) /\
  (forall v, verifier_call W (calls s) (show (url d)) = Resolved v ->
     (vetoes v = false -> handleAction W self d s = proceeds) /\
     (vetoes v = true ->
      let blocked :=
        logged ("Security Alert: Navigation to " +:+ show (url d)
                +:+ " blocked. Reason: " +:+ template W (field "reason" v))
          answered in
      handleAction W self d s = Return tt blocked /\
      calls blocked = S (calls s) /\ local blocked = local s /\
      timers blocked = timers s /\
      exists t', currentTask blocked = Some t' /\ status t' = VERIFYING /\
        stepFailureCount t' = stepFailureCount t /\
        websiteFailures t' = websiteFailures t /\
        lastFailedAction t' = lastFailedAction t /\
        currentStep t' = currentStep t /\ turn t' = turn t)) /\
  (vetoes failOpen = false /\ vetoes JNull = false /\
   (forall why,
      vetoes (JObj [("is_safe", JBool false); ("reason", JStr why)]) = true) /\
   (forall fields,
      field "is_safe" (JObj fields) = None -> vetoes (JObj fields) = true) /\
   (forall v, vetoes v = true <->
      json_truthy v = true /\ field_truthy "is_safe" v = false)).
Proof.
  intros Ht Ha Hneeds Hurl self asked answered proceeds.
  pose proof (handleAction_verifies W self d a s t Ht Ha Hneeds Hurl) as H.
  cbv zeta in H. fold asked answered in H.
  split; [|split].
  - intros e He. rewrite He in H. split; [|exact H].
    rewrite getVerifierDecision_eq. subst asked.
    rewrite calls_logged, calls_statusSet, He. reflexivity.
  - intros v Hv. rewrite Hv in H. split; intros Hveto; rewrite Hveto in H;
      [exact H|].
    cbv zeta.
    set (alert := "Security Alert: Navigation to " +:+ show (url d)
                  +:+ " blocked. Reason: " +:+ template W (field "reason" v))
      in *.
    destruct (verifying_task ("Verifying URL: " +:+ show (url d)) alert
                (S (calls s)) s t Ht)
      as (Htask & Hcalls & Hlocal & Htimers & _).
    fold asked answered in Htask, Hcalls, Hlocal, Htimers.
    split.
    + rewrite H, (bind_eq _ _ _ _ _ (addToScratchpad_eq _ _)).
      apply (failure_while_verifying_is_dropped W fuel _ _ _ Htask).
      reflexivity.
    + repeat (split; [assumption|]).
      eexists. split; [exact Htask|]. repeat split.
  - split; [reflexivity|]. split; [reflexivity|].
    split; [intros; reflexivity|]. split.
    + intros fields Hnone. unfold vetoes, field_truthy. rewrite Hnone.
      reflexivity.
    + intros v. unfold vetoes. rewrite andb_true_iff, negb_true_iff.
      reflexivity.
Qed.

Example C10_verifier_verdicts_witness :
  let d := with_action GOTO None
             {| thought := "go"; action := None; tabName := None;
                selector := None; text := None;
                url := Some "https://kayak.com"; answer := None;
                reason := None; duration := None; query := None;
                value := None |} in
  let s := storeOf (exampleTask THINKING ["a"] 0 0) in
  handleAction clickWorld (agentOrchestrator clickWorld 1) d s
  = (addToScratchpad "Verification successful. Proceeding with action." ;;
     performAction clickWorld (agentOrchestrator clickWorld 1) d GOTO)
      (set_calls 1
         (logged "Verifying URL: https://kayak.com"
            (statusSet VERIFYING None s))).
Proof.
  intros d s.
  destruct (C10_verifier_verdicts clickWorld 0 d GOTO s
              (exampleTask THINKING ["a"] 0 0)
              eq_refl eq_refl eq_refl eq_refl) as (H & _).
  exact (proj2 (H (mkError "503") eq_refl)).
Defined.

(** A navigation the Verifier blocks, beside the same action failing on the
    page.  The first leaves the task in [VERIFYING] with no failure counted
    and no turn to come; the second counts the failure and takes the next
    turn.  A verdict without [is_safe] blocks as well. *)
Example C10_blocked_navigation_is_not_counted :
  let d := with_action GOTO None
             {| thought := "go"; action := None; tabName := None;
                selector := None; text := None;
                url := Some "https://kayak.example"; answer := None;
                reason := None; duration := None; query := None;
                value := None |} in
  let unsafe := fun (_ : nat) (_ : string) =>
    Resolved (JObj [("is_safe", JBool false); ("reason", JStr "phishing")]) in
  let unsaid := fun (_ : nat) (_ : string) => Resolved (JObj []) in
  let s := storeOf (exampleTask THINKING ["a"; "b"] 0 0) in
  let seen (r : Result unit) :=
    (fun t => (status t, stepFailureCount t, turn t, last (scratchpad t)))
      <$> currentTask (final r) in
  seen (handleAction (with_verifier unsafe clickWorld)
          (agentOrchestrator (with_verifier unsafe clickWorld) 3) d s)
  = Some (VERIFYING, 0, 0,
          Some "Security Alert: Navigation to https://kayak.example blocked. Reason: phishing") /\
  seen (handleAction (with_verifier unsaid clickWorld)
          (agentOrchestrator (with_verifier unsaid clickWorld) 3) d s)
  = Some (VERIFYING, 0, 0,
          Some "Security Alert: Navigation to https://kayak.example blocked. Reason: undefined") /\
  (fun t => (stepFailureCount t, turn t))
    <$> currentTask
          (after clickWorld 3 (ACTION_FAILED (Some d))
             (storeOf (exampleTask EXECUTING ["a"; "b"] 0 0)))
  = Some (1, 1).
Proof. vm_compute. repeat split. Qed.

(** ** Starting a task *)

(** [saveHistoricalTask] always returns, and touches the history only. *)
Lemma saveHistoricalTask_spec W g s :
  exists s', saveHistoricalTask W g s = Return tt s' /\
    currentTask s' = currentTask s /\ taskRef s' = taskRef s /\
    allocated s' = allocated s /\
    pendingCredentialValue s' = pendingCredentialValue s /\
    beachdai_secure_vault (local s') = beachdai_secure_vault (local s) /\
    (is_blank g = false ->
     existsb (fun task => String.eqb (goal task) g)
       (historicalTasks (local s')) = true).
Proof.
  unfold saveHistoricalTask. destruct (is_blank g) eqn:Hg.
  - exists s. repeat split; auto. discriminate.
  - unfold bind at 1, get at 1.
    destruct (existsb _ (historicalTasks (local s))) eqn:E.
    + exists s. auto 10.
    + eexists. split; [reflexivity|]. fields. repeat split.
      intros _. apply archived_head.
Qed.

(** The first statement of [handleStartTask]. *)
Definition archivePrior (W : World) (prior : option AgentState) : M unit :=
  match prior with
  | Some prior =>
      if decide (status prior = USER_INPUT_PENDING)
      then saveHistoricalTask W (originalGoal prior)
      else ret tt
  | None => ret tt
  end.

Lemma archivePrior_spec W o s :
  exists s', archivePrior W o s = Return tt s' /\
    currentTask s' = currentTask s /\ taskRef s' = taskRef s /\
    allocated s' = allocated s /\
    pendingCredentialValue s' = pendingCredentialValue s /\
    beachdai_secure_vault (local s') = beachdai_secure_vault (local s) /\
    (forall prior, o = Some prior -> status prior = USER_INPUT_PENDING ->
       is_blank (originalGoal prior) = false ->
       existsb (fun task => String.eqb (goal task) (originalGoal prior))
         (historicalTasks (local s')) = true) /\
    ((forall prior, o = Some prior -> status prior <> USER_INPUT_PENDING) ->
     s' = s).
Proof.
  destruct o as [prior|]; cbn [archivePrior].
  - destruct (decide (status prior = USER_INPUT_PENDING)) as [Hp|Hp].
    + destruct (saveHistoricalTask_spec W (originalGoal prior) s)
        as (s' & E & H1 & H2 & H3 & H4 & H5 & H6).
      exists s'. repeat (split; [assumption|]). split.
      * intros ? [= <-] _ Hb. auto.
      * intros Hno. destruct (Hno prior eq_refl Hp).
    + exists s. repeat (split; [reflexivity|]). split; [|reflexivity].
      intros ? [= <-] Hst. contradiction.
  - exists s. repeat (split; [reflexivity|]). split; [|reflexivity].
    intros ? [=].
Qed.

(** [handleStartTask] up to its [try]: the prior goal is archived if the
    prior task was awaiting user input, and a new task object replaces the
    current one. *)
Lemma replaceTask_spec W g s :
  exists s1 t1,
    replaceTask W g s = Return tt s1 /\
    currentTask s1 = Some t1 /\
    originalGoal t1 = g /\ status t1 = RESEARCHING /\
    plan t1 = [] /\ currentStep t1 = 0 /\ websiteFailures t1 = ∅ /\
    taskRef s1 = allocated s /\ allocated s1 = S (allocated s) /\
    pendingCredentialValue s1 = pendingCredentialValue s /\
    beachdai_secure_vault (local s1) = beachdai_secure_vault (local s) /\
    (forall prior, currentTask s = Some prior ->
       status prior = USER_INPUT_PENDING ->
       is_blank (originalGoal prior) = false ->
       existsb (fun task => String.eqb (goal task) (originalGoal prior))
         (historicalTasks (local s1)) = true) /\
    ((forall prior, currentTask s = Some prior ->
        status prior <> USER_INPUT_PENDING) ->
     local s1 = local s).
Proof.
  unfold replaceTask. unfold bind at 1, get at 1.
  destruct (archivePrior_spec W (currentTask s) s)
    as (s' & E & _ & _ & Ha & Hp & Hv & Harch & Hsame).
  change (match currentTask s with
          | Some prior =>
              if decide (status prior = USER_INPUT_PENDING)
              then saveHistoricalTask W (originalGoal prior)
              else ret tt
          | None => ret tt
          end) with (archivePrior W (currentTask s)).
  rewrite (bind_eq _ _ _ _ _ E).
  unfold bind, ask, modify. rewrite updateUI_eq. unfold notified. fields.
  eexists _, _. split; [reflexivity|]. fields. rewrite Ha.
  repeat (split; [first [reflexivity | assumption]|]).
  intros Hno. rewrite (Hsame Hno). reflexivity.
Qed.

Section Starting.

Variable W : World.
Variable self : AgentEvent -> M unit.
Hypothesis self_respects :
  forall e, internal e = true -> respects turn_rel (self e).

Let Hrefl := turn_rel_refl.
Let Htrans := turn_rel_trans.
Let Hlog := addToScratchpad_turn.

(** The research phase works on the task it finds: same object, same
    goal. *)
Lemma researchTask_turn g : respects turn_rel (researchTask W self g).
Proof. resp leaf_turn. Qed.

End Starting.

Lemma dispatchAll_app W fuel es es' s :
  dispatchAll W fuel (es ++ es') s
  = dispatchAll W fuel es' (dispatchAll W fuel es s).
Proof.
  revert s. induction es as [|e es IH]; intros s; [reflexivity|].
  cbn [dispatchAll app]. apply IH.
Qed.

Lemma start_task_eq W fuel g s :
  agentOrchestrator W (S fuel) (START_TASK g) s
  = (replaceTask W g ;; researchTask W (agentOrchestrator W fuel) g) s.
Proof. reflexivity. Qed.

(** After [START_TASK g] the active task is the new object, for goal [g]. *)
Lemma start_task_active W fuel g s :
  exists t, currentTask (after W (S fuel) (START_TASK g) s) = Some t /\
    originalGoal t = g /\
    taskRef (after W (S fuel) (START_TASK g) s) = allocated s.
Proof.
  unfold after. rewrite start_task_eq.
  destruct (replaceTask_spec W g s)
    as (s1 & t1 & E & Ht1 & Hg1 & _ & _ & _ & _ & Href & _).
  rewrite (bind_eq _ _ _ _ _ E).
  pose proof (researchTask_turn W (agentOrchestrator W fuel)
                (agentOrchestrator_turn W fuel) g s1) as (_ & Hr & Hrel).
  rewrite Ht1 in Hrel.
  destruct (currentTask (final _)) as [t2|]; [|contradiction].
  exists t2. destruct Hrel as (Hg & _). split; [reflexivity|].
  split; congruence.
Qed.

(** A world in which every decision call and every browser call is
    rejected. *)
Definition offlineWorld : World :=
  {| Date_now := fun n => 1000 + n;
     Math_random := fun _ => "k3y";
     AES_encrypt := fun v k => "aes(" +:+ v +:+ ")";
     AES_decrypt := fun c k => Resolved CHECK_STRING;
     PBKDF2 := fun p salt => p +:+ salt;
     JSON_stringify := fun _ => "[]";
     String_of := fun _ => "[object Object]";
     URL_hostname := fun _ => None;
     geolocation := fun _ => GeolocationUnavailable None;
     newTaskUrl := fun _ => "https://www.google.com";
     triage_call := fun _ _ => Rejected (mkError "offline");
     researcher_call := fun _ _ _ => Rejected (mkError "offline");
     planner_call := fun _ _ => Rejected (mkError "offline");
     manager_call := fun _ _ _ _ => Rejected (mkError "offline");
     verifier_call := fun _ _ => Rejected (mkError "offline");
     presenter_call := fun _ _ _ _ => Rejected (mkError "offline");
     teacher_call := fun _ _ _ => Rejected (mkError "offline");
     relevant_tool := fun _ _ _ => None;
     tabs_get := fun _ _ => Rejected (mkError "offline");
     tabs_create := fun _ _ => Rejected (mkError "offline");
     tabs_update := fun _ _ => Rejected (mkError "offline");
     tabs_query := fun _ => Rejected (mkError "offline");
     tabs_query_active := fun _ => Rejected (mkError "offline");
     observation := fun _ _ => TimedOut;
     execute_on_page := fun _ _ _ => Rejected (mkError "offline");
     searchPage := fun _ _ _ => Rejected (mkError "offline") |}.

(** Claim C5 (as the code has it).  [START_TASK g] archives the goal of
    the prior task when that task was in [USER_INPUT_PENDING], and in no
    other status, then replaces the task by a new object for [g] in
    [RESEARCHING], on which the research phase runs; when the event has been
    handled the active task is that object, and after any sequence of
    [START_TASK] events the active task is the one for the last goal. *)
Theorem C5_start_task (W : World) (fuel : nat) (g : string) (s : Store) :
  (exists s1 t1,
     replaceTask W g s = Return tt s1 /\
     currentTask s1 = Some t1 /\ originalGoal t1 = g /\
     status t1 = RESEARCHING /\ plan t1 = [] /\ currentStep t1 = 0 /\
     taskRef s1 = allocated s /\ allocated s1 = S (allocated s) /\
     (forall prior, currentTask s = Some prior ->
        status prior = USER_INPUT_PENDING ->
        is_blank (originalGoal prior) = false ->
        existsb (fun task => String.eqb (goal task) (originalGoal prior))
          (historicalTasks (local s1)) = true) /\
     ((forall prior, currentTask s = Some prior ->
         status prior <> USER_INPUT_PENDING) ->
      local s1 = local s) /\
     agentOrchestrator W (S fuel) (START_TASK g) s
     = researchTask W (agentOrchestrator W fuel) g s1) /\
  (exists t,
     currentTask (after W (S fuel) (START_TASK g) s) = Some t /\
     originalGoal t = g /\
     taskRef (after W (S fuel) (START_TASK g) s) = allocated s) /\
  (forall goals : list string,
     exists t,
       currentTask
         (dispatchAll W (S fuel) (START_TASK <$> (goals ++ [g])%list) s)
       = Some t /\
       originalGoal t = g).
Proof.
  split; [|split].
  - destruct (replaceTask_spec W g s)
      as (s1 & t1 & E & Ht1 & Hg & Hst & Hp & Hc & _ & Hr & Ha & _ & _
          & Harch & Hsame).
    exists s1, t1. repeat (split; [assumption|]).
    rewrite start_task_eq. rewrite (bind_eq _ _ _ _ _ E). reflexivity.
  - apply start_task_active.
  - intros goals. rewrite fmap_app, dispatchAll_app. cbn [fmap list_fmap dispatchAll].
    destruct (start_task_active W fuel g
                (dispatchAll W (S fuel) (START_TASK <$> goals) s))
      as (t & Ht & Hg & _).
    exists t. split; assumption.
Qed.

(** A task that is executing, replaced by [START_TASK]: its goal is not
    archived. *)
Example C5_executing_task_is_not_archived :
  let s := storeOf (exampleTask EXECUTING ["a"; "b"] 1 0) in
  exists s',
    agentOrchestrator offlineWorld 1 (START_TASK "buy milk") s = Return tt s' /\
    originalGoal <$> currentTask s' = Some "buy milk" /\
    historicalTasks (local s') = [].
Proof. vm_compute. eexists. repeat split. Qed.

(** ** The credential vault *)

Lemma vault_rel_refl s : vault_rel s s.
Proof. reflexivity. Qed.

Lemma vault_rel_trans a b c : vault_rel a b -> vault_rel b c -> vault_rel a c.
Proof. unfold vault_rel. congruence. Qed.

Lemma turn_rel_vault s s' : turn_rel s s' -> vault_rel s s'.
Proof. intros (H & _). exact H. Qed.

Ltac leaf_vault :=
  intros; unfold vault_rel; fields; try reflexivity.

Section Vault.

Variable W : World.
Variable self : AgentEvent -> M unit.
Hypothesis self_vault :
  forall e, internal e = true -> respects vault_rel (self e).

Let Hrefl := vault_rel_refl.
Let Htrans := vault_rel_trans.

Lemma addToScratchpad_vault log : respects vault_rel (addToScratchpad log).
Proof. resp leaf_vault. Qed.

Lemma updateTaskStatus_vault st why :
  respects vault_rel (updateTaskStatus st why).
Proof. pose proof addToScratchpad_vault. resp leaf_vault. Qed.

Lemma handleStuckState_vault b : respects vault_rel (handleStuckState W self b).
Proof.
  pose proof addToScratchpad_vault. pose proof updateTaskStatus_vault.
  resp leaf_vault.
Qed.

Lemma saveHistoricalTask_vault g : respects vault_rel (saveHistoricalTask W g).
Proof. resp leaf_vault. Qed.

Lemma saveCompletedTask_vault : respects vault_rel (saveCompletedTask W).
Proof. resp leaf_vault. Qed.

Lemma handleStartTask_vault g : respects vault_rel (handleStartTask W self g).
Proof.
  pose proof addToScratchpad_vault. pose proof updateTaskStatus_vault.
  pose proof saveHistoricalTask_vault.
  resp leaf_vault.
Qed.

Lemma handleStopTask_vault : respects vault_rel (handleStopTask W).
Proof.
  pose proof addToScratchpad_vault. pose proof updateTaskStatus_vault.
  pose proof saveHistoricalTask_vault.
  resp leaf_vault.
Qed.

Lemma handleUnlockVault_vault p : respects vault_rel (handleUnlockVault W self p).
Proof.
  pose proof addToScratchpad_vault. pose proof updateTaskStatus_vault.
  resp leaf_vault.
Qed.

Lemma handleStopTeaching_vault : respects vault_rel (handleStopTeaching W).
Proof.
  pose proof addToScratchpad_vault. pose proof updateTaskStatus_vault.
  pose proof saveCompletedTask_vault.
  resp leaf_vault.
Qed.

(** Every event from outside but [SAVE_CREDENTIAL] leaves the vault as it
    is. *)
Lemma external_vault e :
  internal e = false -> (forall name, e <> SAVE_CREDENTIAL name) ->
  respects vault_rel (orchestrate W self e).
Proof.
  pose proof addToScratchpad_vault. pose proof updateTaskStatus_vault.
  pose proof handleStuckState_vault. pose proof handleStartTask_vault.
  pose proof handleStopTask_vault. pose proof handleUnlockVault_vault.
  pose proof handleStopTeaching_vault.
  intros Hext Hne.
  destruct e; try discriminate Hext; try (destruct (Hne _ eq_refl));
    unfold orchestrate; resp leaf_vault.
Qed.

End Vault.

Lemma agentOrchestrator_vault W fuel e :
  (forall name, e <> SAVE_CREDENTIAL name) ->
  respects vault_rel (agentOrchestrator W fuel e).
Proof.
  intros Hne. destruct fuel as [|fuel]; [intros s; reflexivity|].
  destruct (internal e) eqn:Hint.
  - intros s. apply turn_rel_vault, (agentOrchestrator_turn W (S fuel) e Hint).
  - cbn [agentOrchestrator]. apply external_vault; try assumption.
    intros e' He' s. apply turn_rel_vault, (agentOrchestrator_turn W fuel e' He').
Qed.

(** The condition under which [handleSaveCredential] stores the pending
    value. *)
Definition savesCredential (s : Store) : bool :=
  match currentTask s, pendingCredentialValue s with
  | Some t, Some pending =>
      bool_decide (status t = AWAITING_CREDENTIAL_NAME)
      && negb (String.eqb pending "")
  | _, _ => false
  end.

Lemma logged_frame log s :
  local (logged log s) = local s /\
  pendingCredentialValue (logged log s) = pendingCredentialValue s /\
  beachdai_session_key (logged log s) = beachdai_session_key s /\
  taskRef (logged log s) = taskRef s.
Proof.
  unfold logged, notified. destruct (currentTask s); fields; auto.
Qed.

Lemma statusSet_frame st why s :
  local (statusSet st why s) = local s /\
  pendingCredentialValue (statusSet st why s) = pendingCredentialValue s.
Proof.
  unfold statusSet. destruct (currentTask s) eqn:E; [|auto]. cbv zeta.
  destruct (truthy why); unfold logged, notified; fields; auto.
Qed.

(** [SAVE_CREDENTIAL] outside its condition only logs a warning. *)
Lemma save_refused W fuel name s :
  savesCredential s = false ->
  exists log,
    agentOrchestrator W (S fuel) (SAVE_CREDENTIAL name) s
    = Return tt (logged log s).
Proof.
  intros Hno. cbn [agentOrchestrator orchestrate].
  unfold handleSaveCredential. unfold bind at 1, get at 1.
  unfold savesCredential in Hno.
  destruct (currentTask s) as [t|], (pendingCredentialValue s) as [pending|];
    try rewrite Hno; eexists; apply addToScratchpad_eq.
Qed.

Lemma bind_throw {A B} (m : M A) (k : A -> M B) s e s' :
  m s = Throw e s' -> bind m k s = Throw e s'.
Proof. intros E. unfold bind. rewrite E. reflexivity. Qed.

Lemma try_catch_return {A} (m : M A) (h : JsError -> M A) s a s' :
  m s = Return a s' -> try_catch m h s = Return a s'.
Proof. intros E. unfold try_catch. rewrite E. reflexivity. Qed.

Lemma try_catch_throw {A} (m : M A) (h : JsError -> M A) s e s' :
  m s = Throw e s' -> try_catch m h s = h e s'.
Proof. intros E. unfold try_catch. rewrite E. reflexivity. Qed.

Lemma encryptAndSaveCredential_unlocked W name v s key :
  beachdai_session_key s = Some key -> String.eqb key "" = false ->
  let credentialId :=
    "cred-" +:+ pretty (Date_now W (calls s)) +:+ "-"
    +:+ Math_random W (S (calls s)) in
  encryptAndSaveCredential W name v s
  = Return ("{{VAULT_CREDENTIAL." +:+ credentialId +:+ "}}")
      (set_local
         (set_secure_vault
            (Some (<[credentialId := (name, AES_encrypt W v key)]>
                     (default ∅ (beachdai_secure_vault (local s)))))
            (local s))
         (set_calls (S (S (calls s))) s)).
Proof.
  intros Hk Hkey. cbv zeta.
  unfold encryptAndSaveCredential, getSessionKey, bind, get, ret, ask, modify,
    truthy.
  rewrite Hk, Hkey. reflexivity.
Qed.

Lemma encryptAndSaveCredential_locked W name v s :
  truthy (beachdai_session_key s) = false ->
  encryptAndSaveCredential W name v s
  = Throw (mkError "Vault is locked. Please unlock it first.") s.
Proof.
  intros Hk. unfold encryptAndSaveCredential, getSessionKey, bind, get, ret.
  rewrite Hk. reflexivity.
Qed.

Lemma handleSaveCredential_accepts W self name s t v :
  currentTask s = Some t -> status t = AWAITING_CREDENTIAL_NAME ->
  pendingCredentialValue s = Some v -> String.eqb v "" = false ->
  handleSaveCredential W self name s
  = try_catch
      (placeholder <- encryptAndSaveCredential W name v ;;
       addToScratchpad
         ("User saved a credential named " +:+ dq +:+ name +:+ dq
          +:+ ". The agent can now use the placeholder: " +:+ placeholder) ;;
       modify (set_pendingCredentialValue None) ;;
       self RUN_NEXT_TURN)
      (fun error =>
         addToScratchpad ("Error saving credential: " +:+ message error) ;;
         updateTaskStatus FAILED
           (Some ("Could not save credential: " +:+ message error))) s.
Proof.
  intros Ht Hst Hp Hv. unfold handleSaveCredential.
  unfold bind at 1, get at 1. rewrite Ht, Hp, Hst, Hv.
  rewrite bool_decide_eq_true_2 by reflexivity. reflexivity.
Qed.

(** [SAVE_CREDENTIAL] under its condition, the vault unlocked: the value
    goes into the vault encrypted under the session key, and the slot is
    cleared. *)
Lemma save_accepted W fuel name s t v key :
  currentTask s = Some t -> status t = AWAITING_CREDENTIAL_NAME ->
  pendingCredentialValue s = Some v -> String.eqb v "" = false ->
  beachdai_session_key s = Some key -> String.eqb key "" = false ->
  exists s',
    agentOrchestrator W (S (S fuel)) (SAVE_CREDENTIAL name) s = Return tt s' /\
    pendingCredentialValue s' = None /\
    beachdai_secure_vault (local s')
    = Some (<["cred-" +:+ pretty (Date_now W (calls s)) +:+ "-"
              +:+ Math_random W (S (calls s))
              := (name, AES_encrypt W v key)]>
              (default ∅ (beachdai_secure_vault (local s)))).
Proof.
  intros Ht Hst Hp Hv Hk Hkey.
  change (agentOrchestrator W (S (S fuel)) (SAVE_CREDENTIAL name) s)
    with (handleSaveCredential W (agentOrchestrator W (S fuel)) name s).
  rewrite (handleSaveCredential_accepts _ _ _ _ _ _ Ht Hst Hp Hv).
  pose proof (encryptAndSaveCredential_unlocked W name v s key Hk Hkey) as E.
  cbv zeta in E.
  eexists. split.
  - apply try_catch_return.
    rewrite (bind_eq _ _ _ _ _ E).
    rewrite (bind_eq _ _ _ _ _ (addToScratchpad_eq _ _)).
    unfold bind at 1, modify at 1.
    eapply run_next_turn_skipped.
    + unfold logged, notified. fields. rewrite Ht. fields. reflexivity.
    + fields. rewrite Hst. reflexivity.
  - fields. destruct (logged_frame
      ("User saved a credential named " +:+ dq +:+ name +:+ dq
       +:+ ". The agent can now use the placeholder: "
       +:+ "{{VAULT_CREDENTIAL." +:+
       ("cred-" +:+ pretty (Date_now W (calls s)) +:+ "-"
        +:+ Math_random W (S (calls s))) +:+ "}}")
      (set_local
         (set_secure_vault
            (Some (<["cred-" +:+ pretty (Date_now W (calls s)) +:+ "-"
                     +:+ Math_random W (S (calls s))
                     := (name, AES_encrypt W v key)]>
                     (default ∅ (beachdai_secure_vault (local s)))))
            (local s))
         (set_calls (S (S (calls s))) s))) as (Hl & _).
    split; [reflexivity|]. rewrite Hl. reflexivity.
Qed.

(** With the vault locked the save fails: nothing is stored, and the value
    stays in the slot. *)
Lemma save_locked W fuel name s t v :
  currentTask s = Some t -> status t = AWAITING_CREDENTIAL_NAME ->
  pendingCredentialValue s = Some v -> String.eqb v "" = false ->
  truthy (beachdai_session_key s) = false ->
  exists s' t',
    agentOrchestrator W (S fuel) (SAVE_CREDENTIAL name) s = Return tt s' /\
    currentTask s' = Some t' /\ status t' = FAILED /\
    pendingCredentialValue s' = Some v /\ local s' = local s.
Proof.
  intros Ht Hst Hp Hv Hk.
  change (agentOrchestrator W (S fuel) (SAVE_CREDENTIAL name) s)
    with (handleSaveCredential W (agentOrchestrator W fuel) name s).
  rewrite (handleSaveCredential_accepts _ _ _ _ _ _ Ht Hst Hp Hv).
  rewrite (try_catch_throw _ _ _ _ _
             (bind_throw _ _ _ _ _ (encryptAndSaveCredential_locked W name v s Hk))).
  rewrite (bind_eq _ _ _ _ _ (addToScratchpad_eq _ _)).
  rewrite updateTaskStatus_eq.
  set (s1 := logged _ s).
  assert (H1 : exists t1, currentTask s1 = Some t1).
  { subst s1. unfold logged, notified. rewrite Ht. fields. eauto. }
  destruct H1 as (t1 & Ht1).
  destruct (statusSet_spec FAILED
              (Some ("Could not save credential: "
                     +:+ message (mkError "Vault is locked. Please unlock it first.")))
              s1 t1 Ht1) as (t' & Ht' & Hst' & _ & _ & _ & Hl & Hpend).
  exists (statusSet FAILED
            (Some ("Could not save credential: "
                   +:+ message (mkError "Vault is locked. Please unlock it first.")))
            s1), t'.
  split; [reflexivity|]. split; [exact Ht'|]. split; [exact Hst'|].
  rewrite Hl, Hpend. subst s1.
  destruct (logged_frame
              ("Error saving credential: "
               +:+ message (mkError "Vault is locked. Please unlock it first.")) s)
    as (-> & -> & _). auto.
Qed.

(** Claim C1 (as the code has it).  For a task awaiting a credential name,
    the captured value [v] in the pending slot: no event but
    [SAVE_CREDENTIAL] changes the vault; [SAVE_CREDENTIAL] outside its
    condition changes neither storage nor the slot; under its condition and
    with the vault unlocked it stores [v] encrypted under the session key
    and clears the slot, and with the vault locked it stores nothing and
    keeps the slot.  Stopping or resetting the task, or replacing it by a
    new one, leaves [v] in the slot: the value is not discarded. *)
Theorem C1_pending_credential (W : World) (fuel : nat) (name g : string)
    (s : Store) (t : AgentState) (v : string) :
  currentTask s = Some t -> status t = AWAITING_CREDENTIAL_NAME ->
  pendingCredentialValue s = Some v -> String.eqb v "" = false ->
  (forall e n s0, (forall name0, e <> SAVE_CREDENTIAL name0) ->
     beachdai_secure_vault (local (after W n e s0))
     = beachdai_secure_vault (local s0)) /\
  (forall s0, savesCredential s0 = false ->
     local (after W (S fuel) (SAVE_CREDENTIAL name) s0) = local s0 /\
     pendingCredentialValue (after W (S fuel) (SAVE_CREDENTIAL name) s0)
     = pendingCredentialValue s0) /\
  (forall key, beachdai_session_key s = Some key -> String.eqb key "" = false ->
     exists s',
       agentOrchestrator W (S (S fuel)) (SAVE_CREDENTIAL name) s = Return tt s' /\
       pendingCredentialValue s' = None /\
       beachdai_secure_vault (local s')
       = Some (<["cred-" +:+ pretty (Date_now W (calls s)) +:+ "-"
                 +:+ Math_random W (S (calls s))
                 := (name, AES_encrypt W v key)]>
                 (default ∅ (beachdai_secure_vault (local s))))) /\
  (truthy (beachdai_session_key s) = false ->
     exists s',
       agentOrchestrator W (S fuel) (SAVE_CREDENTIAL name) s = Return tt s' /\
       pendingCredentialValue s' = Some v /\ local s' = local s) /\
  pendingCredentialValue (after W (S fuel) STOP_TASK s) = Some v /\
  pendingCredentialValue (after W (S fuel) RESET_TASK_SESSION s) = Some v /\
  (exists s1 t1,
     replaceTask W g s = Return tt s1 /\ currentTask s1 = Some t1 /\
     status t1 = RESEARCHING /\ pendingCredentialValue s1 = Some v).
Proof.
  intros Ht Hst Hp Hv.
  split; [|split; [|split; [|split; [|split; [|split]]]]].
  - intros e n s0 Hne. apply (agentOrchestrator_vault W n e Hne).
  - intros s0 Hno. unfold after.
    destruct (save_refused W fuel name s0 Hno) as (log & ->). cbn [final].
    destruct (logged_frame log s0) as (Hl & Hpend & _). auto.
  - intros key Hk Hkey. exact (save_accepted W fuel name s t v key Ht Hst Hp Hv Hk Hkey).
  - intros Hk.
    destruct (save_locked W fuel name s t v Ht Hst Hp Hv Hk)
      as (s' & t' & E & _ & _ & Hpend & Hl).
    exists s'. auto.
  - unfold after.
    destruct (stop_present W fuel s t Ht) as (s' & -> & _ & _ & _ & _ & _ & Hpend).
    cbn [final]. congruence.
  - unfold after.
    destruct (reset_present W fuel s t Ht) as (s' & -> & _ & _ & _ & _ & Hpend).
    cbn [final]. congruence.
  - destruct (replaceTask_spec W g s)
      as (s1 & t1 & E & Ht1 & _ & Hst1 & _ & _ & _ & _ & _ & Hpend & _).
    exists s1, t1. repeat (split; [assumption|]). congruence.
Qed.

(** A task awaiting the name of the credential "hunter2", the vault
    unlocked under the key "k". *)
Definition awaitingStore : Store :=
  set_session_key (Some "k")
    (set_pendingCredentialValue (Some "hunter2")
       (storeOf (exampleTask AWAITING_CREDENTIAL_NAME ["a"; "b"] 0 0))).

Example C1_pending_credential_witness :
  exists s',
    agentOrchestrator clickWorld 2 (SAVE_CREDENTIAL "bank") awaitingStore
    = Return tt s' /\
    pendingCredentialValue s' = None /\
    beachdai_secure_vault (local s')
    = Some {["cred-1000-k3y" := ("bank", "aes(hunter2)")]}.
Proof.
  destruct (C1_pending_credential clickWorld 0 "bank" "buy milk" awaitingStore
              (exampleTask AWAITING_CREDENTIAL_NAME ["a"; "b"] 0 0) "hunter2"
              eq_refl eq_refl eq_refl eq_refl)
    as (_ & _ & H & _).
  destruct (H "k" eq_refl eq_refl) as (s' & E & Hp & Hvault).
  exists s'. split; [exact E|]. split; [exact Hp|].
  rewrite Hvault. vm_compute. reflexivity.
Defined.

(** A new task started, and the task stopped, while a name is awaited: the
    captured value is still in the slot afterwards. *)
Example C1_pending_value_is_kept :
  (exists s',
     agentOrchestrator offlineWorld 1 (START_TASK "buy milk") awaitingStore
     = Return tt s' /\
     originalGoal <$> currentTask s' = Some "buy milk" /\
     pendingCredentialValue s' = Some "hunter2") /\
  (exists s',
     agentOrchestrator offlineWorld 1 STOP_TASK awaitingStore = Return tt s' /\
     currentTask s' = None /\
     pendingCredentialValue s' = Some "hunter2").
Proof. vm_compute. split; eexists; repeat split. Qed.

(** ** Replanning and the failure tallies *)

Lemma getUserLocation_eq W s :
  exists loc s1,
    getUserLocation W s = Return loc s1 /\
    (s1 = set_calls (S (calls s)) s \/
     exists log, s1 = logged log (set_calls (S (calls s)) s)).
Proof.
  unfold getUserLocation. unfold bind at 1, ask at 1.
  destruct (geolocation W (calls s)) as [coords|d|d].
  - eexists _, _. split; [reflexivity|]. left. reflexivity.
  - destruct (truthy d).
    + rewrite (bind_eq _ _ _ _ _ (addToScratchpad_eq _ _)).
      eexists _, _. split; [reflexivity|]. right. eauto.
    + eexists _, _. split; [reflexivity|]. left. reflexivity.
  - destruct (truthy d).
    + rewrite (bind_eq _ _ _ _ _ (addToScratchpad_eq _ _)).
      eexists _, _. split; [reflexivity|]. right. eauto.
    + eexists _, _. split; [reflexivity|]. left. reflexivity.
Qed.

(** What a log entry leaves of the task. *)
Lemma logged_task log s t :
  currentTask s = Some t ->
  exists t', currentTask (logged log s) = Some t' /\
    status t' = status t /\ plan t' = plan t /\
    currentStep t' = currentStep t /\
    websiteFailures t' = websiteFailures t /\
    originalGoal t' = originalGoal t.
Proof.
  intros Ht. unfold logged, notified. rewrite Ht. fields.
  eexists. split; [reflexivity|]. fields. auto.
Qed.

(** The prompt of a replan: the tallies are in it when the replan follows a
    failure, and only then. *)
Definition replanPrompt (isUserInitiated : bool) (t : AgentState)
  : PlannerPrompt :=
  if isUserInitiated
  then UserReplanPrompt (originalGoal t) (plan t) (currentStep t + 1)
         (slice_last 10 (scratchpad t))
  else FailureReplanPrompt (originalGoal t) (researchData t) (plan t)
         (currentStep t + 1) (slice_last 10 (scratchpad t))
         (websiteFailures t).

Lemma requestReplan_eq W self isUserInitiated s t :
  currentTask s = Some t ->
  exists s2 t2,
    requestReplan W self isUserInitiated s
    = match
        match planner_call W (S (calls s)) (replanPrompt isUserInitiated t) with
        | Resolved response => response
        | Rejected _ => None
        end
      with
      | Some d => self (REPLAN_COMPLETE (Some d))
      | None => self REPLAN_FAILED
      end s2 /\
    currentTask s2 = Some t2 /\ status t2 = status t /\
    websiteFailures t2 = websiteFailures t.
Proof.
  intros Ht. unfold requestReplan. unfold bind at 1, theTask at 1. rewrite Ht.
  destruct (getUserLocation_eq W s) as (loc & s1 & E & Hs1).
  assert (Hcalls : calls s1 = S (calls s)).
  { destruct Hs1 as [->|(log & ->)]; [reflexivity|apply calls_logged]. }
  assert (Ht1 : exists t1, currentTask s1 = Some t1 /\ status t1 = status t /\
                           websiteFailures t1 = websiteFailures t).
  { destruct Hs1 as [->|(log & ->)]; [exists t; auto|].
    destruct (logged_task log (set_calls (S (calls s)) s) t Ht)
      as (t' & H1 & H2 & _ & _ & H3 & _). eauto. }
  destruct Ht1 as (t1 & Ht1 & Hst1 & Hw1).
  exists (set_calls (S (calls s1)) s1), t1.
  split; [|auto].
  unfold getPlannerDecision, getSimilarCompletedTasks, getPreflightContext,
    bind, get, ret, ask.
  rewrite E, Hcalls. unfold replanPrompt.
  destruct isUserInitiated; cbn [rc_isUserInitiated rc_failedPlan rc_failingStep
    rc_history rc_websiteFailures];
    match goal with
    | |- context [planner_call W ?n ?p] => destruct (planner_call W n p) as [[d|]|e]
    end; reflexivity.
Qed.

(** [REPLAN_COMPLETE] installs the Planner's plan as it came. *)
Lemma replan_complete_installs W fuel p s t :
  currentTask s = Some t -> status t = REPLANNING ->
  exists s3 t3,
    agentOrchestrator W (S fuel) (REPLAN_COMPLETE (Some p)) s
    = agentOrchestrator W fuel RUN_NEXT_TURN s3 /\
    currentTask s3 = Some t3 /\ plan t3 = pd_plan p /\ currentStep t3 = 0 /\
    status t3 = REPLANNING /\ websiteFailures t3 = websiteFailures t.
Proof.
  intros Ht Hst.
  rewrite (dispatch_eq W fuel _ s t Ht) by (reflexivity || discriminate).
  unfold onStatus. rewrite Hst.
  rewrite (bind_eq _ _ _ _ _ (modifyTask_eq _ _ _ Ht)).
  rewrite (bind_eq _ _ _ _ _ (addToScratchpad_eq _ _)).
  set (s1 := logged _ _).
  assert (H1 : exists t1, currentTask s1 = Some t1 /\ plan t1 = pd_plan p /\
             currentStep t1 = 0 /\ status t1 = REPLANNING /\
             websiteFailures t1 = websiteFailures t).
  { subst s1. unfold logged, notified. fields.
    eexists. split; [reflexivity|]. fields. auto. }
  destruct H1 as (t1 & Ht1 & Hp1 & Hc1 & Hst1 & Hw1). clearbody s1.
  rewrite (bind_eq _ _ _ _ _ (modifyTask_eq _ _ _ Ht1)).
  rewrite (bind_eq _ _ _ _ _ (updateUI_eq _)).
  eexists _, _. split; [reflexivity|].
  unfold notified. fields. split; [reflexivity|]. fields. auto.
Qed.

(** Internal events never lower a tally. *)
Lemma tally_kept W fuel e s t host :
  internal e = true -> currentTask s = Some t ->
  exists t', currentTask (after W fuel e s) = Some t' /\
    failure_count host t <= failure_count host t'.
Proof.
  intros Hint Ht.
  destruct (agentOrchestrator_turn W fuel e Hint s) as (_ & _ & Hrel).
  fold (after W fuel e s) in Hrel. rewrite Ht in Hrel.
  destruct (currentTask (after W fuel e s)) as [t'|]; [|contradiction].
  exists t'. split; [reflexivity|]. apply Hrel.
Qed.

(** Claim C9 (as the code has it).  For a task in [REPLANNING] with three
    or more failures on [host]: a replan after a failure shows the Planner
    the tallies (a replan the user asked for does not), and whatever plan
    the Planner answers is dispatched and installed as it is, no step
    checked against the tallies; the tally itself is never lowered by the
    turn loop. *)
Theorem C9_three_strikes (W : World) (fuel : nat) (host : string)
    (p : PlannerDecision) (isUserInitiated : bool) (s : Store)
    (t : AgentState) :
  currentTask s = Some t -> status t = REPLANNING ->
  3 <= failure_count host t ->
  (exists s2 t2,
     requestReplan W (agentOrchestrator W fuel) isUserInitiated s
     = match
         match planner_call W (S (calls s))
                 (if isUserInitiated
                  then UserReplanPrompt (originalGoal t) (plan t)
                         (currentStep t + 1) (slice_last 10 (scratchpad t))
                  else FailureReplanPrompt (originalGoal t) (researchData t)
                         (plan t) (currentStep t + 1)
                         (slice_last 10 (scratchpad t)) (websiteFailures t))
         with
         | Resolved response => response
         | Rejected _ => None
         end
       with
       | Some d => agentOrchestrator W fuel (REPLAN_COMPLETE (Some d))
       | None => agentOrchestrator W fuel REPLAN_FAILED
       end s2 /\
     currentTask s2 = Some t2 /\ status t2 = REPLANNING /\
     3 <= failure_count host t2) /\
  (exists s3 t3,
     agentOrchestrator W (S fuel) (REPLAN_COMPLETE (Some p)) s
     = agentOrchestrator W fuel RUN_NEXT_TURN s3 /\
     currentTask s3 = Some t3 /\ plan t3 = pd_plan p /\ currentStep t3 = 0 /\
     3 <= failure_count host t3) /\
  (forall e n, internal e = true ->
     exists t', currentTask (after W n e s) = Some t' /\
                3 <= failure_count host t').
Proof.
  intros Ht Hst Hthree. split; [|split].
  - destruct (requestReplan_eq W (agentOrchestrator W fuel) isUserInitiated s t Ht)
      as (s2 & t2 & E & Ht2 & Hst2 & Hw2).
    exists s2, t2. split; [exact E|]. split; [exact Ht2|].
    split; [congruence|]. unfold failure_count in *. rewrite Hw2. exact Hthree.
  - destruct (replan_complete_installs W fuel p s t Ht Hst)
      as (s3 & t3 & E & Ht3 & Hp3 & Hc3 & _ & Hw3).
    exists s3, t3. repeat (split; [assumption|]).
    unfold failure_count in *. rewrite Hw3. exact Hthree.
  - intros e n Hint.
    destruct (tally_kept W n e s t host Hint Ht) as (t' & Ht' & Hle).
    exists t'. split; [exact Ht'|]. lia.
Qed.

(** A task on kayak.com, at the second step of its plan, with [strikes]
    failures on the host and two on the step. *)
Definition strikeTask (st : TaskStatus) (strikes : nat) : AgentState :=
  set_websiteFailures {["kayak.com" := strikes]}
    (exampleTask st ["Open the flights page"; "Pick a flight"; "Pay"] 1 2).

Definition strikeStore (st : TaskStatus) (strikes : nat) : Store :=
  storeOf (strikeTask st strikes).

Example C9_three_strikes_witness :
  exists s3 t3,
    agentOrchestrator clickWorld 1
      (REPLAN_COMPLETE
         (Some {| pd_thought := "again"; pd_plan := ["Go to kayak.com"] |}))
      (strikeStore REPLANNING 3)
    = agentOrchestrator clickWorld 0 RUN_NEXT_TURN s3 /\
    currentTask s3 = Some t3 /\ plan t3 = ["Go to kayak.com"] /\
    currentStep t3 = 0 /\ 3 <= failure_count "kayak.com" t3.
Proof.
  destruct (C9_three_strikes clickWorld 0 "kayak.com"
              {| pd_thought := "again"; pd_plan := ["Go to kayak.com"] |}
              false (strikeStore REPLANNING 3) (strikeTask REPLANNING 3)
              eq_refl eq_refl)
    as (_ & H & _).
  - vm_compute. lia.
  - exact H.
Defined.

(** The third failure on kayak.com: the replan it triggers installs a plan
    whose first step goes to kayak.com again. *)
Example C9_struck_host_is_planned_again :
  let s' :=
    after clickWorld 2 (ACTION_FAILED (Some (exampleDecision CLICK)))
      (strikeStore EXECUTING 2) in
  failure_count "kayak.com" <$> currentTask s' = Some 3 /\
  plan <$> currentTask s' = Some ["Go to kayak.com"; "Search flights"] /\
  currentStep <$> currentTask s' = Some 0 /\
  existsb (references "kayak.com") ["Go to kayak.com"; "Search flights"] = true.
Proof. vm_compute. repeat split. Qed.

(** ** Results that arrive late *)

(** The teaching handler drops a summary that arrives after the task object
    was replaced or cleared. *)
Lemma stale_summary_is_dropped W task d s :
  replaced task s = true ->
  handleStopTeaching_summarized W task d s = Return false s /\
  handleStopTeaching_saved W task s = Return tt s.
Proof.
  intros H. unfold handleStopTeaching_summarized, handleStopTeaching_saved,
    bind, get. rewrite H. split; reflexivity.
Qed.

(** The debate flow applies the personas to whatever task is current. *)
Lemma personas_reach_current_task p rest s t :
  currentTask s = Some t ->
  exists s' t',
    personasGenerated (Resolved (p :: rest)) s
    = Return (AwaitingTable (p :: rest) [] p rest) s' /\
    currentTask s' = Some t' /\ taskRef s' = taskRef s /\
    originalGoal t' = originalGoal t /\ status t' = THINKING /\
    scratchpad t'
    = (scratchpad t
       ++ ["Personas generated: " +:+ join ", " (ep_name <$> p :: rest);
           "Experts are creating initial solution tables..."])%list.
Proof.
  intros Ht. open_store s. subst. open_task t.
  unfold personasGenerated, deliberateCatch, unlessCleared, nextTable. run.
  eexists _, _. split; [reflexivity|]. fields.
  repeat split. rewrite <- app_assoc. reflexivity.
Qed.

Lemma saveCompletedTask_spec W s :
  exists s', saveCompletedTask W s = Return tt s' /\
    currentTask s' = currentTask s /\ taskRef s' = taskRef s.
Proof.
  unfold saveCompletedTask. unfold bind at 1, get at 1.
  destruct (currentTask s) as [t|] eqn:Ht; [|exists s; auto].
  destruct (negb (truthy (finalAnswer t))); [exists s; auto|].
  unfold bind at 1, ask at 1. unfold bind at 1, modify at 1.
  match goal with
  | |- context [saveHistoricalTask W ?g ?st] =>
      destruct (saveHistoricalTask_spec W g st) as (s' & E & Hc & Hr & _)
  end.
  exists s'. split; [exact E|]. fields. split; congruence.
Qed.

(** So it does with the consensus: the plan and the answer of the debate
    are written into the current task, which is marked completed. *)
Lemma consensus_reaches_current_task W html steps s t :
  currentTask s = Some t ->
  exists s' t',
    consensusReceived W (Resolved (html, steps)) s = Return DeliberateDone s' /\
    currentTask s' = Some t' /\ taskRef s' = taskRef s /\
    originalGoal t' = originalGoal t /\ status t' = COMPLETED /\
    plan t' = steps.
Proof.
  intros Ht. open_store s. subst. open_task t.
  unfold consensusReceived, deliberateCatch, unlessCleared. run.
  match goal with
  | |- context [saveCompletedTask W ?st] =>
      destruct (saveCompletedTask_spec W st) as (s' & E & Hc & Hr)
  end.
  rewrite E. fields. eexists _, _. split; [reflexivity|].
  split; [exact Hc|]. split; [exact Hr|]. fields. auto.
Qed.

(** A world in which Triage sends the goal "plan a trip" to the debate and
    every other goal to the standard flow, where the Researcher asks for the
    vault. *)
Definition debateWorld : World :=
  {| Date_now := fun n => 1000 + n;
     Math_random := fun _ => "k3y";
     AES_encrypt := fun v k => "aes(" +:+ v +:+ ")";
     AES_decrypt := fun c k => Resolved CHECK_STRING;
     PBKDF2 := fun p salt => p +:+ salt;
     JSON_stringify := fun _ => "[]";
     String_of := fun _ => "[object Object]";
     URL_hostname := fun _ => Some "kayak.com";
     geolocation := fun _ => Position "33.7, -84.4";
     newTaskUrl := fun _ => "https://www.google.com";
     triage_call := fun _ g =>
       Resolved (if String.eqb g "plan a trip"
                 then Deliberate_Flow else Standard_Flow);
     researcher_call := fun _ _ _ =>
       Resolved {| rs_thought := "needs a credential"; facts := [];
                   requires_browser := true; requires_vault := true |};
     planner_call := fun _ _ => Resolved None;
     manager_call := fun _ _ _ _ => Resolved None;
     verifier_call := fun _ _ => Resolved JNull;
     presenter_call := fun _ _ _ _ => Resolved None;
     teacher_call := fun _ _ _ => Resolved None;
     relevant_tool := fun _ _ _ => None;
     tabs_get := fun _ _ => Resolved None;
     tabs_create := fun _ _ => Resolved None;
     tabs_update := fun _ _ => Resolved tt;
     tabs_query := fun _ => Resolved [];
     tabs_query_active := fun _ => Resolved None;
     observation := fun _ _ => TimedOut;
     execute_on_page := fun _ _ _ => Resolved NoResponse;
     searchPage := fun _ _ _ => Resolved [] |}.

Definition strategist : ExpertPersona :=
  {| ep_name := "Strategist"; ep_title := "Travel strategist";
     ep_persona := "plans trips"; ep_model := "flash" |}.

(** Claim C4 (what the code does).  With another task current than the one
    a call was started for: the teaching handler drops the summary and
    changes nothing; the debate flow, which only tests whether a task is
    present, writes its personas, and later its consensus plan and the
    [COMPLETED] status, into the task that is current now. *)
Theorem C4_stale_results (W : World) (task : nat)
    (d : option TeacherSummaryDecision) (p : ExpertPersona)
    (rest : list ExpertPersona) (html : string) (steps : list string)
    (s : Store) (t : AgentState) :
  currentTask s = Some t -> taskRef s <> task ->
  (handleStopTeaching_summarized W task d s = Return false s /\
   handleStopTeaching_saved W task s = Return tt s) /\
  (exists s' t',
     personasGenerated (Resolved (p :: rest)) s
     = Return (AwaitingTable (p :: rest) [] p rest) s' /\
     currentTask s' = Some t' /\ taskRef s' = taskRef s /\
     originalGoal t' = originalGoal t /\ status t' = THINKING /\
     scratchpad t'
     = (scratchpad t
        ++ ["Personas generated: " +:+ join ", " (ep_name <$> p :: rest);
            "Experts are creating initial solution tables..."])%list) /\
  (exists s' t',
     consensusReceived W (Resolved (html, steps)) s = Return DeliberateDone s' /\
     currentTask s' = Some t' /\ taskRef s' = taskRef s /\
     originalGoal t' = originalGoal t /\ status t' = COMPLETED /\
     plan t' = steps).
Proof.
  intros Ht Href. split; [|split].
  - apply stale_summary_is_dropped. unfold replaced. rewrite Ht.
    apply negb_true_iff, Nat.eqb_neq, Href.
  - apply personas_reach_current_task, Ht.
  - apply consensus_reaches_current_task, Ht.
Qed.

(** [START_TASK "plan a trip"] starts the debate; [START_TASK "log in to my
    bank"] replaces the task while the personas are awaited, and the new
    task stops at the locked vault.  The personas, then the consensus, of
    the first task arrive: the new task leaves [AWAITING_PASSPHRASE] and ends
    [COMPLETED] with the plan of the debate. *)
Example C4_stale_debate_reaches_new_task :
  let first := after debateWorld 3 (START_TASK "plan a trip") emptyStore in
  let second := after debateWorld 3 (START_TASK "log in to my bank") first in
  let late := final (personasGenerated (Resolved [strategist]) second) in
  let last :=
    final (consensusReceived debateWorld
             (Resolved ("<p>Fly.</p>", ["Book a flight"])) late) in
  (taskRef first, originalGoal <$> currentTask first) = (0, Some "plan a trip") /\
  (taskRef second, originalGoal <$> currentTask second,
   status <$> currentTask second)
  = (1, Some "log in to my bank", Some AWAITING_PASSPHRASE) /\
  (taskRef late, originalGoal <$> currentTask late, status <$> currentTask late)
  = (1, Some "log in to my bank", Some THINKING) /\
  (originalGoal <$> currentTask last, status <$> currentTask last,
   plan <$> currentTask last)
  = (Some "log in to my bank", Some COMPLETED, Some ["Book a flight"]).
Proof. vm_compute. repeat split. Qed.

Example C4_stale_results_witness :
  let second :=
    after debateWorld 3 (START_TASK "log in to my bank")
      (after debateWorld 3 (START_TASK "plan a trip") emptyStore) in
  exists s' t',
    personasGenerated (Resolved [strategist]) second
    = Return (AwaitingTable [strategist] [] strategist []) s' /\
    currentTask s' = Some t' /\
    originalGoal t' = "log in to my bank" /\ status t' = THINKING.
Proof.
  intros second.
  assert (Ht : exists t, currentTask second = Some t /\
                         originalGoal t = "log in to my bank").
  { vm_compute. eexists. split; reflexivity. }
  destruct Ht as (t & Ht & Hg).
  assert (Href : taskRef second <> 0) by (vm_compute; discriminate).
  destruct (C4_stale_results debateWorld 0 None strategist [] "" [] second t
              Ht Href) as (_ & (s' & t' & E & Ht' & _ & Hg' & Hst' & _) & _).
  exists s', t'. repeat (split; [assumption|]). split; congruence.
Defined.

(** ** The decision service client *)

Section ClientProperties.

Variable JSON_parse : string -> option JSON.
Variable fetch : nat -> string -> string -> bool -> bool -> FetchOutcome.
Variable googleApiKey : option string.

(** The error the [catch] of the retry loop receives for an attempt, if it
    receives one. *)
Definition attemptError (o : FetchOutcome) : option JsError :=
  match o with
  | FetchRejected error => Some error
  | Responded response =>
      if ok response then
        match body_text response with
        | Resolved _ => None
        | Rejected error => Some error
        end
      else if (http_status response =? 503) || (http_status response =? 429)
      then Some (mkError ("Gemini API error: "
                          +:+ pretty (http_status response) +:+ ". Retrying..."))
      else None
  end.

Lemma retryLoop_bound left attempt model prompt useTool expectJson st :
  requests st
  <= requests (snd (retryLoop fetch left attempt model prompt useTool
                      expectJson st))
  <= requests st + left.
Proof.
  revert attempt st. induction left as [|left IH]; intros attempt st.
  - cbn. lia.
  - cbn [retryLoop].
    assert (Hcaught : forall error,
      S (requests st)
      <= requests (snd (if maxRetries <=? attempt + 1
           then (RetriesExhausted error,
                 {| requests := S (requests st); delays := delays st |})
           else retryLoop fetch left (attempt + 1) model prompt useTool
                  expectJson
                  {| requests := S (requests st);
                     delays := delays st ++ [2 ^ (attempt + 1) * 1000] |}))
      <= S (requests st) + left).
    { intros error. destruct (maxRetries <=? attempt + 1).
      - cbn. lia.
      - specialize (IH (attempt + 1)
          {| requests := S (requests st);
             delays := delays st ++ [2 ^ (attempt + 1) * 1000] |}).
        cbn [requests] in IH. exact IH. }
    assert (Huse : forall error x,
      x = requests (snd (if maxRetries <=? attempt + 1
           then (RetriesExhausted error,
                 {| requests := S (requests st); delays := delays st |})
           else retryLoop fetch left (attempt + 1) model prompt useTool
                  expectJson
                  {| requests := S (requests st);
                     delays := delays st ++ [2 ^ (attempt + 1) * 1000] |})) ->
      requests st <= x <= requests st + S left).
    { intros error x ->. specialize (Hcaught error). lia. }
    destruct (fetch (requests st) model prompt useTool expectJson)
      as [response|error].
    + destruct (ok response).
      * destruct (body_text response) as [responseText|error].
        -- cbn. lia.
        -- apply (Huse error). reflexivity.
      * destruct ((http_status response =? 503) || (http_status response =? 429)).
        -- eapply Huse. reflexivity.
        -- cbn. lia.
    + apply (Huse error). reflexivity.
Qed.

(** An attempt answered with a body ends the loop. *)
Lemma retryLoop_got_body left attempt model prompt useTool expectJson st
    response responseText :
  fetch (requests st) model prompt useTool expectJson = Responded response ->
  ok response = true -> body_text response = Resolved responseText ->
  retryLoop fetch (S left) attempt model prompt useTool expectJson st
  = (GotBody responseText,
     {| requests := S (requests st); delays := delays st |}).
Proof. intros E Hok Hbody. cbn [retryLoop]. rewrite E, Hok, Hbody. reflexivity. Qed.

(** So does a status that is neither ok, nor 503, nor 429. *)
Lemma retryLoop_not_retried left attempt model prompt useTool expectJson st
    response :
  fetch (requests st) model prompt useTool expectJson = Responded response ->
  ok response = false ->
  (http_status response =? 503) || (http_status response =? 429) = false ->
  retryLoop fetch (S left) attempt model prompt useTool expectJson st
  = (NotRetried response,
     {| requests := S (requests st); delays := delays st |}).
Proof. intros E Hok Hst. cbn [retryLoop]. rewrite E, Hok, Hst. reflexivity. Qed.

(** A failed attempt before the last is followed, after the back-off delay,
    by another. *)
Lemma retryLoop_retries left attempt model prompt useTool expectJson st error :
  attemptError (fetch (requests st) model prompt useTool expectJson)
  = Some error ->
  retryLoop fetch (S left) attempt model prompt useTool expectJson st
  = if maxRetries <=? attempt + 1
    then (RetriesExhausted error,
          {| requests := S (requests st); delays := delays st |})
    else retryLoop fetch left (attempt + 1) model prompt useTool expectJson
           {| requests := S (requests st);
              delays := delays st ++ [2 ^ (attempt + 1) * 1000] |}.
Proof.
  intros E. cbn [retryLoop]. unfold attemptError in E.
  destruct (fetch (requests st) model prompt useTool expectJson)
    as [response|e].
  - destruct (ok response).
    + destruct (body_text response); [discriminate|].
      injection E as ->. reflexivity.
    + destruct ((http_status response =? 503) || (http_status response =? 429));
        [|discriminate].
      injection E as <-. reflexivity.
  - injection E as ->. reflexivity.
Qed.

(** Five failed attempts: five requests, four delays, and the last error is
    thrown. *)
Lemma retryLoop_exhausted model prompt useTool expectJson st error :
  (forall n, attemptError (fetch n model prompt useTool expectJson)
             = Some error) ->
  retryLoop fetch maxRetries 0 model prompt useTool expectJson st
  = (RetriesExhausted error,
     {| requests := 5 + requests st;
        delays := delays st ++ [2 * 1000; 4 * 1000; 8 * 1000; 16 * 1000] |}).
Proof.
  intros H. unfold maxRetries.
  rewrite (retryLoop_retries _ _ _ _ _ _ _ _ (H _)).
  change (maxRetries <=? 0 + 1) with false. cbv iota.
  rewrite (retryLoop_retries _ _ _ _ _ _ _ _ (H _)).
  change (maxRetries <=? 0 + 1 + 1) with false. cbv iota.
  rewrite (retryLoop_retries _ _ _ _ _ _ _ _ (H _)).
  change (maxRetries <=? 0 + 1 + 1 + 1) with false. cbv iota.
  rewrite (retryLoop_retries _ _ _ _ _ _ _ _ (H _)).
  change (maxRetries <=? 0 + 1 + 1 + 1 + 1) with false. cbv iota.
  rewrite (retryLoop_retries _ _ _ _ _ _ _ _ (H _)).
  change (maxRetries <=? 0 + 1 + 1 + 1 + 1 + 1) with true. cbv iota.
  cbn [requests delays]. rewrite <- !app_assoc. reflexivity.
Qed.

(** A text part that is not JSON and that the local repair does not mend:
    the error thrown is a plain [Error]. *)
Lemma readResponse_unrepaired responseText envelope textContent :
  JSON_parse responseText = Some envelope -> envelope <> JNull ->
  textPart envelope = Some textContent ->
  JSON_parse textContent = None ->
  extractJsonString textContent = ""
  \/ JSON_parse (stripControl (extractJsonString textContent)) = None ->
  exists e, readResponse JSON_parse responseText true = Rejected e /\
            kind e = PlainError.
Proof.
  intros Hbody Hnull Htext Hjson Hrepair. unfold readResponse.
  rewrite Hbody.
  destruct envelope; try contradiction; cbv zeta in *;
    rewrite Htext, Hjson;
    (destruct Hrepair as [-> | Hr];
     [ cbn; eexists; split; reflexivity
     | destruct (negb (String.eqb (extractJsonString textContent) ""));
       [rewrite Hr|]; eexists; split; reflexivity ]).
Qed.

End ClientProperties.

(** Claim C7 (what the code does).  With a key set and the first request
    answered by a body whose envelope parses and whose text part is not
    JSON: when the local repair (outermost braces or brackets, control
    characters stripped) yields JSON, that is the result; when it does not,
    the call fails with a plain [Error] after that one request, and no
    repair call is made.  The retry loop sends at most [maxRetries]
    requests; a status that is neither ok, 503 nor 429 fails the call after
    one request; and five attempts that fail with a rejection, a 503 or a
    429 make five requests with delays of 2, 4, 8 and 16 seconds between
    them. *)
Theorem C7_repair_and_retry (JSON_parse : string -> option JSON)
    (fetch : nat -> string -> string -> bool -> bool -> FetchOutcome)
    (googleApiKey : option string) (prompt model : string) (useTool : bool)
    (st : ClientState) (response : HttpResponse)
    (responseText textContent : string) (envelope : JSON) :
  truthy googleApiKey = true ->
  fetch (requests st) model prompt useTool true = Responded response ->
  ok response = true -> body_text response = Resolved responseText ->
  JSON_parse responseText = Some envelope -> envelope <> JNull ->
  textPart envelope = Some textContent ->
  JSON_parse textContent = None ->
  let asked := {| requests := S (requests st); delays := delays st |} in
  (forall parsed,
     String.eqb (extractJsonString textContent) "" = false ->
     JSON_parse (stripControl (extractJsonString textContent)) = Some parsed ->
     geminiCall JSON_parse fetch googleApiKey prompt useTool model true st
     = (Resolved (Parsed parsed), asked)) /\
  (extractJsonString textContent = ""
   \/ JSON_parse (stripControl (extractJsonString textContent)) = None ->
   exists e,
     geminiCall JSON_parse fetch googleApiKey prompt useTool model true st
     = (Rejected e, asked) /\ kind e = PlainError) /\
  (forall prompt' expectJson st',
     requests st'
     <= requests (snd (retryLoop fetch maxRetries 0 model prompt' useTool
                         expectJson st'))
     <= requests st' + maxRetries) /\
  (forall prompt' expectJson st' refusal,
     fetch (requests st') model prompt' useTool expectJson = Responded refusal ->
     ok refusal = false ->
     (http_status refusal =? 503) || (http_status refusal =? 429) = false ->
     exists e,
       geminiCall JSON_parse fetch googleApiKey prompt' useTool model expectJson st'
       = (Rejected e, {| requests := S (requests st'); delays := delays st' |})) /\
  (forall prompt' expectJson st' error,
     (forall n, attemptError (fetch n model prompt' useTool expectJson)
                = Some error) ->
     geminiCall JSON_parse fetch googleApiKey prompt' useTool model expectJson st'
     = (Rejected error,
        {| requests := 5 + requests st';
           delays := delays st' ++ [2 * 1000; 4 * 1000; 8 * 1000; 16 * 1000] |})).
Proof.
  intros Hkey Hfetch Hok Hbody Hparse Hnull Htext Hjson asked.
  assert (Hloop :
    retryLoop fetch maxRetries 0 model prompt useTool true st
    = (GotBody responseText, asked)).
  { apply (retryLoop_got_body fetch _ _ _ _ _ _ _ response); assumption. }
  split; [|split; [|split; [|split]]].
  - intros parsed Hne Hrepaired.
    unfold geminiCall, geminiCall_body at 1. rewrite Hkey, Hloop. cbn [negb].
    unfold readResponse. rewrite Hparse.
    destruct envelope; try contradiction;
      rewrite Htext, Hjson; cbv zeta; rewrite Hne, Hrepaired; reflexivity.
  - intros Hrepair.
    destruct (readResponse_unrepaired JSON_parse responseText envelope
                textContent Hparse Hnull Htext Hjson Hrepair) as (e & E & Hkind).
    exists e. split; [|exact Hkind].
    unfold geminiCall, geminiCall_body at 1. rewrite Hkey, Hloop. cbn [negb].
    rewrite E, Hkind. reflexivity.
  - intros prompt' expectJson st'. apply retryLoop_bound.
  - intros prompt' expectJson st' refusal Hf Hnok Hstatus.
    unfold geminiCall, geminiCall_body at 1. rewrite Hkey. cbn [negb].
    unfold maxRetries.
    rewrite (retryLoop_not_retried fetch _ _ _ _ _ _ _ refusal Hf Hnok Hstatus).
    eexists. reflexivity.
  - intros prompt' expectJson st' error Hall.
    unfold geminiCall, geminiCall_body at 1. rewrite Hkey. cbn [negb].
    rewrite (retryLoop_exhausted fetch _ _ _ _ _ _ Hall). reflexivity.
Qed.

(** A response whose text part is a malformed object. *)
Definition malformedReply : JSON :=
  JObj [("candidates",
         JArr [JObj [("content",
                      JObj [("parts", JArr [JObj [("text", JStr "{oops}")]])])]])].

(** A parser that knows the envelope above and rejects everything else, and
    a transport that always answers with that envelope. *)
Definition sampleParse (s : string) : option JSON :=
  if String.eqb s "ENVELOPE" then Some malformedReply else None.

Definition sampleFetch (n : nat) (model prompt : string)
    (useTool expectJson : bool) : FetchOutcome :=
  Responded {| ok := true; http_status := 200; body_text := Resolved "ENVELOPE" |}.

Example C7_repair_and_retry_witness :
  exists e,
    geminiCall sampleParse sampleFetch (Some "key") "decide" false "flash" true
      {| requests := 0; delays := [] |}
    = (Rejected e, {| requests := 1; delays := [] |}) /\
    kind e = PlainError.
Proof.
  destruct (C7_repair_and_retry sampleParse sampleFetch (Some "key") "decide"
              "flash" false {| requests := 0; delays := [] |}
              {| ok := true; http_status := 200; body_text := Resolved "ENVELOPE" |}
              "ENVELOPE" "{oops}" malformedReply
              eq_refl eq_refl eq_refl eq_refl eq_refl)
    as (_ & H & _).
  - discriminate.
  - reflexivity.
  - reflexivity.
  - apply H. right. reflexivity.
Defined.

(** The call on the malformed object: one request, no repair call, and the
    error of the failed local repair. *)
Example C7_no_repair_call_is_made :
  geminiCall sampleParse sampleFetch (Some "key") "decide" false "flash" true
    {| requests := 0; delays := [] |}
  = (Rejected
       (mkError ("Failed to parse extracted JSON. Content: " +:+ dq
                 +:+ "{oops}" +:+ dq)),
     {| requests := 1; delays := [] |}).
Proof. vm_compute. reflexivity. Qed.

(** * Further properties *)

(** ** What an event leaves alone

    A relation between the store before and the store after is kept by the
    orchestrator as soon as the elementary writes keep it.  Each lemma of this
    section asks only for the writes its handler makes. *)

Section Frame.

Variable W : World.
Variable R : Store -> Store -> Prop.
Hypothesis R_refl : forall s, R s s.
Hypothesis R_trans : forall a b c, R a b -> R b c -> R a c.

(** The writes of the turn loop. *)
Hypothesis R_task :
  forall s t t', currentTask s = Some t -> R s (set_currentTask (Some t') s).
Hypothesis R_calls : forall s n, R s (set_calls n s).
Hypothesis R_outbox : forall s o, R s (set_outbox o s).
Hypothesis R_armed : forall s id, R s (set_timers ({[id]} ∪ timers s) id s).
Hypothesis R_pending : forall s v, R s (set_pendingCredentialValue v s).
Hypothesis R_completed : respects R (saveCompletedTask W).

(** The writes of the handlers of outside events. *)
Hypothesis R_newTask : forall s t, R s (set_newTask t s).
Hypothesis R_cleared : forall s, R s (set_currentTask None s).
Hypothesis R_cancelled :
  forall s id, R s (set_timers (timers s ∖ {[id]}) (nextTimer s) s).
Hypothesis R_history : forall g, respects R (saveHistoricalTask W g).
Hypothesis R_deleted : forall ts, respects R (handleDeleteHistoricalTask ts).
Hypothesis R_unlock : forall p, respects R (unlockVault W p).
Hypothesis R_tool : forall g actions, respects R (saveLearnedTool W g actions).
Hypothesis R_unawaited : forall s calls, R s (set_unawaited calls s).
Hypothesis R_credential :
  forall name v, respects R (encryptAndSaveCredential W name v).

Ltac leaf_frame := intros; cbv beta; eauto.

Lemma addToScratchpad_frame log : respects R (addToScratchpad log).
Proof. resp leaf_frame. Qed.

Lemma updateTaskStatus_frame st why : respects R (updateTaskStatus st why).
Proof. pose proof addToScratchpad_frame. resp leaf_frame. Qed.

Lemma setTimeout_frame : respects R setTimeout.
Proof.
  intros s. unfold setTimeout, bind, get, modify, ret. cbn [final].
  apply R_armed.
Qed.

Section Loop.

Variable self : AgentEvent -> M unit.
Hypothesis self_frame : forall e, internal e = true -> respects R (self e).

Let Hlog := addToScratchpad_frame.
Let Hstatus := updateTaskStatus_frame.
Let Htimer := setTimeout_frame.

Lemma handleStuckState_frame b : respects R (handleStuckState W self b).
Proof. resp leaf_frame. Qed.

Lemma executeAction_frame d tab : respects R (executeAction W self d tab).
Proof. resp leaf_frame. Qed.

Lemma runNextTurn_frame : respects R (runNextTurn W self).
Proof. pose proof handleStuckState_frame. resp leaf_frame. Qed.

Lemma afterAction_frame d a pre target success :
  respects R (afterAction W self d a pre target success).
Proof. resp leaf_frame. Qed.

Lemma presentFinal_frame d a : respects R (presentFinal W d a).
Proof. resp leaf_frame. Qed.

Lemma performAction_frame d a : respects R (performAction W self d a).
Proof.
  pose proof handleStuckState_frame. pose proof executeAction_frame.
  pose proof afterAction_frame. pose proof presentFinal_frame.
  resp leaf_frame.
Qed.

Lemma handleAction_frame d : respects R (handleAction W self d).
Proof.
  pose proof handleStuckState_frame. pose proof performAction_frame.
  resp leaf_frame.
Qed.

Lemma onStatus_frame e t : respects R (onStatus W self e t).
Proof.
  pose proof handleStuckState_frame. pose proof handleAction_frame.
  unfold onStatus. destruct (status t); destruct e; resp leaf_frame.
Qed.

Lemma internal_frame e :
  internal e = true -> respects R (orchestrate W self e).
Proof.
  pose proof onStatus_frame. pose proof runNextTurn_frame.
  intros Hint. destruct e; try discriminate Hint; unfold orchestrate;
    resp leaf_frame.
Qed.

(** The handlers of the events from outside. *)

Lemma handleStartTask_frame g : respects R (handleStartTask W self g).
Proof. resp leaf_frame. Qed.

Lemma handleStopTask_frame : respects R (handleStopTask W).
Proof. resp leaf_frame. Qed.

Lemma handleResetTaskSession_frame : respects R handleResetTaskSession.
Proof. resp leaf_frame. Qed.

Lemma attemptStrategy_frame strategy :
  respects R (orchestrate W self (ATTEMPT_STRATEGY strategy)).
Proof. unfold orchestrate. resp leaf_frame. Qed.

Lemma handleTakeOver_frame : respects R handleTakeOver.
Proof. resp leaf_frame. Qed.

Lemma handleGoAutonomous_frame : respects R (handleGoAutonomous W self).
Proof. pose proof handleStuckState_frame. resp leaf_frame. Qed.

Lemma handleRecordedAction_frame payload :
  respects R (handleRecordedAction payload).
Proof. resp leaf_frame. Qed.

Lemma handleStartTeaching_frame g : respects R (handleStartTeaching W g).
Proof. resp leaf_frame. Qed.

Lemma handleStopTeaching_frame : respects R (handleStopTeaching W).
Proof. resp leaf_frame. Qed.

Lemma handleUnlockVault_frame p : respects R (handleUnlockVault W self p).
Proof. resp leaf_frame. Qed.

Lemma handleSaveCredential_frame name :
  respects R (handleSaveCredential W self name).
Proof. resp leaf_frame. Qed.

End Loop.

Lemma agentOrchestrator_frame fuel e :
  internal e = true -> respects R (agentOrchestrator W fuel e).
Proof.
  revert e. induction fuel as [|fuel IH]; intros e Hint.
  - intros s. apply R_refl.
  - cbn [agentOrchestrator]. apply internal_frame; assumption.
Qed.

End Frame.

(** [frame_events fuel e side] proves that an event keeps a relation, from
    the lemmas of [Frame]; [side] proves what they ask of the relation. *)
Ltac frame_side side :=
  lazymatch goal with
  | |- forall e, internal e = true -> respects _ (agentOrchestrator _ _ e) =>
      intros ? ?; eapply agentOrchestrator_frame; frame_side side
  | |- internal _ = true => eassumption
  | |- _ => solve [side]
  end.

Ltac frame_handler :=
  first
    [ eapply handleStartTask_frame | eapply handleStopTask_frame
    | eapply handleResetTaskSession_frame
    | eapply handleTakeOver_frame | eapply handleGoAutonomous_frame
    | eapply handleRecordedAction_frame | eapply handleStartTeaching_frame
    | eapply handleStopTeaching_frame | eapply handleUnlockVault_frame
    | eapply handleSaveCredential_frame ].

Ltac frame_events fuel e side :=
  destruct fuel as [|fuel];
  [ intros ?; cbn [agentOrchestrator final]; solve [side]
  | destruct (internal e) eqn:?;
    [ eapply agentOrchestrator_frame; frame_side side
    | destruct e; try discriminate; try congruence;
      try (exfalso;
           match goal with H : _ |- _ => solve [eapply H; reflexivity] end);
      cbn [agentOrchestrator];
      first
        [ eapply attemptStrategy_frame; frame_side side
        | unfold orchestrate at 1;
          first [ frame_handler; frame_side side | solve [side] ] ] ] ].

(** The functions that write to storage only, by their structure. *)
Ltac storage_writer leaf :=
  lazymatch goal with
  | |- context [unlockVault] => intros; intro; by_structure leaf
  | |- context [saveLearnedTool] => intros; intro; by_structure leaf
  | |- context [encryptAndSaveCredential] => intros; intro; by_structure leaf
  | |- context [saveHistoricalTask] => intros; intro; by_structure leaf
  | |- context [saveCompletedTask] => intros; intro; by_structure leaf
  | |- context [handleDeleteHistoricalTask] => intros; intro; by_structure leaf
  end.

(** ** The stored lists stay bounded *)

(** At most ten goals in the history, no goal twice, and at most fifty
    completed tasks. *)
Definition storage_inv (l : LocalStorage) : Prop :=
  length (historicalTasks l) <= 10 /\
  NoDup (goal <$> historicalTasks l) /\
  length (completedTasks l) <= 50.

Definition keeps_storage (s s' : Store) : Prop :=
  storage_inv (local s) -> storage_inv (local s').

Lemma not_stored_goal g (stored : list HistoricalTask) :
  existsb (fun task => String.eqb (goal task) g) stored = false ->
  g ∉ goal <$> stored.
Proof.
  induction stored as [|task stored IH]; cbn [existsb fmap list_fmap].
  - intros _. apply not_elem_of_nil.
  - intros H. apply orb_false_iff in H as [Hhead Htail].
    apply not_elem_of_cons. split; [|auto].
    apply String.eqb_neq in Hhead. congruence.
Qed.

Lemma NoDup_goals_filter (P : HistoricalTask -> Prop)
    `{forall x, Decision (P x)} (stored : list HistoricalTask) :
  NoDup (goal <$> stored) -> NoDup (goal <$> filter P stored).
Proof.
  induction stored as [|task stored IH]; [intros; constructor|].
  rewrite filter_cons. cbn [fmap list_fmap]. intros Hd.
  apply NoDup_cons in Hd as [Hin Hd].
  destruct (decide (P task)); [|auto].
  cbn [fmap list_fmap]. apply NoDup_cons. split; [|auto].
  intros Hin'. apply Hin. apply list_elem_of_fmap in Hin' as (x & -> & Hx).
  apply list_elem_of_filter in Hx as [_ Hx].
  apply list_elem_of_fmap_2, Hx.
Qed.

Lemma saveHistoricalTask_storage W g :
  respects keeps_storage (saveHistoricalTask W g).
Proof.
  intros s. unfold saveHistoricalTask, keeps_storage.
  destruct (is_blank g); [cbn; tauto|].
  unfold bind at 1, get at 1.
  destruct (existsb _ (historicalTasks (local s))) eqn:E; [cbn; tauto|].
  unfold bind, ask, modify, send, modify. cbn [final]. unfold storage_inv.
  fields. intros (Hlen & Hdup & Hdone). split; [|split; [|exact Hdone]].
  - rewrite length_take. lia.
  - rewrite fmap_take. eapply sublist_NoDup; [|apply sublist_take].
    cbn [fmap list_fmap]. apply NoDup_cons. split; [|exact Hdup].
    apply not_stored_goal, E.
Qed.

Lemma saveCompletedTask_storage W : respects keeps_storage (saveCompletedTask W).
Proof.
  intros s. unfold saveCompletedTask. unfold bind at 1, get at 1.
  destruct (currentTask s) as [t|]; [|cbv; tauto].
  destruct (negb (truthy (finalAnswer t))); [cbv; tauto|].
  unfold bind at 1, ask at 1. unfold bind at 1, modify at 1.
  match goal with
  | |- keeps_storage _ (final (saveHistoricalTask W ?g ?st)) =>
      pose proof (saveHistoricalTask_storage W g st) as Hh;
      set (s1 := st) in *
  end.
  intros Hinv. apply Hh. subst s1. unfold storage_inv in *. fields.
  destruct Hinv as (Hlen & Hdup & Hdone). repeat split; try assumption.
  rewrite length_take. lia.
Qed.

Lemma handleDeleteHistoricalTask_storage ts :
  respects keeps_storage (handleDeleteHistoricalTask ts).
Proof.
  intros s. unfold handleDeleteHistoricalTask, bind, get, modify, send, modify.
  cbn [final]. unfold keeps_storage, storage_inv. fields.
  intros (Hlen & Hdup & Hdone). split; [|split; [|exact Hdone]].
  - etransitivity; [apply length_filter|exact Hlen].
  - apply NoDup_goals_filter, Hdup.
Qed.

Lemma keeps_storage_trans a b c :
  keeps_storage a b -> keeps_storage b c -> keeps_storage a c.
Proof. unfold keeps_storage. tauto. Qed.

Ltac leaf_storage :=
  first
    [ exact keeps_storage_trans
    | intros; unfold keeps_storage, storage_inv in *; fields; tauto ].

Ltac side_storage :=
  first
    [ solve [leaf_storage]
    | apply saveHistoricalTask_storage
    | apply saveCompletedTask_storage
    | apply handleDeleteHistoricalTask_storage
    | storage_writer leaf_storage ].

Lemma agentOrchestrator_storage W fuel e :
  respects keeps_storage (agentOrchestrator W fuel e).
Proof. frame_events fuel e side_storage. Qed.

(** Property X1.  Whatever events arrive, the history never holds more
    than ten goals nor the same goal twice, and the list of completed tasks
    never more than fifty entries, once this is so. *)
Theorem stored_lists_stay_bounded (W : World) (fuel : nat)
    (events : list AgentEvent) (s : Store) :
  storage_inv (local s) ->
  storage_inv (local (dispatchAll W fuel events s)).
Proof.
  revert s. induction events as [|e events IH]; intros s Hinv; [exact Hinv|].
  cbn [dispatchAll]. apply IH.
  apply (agentOrchestrator_storage W fuel e s Hinv).
Qed.

Example stored_lists_stay_bounded_witness :
  storage_inv
    (local (dispatchAll offlineWorld 3
              [START_TASK "buy milk"; TAKE_OVER; START_TASK "book a flight";
               STOP_TASK]
              emptyStore)).
Proof.
  apply stored_lists_stay_bounded. unfold storage_inv, emptyStore, emptyLocal.
  fields. cbn [length fmap list_fmap]. repeat split; [lia|constructor|lia].
Defined.

(** ** Which events write what *)

(** [f] reads the same in both stores. *)
Definition same_on {A} (f : Store -> A) (s s' : Store) : Prop := f s' = f s.

Lemma same_on_trans {A} (f : Store -> A) a b c :
  same_on f a b -> same_on f b c -> same_on f a c.
Proof. unfold same_on. congruence. Qed.

Ltac leaf_same :=
  first
    [ exact (same_on_trans _)
    | intros; unfold same_on in *; fields; first [reflexivity | congruence] ].

Ltac side_same := first [ solve [leaf_same] | storage_writer leaf_same ].

(** The configuration of the vault: its salt and its check value. *)
Definition vaultConfig (s : Store) : option string * option string :=
  (beachdai_vault_salt (local s), beachdai_vault_check (local s)).

Lemma agentOrchestrator_vaultConfig W fuel e :
  respects (same_on vaultConfig) (agentOrchestrator W fuel e).
Proof. unfold vaultConfig. frame_events fuel e side_same. Qed.

Lemma agentOrchestrator_session_key W fuel e :
  (forall passphrase, e <> UNLOCK_VAULT passphrase) ->
  respects (same_on beachdai_session_key) (agentOrchestrator W fuel e).
Proof. intros Hne. frame_events fuel e side_same. Qed.


(** The armed timers stay armed. *)
Definition keeps_timers (s s' : Store) : Prop := timers s ⊆ timers s'.

Lemma keeps_timers_trans a b c :
  keeps_timers a b -> keeps_timers b c -> keeps_timers a c.
Proof. unfold keeps_timers. set_solver. Qed.

Ltac leaf_timers :=
  first
    [ exact keeps_timers_trans
    | intros; unfold keeps_timers in *; fields; set_solver ].

Ltac side_timers := first [ solve [leaf_timers] | storage_writer leaf_timers ].

Lemma agentOrchestrator_timers W fuel e :
  e <> STOP_TASK -> e <> RESET_TASK_SESSION ->
  respects keeps_timers (agentOrchestrator W fuel e).
Proof. intros Hne Hne'. frame_events fuel e side_timers. Qed.

(** Property X2.  No event changes the salt or the check value of the
    vault, and no event but [UNLOCK_VAULT] changes the session key: once
    unlocked, the vault is never locked again by the orchestrator. *)
Theorem session_key_is_written_by_unlock_only (W : World) (fuel : nat)
    (e : AgentEvent) (s : Store) :
  beachdai_vault_salt (local (after W fuel e s)) = beachdai_vault_salt (local s) /\
  beachdai_vault_check (local (after W fuel e s))
  = beachdai_vault_check (local s) /\
  ((forall passphrase, e <> UNLOCK_VAULT passphrase) ->
   beachdai_session_key (after W fuel e s) = beachdai_session_key s).
Proof.
  pose proof (agentOrchestrator_vaultConfig W fuel e s) as Hconfig.
  unfold same_on, vaultConfig in Hconfig. fold (after W fuel e s) in Hconfig.
  injection Hconfig as Hsalt Hcheck.
  split; [exact Hsalt|]. split; [exact Hcheck|].
  intros Hne. apply (agentOrchestrator_session_key W fuel e Hne s).
Qed.


(** A store in which the task of [st] waits on timer 1. *)
Definition waitingStore (st : TaskStatus) : Store :=
  set_timers {[1]} 1
    (storeOf (set_waitTimeoutId (Some 1) (exampleTask st ["a"; "b"] 0 0))).


(** Property X4.  No event but [STOP_TASK] and [RESET_TASK_SESSION]
    cancels an armed timer; [START_TASK], which replaces the task, leaves
    the resume timer of the task it replaces armed. *)
Theorem armed_timers_survive (W : World) (fuel : nat) (e : AgentEvent)
    (s : Store) (id : nat) :
  e <> STOP_TASK -> e <> RESET_TASK_SESSION ->
  id ∈ timers s -> id ∈ timers (after W fuel e s).
Proof.
  intros Hne Hne' Hin.
  apply (agentOrchestrator_timers W fuel e Hne Hne' s), Hin.
Qed.

Example armed_timers_survive_witness :
  1 ∈ timers (after offlineWorld 2 (START_TASK "buy milk") (waitingStore WAITING))
  /\ originalGoal <$> currentTask
       (after offlineWorld 2 (START_TASK "buy milk") (waitingStore WAITING))
     = Some "buy milk".
Proof.
  split.
  - apply armed_timers_survive; [discriminate|discriminate|].
    unfold waitingStore. fields. apply elem_of_singleton. reflexivity.
  - vm_compute. reflexivity.
Defined.

(** ** Events that find nothing to do *)

(** Property X5.  While no task is present, every event but [START_TASK],
    [START_TEACHING] and [DELETE_HISTORICAL_TASK] returns with the store
    unchanged: nothing is logged, sent, stored or asked. *)
Theorem without_a_task_nothing_happens (W : World) (fuel : nat)
    (e : AgentEvent) (s : Store) :
  currentTask s = None ->
  (forall g, e <> START_TASK g) -> (forall g, e <> START_TEACHING g) ->
  (forall ts, e <> DELETE_HISTORICAL_TASK ts) ->
  agentOrchestrator W (S fuel) e s = Return tt s.
Proof.
  intros Hnone Hstart Hteach Hdelete.
  destruct e;
    try (exfalso;
         match goal with H : _ |- _ => solve [eapply H; reflexivity] end);
    cbn [agentOrchestrator orchestrate];
    unfold handleStopTask, handleResetTaskSession, handleTakeOver,
      handleGoAutonomous, handleRecordedAction, handleStopTeaching,
      handleStopTeaching_begin, handleUnlockVault, handleSaveCredential,
      addToScratchpad, bind, get, ret;
    rewrite ?Hnone; reflexivity.
Qed.

Example without_a_task_nothing_happens_witness :
  agentOrchestrator clickWorld 1 (UNLOCK_VAULT "open sesame") emptyStore
  = Return tt emptyStore.
Proof.
  apply without_a_task_nothing_happens; [reflexivity|..]; discriminate.
Defined.

(** The statuses in which a task waits for the user, or has ended. *)
Definition at_rest (st : TaskStatus) : bool :=
  match st with
  | COMPLETED | FAILED | STOPPED | USER_INPUT_PENDING | AWAITING_PASSPHRASE
  | AWAITING_CREDENTIAL_NAME => true
  | _ => false
  end.

(** Property X6.  A task that has ended, or waits for the user, ignores
    the events of the turn loop: a decision or a result that arrives late
    changes nothing. *)
Theorem task_at_rest_ignores_the_loop (W : World) (fuel : nat)
    (e : AgentEvent) (s : Store) (t : AgentState) :
  currentTask s = Some t -> at_rest (status t) = true -> internal e = true ->
  agentOrchestrator W (S (S fuel)) e s = Return tt s.
Proof.
  intros Ht Hrest Hint.
  assert (Hcases : e = RUN_NEXT_TURN \/ e <> RUN_NEXT_TURN)
    by (destruct e; first [left; reflexivity | right; discriminate]).
  destruct Hcases as [->|Hne].
  - apply (run_next_turn_skipped W (S fuel) s t Ht).
    destruct (status t); try discriminate Hrest; reflexivity.
  - rewrite (dispatch_eq W (S fuel) e s t Ht Hint Hne).
    unfold onStatus. destruct (status t); try discriminate Hrest; reflexivity.
Qed.

Example task_at_rest_ignores_the_loop_witness :
  agentOrchestrator clickWorld 2 (ACTION_COMPLETE (Some (exampleDecision CLICK)))
    (storeOf (exampleTask FAILED ["a"; "b"] 1 3))
  = Return tt (storeOf (exampleTask FAILED ["a"; "b"] 1 3)).
Proof.
  apply (task_at_rest_ignores_the_loop clickWorld 0 _ _
           (exampleTask FAILED ["a"; "b"] 1 3)); reflexivity.
Defined.

(** ** Runs that return

    [wp m Q s]: from [s], [m] returns, with a value and a store that
    satisfy [Q]. *)

Definition wp {A} (m : M A) (Q : A -> Store -> Prop) (s : Store) : Prop :=
  match m s with
  | Return a s' => Q a s'
  | _ => False
  end.

Lemma wp_returns {A} (m : M A) Q s :
  wp m Q s -> exists a s', m s = Return a s' /\ Q a s'.
Proof. unfold wp. destruct (m s); [eauto|contradiction|contradiction]. Qed.

Lemma wp_eq {A} (m : M A) Q s a s' : m s = Return a s' -> Q a s' -> wp m Q s.
Proof. unfold wp. intros ->. auto. Qed.

Lemma wp_conseq {A} (m : M A) (Q Q' : A -> Store -> Prop) s :
  wp m Q s -> (forall a s', Q a s' -> Q' a s') -> wp m Q' s.
Proof. unfold wp. destruct (m s); auto. Qed.

Lemma wp_bind {A B} (m : M A) (k : A -> M B) Q s :
  wp m (fun a s' => wp (k a) Q s') s -> wp (bind m k) Q s.
Proof. unfold wp, bind. destruct (m s); auto. Qed.

Lemma wp_ret {A} (a : A) Q s : Q a s -> wp (ret a) Q s.
Proof. auto. Qed.

Lemma wp_get Q s : Q s s -> wp get Q s.
Proof. auto. Qed.

Lemma wp_modify f Q s : Q tt (f s) -> wp (modify f) Q s.
Proof. auto. Qed.

Lemma wp_ask {A} (o : nat -> A) Q s :
  Q (o (calls s)) (set_calls (S (calls s)) s) -> wp (ask o) Q s.
Proof. auto. Qed.

Lemma wp_send m Q s :
  Q tt (set_outbox (outbox s ++ [m]) s) -> wp (send m) Q s.
Proof. auto. Qed.

Lemma wp_theTask Q s t : currentTask s = Some t -> Q t s -> wp theTask Q s.
Proof. unfold wp, theTask. intros ->. auto. Qed.

Lemma wp_modifyTask f Q s t :
  currentTask s = Some t -> Q tt (set_currentTask (Some (f t)) s) ->
  wp (modifyTask f) Q s.
Proof. unfold wp, modifyTask. intros ->. auto. Qed.

Lemma wp_updateUI Q s t :
  currentTask s = Some t ->
  Q tt (set_outbox (outbox s ++ [MsgTaskUpdate t]) s) -> wp updateUI Q s.
Proof.
  intros Ht HQ. unfold wp. rewrite updateUI_eq. unfold notified.
  rewrite Ht. exact HQ.
Qed.

Lemma wp_addToScratchpad log Q s t :
  currentTask s = Some t ->
  (let t' := set_scratchpad (scratchpad t ++ [log]) t in
   Q tt (set_outbox (outbox s ++ [MsgTaskUpdate t'])
           (set_currentTask (Some t') s))) ->
  wp (addToScratchpad log) Q s.
Proof.
  intros Ht HQ. unfold wp. rewrite addToScratchpad_eq. unfold logged, notified.
  rewrite Ht. fields. exact HQ.
Qed.

(** [updateTaskStatus st] with no reason. *)
Lemma wp_updateTaskStatus st Q s t :
  currentTask s = Some t ->
  (let t' := set_status st t in
   Q tt (set_outbox (outbox s ++ [MsgTaskUpdate t'])
           (set_currentTask (Some t') s))) ->
  wp (updateTaskStatus st None) Q s.
Proof.
  intros Ht HQ. unfold wp. rewrite updateTaskStatus_eq.
  unfold statusSet, notified. rewrite Ht. cbn [truthy]. fields. exact HQ.
Qed.

Lemma wp_try_catch {A} (m : M A) h Q s : wp m Q s -> wp (try_catch m h) Q s.
Proof. unfold wp, try_catch. destruct (m s); auto; contradiction. Qed.

(** One step along a handler whose task is present. *)
Ltac present := fields; first [reflexivity | eassumption].

Ltac wp_step :=
  lazymatch goal with
  | |- wp (bind _ _) _ _ => apply wp_bind
  | |- wp (ret _) _ _ => apply wp_ret
  | |- wp get _ _ => apply wp_get
  | |- wp (modify _) _ _ => apply wp_modify
  | |- wp (ask _) _ _ => apply wp_ask
  | |- wp (send _) _ _ => apply wp_send
  | |- wp (addToScratchpad _) _ _ =>
      eapply wp_addToScratchpad; [solve [present]|cbv zeta]
  | |- wp updateUI _ _ => eapply wp_updateUI; [solve [present]|]
  | |- wp (updateTaskStatus _ None) _ _ =>
      eapply wp_updateTaskStatus; [solve [present]|cbv zeta]
  | |- wp theTask _ _ => eapply wp_theTask; [solve [present]|]
  | |- wp (modifyTask _) _ _ => eapply wp_modifyTask; [solve [present]|]
  | |- wp (let _ := _ in _) _ _ => cbv zeta
  | |- wp ((fun _ => _) _) _ _ => cbv beta
  end; fields.

Ltac wp_run := repeat wp_step.

(** ** A teaching session *)

Lemma saveCompletedTask_keeps_tools W :
  respects (same_on (fun s => learnedTools (local s))) (saveCompletedTask W).
Proof. side_same. Qed.

Lemma wp_saveCompletedTask W (Q : unit -> Store -> Prop) s :
  (forall s', currentTask s' = currentTask s -> taskRef s' = taskRef s ->
              learnedTools (local s') = learnedTools (local s) -> Q tt s') ->
  wp (detached (saveCompletedTask W)) Q s.
Proof.
  intros HQ. destruct (saveCompletedTask_spec W s) as (s' & E & Hc & Hr).
  pose proof (saveCompletedTask_keeps_tools W s) as Htools.
  unfold same_on in Htools. rewrite E in Htools. cbn [final] in Htools.
  apply (wp_eq _ _ _ tt s').
  - unfold detached, try_catch. rewrite E. reflexivity.
  - auto.
Qed.

(** The tools after [saveLearnedTool g actions] on a page of [host]. *)
Definition toolSaved (host g : string) (actions : list RecordedAction)
    (tools : gmap string (gmap string (list RecordedAction)))
  : gmap string (gmap string (list RecordedAction)) :=
  match actions with
  | [] => tools
  | _ => <[host := <[g := actions]> (default ∅ (tools !! host))]> tools
  end.

Lemma stop_teaching_stores W fuel s t actions tab url host :
  currentTask s = Some t -> status t = TEACHING ->
  recordedActions t = Some actions ->
  (forall n, tabs_query_active W n = Resolved (Some (tab, Some url))) ->
  String.prefix "http" url = true -> URL_hostname W url = Some host ->
  exists s' t',
    agentOrchestrator W (S fuel) STOP_TEACHING s = Return tt s' /\
    currentTask s' = Some t' /\ status t' = COMPLETED /\
    originalGoal t' = originalGoal t /\
    learnedTools (local s')
    = toolSaved host (originalGoal t) actions (learnedTools (local s)).
Proof.
  intros Ht Hst Hrec Hactive Hhttp Hhost.
  cbn [agentOrchestrator orchestrate].
  enough (H : wp (handleStopTeaching W)
                (fun _ s' => exists t', currentTask s' = Some t' /\
                   status t' = COMPLETED /\ originalGoal t' = originalGoal t /\
                   learnedTools (local s')
                   = toolSaved host (originalGoal t) actions
                       (learnedTools (local s))) s).
  { apply wp_returns in H as ([] & s' & E & t' & H). eauto. }
  unfold handleStopTeaching, handleStopTeaching_begin. wp_run.
  rewrite Ht, Hst. rewrite bool_decide_eq_true_2 by reflexivity. cbn [negb].
  wp_run.
  assert (Hsent : forall Q : unit -> Store -> Prop,
    (forall s0, currentTask s0 = Some t -> taskRef s0 = taskRef s ->
                local s0 = local s -> Q tt s0) ->
    wp (if truthy_num (tabs t !! activeTabName t)
        then send (MsgTab (tabs t !! activeTabName t) "STOP_LEARNING")
        else ret tt) Q s).
  { intros Q HQ. destruct (truthy_num _); wp_run; apply HQ; fields; auto. }
  apply Hsent. intros s0 Ht0 Hr0 Hl0. wp_run.
  unfold getTeacherSummaryDecision. wp_run.
  destruct (teacher_call W (calls s0) _ _) as [decision|err]; wp_run;
    unfold handleStopTeaching_summarized, replaced; wp_run;
    rewrite Hr0, Nat.eqb_refl; cbn [negb]; wp_run;
    rewrite Hrec; unfold saveLearnedTool, await; cbn [from_option id];
    (destruct actions as [|a actions];
     [ wp_run
     | wp_run; rewrite Hactive; wp_run; rewrite Hhttp; cbn [negb];
       unfold hostname_of; rewrite Hhost; wp_run ]).
  all: unfold handleStopTeaching_saved, replaced; wp_run.
  all: rewrite Hr0, Nat.eqb_refl; cbn [negb]; wp_run.
  all: apply wp_saveCompletedTask; fields; intros s' Hc Hr Htools.
  all: eexists; (split; [exact Hc|]); fields; rewrite Htools, ?Hl0; auto.
Qed.

Lemma start_teaching_begins W fuel g s tab url :
  (forall n, tabs_query_active W n = Resolved (Some (tab, Some url))) ->
  exists s1 t1,
    agentOrchestrator W (S fuel) (START_TEACHING g) s = Return tt s1 /\
    currentTask s1 = Some t1 /\ status t1 = TEACHING /\
    originalGoal t1 = g /\ recordedActions t1 = Some [] /\
    local s1 = local s.
Proof.
  intros Hactive. cbn [agentOrchestrator orchestrate].
  enough (H : wp (handleStartTeaching W g)
                (fun _ s1 => exists t1, currentTask s1 = Some t1 /\
                   status t1 = TEACHING /\ originalGoal t1 = g /\
                   recordedActions t1 = Some [] /\ local s1 = local s) s).
  { apply wp_returns in H as ([] & s' & E & t' & H). eauto. }
  unfold handleStartTeaching, await. wp_run. rewrite Hactive. wp_run.
  destruct tab as [[|id]|]; wp_run; eexists; (split; [reflexivity|]);
    fields; auto.
Qed.

Lemma teaching_records W fuel payload s t actions :
  currentTask s = Some t -> status t = TEACHING ->
  recordedActions t = Some actions ->
  exists s' t',
    agentOrchestrator W (S fuel) (RECORDED_ACTION payload) s = Return tt s' /\
    currentTask s' = Some t' /\ status t' = TEACHING /\
    originalGoal t' = originalGoal t /\
    recordedActions t' = Some (actions ++ [payload])%list /\
    local s' = local s.
Proof.
  intros Ht Hst Hrec. cbn [agentOrchestrator orchestrate].
  enough (H : wp (handleRecordedAction payload)
                (fun _ s' => exists t', currentTask s' = Some t' /\
                   status t' = TEACHING /\ originalGoal t' = originalGoal t /\
                   recordedActions t' = Some (actions ++ [payload])%list /\
                   local s' = local s) s).
  { apply wp_returns in H as ([] & s' & E & t' & H). eauto. }
  unfold handleRecordedAction. wp_run. rewrite Ht, Hst.
  rewrite bool_decide_eq_false_2 by discriminate. rewrite andb_false_r.
  wp_run. rewrite Hst. destruct (decide (TEACHING = TEACHING)); [|congruence].
  wp_run. eexists. split; [reflexivity|]. fields. rewrite Hrec. auto.
Qed.

Lemma teaching_records_all W fuel payloads s t actions :
  currentTask s = Some t -> status t = TEACHING ->
  recordedActions t = Some actions ->
  exists t',
    currentTask (dispatchAll W (S fuel) (RECORDED_ACTION <$> payloads) s)
    = Some t' /\
    status t' = TEACHING /\ originalGoal t' = originalGoal t /\
    recordedActions t' = Some (actions ++ payloads)%list /\
    local (dispatchAll W (S fuel) (RECORDED_ACTION <$> payloads) s) = local s.
Proof.
  revert s t actions.
  induction payloads as [|payload payloads IH]; intros s t actions Ht Hst Hrec.
  - exists t. rewrite app_nil_r. auto.
  - cbn [fmap list_fmap dispatchAll]. unfold after.
    destruct (teaching_records W fuel payload s t actions Ht Hst Hrec)
      as (s1 & t1 & -> & Ht1 & Hst1 & Hg1 & Hrec1 & Hl1).
    cbn [final].
    destruct (IH s1 t1 _ Ht1 Hst1 Hrec1) as (t' & Ht' & Hst' & Hg' & Hrec' & Hl').
    exists t'. rewrite <- app_assoc in Hrec'. cbn [app] in Hrec'.
    repeat split; congruence.
Qed.

(** Property X7.  A teaching session on a page of [host]: after
    [START_TEACHING g], the recorded actions and [STOP_TEACHING], the task is
    completed and the tool stored for [host] under [g] is the list of the
    actions, in the order they were recorded; a session without actions
    stores nothing. *)
Theorem taught_tool_is_stored (W : World) (fuel : nat) (g : string)
    (payloads : list RecordedAction) (s : Store) (tab : option nat)
    (url host : string) :
  (forall n, tabs_query_active W n = Resolved (Some (tab, Some url))) ->
  String.prefix "http" url = true -> URL_hostname W url = Some host ->
  let s' :=
    dispatchAll W (S fuel)
      (START_TEACHING g :: (RECORDED_ACTION <$> payloads) ++ [STOP_TEACHING])%list
      s in
  (exists t', currentTask s' = Some t' /\ status t' = COMPLETED /\
              originalGoal t' = g) /\
  learnedTools (local s')
  = toolSaved host g payloads (learnedTools (local s)) /\
  (payloads <> [] ->
   learnedTools (local s') !! host ≫= (fun tools => tools !! g)
   = Some payloads).
Proof.
  intros Hactive Hhttp Hhost s'. subst s'.
  cbn [dispatchAll]. unfold after at 1 2 3.
  destruct (start_teaching_begins W fuel g s tab url Hactive)
    as (s1 & t1 & -> & Ht1 & Hst1 & Hg1 & Hrec1 & Hl1).
  cbn [final]. rewrite !dispatchAll_app. cbn [dispatchAll].
  destruct (teaching_records_all W fuel payloads s1 t1 [] Ht1 Hst1 Hrec1)
    as (t2 & Ht2 & Hst2 & Hg2 & Hrec2 & Hl2).
  cbn [app] in Hrec2. unfold after.
  destruct (stop_teaching_stores W fuel _ t2 payloads tab url host
              Ht2 Hst2 Hrec2 Hactive Hhttp Hhost)
    as (s3 & t3 & -> & Ht3 & Hst3 & Hg3 & Htools).
  cbn [final]. rewrite Htools, Hl2, Hl1, Hg2, Hg1.
  split; [exists t3; repeat split; congruence|]. split; [reflexivity|].
  intros Hne. destruct payloads as [|p payloads]; [congruence|].
  cbn [toolSaved]. rewrite lookup_insert_eq. cbn [mbind option_bind].
  apply lookup_insert_eq.
Qed.

(** The world of [clickWorld], the active tab a page of kayak.com. *)
Definition teachingWorld : World :=
  {| Date_now := Date_now clickWorld;
     Math_random := Math_random clickWorld;
     AES_encrypt := AES_encrypt clickWorld;
     AES_decrypt := AES_decrypt clickWorld;
     PBKDF2 := PBKDF2 clickWorld;
     JSON_stringify := JSON_stringify clickWorld;
     String_of := String_of clickWorld;
     URL_hostname := URL_hostname clickWorld;
     geolocation := geolocation clickWorld;
     newTaskUrl := newTaskUrl clickWorld;
     triage_call := triage_call clickWorld;
     researcher_call := researcher_call clickWorld;
     planner_call := planner_call clickWorld;
     manager_call := manager_call clickWorld;
     verifier_call := verifier_call clickWorld;
     presenter_call := presenter_call clickWorld;
     teacher_call := teacher_call clickWorld;
     relevant_tool := relevant_tool clickWorld;
     tabs_get := tabs_get clickWorld;
     tabs_create := tabs_create clickWorld;
     tabs_update := tabs_update clickWorld;
     tabs_query := tabs_query clickWorld;
     tabs_query_active := fun _ =>
       Resolved (Some (Some 7, Some "https://kayak.com/flights"));
     observation := observation clickWorld;
     execute_on_page := execute_on_page clickWorld;
     searchPage := searchPage clickWorld |}.

Definition clickGo : RecordedAction :=
  {| ra_action := "CLICK"; ra_selector := Some "#go"; ra_text := None |}.

Definition typeCity : RecordedAction :=
  {| ra_action := "TYPE"; ra_selector := Some "#to"; ra_text := Some "Atlanta" |}.

Example taught_tool_is_stored_witness :
  learnedTools
    (local (dispatchAll teachingWorld 1
              [START_TEACHING "find a flight"; RECORDED_ACTION typeCity;
               RECORDED_ACTION clickGo; STOP_TEACHING]
              emptyStore))
  !! "kayak.com" ≫= (fun tools => tools !! "find a flight")
  = Some [typeCity; clickGo].
Proof.
  apply (taught_tool_is_stored teachingWorld 0 "find a flight"
           [typeCity; clickGo] emptyStore (Some 7)
           "https://kayak.com/flights" "kayak.com");
    first [reflexivity | discriminate].
Defined.

(** ** Setting the vault up and reading it back ([src/vault.ts]) *)

(** [s.substring(n)] *)
Fixpoint skip (n : nat) (s : string) : string :=
  match n, s with
  | S n', String _ s' => skip n' s'
  | _, _ => s
  end.

(** The characters [.] does not match.  Strings are sequences of code
    units below 256, among which the line terminators are the line feed and
    the carriage return. *)
Definition is_line_terminator (c : ascii) : bool :=
  Nat.eqb (nat_of_ascii c) 10 || Nat.eqb (nat_of_ascii c) 13.

(** [.*?}}] at the start of [s]: the characters before the first [}}],
    none of them a line terminator. *)
Fixpoint upToBraces (s : string) : option string :=
  match s with
  | EmptyString => None
  | String c rest =>
      if String.prefix "}}" s then Some EmptyString
      else if is_line_terminator c then None
      else String c <$> upToBraces rest
  end.

(** [s.match(/{{VAULT_CREDENTIAL\.(cred-.*?)}}/)]: the first group of the
    leftmost match. *)
Fixpoint matchPlaceholder (s : string) : option string :=
  match s with
  | EmptyString => None
  | String _ rest =>
      match
        (if String.prefix "{{VAULT_CREDENTIAL.cred-" s
         then upToBraces (skip 24 s) else None)
      with
      | Some tail => Some ("cred-" +:+ tail)
      | None => matchPlaceholder rest
      end
  end.

Section VaultSetup.

Variable W : World.

Definition isVaultInitialized : M bool :=
  s <- get ;;
  ret (truthy (beachdai_vault_salt (local s))).

(** [initializeVault], [salt] being the sixteen random bytes it draws, in
    hexadecimal. *)
Definition initializeVault (salt passphrase : string) : M unit :=
  let key := deriveKey W passphrase salt in
  let encryptedCheck := AES_encrypt W CHECK_STRING key in
  modify (fun s =>
    set_local
      {| historicalTasks := historicalTasks (local s);
         completedTasks := completedTasks (local s);
         learnedTools := learnedTools (local s);
         beachdai_secure_vault := Some ∅;
         beachdai_vault_salt := Some salt;
         beachdai_vault_check := Some encryptedCheck |} s) ;;
  modify (set_session_key (Some key)).

Definition getDecryptedCredential (placeholderId : string) : M string :=
  key <- getSessionKey ;;
  match key with
  | None => throw (mkError "Vault is locked. Please unlock it first.")
  | Some key =>
      match matchPlaceholder placeholderId with
      | None => throw (mkError "Invalid credential placeholder format.")
      | Some credentialId =>
          s <- get ;;
          match beachdai_secure_vault (local s) with
          | None =>
              throw (mkError
                "Vault data not found. It may not be initialized correctly.")
          | Some vault =>
              match vault !! credentialId with
              | None =>
                  throw (mkError
                    ("Credential with ID " +:+ dq +:+ credentialId +:+ dq
                     +:+ " not found in vault."))
              | Some (_, encryptedValue) =>
                  match AES_decrypt W encryptedValue key with
                  | Rejected e => throw e
                  | Resolved decryptedValue =>
                      if String.eqb decryptedValue ""
                      then throw (mkError
                             "Failed to decrypt credential. The passphrase may be incorrect or the data may be corrupt.")
                      else ret decryptedValue
                  end
              end
          end
      end
  end.

End VaultSetup.

(** No [}] and no line terminator. *)
Definition plain_char (c : ascii) : bool :=
  negb (Ascii.eqb c "}") && negb (is_line_terminator c).

Fixpoint plain (s : string) : bool :=
  match s with
  | EmptyString => true
  | String c rest => plain_char c && plain rest
  end.

Lemma plain_app a b : plain (a +:+ b) = plain a && plain b.
Proof.
  induction a as [|c a IH]; [reflexivity|].
  change (String c a +:+ b) with (String c (a +:+ b)).
  cbn [plain]. rewrite IH. apply andb_assoc.
Qed.

Lemma prefix_nil s : String.prefix "" s = true.
Proof. destruct s; reflexivity. Qed.

Lemma upToBraces_plain body rest :
  plain body = true -> upToBraces (body +:+ "}}" +:+ rest) = Some body.
Proof.
  induction body as [|c body IH]; intros Hplain.
  - change ("" +:+ "}}" +:+ rest) with (String "}" (String "}" rest)).
    cbn [upToBraces].
    replace (String.prefix "}}" (String "}" (String "}" rest))) with true;
      [reflexivity|].
    symmetry. cbn. apply prefix_nil.
  - cbn [plain] in Hplain. apply andb_true_iff in Hplain as [Hc Hbody].
    unfold plain_char in Hc. apply andb_true_iff in Hc as [Hbrace Hline].
    apply negb_true_iff in Hbrace, Hline.
    change ((String c body) +:+ "}}" +:+ rest)
      with (String c (body +:+ "}}" +:+ rest)).
    cbn [upToBraces String.prefix].
    assert (Hne : "}"%char <> c).
    { intros <-. rewrite Ascii.eqb_refl in Hbrace. discriminate. }
    destruct (ascii_dec "}" c) as [?|_]; [contradiction|].
    rewrite Hline, (IH Hbody). reflexivity.
Qed.

Lemma pretty_N_go_plain x s : plain s = true -> plain (pretty_N_go x s) = true.
Proof.
  revert s. induction (N.lt_wf_0 x) as [x _ IH]; intros s Hs.
  destruct (decide (x = 0)%N) as [->|Hx]; [exact Hs|].
  rewrite pretty_N_go_step by lia. apply IH.
  - apply N.div_lt; lia.
  - cbn [plain]. rewrite Hs, andb_true_r.
    unfold pretty_N_char. repeat case_match; reflexivity.
Qed.

Lemma pretty_nat_plain (n : nat) : plain (pretty n) = true.
Proof.
  unfold pretty, pretty_nat, pretty, pretty_N.
  destruct (decide _); [reflexivity|]. apply pretty_N_go_plain. reflexivity.
Qed.

Lemma matchPlaceholder_at_start tail found :
  upToBraces tail = Some found ->
  matchPlaceholder ("{{VAULT_CREDENTIAL.cred-" +:+ tail)
  = Some ("cred-" +:+ found).
Proof.
  intros H. simpl. rewrite prefix_nil. change ("" +:+ tail) with tail.
  rewrite H. reflexivity.
Qed.

Lemma matchPlaceholder_placeholder body :
  plain body = true ->
  matchPlaceholder ("{{VAULT_CREDENTIAL." +:+ ("cred-" +:+ body) +:+ "}}")
  = Some ("cred-" +:+ body).
Proof.
  intros Hplain.
  change ("{{VAULT_CREDENTIAL." +:+ ("cred-" +:+ body) +:+ "}}")
    with ("{{VAULT_CREDENTIAL.cred-" +:+ (body +:+ "}}" +:+ "")).
  apply matchPlaceholder_at_start, upToBraces_plain, Hplain.
Qed.

(** Property X8.  A credential saved is read back: with the vault
    unlocked and a cipher that decrypts what it encrypted, the placeholder
    that [encryptAndSaveCredential] returns for a non-empty value is resolved
    by [getDecryptedCredential] to that value, the store unchanged by the
    reading. *)
Theorem saved_credential_is_read_back (W : World) (name v key : string)
    (s : Store) :
  (forall text k, AES_decrypt W (AES_encrypt W text k) k = Resolved text) ->
  beachdai_session_key s = Some key -> String.eqb key "" = false ->
  String.eqb v "" = false ->
  plain (Math_random W (S (calls s))) = true ->
  exists placeholder s1,
    encryptAndSaveCredential W name v s = Return placeholder s1 /\
    getDecryptedCredential W placeholder s1 = Return v s1.
Proof.
  intros Hcipher Hk Hkey Hv Hrandom.
  pose proof (encryptAndSaveCredential_unlocked W name v s key Hk Hkey) as E.
  cbv zeta in E. eexists _, _. split; [exact E|].
  set (body := pretty (Date_now W (calls s)) +:+ "-"
               +:+ Math_random W (S (calls s))).
  assert (Hplain : plain body = true).
  { subst body. rewrite !plain_app, pretty_nat_plain, Hrandom. reflexivity. }
  unfold getDecryptedCredential, getSessionKey, bind, get, ret. fields.
  unfold truthy. rewrite Hk, Hkey. cbn [negb].
  change ("cred-" +:+ pretty (Date_now W (calls s)) +:+ "-"
          +:+ Math_random W (S (calls s))) with ("cred-" +:+ body).
  rewrite (matchPlaceholder_placeholder body Hplain).
  unfold set_local at 1, set_secure_vault at 1. cbn [local beachdai_secure_vault].
  rewrite lookup_insert_eq, Hcipher, Hv. reflexivity.
Qed.

(** A cipher to run the vault on: the ciphertext is the text behind the key,
    and decrypting under another key gives the empty text, as a failed
    conversion to UTF-8 does. *)
Definition keyedEncrypt (text key : string) : string := key +:+ ":" +:+ text.

Definition keyedDecrypt (ciphertext key : string) : Outcome string :=
  if String.prefix (key +:+ ":") ciphertext
  then Resolved (skip (String.length key + 1) ciphertext)
  else Resolved "".

Lemma prefix_append a b : String.prefix a (a +:+ b) = true.
Proof.
  induction a as [|c a IH]; [apply prefix_nil|].
  change (String c a +:+ b) with (String c (a +:+ b)).
  cbn [String.prefix]. destruct (ascii_dec c c); [exact IH|congruence].
Qed.

Lemma skip_append a b : skip (String.length a) (a +:+ b) = b.
Proof. induction a as [|c a IH]; [destruct b; reflexivity|exact IH]. Qed.

Lemma keyed_round_trip text key :
  keyedDecrypt (keyedEncrypt text key) key = Resolved text.
Proof.
  unfold keyedDecrypt, keyedEncrypt.
  replace (key +:+ ":" +:+ text) with ((key +:+ ":") +:+ text)
    by (induction key as [|c key IH]; [reflexivity|];
        change (String c key +:+ ":") with (String c (key +:+ ":"));
        change (String c (key +:+ ":") +:+ text)
          with (String c ((key +:+ ":") +:+ text));
        rewrite IH; reflexivity).
  rewrite prefix_append.
  replace (String.length key + 1) with (String.length (key +:+ ":"))
    by (induction key as [|c key IH]; [reflexivity|];
        change (String c key +:+ ":") with (String c (key +:+ ":"));
        cbn [String.length Nat.add]; rewrite IH; reflexivity).
  rewrite skip_append. reflexivity.
Qed.

Definition vaultWorld : World :=
  {| Date_now := Date_now offlineWorld;
     Math_random := Math_random offlineWorld;
     AES_encrypt := keyedEncrypt;
     AES_decrypt := keyedDecrypt;
     PBKDF2 := PBKDF2 offlineWorld;
     JSON_stringify := JSON_stringify offlineWorld;
     String_of := String_of offlineWorld;
     URL_hostname := URL_hostname offlineWorld;
     geolocation := geolocation offlineWorld;
     newTaskUrl := newTaskUrl offlineWorld;
     triage_call := triage_call offlineWorld;
     researcher_call := researcher_call offlineWorld;
     planner_call := planner_call offlineWorld;
     manager_call := manager_call offlineWorld;
     verifier_call := verifier_call offlineWorld;
     presenter_call := presenter_call offlineWorld;
     teacher_call := teacher_call offlineWorld;
     relevant_tool := relevant_tool offlineWorld;
     tabs_get := tabs_get offlineWorld;
     tabs_create := tabs_create offlineWorld;
     tabs_update := tabs_update offlineWorld;
     tabs_query := tabs_query offlineWorld;
     tabs_query_active := tabs_query_active offlineWorld;
     observation := observation offlineWorld;
     execute_on_page := execute_on_page offlineWorld;
     searchPage := searchPage offlineWorld |}.

Lemma saved_credential_is_read_back_witness :
  exists placeholder s1,
    encryptAndSaveCredential vaultWorld "Kayak" "hunter2"
      (final (initializeVault vaultWorld "00ff" "open sesame" emptyStore))
    = Return placeholder s1 /\
    getDecryptedCredential vaultWorld placeholder s1 = Return "hunter2" s1.
Proof.
  apply (saved_credential_is_read_back vaultWorld "Kayak" "hunter2"
           "open sesame00ff").
  - intros text k. apply keyed_round_trip.
  - reflexivity.
  - reflexivity.
  - reflexivity.
  - reflexivity.
Defined.

(** Property X9.  A vault that was set up is unlocked by its passphrase and
    by no other: after [initializeVault] the vault is initialized and the
    session holds the derived key; from any store with that local storage
    [unlockVault] with the same passphrase answers [true] and stores the
    key again, while a passphrase whose key does not decrypt the check value
    to the check string answers [false] and leaves the store as it was. *)
Theorem initialized_vault_unlocks (W : World) (salt passphrase : string)
    (s : Store) :
  (forall text k, AES_decrypt W (AES_encrypt W text k) k = Resolved text) ->
  String.eqb salt "" = false ->
  String.eqb (AES_encrypt W CHECK_STRING (deriveKey W passphrase salt)) ""
  = false ->
  let key := deriveKey W passphrase salt in
  let s1 := final (initializeVault W salt passphrase s) in
  beachdai_session_key s1 = Some key /\
  isVaultInitialized s1 = Return true s1 /\
  (forall s2, local s2 = local s1 ->
     unlockVault W passphrase s2
     = Return true (set_session_key (Some key) s2)) /\
  (forall s2 other, local s2 = local s1 ->
     AES_decrypt W (AES_encrypt W CHECK_STRING key) (deriveKey W other salt)
     <> Resolved CHECK_STRING ->
     unlockVault W other s2 = Return false s2).
Proof.
  intros Hcipher Hsalt Hcheck key s1. fold key in Hcheck.
  assert (Hlocal : beachdai_vault_salt (local s1) = Some salt /\
                   beachdai_vault_check (local s1)
                   = Some (AES_encrypt W CHECK_STRING key)).
  { split; reflexivity. }
  destruct Hlocal as [Hs Hc].
  split; [reflexivity|]. split.
  { unfold isVaultInitialized, bind, get, ret. rewrite Hs. unfold truthy.
    rewrite Hsalt. reflexivity. }
  split.
  - intros s2 E. unfold unlockVault, bind, get, ret, modify.
    rewrite E, Hs, Hc. unfold truthy. rewrite Hsalt, Hcheck.
    cbn [negb from_option id]. rewrite Hcipher.
    rewrite String.eqb_refl. reflexivity.
  - intros s2 other E Hwrong. unfold unlockVault, bind, get, ret, modify.
    rewrite E, Hs, Hc. unfold truthy. rewrite Hsalt, Hcheck.
    cbn [negb from_option id].
    destruct (AES_decrypt W _ (deriveKey W other salt)) as [text|err] eqn:D;
      [|reflexivity].
    destruct (String.eqb text CHECK_STRING) eqn:T; [|reflexivity].
    apply String.eqb_eq in T. subst text. contradiction.
Qed.

Lemma initialized_vault_unlocks_witness :
  let s1 := final (initializeVault vaultWorld "00ff" "open sesame" emptyStore) in
  unlockVault vaultWorld "open sesame" (set_session_key None s1)
  = Return true s1 /\
  unlockVault vaultWorld "open sesame!" (set_session_key None s1)
  = Return false (set_session_key None s1).
Proof.
  intros s1.
  destruct (initialized_vault_unlocks vaultWorld "00ff" "open sesame" emptyStore
              (fun text k => keyed_round_trip text k) eq_refl eq_refl)
    as (_ & _ & Hright & Hwrong).
  split.
  - apply (Hright (set_session_key None s1)). reflexivity.
  - apply Hwrong; [reflexivity|]. vm_compute. discriminate.
Defined.

(** ** The request budget of [geminiCall] *)

Section ClientBudget.

Variable JSON_parse : string -> option JSON.
Variable fetch : nat -> string -> string -> bool -> bool -> FetchOutcome.
Variable googleApiKey : option string.

(** What a call may be asked for and what it gives: parsed JSON when JSON is
    expected, the raw text when it is not. *)
Definition answers (expectJson : bool) (o : Outcome Answer) : Prop :=
  match o with
  | Resolved (Parsed _) => expectJson = true
  | Resolved (RawText _) => expectJson = false
  | Rejected _ => True
  end.

Lemma readResponse_answers responseText expectJson :
  answers expectJson (readResponse JSON_parse responseText expectJson).
Proof.
  unfold readResponse.
  destruct (JSON_parse responseText) as [result|]; [|exact I].
  assert (H : answers expectJson
    match textPart result with
    | None => Rejected (mkError "No text part found in Gemini response.")
    | Some textContent =>
        if expectJson then
          match JSON_parse textContent with
          | Some parsed => Resolved (Parsed parsed)
          | None =>
              let jsonString := extractJsonString textContent in
              if negb (String.eqb jsonString "") then
                match JSON_parse (stripControl jsonString) with
                | Some parsed => Resolved (Parsed parsed)
                | None =>
                    Rejected (mkError
                      ("Failed to parse extracted JSON. Content: " +:+ dq
                       +:+ jsonString +:+ dq))
                end
              else
                Rejected (mkError
                  ("Could not find a valid JSON object or array in the text content. Full response: "
                   +:+ dq +:+ textContent +:+ dq))
          end
        else Resolved (RawText textContent)
    end).
  { destruct (textPart result) as [textContent|]; [|exact I].
    destruct expectJson; [|reflexivity].
    destruct (JSON_parse textContent); [reflexivity|]. cbv zeta.
    destruct (negb _); [|exact I].
    destruct (JSON_parse _); [reflexivity|exact I]. }
  destruct result; first [exact I | exact H].
Qed.

(** One level of [geminiCall]: at most [maxRetries] requests of its own,
    then those of the call it makes to itself. *)
Lemma geminiCall_body_budget self k prompt useTool model expectJson st :
  (forall p u m st', 
     requests st' <= requests (snd (self p u m false st')) <= requests st' + k) ->
  let r := geminiCall_body JSON_parse fetch googleApiKey self prompt useTool
             model expectJson st in
  requests st <= requests (snd r)
  <= requests st + maxRetries + (if expectJson then k else 0).
Proof.
  intros Hself r. subst r. unfold geminiCall_body.
  destruct (negb (truthy googleApiKey)); [cbn [snd]; lia|].
  pose proof (retryLoop_bound fetch maxRetries 0 model prompt useTool
                expectJson st) as Hloop.
  destruct (retryLoop fetch maxRetries 0 model prompt useTool expectJson st)
    as [exit st'].
  cbn [snd] in Hloop.
  destruct exit as [responseText|response|error|]; cbn [snd]; try lia.
  destruct (readResponse JSON_parse responseText expectJson) as [answer|e];
    [cbn [snd]; lia|].
  destruct expectJson; cbn [andb]; [|cbn [snd]; lia].
  destruct (bool_decide (kind e = SyntaxError)); [|cbn [snd]; lia].
  specialize (Hself (correctionPrompt responseText) false model st').
  destruct (self (correctionPrompt responseText) false model false st')
    as [[corrected|e'] st''];
    cbn [snd] in Hself; [|cbn [snd]; lia].
  cbv zeta.
  destruct (negb _); [|cbn [snd]; lia].
  destruct (JSON_parse _); cbn [snd]; lia.
Qed.

Lemma geminiCall_body_answers self prompt useTool model expectJson st :
  answers expectJson
    (fst (geminiCall_body JSON_parse fetch googleApiKey self prompt useTool
            model expectJson st)).
Proof.
  unfold geminiCall_body.
  destruct (negb (truthy googleApiKey)); [exact I|].
  destruct (retryLoop fetch maxRetries 0 model prompt useTool expectJson st)
    as [exit st'].
  destruct exit as [responseText|response|error|]; try exact I.
  pose proof (readResponse_answers responseText expectJson) as Hread.
  destruct (readResponse JSON_parse responseText expectJson) as [answer|e];
    [exact Hread|].
  destruct expectJson; cbn [andb]; [|exact I].
  destruct (bool_decide (kind e = SyntaxError)); [|exact I].
  destruct (self (correctionPrompt responseText) false model false st')
    as [[corrected|e'] st'']; [|exact I].
  cbv zeta. destruct (negb _); [|exact I].
  destruct (JSON_parse _); [reflexivity|exact I].
Qed.

End ClientBudget.

(** Property X10.  What one decision call costs and gives.  [geminiCall]
    sends at most [maxRetries] requests when no JSON is expected and at most
    twice as many when it is, the repair call included; without an API key
    it sends none and fails; and when it resolves, it resolves with parsed
    JSON if JSON was expected and with the raw text if not. *)
Theorem geminiCall_request_budget (JSON_parse : string -> option JSON)
    (fetch : nat -> string -> string -> bool -> bool -> FetchOutcome)
    (googleApiKey : option string) (prompt model : string)
    (useTool expectJson : bool) (st : ClientState) :
  let r := geminiCall JSON_parse fetch googleApiKey prompt useTool model
             expectJson st in
  (requests st <= requests (snd r)
   <= requests st + (if expectJson then 2 * maxRetries else maxRetries)) /\
  answers expectJson (fst r) /\
  (truthy googleApiKey = false ->
   r = (Rejected (mkError
          "Google API key not found. Please set it in the extension options."),
        st)).
Proof.
  intros r. subst r. unfold geminiCall. split; [|split].
  - pose proof (geminiCall_body_budget JSON_parse fetch googleApiKey
      (geminiCall_body JSON_parse fetch googleApiKey
         (fun _ _ _ _ st0 => (Rejected (mkError "unreachable"), st0)))
      maxRetries prompt useTool model expectJson st) as H.
    cbv zeta in H.
    assert (Hinner : forall p u m st',
      requests st'
      <= requests (snd (geminiCall_body JSON_parse fetch googleApiKey
           (fun _ _ _ _ st0 => (Rejected (mkError "unreachable"), st0))
           p u m false st'))
      <= requests st' + maxRetries).
    { intros p u m st'.
      pose proof (geminiCall_body_budget JSON_parse fetch googleApiKey
        (fun _ _ _ _ st0 => (Rejected (mkError "unreachable"), st0))
        0 p u m false st') as H0.
      cbv zeta in H0. cbn [snd] in H0.
      assert (forall st1 : ClientState, requests st1 <= requests st1 <= requests st1 + 0)
        as Hstub by (intros; lia).
      specialize (H0 (fun _ _ _ st1 => Hstub st1)). lia. }
    specialize (H Hinner). destruct expectJson; unfold maxRetries in *; lia.
  - apply geminiCall_body_answers.
  - intros Hkey. unfold geminiCall_body at 1. rewrite Hkey. reflexivity.
Qed.

(** A body that is not JSON, then an answer to the repair call whose text
    holds the object [{}] behind a word of introduction. *)
Definition repairedReply : JSON :=
  JObj [("candidates",
         JArr [JObj [("content",
                      JObj [("parts",
                             JArr [JObj [("text", JStr "Fixed: {}")]])])]])].

Definition repairParse (s : string) : option JSON :=
  if String.eqb s "REPAIRED" then Some repairedReply
  else if String.eqb s "{}" then Some (JObj [])
  else None.

Definition repairFetch (n : nat) (model prompt : string)
    (useTool expectJson : bool) : FetchOutcome :=
  Responded {| ok := true; http_status := 200;
               body_text := Resolved (if Nat.eqb n 0 then "{candidates: oops"
                                      else "REPAIRED") |}.

(** Property X11.  The repair call.  When JSON is expected and the body of
    the answer is itself not JSON, a second request is sent with the
    correction prompt around that body, with no tool and no JSON mode.  If
    its answer carries a text part, the call resolves with what
    [JSON.parse] makes of the outermost braces or brackets of that text,
    control characters left in, after two requests; if the text holds none,
    or they do not parse, the call fails with the self-healing error. *)
Theorem malformed_body_is_repaired (JSON_parse : string -> option JSON)
    (fetch : nat -> string -> string -> bool -> bool -> FetchOutcome)
    (googleApiKey : option string) (prompt model : string) (useTool : bool)
    (st : ClientState) (response repair : HttpResponse)
    (responseText repairText corrected : string) (envelope : JSON) :
  truthy googleApiKey = true ->
  fetch (requests st) model prompt useTool true = Responded response ->
  ok response = true -> body_text response = Resolved responseText ->
  JSON_parse responseText = None ->
  fetch (S (requests st)) model (correctionPrompt responseText) false false
  = Responded repair ->
  ok repair = true -> body_text repair = Resolved repairText ->
  JSON_parse repairText = Some envelope -> envelope <> JNull ->
  textPart envelope = Some corrected ->
  let r := geminiCall JSON_parse fetch googleApiKey prompt useTool model true
             st in
  let asked := {| requests := 2 + requests st; delays := delays st |} in
  let jsonString := extractJsonString corrected in
  (forall parsed,
     String.eqb jsonString "" = false ->
     JSON_parse jsonString = Some parsed ->
     r = (Resolved (Parsed parsed), asked)) /\
  (String.eqb jsonString "" = false -> JSON_parse jsonString = None ->
   r = (Rejected (mkError
          ("Self-healing failed. Final corrected text was not valid JSON: "
           +:+ dq +:+ jsonString +:+ dq)), asked)) /\
  (jsonString = "" ->
   r = (Rejected (mkError
          ("Self-healing failed. Could not extract JSON from corrected text: "
           +:+ dq +:+ corrected +:+ dq)), asked)).
Proof.
  intros Hkey Hfetch Hok Hbody Hparse Hfetch2 Hok2 Hbody2 Hparse2 Hnull Htext
         r asked jsonString.
  assert (Hinner :
    geminiCall_body JSON_parse fetch googleApiKey
      (fun _ _ _ _ st0 => (Rejected (mkError "unreachable"), st0))
      (correctionPrompt responseText) false model false
      {| requests := S (requests st); delays := delays st |}
    = (Resolved (RawText corrected), asked)).
  { unfold geminiCall_body. rewrite Hkey. cbn [negb]. unfold maxRetries at 1.
    rewrite (retryLoop_got_body fetch 4 0 model (correctionPrompt responseText)
               false false
               {| requests := S (requests st); delays := delays st |}
               repair repairText Hfetch2 Hok2 Hbody2).
    unfold readResponse. rewrite Hparse2.
    destruct envelope; try contradiction; rewrite Htext; reflexivity. }
  assert (E : r =
    let correctedResponseText := corrected in
    let jsonString := extractJsonString correctedResponseText in
    if negb (String.eqb jsonString "") then
      match JSON_parse jsonString with
      | Some parsed => (Resolved (Parsed parsed), asked)
      | None =>
          (Rejected (mkError
             ("Self-healing failed. Final corrected text was not valid JSON: "
              +:+ dq +:+ jsonString +:+ dq)), asked)
      end
    else
      (Rejected (mkError
         ("Self-healing failed. Could not extract JSON from corrected text: "
          +:+ dq +:+ correctedResponseText +:+ dq)), asked)).
  { subst r. unfold geminiCall, geminiCall_body at 1. rewrite Hkey.
    cbn [negb]. unfold maxRetries at 1.
    rewrite (retryLoop_got_body fetch 4 0 model prompt useTool true st
               response responseText Hfetch Hok Hbody).
    unfold readResponse at 1. rewrite Hparse.
    cbn [andb kind syntaxError].
    rewrite bool_decide_eq_true_2 by reflexivity.
    rewrite Hinner. reflexivity. }
  cbv zeta in E. fold jsonString in E. rewrite E.
  split; [|split].
  - intros parsed Hne Hp. rewrite Hne, Hp. reflexivity.
  - intros Hne Hp. rewrite Hne, Hp. reflexivity.
  - intros He. rewrite He. reflexivity.
Qed.

Lemma malformed_body_is_repaired_witness :
  geminiCall repairParse repairFetch (Some "key") "decide" false "flash" true
    {| requests := 0; delays := [] |}
  = (Resolved (Parsed (JObj [])), {| requests := 2; delays := [] |}).
Proof.
  destruct (malformed_body_is_repaired repairParse repairFetch (Some "key")
              "decide" "flash" false {| requests := 0; delays := [] |}
              {| ok := true; http_status := 200;
                 body_text := Resolved "{candidates: oops" |}
              {| ok := true; http_status := 200;
                 body_text := Resolved "REPAIRED" |}
              "{candidates: oops" "REPAIRED" "Fixed: {}" repairedReply
              eq_refl eq_refl eq_refl eq_refl eq_refl eq_refl eq_refl eq_refl
              eq_refl)
    as (H & _).
  - discriminate.
  - reflexivity.
  - apply H; reflexivity.
Defined.

(** ** The local repair of [geminiCall] *)

Lemma append_cons c a b : String c a +:+ b = String c (a +:+ b).
Proof. reflexivity. Qed.

Lemma append_assoc' a b c : (a +:+ b) +:+ c = a +:+ b +:+ c.
Proof.
  induction a as [|x a IH]; [reflexivity|].
  rewrite !append_cons, IH. reflexivity.
Qed.

Lemma length_append a b :
  String.length (a +:+ b) = String.length a + String.length b.
Proof.
  induction a as [|x a IH]; [reflexivity|].
  rewrite append_cons. cbn [String.length]. rewrite IH. reflexivity.
Qed.

Lemma indexOf_first c pre rest :
  indexOf c pre = None ->
  indexOf c (pre +:+ String c rest) = Some (String.length pre).
Proof.
  induction pre as [|x pre IH]; intros H.
  - change ("" +:+ String c rest) with (String c rest).
    cbn [indexOf String.length]. rewrite Ascii.eqb_refl. reflexivity.
  - rewrite append_cons. cbn [indexOf String.length] in *.
    destruct (Ascii.eqb c x); [discriminate|].
    destruct (indexOf c pre); [discriminate|].
    rewrite IH by reflexivity. reflexivity.
Qed.

Lemma lastIndexOf_last c s post :
  lastIndexOf c post = None ->
  lastIndexOf c (s +:+ String c post) = Some (String.length s).
Proof.
  intros H. induction s as [|x s IH].
  - change ("" +:+ String c post) with (String c post).
    cbn [lastIndexOf String.length]. rewrite H, Ascii.eqb_refl. reflexivity.
  - rewrite append_cons. cbn [lastIndexOf String.length]. rewrite IH.
    reflexivity.
Qed.

Lemma substring_skip pre n s :
  substring (String.length pre) n (pre +:+ s) = substring 0 n s.
Proof. induction pre as [|x pre IH]; [reflexivity|exact IH]. Qed.

Lemma substring_take a b : substring 0 (String.length a) (a +:+ b) = a.
Proof.
  induction a as [|x a IH]; [destruct b; reflexivity|].
  rewrite append_cons. cbn [String.length substring]. rewrite IH. reflexivity.
Qed.

(** The text between the first [open] and the last [close], both
    included. *)
Lemma between_fenced (open close : ascii) pre body post :
  indexOf open pre = None -> lastIndexOf close post = None ->
  between open close
    (pre +:+ String open body +:+ String close post)
  = Some (String open body +:+ String close "").
Proof.
  intros Hpre Hpost.
  set (whole := pre +:+ String open body +:+ String close post).
  assert (Hfrom : indexOf open whole = Some (String.length pre)).
  { subst whole. rewrite append_cons. apply indexOf_first, Hpre. }
  assert (Hto : lastIndexOf close whole
                = Some (String.length pre + S (String.length body))).
  { subst whole. rewrite <- append_assoc'.
    rewrite (lastIndexOf_last close _ post Hpost), length_append.
    reflexivity. }
  assert (Htext : substring (String.length pre) (String.length body + 2) whole
                  = String open body +:+ String close "").
  { subst whole. rewrite substring_skip.
    replace (String open body +:+ String close post)
      with ((String open body +:+ String close "") +:+ post)
      by (rewrite append_assoc'; reflexivity).
    replace (String.length body + 2)
      with (String.length (String open body +:+ String close ""))
      by (rewrite length_append; cbn [String.length]; lia).
    apply substring_take. }
  unfold between. rewrite Hfrom, Hto.
  destruct (Nat.ltb_spec (String.length pre)
              (String.length pre + S (String.length body))); [|lia].
  replace (String.length pre + S (String.length body) + 1 - String.length pre)
    with (String.length body + 2) by lia.
  rewrite Htext. reflexivity.
Qed.

(** A text with no closing brace after an opening one holds no object. *)
Lemma between_none (open close : ascii) s :
  indexOf open s = None -> between open close s = None.
Proof. intros H. unfold between. rewrite H. reflexivity. Qed.

(** Property X12.  What the local repair extracts.  From a text that wraps
    an object, [extractJsonString] takes the object, first brace to last
    brace, when no brace opens before it and none closes after it; from a
    text without an opening brace it takes the array likewise; and a text
    with neither an opening brace nor an opening bracket gives the empty
    string, which the caller treats as nothing found. *)
Theorem wrapped_json_is_extracted (pre body post : string) :
  (indexOf "{" pre = None -> lastIndexOf "}" post = None ->
   extractJsonString (pre +:+ "{" +:+ body +:+ "}" +:+ post)
   = "{" +:+ body +:+ "}") /\
  (indexOf "{" (pre +:+ "[" +:+ body +:+ "]" +:+ post) = None ->
   indexOf "[" pre = None -> lastIndexOf "]" post = None ->
   extractJsonString (pre +:+ "[" +:+ body +:+ "]" +:+ post)
   = "[" +:+ body +:+ "]") /\
  (indexOf "{" pre = None -> indexOf "[" pre = None ->
   extractJsonString pre = "").
Proof.
  split; [|split].
  - intros Hpre Hpost. unfold extractJsonString.
    change (pre +:+ "{" +:+ body +:+ "}" +:+ post)
      with (pre +:+ String "{" body +:+ String "}" post).
    rewrite (between_fenced "{" "}" pre body post Hpre Hpost). reflexivity.
  - intros Hnone Hpre Hpost. unfold extractJsonString.
    rewrite (between_none "{" "}" _ Hnone).
    change (pre +:+ "[" +:+ body +:+ "]" +:+ post)
      with (pre +:+ String "[" body +:+ String "]" post).
    rewrite (between_fenced "[" "]" pre body post Hpre Hpost). reflexivity.
  - intros Hbrace Hbracket. unfold extractJsonString.
    rewrite (between_none "{" "}" _ Hbrace), (between_none "[" "]" _ Hbracket).
    reflexivity.
Qed.

Lemma wrapped_json_is_extracted_witness :
  extractJsonString ("Here you go: " +:+ "{" +:+ "a: [1]" +:+ "}" +:+ " Done.")
  = "{" +:+ "a: [1]" +:+ "}".
Proof.
  destruct (wrapped_json_is_extracted "Here you go: " "a: [1]" " Done.")
    as [H _].
  apply H; reflexivity.
Defined.

(** ** The stored tasks *)

Lemma split_words_nonempty s : 0 < length (split_words s).
Proof.
  unfold split_words.
  enough (H : forall cur,
    0 < length
      ((fix go (cur : string) (s : string) : list string :=
          match s with
          | EmptyString => [cur]
          | String c s' =>
              if Ascii.eqb c " "%char then cur :: go "" s'
              else go (cur +:+ String c EmptyString) s'
          end) cur s)) by apply H.
  induction s as [|c s IH]; intros cur.
  - cbn. lia.
  - simpl. destruct (Ascii.eqb c " "); [cbn [length]; lia|apply IH].
Qed.

Lemma In_take {A} (x : A) n l : In x (take n l) -> In x l.
Proof.
  revert n. induction l as [|y l IH]; intros [|n]; cbn; try tauto.
  intros [->|H]; [left; reflexivity|right; exact (IH n H)].
Qed.

Lemma filter_own (l : list string) :
  List.filter (fun k => existsb (String.eqb k) l) l = l.
Proof.
  assert (H : forall l' : list string, (forall k, In k l' -> In k l) ->
            List.filter (fun k => existsb (String.eqb k) l) l' = l').
  { induction l' as [|k l' IH]; intros Hin; [reflexivity|].
    cbn [List.filter].
    replace (existsb (String.eqb k) l) with true.
    - rewrite IH; [reflexivity|]. intros k' Hk'. apply Hin. right. exact Hk'.
    - symmetry. apply existsb_exists. exists k. split.
      + apply Hin. left. reflexivity.
      + apply String.eqb_refl. }
  apply H. auto.
Qed.

Lemma saveHistoricalTask_keeps_completed W g s :
  completedTasks (local (final (saveHistoricalTask W g s)))
  = completedTasks (local s).
Proof.
  unfold saveHistoricalTask. destruct (is_blank g); [reflexivity|].
  unfold bind at 1, get at 1.
  destruct (existsb _ (historicalTasks (local s))); reflexivity.
Qed.

Lemma saveCompletedTask_stores W s t :
  currentTask s = Some t -> truthy (finalAnswer t) = true ->
  completedTasks (local (final (saveCompletedTask W s)))
  = take 50 ({| ct_goal := originalGoal t;
                ct_answer := default "" (finalAnswer t);
                ct_timestamp := Date_now W (calls s) |}
             :: completedTasks (local s)).
Proof.
  intros Ht Hanswer. unfold saveCompletedTask.
  unfold bind at 1, get at 1. rewrite Ht, Hanswer. cbn [negb].
  unfold bind at 1, ask at 1. unfold bind at 1, modify at 1.
  rewrite saveHistoricalTask_keeps_completed. reflexivity.
Qed.

(** Property X13.  A completed task is found again.  Once
    [saveCompletedTask] has stored the task with its answer,
    [getSimilarCompletedTasks] for the same goal returns it first; and for
    any goal the lookup changes nothing and returns at most three of the
    stored tasks. *)
Theorem completed_task_is_found_again (W : World) (s : Store)
    (t : AgentState) :
  currentTask s = Some t -> truthy (finalAnswer t) = true ->
  let s1 := final (saveCompletedTask W s) in
  (exists rest,
     getSimilarCompletedTasks (originalGoal t) s1
     = Return ({| ct_goal := originalGoal t;
                  ct_answer := default "" (finalAnswer t);
                  ct_timestamp := Date_now W (calls s) |} :: rest) s1 /\
     length rest <= 2) /\
  (forall g s0, exists found,
     getSimilarCompletedTasks g s0 = Return found s0 /\
     length found <= 3 /\
     forall task, In task found -> In task (completedTasks (local s0))).
Proof.
  intros Ht Hanswer s1. split.
  - unfold getSimilarCompletedTasks, bind, get, ret. subst s1.
    rewrite (saveCompletedTask_stores W s t Ht Hanswer).
    cbn [take List.filter ct_goal].
    rewrite filter_own.
    pose proof (split_words_nonempty (toLowerCase (originalGoal t))) as Hpos.
    destruct (Nat.ltb_spec (length (split_words (toLowerCase (originalGoal t))))
                (2 * length (split_words (toLowerCase (originalGoal t)))));
      [|lia].
    cbn [take]. eexists. split; [reflexivity|].
    rewrite length_take. lia.
  - intros g s0. unfold getSimilarCompletedTasks, bind, get, ret.
    eexists. split; [reflexivity|]. split.
    + rewrite length_take. lia.
    + intros task Hin. apply In_take in Hin. apply filter_In in Hin. tauto.
Qed.

Lemma completed_task_is_found_again_witness :
  let t := set_finalAnswer (Some "flight 42, 310 USD")
             (exampleTask COMPLETED ["open kayak.com"] 0 0) in
  exists rest,
    getSimilarCompletedTasks "book a flight"
      (final (saveCompletedTask clickWorld (storeOf t)))
    = Return ({| ct_goal := "book a flight";
                 ct_answer := "flight 42, 310 USD";
                 ct_timestamp := 1000 |} :: rest)
        (final (saveCompletedTask clickWorld (storeOf t))) /\
    length rest <= 2.
Proof.
  intros t.
  destruct (completed_task_is_found_again clickWorld (storeOf t) t
              eq_refl eq_refl) as [H _].
  exact H.
Defined.

Lemma not_archived_spec g (stored : list HistoricalTask) :
  existsb (fun task => String.eqb (goal task) g) stored = false <->
  forall task, task ∈ stored -> goal task <> g.
Proof.
  split.
  - intros H task Hin Hg.
    assert (E : existsb (fun task => String.eqb (goal task) g) stored = true).
    { apply existsb_exists. exists task. split.
      - apply list_elem_of_In, Hin.
      - apply String.eqb_eq, Hg. }
    congruence.
  - intros H. destruct (existsb _ stored) eqn:E; [|reflexivity].
    apply existsb_exists in E as (task & Hin & Hg).
    apply String.eqb_eq in Hg. apply list_elem_of_In in Hin.
    destruct (H task Hin Hg).
Qed.

Lemma saveHistoricalTask_new W g s :
  is_blank g = false ->
  existsb (fun task => String.eqb (goal task) g) (historicalTasks (local s))
  = false ->
  historicalTasks (local (final (saveHistoricalTask W g s)))
  = take 10 ({| goal := g; timestamp := Date_now W (calls s) |}
             :: historicalTasks (local s)).
Proof.
  intros Hblank Hnew. unfold saveHistoricalTask. rewrite Hblank.
  unfold bind at 1, get at 1. rewrite Hnew. reflexivity.
Qed.

(** Property X14.  Deleting from the history.  [DELETE_HISTORICAL_TASK]
    returns with every stored task of that timestamp removed, the others
    kept in their order, and the list it stored broadcast; it touches
    neither the running task, nor its timers, nor the completed tasks, and a
    second deletion removes nothing more.  A goal that was archived and is
    deleted by the timestamp it was archived with is no longer in the
    history. *)
Theorem deleted_task_leaves_the_history (W : World) (fuel ts : nat)
    (s : Store) :
  let s' := after W (S fuel) (DELETE_HISTORICAL_TASK ts) s in
  agentOrchestrator W (S fuel) (DELETE_HISTORICAL_TASK ts) s = Return tt s' /\
  (forall task, task ∈ historicalTasks (local s') <->
                task ∈ historicalTasks (local s) /\ timestamp task <> ts) /\
  historicalTasks (local s') `sublist_of` historicalTasks (local s) /\
  outbox s'
  = (outbox s ++ [MsgHistoricalTasksUpdate (historicalTasks (local s'))])%list /\
  currentTask s' = currentTask s /\ timers s' = timers s /\
  completedTasks (local s') = completedTasks (local s) /\
  historicalTasks (local (after W (S fuel) (DELETE_HISTORICAL_TASK ts) s'))
  = historicalTasks (local s') /\
  (forall g,
     is_blank g = false ->
     existsb (fun task => String.eqb (goal task) g) (historicalTasks (local s))
     = false ->
     existsb (fun task => String.eqb (goal task) g)
       (historicalTasks
          (local (after W (S fuel)
                    (DELETE_HISTORICAL_TASK (Date_now W (calls s)))
                    (final (saveHistoricalTask W g s)))))
     = false).
Proof.
  intros s'.
  assert (Hdel : forall ts0 s0,
    agentOrchestrator W (S fuel) (DELETE_HISTORICAL_TASK ts0) s0
    = Return tt
        (set_outbox
           (outbox s0 ++
            [MsgHistoricalTasksUpdate
               (filter (fun task => timestamp task <> ts0)
                  (historicalTasks (local s0)))])
           (set_local
              (set_historicalTasks
                 (filter (fun task => timestamp task <> ts0)
                    (historicalTasks (local s0)))
                 (local s0)) s0))) by reflexivity.
  assert (Hround : forall g,
    is_blank g = false ->
    existsb (fun task => String.eqb (goal task) g) (historicalTasks (local s))
    = false ->
    existsb (fun task => String.eqb (goal task) g)
      (historicalTasks
         (local (after W (S fuel)
                   (DELETE_HISTORICAL_TASK (Date_now W (calls s)))
                   (final (saveHistoricalTask W g s)))))
    = false).
  { intros g Hblank Hnew.
    pose proof (saveHistoricalTask_new W g s Hblank Hnew) as E.
    set (s1 := final (saveHistoricalTask W g s)) in *.
    unfold after. rewrite Hdel. cbn [final]. fields. rewrite E.
    apply not_archived_spec. intros task Hin.
    apply list_elem_of_filter in Hin as [Hts Hin].
    pose proof (elem_of_sublist _ _ _ Hin (sublist_take _ _)) as Hin'.
    apply elem_of_cons in Hin' as [->|Hstored];
      [contradiction Hts; reflexivity|].
    exact (proj1 (not_archived_spec g _) Hnew task Hstored). }
  subst s'. unfold after. rewrite !Hdel. cbn [final]. fields.
  split; [reflexivity|]. split.
  { intros task. rewrite list_elem_of_filter. tauto. }
  split; [apply sublist_filter|].
  split; [reflexivity|]. split; [reflexivity|]. split; [reflexivity|].
  split; [reflexivity|]. split.
  { apply list_filter_filter_l. tauto. }
  exact Hround.
Qed.

(** ** Executing an action *)

(** Property X15.  [executeAction] reports a failure, it does not raise
    one: whatever the page answers and whatever the nested dispatch of an
    extracted text does, the call does not end in an exception.  For a
    [SEARCH] whose typing fails, the submit message is not sent: the call
    returns [false] after that one message, with the reason in the
    scratchpad; and when the page cannot be reached, any action that is a
    single message returns [false] with the error's message as the reason. *)
Theorem executeAction_reports_failures (W : World)
    (self : AgentEvent -> M unit) (decision : ManagerDecision) (tabId : nat)
    (s : Store) :
  (forall e s', executeAction W self decision tabId s <> Throw e s') /\
  (forall error,
     action decision = Some SEARCH ->
     execute_on_page W (calls s) tabId
       (with_action TYPE (selector decision) decision)
     = Resolved (ActionFailed error) ->
     executeAction W self decision tabId s
     = Return false
         (logged ("Failed to execute action 'SEARCH' on selector '"
                  +:+ show (selector decision) +:+ "'. Reason: " +:+ error)
            (set_calls (S (calls s)) s))) /\
  (forall a e,
     action decision = Some a ->
     a <> SEARCH -> a <> SEARCH_PAGE ->
     execute_on_page W (calls s) tabId decision = Rejected e ->
     executeAction W self decision tabId s
     = Return false
         (logged ("Failed to execute action '" +:+ action_name a
                  +:+ "' on selector '" +:+ show (selector decision)
                  +:+ "'. Reason: " +:+ message e)
            (set_calls (S (calls s)) s))).
Proof.
  split; [|split].
  - intros e s' E. unfold executeAction, try_catch in E.
    match type of E with
    | match ?body s with _ => _ end = _ =>
        destruct (body s) as [b s1|e1 s1|s1]; try discriminate E
    end.
    unfold bind in E. rewrite addToScratchpad_eq in E. discriminate E.
  - intros error Ha Hpage. unfold executeAction. rewrite Ha.
    erewrite try_catch_throw.
    2: { apply bind_throw. unfold bind at 1, await, bind at 1, ask.
         rewrite Hpage. reflexivity. }
    unfold bind. rewrite addToScratchpad_eq. reflexivity.
  - intros a e Ha Hs Hp Hpage. unfold executeAction. rewrite Ha.
    erewrite try_catch_throw.
    2: { apply bind_throw.
         destruct a; try congruence;
           unfold bind at 1, await, bind at 1, ask; rewrite Hpage;
           reflexivity. }
    unfold bind. rewrite addToScratchpad_eq. reflexivity.
Qed.

(** ** The task across the turn loop *)

Lemma dispatchAll_turn W fuel events s :
  Forall (fun e => internal e = true) events ->
  turn_rel s (dispatchAll W fuel events s).
Proof.
  intros Hall. revert s.
  induction Hall as [|e events He _ IH]; intros s.
  - apply turn_rel_refl.
  - cbn [dispatchAll]. eapply turn_rel_trans; [|apply IH].
    apply (agentOrchestrator_turn W fuel e He s).
Qed.

(** Property X16.  The events the orchestrator sends to itself keep the
    task.  Through any sequence of them, handled with any budget, the
    active task remains the same task object with the same goal; no host's
    failure tally goes down; a step index that was within the plan stays
    within it; and the vault is not written.  Without a task, there is none
    afterwards either. *)
Theorem internal_events_keep_the_task (W : World) (fuel : nat)
    (events : list AgentEvent) (s : Store) :
  Forall (fun e => internal e = true) events ->
  let s' := dispatchAll W fuel events s in
  taskRef s' = taskRef s /\
  beachdai_secure_vault (local s') = beachdai_secure_vault (local s) /\
  (currentTask s = None -> currentTask s' = None) /\
  (forall t, currentTask s = Some t ->
     exists t', currentTask s' = Some t' /\
       originalGoal t' = originalGoal t /\
       (forall host, failure_count host t <= failure_count host t') /\
       (step_inv t -> step_inv t')).
Proof.
  intros Hall s'. pose proof (dispatchAll_turn W fuel events s Hall) as H.
  fold s' in H. destruct H as (Hvault & Href & Htask).
  split; [exact Href|]. split; [exact Hvault|]. split.
  - intros Hnone. rewrite Hnone in Htask.
    destruct (currentTask s'); [contradiction|reflexivity].
  - intros t Ht. rewrite Ht in Htask.
    destruct (currentTask s') as [t'|]; [|contradiction].
    exists t'. split; [reflexivity|]. exact Htask.
Qed.

Lemma internal_events_keep_the_task_witness :
  let s := storeOf (exampleTask EXECUTING ["a"; "b"; "c"] 1 2) in
  let s' := dispatchAll clickWorld 6
              [ACTION_FAILED (Some (exampleDecision CLICK)); RUN_NEXT_TURN] s in
  exists t', currentTask s' = Some t' /\
    originalGoal t' = "book a flight" /\
    (forall host, failure_count host (exampleTask EXECUTING ["a"; "b"; "c"] 1 2)
                  <= failure_count host t') /\
    (step_inv (exampleTask EXECUTING ["a"; "b"; "c"] 1 2) -> step_inv t').
Proof.
  intros s s'.
  destruct (internal_events_keep_the_task clickWorld 6
              [ACTION_FAILED (Some (exampleDecision CLICK)); RUN_NEXT_TURN] s)
    as (_ & _ & _ & H).
  - repeat constructor.
  - apply (H (exampleTask EXECUTING ["a"; "b"; "c"] 1 2)). reflexivity.
Defined.

(** ** A demonstration ([TAKE_OVER], then recorded actions) *)

(** The actions known for [step] on [host]. *)
Definition known (host step : string)
    (tools : gmap string (gmap string (list RecordedAction)))
  : list RecordedAction :=
  default [] (tools !! host ≫= (fun forHost => forHost !! step)).



(** The stored tools once [payload] is pushed for [step] on [host]. *)
Definition learned (host step : string) (payload : RecordedAction)
    (tools : gmap string (gmap string (list RecordedAction)))
  : gmap string (gmap string (list RecordedAction)) :=
  <[host := <[step := (known host step tools ++ [payload])%list]>
              (default ∅ (tools !! host))]> tools.






















(** ** Unlocking the vault for a task *)

(** Property X18.  What [UNLOCK_VAULT] does to the task, whatever its
    status.  A passphrase that does not unlock the vault leaves the task as
    it is but for a line in the scratchpad, and the session without a new
    key.  One that unlocks it fails the task when no Researcher decision is
    kept in it; otherwise the task is set to [PLANNING] and the Planner is
    asked for a plan for its goal and research data. *)
Theorem unlock_vault_outcomes (W : World) (fuel : nat) (passphrase : string)
    (s : Store) (t : AgentState) :
  currentTask s = Some t ->
  (unlockVault W passphrase s = Return false s ->
   exists s',
     agentOrchestrator W (S fuel) (UNLOCK_VAULT passphrase) s = Return tt s' /\
     currentTask s'
     = Some (set_scratchpad
               (scratchpad t
                ++ ["Vault unlock failed. Please try the passphrase again."]) t) /\
     beachdai_session_key s' = beachdai_session_key s /\
     local s' = local s /\ calls s' = calls s) /\
  (forall key,
     unlockVault W passphrase s = Return true (set_session_key (Some key) s) ->
     researcherDecision t = None ->
     exists s' t',
       agentOrchestrator W (S fuel) (UNLOCK_VAULT passphrase) s = Return tt s' /\
       currentTask s' = Some t' /\ status t' = FAILED /\
       failureReason t' = Some "Could not resume task after unlocking vault." /\
       beachdai_session_key s' = Some key /\ calls s' = calls s) /\
  (forall key rd,
     unlockVault W passphrase s = Return true (set_session_key (Some key) s) ->
     researcherDecision t = Some rd ->
     agentOrchestrator W (S fuel) (UNLOCK_VAULT passphrase) s
     = planFor W (agentOrchestrator W fuel) (originalGoal t) (researchData t)
         (statusSet PLANNING None
            (logged "Vault unlocked successfully. Proceeding to planning phase."
               (set_session_key (Some key) s)))).
Proof.
  intros Ht. cbn [agentOrchestrator orchestrate].
  assert (E : forall self,
    handleUnlockVault W self passphrase s
    = (success <- unlockVault W passphrase ;;
       if (success : bool) then
         t <- theTask ;;
         match researcherDecision t with
         | None =>
             addToScratchpad
               "Error: Cannot re-run research step. Researcher decision is missing." ;;
             updateTaskStatus FAILED
               (Some "Could not resume task after unlocking vault.")
         | Some _ =>
             addToScratchpad
               "Vault unlocked successfully. Proceeding to planning phase." ;;
             updateTaskStatus PLANNING None ;;
             t <- theTask ;;
             planFor W self (originalGoal t) (researchData t)
         end
       else
         addToScratchpad "Vault unlock failed. Please try the passphrase again." ;;
         updateUI) s).
  { intros self. unfold handleUnlockVault, bind at 1, get at 1.
    rewrite Ht. reflexivity. }
  rewrite E. clear E.
  split; [|split].
  - intros Hwrong. rewrite (bind_eq _ _ _ _ _ Hwrong).
    rewrite (bind_eq _ _ _ _ _ (addToScratchpad_eq _ _)), updateUI_eq.
    eexists. split; [reflexivity|].
    unfold logged, notified. rewrite Ht. fields. auto.
  - intros key Hright Hrd. rewrite (bind_eq _ _ _ _ _ Hright).
    unfold bind at 1, theTask at 1. fields. rewrite Ht, Hrd.
    rewrite (bind_eq _ _ _ _ _ (addToScratchpad_eq _ _)), updateTaskStatus_eq.
    eexists _, _. split; [reflexivity|].
    unfold statusSet, logged, notified. fields. rewrite Ht. fields.
    cbn. auto 10.
  - intros key rd Hright Hrd. rewrite (bind_eq _ _ _ _ _ Hright).
    unfold bind at 1, theTask at 1. fields. rewrite Ht, Hrd.
    rewrite (bind_eq _ _ _ _ _ (addToScratchpad_eq _ _)).
    rewrite (bind_eq _ _ _ _ _ (updateTaskStatus_eq _ _ _)).
    unfold bind at 1, theTask at 1.
    unfold statusSet at 1, logged at 1, notified. fields. rewrite Ht. fields.
    reflexivity.
Qed.

Lemma unlock_vault_outcomes_witness :
  let s := set_session_key None
             (final (initializeVault vaultWorld "00ff" "open sesame"
                       (storeOf (exampleTask AWAITING_PASSPHRASE [] 0 0)))) in
  exists s',
    agentOrchestrator vaultWorld 1 (UNLOCK_VAULT "guess") s = Return tt s' /\
    beachdai_session_key s' = None.
Proof.
  intros s.
  destruct (unlock_vault_outcomes vaultWorld 0 "guess" s
              (exampleTask AWAITING_PASSPHRASE [] 0 0) eq_refl) as [H _].
  destruct (H eq_refl) as (s' & E & _ & Hkey & _).
  exists s'. split; [exact E|]. rewrite Hkey. reflexivity.
Defined.

(** ** Answers without the browser *)

(** What [saveCompletedTask] leaves of a task whose answer is [answer]. *)
Definition answerSaved (t : AgentState) (answer : string) (s s' : Store)
  : Prop :=
  if String.eqb answer "" then local s' = local s
  else
    exists now stored,
      completedTasks (local s')
      = {| ct_goal := originalGoal t; ct_answer := answer;
           ct_timestamp := now |} :: stored.

Lemma wp_saveCompletedTask_answer W (Q : unit -> Store -> Prop) s t answer :
  currentTask s = Some t -> finalAnswer t = Some answer ->
  (forall s', currentTask s' = Some t -> answerSaved t answer s s' -> Q tt s') ->
  wp (detached (saveCompletedTask W)) Q s.
Proof.
  intros Ht Hanswer HQ.
  destruct (saveCompletedTask_spec W s) as (s' & E & Hc & _).
  apply (wp_eq _ _ _ tt s').
  { unfold detached, try_catch. rewrite E. reflexivity. }
  apply HQ; [congruence|]. unfold answerSaved.
  destruct (String.eqb answer "") eqn:Hempty.
  - unfold saveCompletedTask, bind at 1, get at 1 in E.
    rewrite Ht, Hanswer in E. cbn [truthy] in E. rewrite Hempty in E.
    cbn [negb] in E. injection E as <-. reflexivity.
  - pose proof (saveCompletedTask_stores W s t Ht) as Hstored.
    rewrite Hanswer in Hstored. cbn [truthy from_option id] in Hstored.
    rewrite Hempty, E in Hstored. cbn [final] in Hstored.
    rewrite (Hstored eq_refl). cbn [take]. eauto.
Qed.





(** ** An extraction that fails *)

Lemma executeAction_extract_fails W self decision tabId s error :
  action decision = Some EXTRACT_TEXT ->
  execute_on_page W (calls s) tabId decision = Resolved (ActionFailed error) ->
  executeAction W self decision tabId s
  = Return false
      (logged ("Failed to execute action 'EXTRACT_TEXT' on selector '"
               +:+ show (selector decision) +:+ "'. Reason: "
               +:+ (if String.eqb error "" then "Failed to extract text."
                    else error))
         (set_calls (S (calls s)) s)).
Proof.
  intros Ha Hpage. unfold executeAction. rewrite Ha.
  erewrite try_catch_throw.
  2: { apply bind_throw. unfold bind at 1, await, bind at 1, ask.
       rewrite Hpage. reflexivity. }
  unfold bind. rewrite addToScratchpad_eq.
  destruct (String.eqb error ""); reflexivity.
Qed.

(** Property X21.  A failed [EXTRACT_TEXT] ends the loop without a word.
    When the Manager decides [EXTRACT_TEXT] and the page answers that the
    action failed, [executeAction] logs the reason and returns [false], and
    [handleAction], which dispatches neither [ACTION_COMPLETE] nor
    [ACTION_FAILED] for this action, returns: the task is left in
    [EXECUTING], its failure count and step as they were, and no further
    turn is taken. *)
Theorem failed_extraction_stalls (W : World) (fuel : nat)
    (decision : ManagerDecision) (s : Store) (t : AgentState)
    (tabId : nat) (error : string) :
  currentTask s = Some t -> status t = THINKING ->
  action decision = Some EXTRACT_TEXT ->
  tabs t !! or_else (tabName decision) (activeTabName t) = Some (S tabId) ->
  tabs_update W (calls s) (S tabId) = Resolved tt ->
  execute_on_page W (S (calls s)) (S tabId) decision
  = Resolved (ActionFailed error) ->
  exists s' t',
    agentOrchestrator W (S fuel) (ACTION_COMPLETE (Some decision)) s
    = Return tt s' /\
    currentTask s' = Some t' /\ status t' = EXECUTING /\
    stepFailureCount t' = stepFailureCount t /\
    currentStep t' = currentStep t /\ turn t' = turn t /\
    lastFailedAction t' = lastFailedAction t /\
    calls s' = S (S (calls s)) /\
    last (scratchpad t')
    = Some ("Failed to execute action 'EXTRACT_TEXT' on selector '"
            +:+ show (selector decision) +:+ "'. Reason: "
            +:+ (if String.eqb error "" then "Failed to extract text."
                 else error)).
Proof.
  intros Ht Hst Ha Htab Hupdate Hpage.
  cbn [agentOrchestrator orchestrate].
  enough (H : wp
    (s0 <- get ;;
     match currentTask s0 with
     | None => ret tt
     | Some t0 =>
         onStatus W (agentOrchestrator W fuel) (ACTION_COMPLETE (Some decision)) t0 ;;
         ret tt
     end)
    (fun _ s' => exists t', currentTask s' = Some t' /\ status t' = EXECUTING /\
       stepFailureCount t' = stepFailureCount t /\
       currentStep t' = currentStep t /\ turn t' = turn t /\
       lastFailedAction t' = lastFailedAction t /\
       calls s' = S (S (calls s)) /\
       last (scratchpad t')
       = Some ("Failed to execute action 'EXTRACT_TEXT' on selector '"
               +:+ show (selector decision) +:+ "'. Reason: "
               +:+ (if String.eqb error "" then "Failed to extract text."
                    else error))) s).
  { apply wp_returns in H as ([] & s' & E & t' & H). eauto. }
  wp_run. rewrite Ht. wp_run. unfold onStatus. rewrite Hst.
  unfold handleAction. wp_run. rewrite Ht, Ha.
  unfold needsVerification. rewrite Ha. cbn [andb].
  unfold performAction. wp_run.
  destruct (negb (String.eqb (thought decision) "")); wp_run.
  all: cbn [is_click_or_submit]; wp_run; rewrite Htab; cbn [truthy_num negb];
    unfold await; wp_run; cbn [from_option id]; rewrite Hupdate; wp_run.
  all: destruct (decide (EXTRACT_TEXT = READ)) as [?|_]; [discriminate|].
  all: eapply wp_eq;
    [apply executeAction_extract_fails; [exact Ha|fields; exact Hpage]|].
  all: unfold afterAction; cbn [andb]; wp_run.
  all: destruct (decide (EXTRACT_TEXT = EXTRACT_TEXT)) as [_|?]; [|congruence].
  all: wp_run; unfold logged, notified; fields.
  all: eexists; split; [reflexivity|]; fields; repeat (split; [reflexivity|]).
  all: apply last_snoc.
Qed.

Lemma failed_extraction_stalls_witness :
  exists s' t',
    agentOrchestrator clickWorld 1
      (ACTION_COMPLETE (Some (exampleDecision EXTRACT_TEXT)))
      (storeOf (exampleTask THINKING ["open kayak.com"] 0 0))
    = Return tt s' /\
    currentTask s' = Some t' /\ status t' = EXECUTING /\
    stepFailureCount t' = 0.
Proof.
  destruct (failed_extraction_stalls clickWorld 0 (exampleDecision EXTRACT_TEXT)
              (storeOf (exampleTask THINKING ["open kayak.com"] 0 0))
              (exampleTask THINKING ["open kayak.com"] 0 0) 6
              "no such element" eq_refl eq_refl eq_refl eq_refl eq_refl eq_refl)
    as (s' & t' & E & Ht' & Hst & Hfail & _).
  exists s', t'. auto.
Defined.

(** ** A research phase that fails *)

(** [wpx m Q s]: from [s], [m] throws, with an error and a store that
    satisfy [Q]. *)
Definition wpx {A} (m : M A) (Q : JsError -> Store -> Prop) (s : Store) : Prop :=
  match m s with
  | Throw e s' => Q e s'
  | _ => False
  end.

Lemma wpx_bind {A B} (m : M A) (k : A -> M B) Q s :
  wp m (fun a s' => wpx (k a) Q s') s -> wpx (bind m k) Q s.
Proof. unfold wp, wpx, bind. destruct (m s); auto; contradiction. Qed.

Lemma wpx_bind_throw {A B} (m : M A) (k : A -> M B) Q s :
  wpx m Q s -> wpx (bind m k) Q s.
Proof.
  unfold wpx, bind. destruct (m s); intros H; first [exact H | contradiction].
Qed.

Lemma wpx_throw {A} e (Q : JsError -> Store -> Prop) s :
  Q e s -> wpx (@throw A e) Q s.
Proof. auto. Qed.

Lemma wp_try_catch_caught {A} (m : M A) h Q s :
  wpx m (fun e s' => wp (h e) Q s') s -> wp (try_catch m h) Q s.
Proof. unfold wp, wpx, try_catch. destruct (m s); auto; contradiction. Qed.

(** [updateTaskStatus st (Some why)], whether [why] is empty or not. *)
Lemma wp_updateTaskStatus_reason st why (Q : unit -> Store -> Prop) s t :
  currentTask s = Some t ->
  (forall s' t', currentTask s' = Some t' -> status t' = st ->
     failureReason t'
     = (if String.eqb why "" then failureReason t else Some why) ->
     originalGoal t' = originalGoal t -> plan t' = plan t ->
     turn t' = turn t -> local s' = local s -> Q tt s') ->
  wp (updateTaskStatus st (Some why)) Q s.
Proof.
  intros Ht HQ. unfold wp. rewrite updateTaskStatus_eq.
  unfold statusSet, logged, notified. rewrite Ht. cbn [truthy].
  destruct (String.eqb why ""); cbn [negb]; fields;
    eapply HQ; fields; reflexivity.
Qed.

(** Property X22.  A research phase that fails, fails the task.  When
    Triage does not choose the deliberate flow (or fails, which counts as
    the standard flow) and the Researcher's call is rejected, [START_TASK]
    returns with the new task [FAILED], the error's message as the reason
    when it has one; the task has no plan and has taken no turn. *)
Theorem failed_research_fails_the_task (W : World) (fuel : nat) (g : string)
    (s : Store) (e : JsError) :
  (forall n, triage_call W n g <> Resolved Deliberate_Flow) ->
  (forall n location, researcher_call W n g location = Rejected e) ->
  exists s' t',
    agentOrchestrator W (S fuel) (START_TASK g) s = Return tt s' /\
    currentTask s' = Some t' /\ originalGoal t' = g /\ status t' = FAILED /\
    failureReason t'
    = (if String.eqb (message e) "" then None else Some (message e)) /\
    plan t' = [] /\ turn t' = 0.
Proof.
  intros Htriage Hresearch. rewrite start_task_eq.
  enough (H : wp (replaceTask W g ;; researchTask W (agentOrchestrator W fuel) g)
                (fun _ s' => exists t', currentTask s' = Some t' /\
                   originalGoal t' = g /\ status t' = FAILED /\
                   failureReason t'
                   = (if String.eqb (message e) "" then None
                      else Some (message e)) /\
                   plan t' = [] /\ turn t' = 0) s).
  { apply wp_returns in H as ([] & s' & E & t' & H). eauto. }
  apply wp_bind.
  assert (Hreplace : wp (replaceTask W g)
    (fun _ s1 => exists t1, currentTask s1 = Some t1 /\ originalGoal t1 = g /\
       failureReason t1 = None /\ plan t1 = [] /\ turn t1 = 0) s).
  { unfold replaceTask. wp_run.
    destruct (currentTask s) as [prior|]; [destruct (decide _)|].
    - destruct (saveHistoricalTask_spec W (originalGoal prior) s)
        as (s0 & E & _).
      eapply wp_eq; [exact E|]. wp_run. eexists; split; [reflexivity|].
      auto.
    - wp_run. eexists; split; [reflexivity|]. auto.
    - wp_run. eexists; split; [reflexivity|]. auto. }
  eapply wp_conseq; [exact Hreplace|]. clear Hreplace.
  intros [] s1 (t1 & Ht1 & Hg1 & Hr1 & Hp1 & Hturn1).
  unfold researchTask. apply wp_try_catch_caught.
  apply wpx_bind. unfold getTriageDecision. wp_run.
  assert (Hflow : forall o : Outcome TriageDecision,
            o <> Resolved Deliberate_Flow ->
            match o with Resolved r => r | Rejected _ => Standard_Flow end
            = Standard_Flow).
  { intros [[]|] H; congruence. }
  specialize (Hflow _ (Htriage (calls s1))).
  destruct (triage_call W (calls s1) g) as [flow|err]; cbn in Hflow; subst;
    wp_run; apply wpx_bind; wp_run; apply wpx_bind.
  all: unfold getPreflightContext, getUserLocation; wp_run.
  all: destruct (geolocation W _) as [coords|d|d];
    [|destruct (truthy d)|destruct (truthy d)]; wp_run.
  all: apply wpx_bind; wp_run; apply wpx_bind_throw.
  all: unfold getResearcherFacts, await; apply wpx_bind; wp_run.
  all: rewrite Hresearch; apply wpx_throw.
  all: eapply wp_updateTaskStatus_reason; [present|].
  all: intros s' t' Ht' Hst' Hreason Hg' Hp' Hturn' _.
  all: exists t'; fields; rewrite Hr1 in Hreason.
  all: repeat split; congruence.
Qed.

Lemma failed_research_fails_the_task_witness :
  exists s' t',
    agentOrchestrator offlineWorld 1 (START_TASK "book a flight") emptyStore
    = Return tt s' /\
    currentTask s' = Some t' /\ status t' = FAILED /\
    failureReason t' = Some "offline".
Proof.
  destruct (failed_research_fails_the_task offlineWorld 0 "book a flight"
              emptyStore (mkError "offline"))
    as (s' & t' & E & Ht' & _ & Hst & Hreason & _).
  - intros n. discriminate.
  - intros n location. reflexivity.
  - exists s', t'. auto.
Defined.

(** ** The debate flow after the task is gone, or after a call fails *)

(** Property X23.  How the debate ends early.  Once the task has been
    cleared, whatever a pending call of the debate settles to, at whatever
    stage, the flow ends there and changes nothing.  With a task present, a
    rejected call for a table, a revision or the consensus ends the flow and
    marks the task [FAILED] with the error's message; rejected personas do
    the same with the message that the personas could not be generated. *)
Theorem debate_ends_early (W : World) (s : Store) :
  (currentTask s = None ->
   (forall o, personasGenerated o s = Return DeliberateDone s) /\
   (forall personas tables rest o,
      tableReceived personas tables rest o s = Return DeliberateDone s) /\
   (forall personas agentTables revisedSolutions rest o,
      revisionReceived personas agentTables revisedSolutions rest o s
      = Return DeliberateDone s) /\
   (forall o, consensusReceived W o s = Return DeliberateDone s)) /\
  (forall t e, currentTask s = Some t ->
   personasGenerated (Rejected e) s
   = Return DeliberateDone
       (statusSet FAILED
          (Some "Could not generate or parse dynamic personas.") s) /\
   (forall personas tables rest,
      tableReceived personas tables rest (Rejected e) s
      = Return DeliberateDone (statusSet FAILED (Some (message e)) s)) /\
   (forall personas agentTables revisedSolutions rest,
      revisionReceived personas agentTables revisedSolutions rest (Rejected e) s
      = Return DeliberateDone (statusSet FAILED (Some (message e)) s)) /\
   consensusReceived W (Rejected e) s
   = Return DeliberateDone (statusSet FAILED (Some (message e)) s)).
Proof.
  split.
  - intros Hnone.
    repeat split; intros;
      try destruct rest; destruct o;
      unfold personasGenerated, tableReceived, revisionReceived,
        consensusReceived, nextTable, nextRevision, deliberateCatch,
        unlessCleared, try_catch, bind, settled, get, ret, throw;
      rewrite ?Hnone; reflexivity.
  - intros t e Ht.
    assert (Hcatch : forall e,
      (s0 <- get ;;
       match currentTask s0 with
       | None => ret DeliberateDone
       | Some _ =>
           updateTaskStatus FAILED (Some (message e)) ;; ret DeliberateDone
       end) s
      = Return DeliberateDone (statusSet FAILED (Some (message e)) s)).
    { intros e0. unfold bind at 1, get. rewrite Ht.
      rewrite (bind_eq _ _ _ _ _ (updateTaskStatus_eq _ _ _)). reflexivity. }
    repeat split; intros.
    + pose proof (Hcatch (mkError "Could not generate or parse dynamic personas."))
        as H.
      unfold mkError in H. cbn [message] in H. rewrite <- H. reflexivity.
    + rewrite <- (Hcatch e). reflexivity.
    + rewrite <- (Hcatch e). reflexivity.
    + rewrite <- (Hcatch e). reflexivity.
Qed.

Lemma debate_ends_early_witness :
  let s := after debateWorld 3 STOP_TASK
             (after debateWorld 3 (START_TASK "plan a trip") emptyStore) in
  consensusReceived debateWorld (Resolved ("<p>Fly.</p>", ["Book a flight"])) s
  = Return DeliberateDone s.
Proof.
  intros s. destruct (debate_ends_early debateWorld s) as [H _].
  apply H. reflexivity.
Defined.

(** ** The step index stays within the plan *)

Lemma inv_rel_refl s : inv_rel s s.
Proof. unfold inv_rel. auto. Qed.

Lemma inv_rel_trans a b c : inv_rel a b -> inv_rel b c -> inv_rel a c.
Proof. unfold inv_rel. auto. Qed.

Lemma turn_rel_inv s s' : turn_rel s s' -> inv_rel s s'.
Proof.
  unfold turn_rel, inv_rel, step_inv_store. intros (_ & _ & H) Hinv.
  destruct (currentTask s), (currentTask s'); try tauto.
  destruct H as (_ & _ & H). auto.
Qed.

(** The statuses a task with any step index may be given. *)
Definition keeps_step (st : TaskStatus) : bool :=
  match st with
  | RESEARCHING | PLANNING | AWAITING_PASSPHRASE => false
  | _ => true
  end.

Ltac leaf_inv :=
  intros; unfold inv_rel, step_inv_store, step_inv; fields;
  repeat match goal with
         | H : currentTask ?s = _ |- _ => rewrite H; clear H
         end;
  fields;
  first
    [ solve [ intuition (first [ congruence | discriminate | lia ]) ]
    | solve [ match goal with
              | H : keeps_step ?st = true |- _ =>
                  destruct st; try discriminate H;
                  intuition (first [ congruence | discriminate | lia ])
              end ]
    | idtac ].

Lemma first_rel_refl s : first_rel s s.
Proof. unfold first_rel. auto. Qed.

Lemma first_rel_trans a b c : first_rel a b -> first_rel b c -> first_rel a c.
Proof. unfold first_rel. auto. Qed.

Ltac leaf_first :=
  intros; unfold first_rel, step_inv_store, at_first_step, step_inv; fields;
  repeat match goal with
         | H : currentTask ?s = _ |- _ => rewrite H; clear H
         end;
  fields;
  try solve [ intuition (first [ congruence | discriminate | lia ]) ].

Section StepInvariant.

Variable W : World.
Variable self : AgentEvent -> M unit.
Hypothesis self_inv :
  forall e, internal e = true -> respects inv_rel (self e).

Let Hrefl := inv_rel_refl.
Let Htrans := inv_rel_trans.

Lemma addToScratchpad_inv log : respects inv_rel (addToScratchpad log).
Proof. resp leaf_inv. Qed.

Lemma updateUI_inv : respects inv_rel updateUI.
Proof. resp leaf_inv. Qed.

Lemma updateTaskStatus_inv st why :
  keeps_step st = true -> respects inv_rel (updateTaskStatus st why).
Proof.
  intros Hst. pose proof addToScratchpad_inv. pose proof updateUI_inv.
  resp leaf_inv.
Qed.

Lemma handleStuckState_inv b : respects inv_rel (handleStuckState W self b).
Proof.
  pose proof addToScratchpad_inv.
  pose proof (fun why => updateTaskStatus_inv REPLANNING why eq_refl).
  resp leaf_inv.
Qed.

Lemma saveHistoricalTask_inv g : respects inv_rel (saveHistoricalTask W g).
Proof. resp leaf_inv. Qed.

Lemma saveCompletedTask_inv : respects inv_rel (saveCompletedTask W).
Proof. resp leaf_inv. Qed.

Lemma handleStartTask_inv g : respects inv_rel (handleStartTask W self g).
Proof.
  pose proof addToScratchpad_inv. pose proof updateUI_inv.
  pose proof (fun why => updateTaskStatus_inv FAILED why eq_refl).
  pose proof saveHistoricalTask_inv.
  resp leaf_inv.
Qed.

Lemma handleStopTask_inv : respects inv_rel (handleStopTask W).
Proof.
  pose proof addToScratchpad_inv.
  pose proof (fun why => updateTaskStatus_inv STOPPED why eq_refl).
  pose proof saveHistoricalTask_inv.
  resp leaf_inv.
Qed.

Lemma handleStopTeaching_inv : respects inv_rel (handleStopTeaching W).
Proof.
  pose proof addToScratchpad_inv. pose proof updateUI_inv.
  pose proof (fun why => updateTaskStatus_inv COMPLETED why eq_refl).
  pose proof saveCompletedTask_inv.
  resp leaf_inv.
Qed.

Lemma handleSaveCredential_inv name :
  respects inv_rel (handleSaveCredential W self name).
Proof.
  pose proof addToScratchpad_inv.
  pose proof (fun why => updateTaskStatus_inv FAILED why eq_refl).
  resp leaf_inv.
Qed.

(** Every event from outside that installs no plan keeps the step index
    within the plan. *)
Lemma external_inv e :
  internal e = false -> installs_plan e = false ->
  respects inv_rel (orchestrate W self e).
Proof.
  pose proof addToScratchpad_inv. pose proof updateUI_inv.
  pose proof (fun why => updateTaskStatus_inv USER_INPUT_PENDING why eq_refl).
  pose proof handleStuckState_inv. pose proof handleStartTask_inv.
  pose proof handleStopTask_inv. pose proof handleStopTeaching_inv.
  pose proof handleSaveCredential_inv.
  intros Hext Hplan.
  destruct e; try discriminate Hext; try discriminate Hplan;
    unfold orchestrate; resp leaf_inv.
Qed.

(** *** The events that install a plan *)

Let Hrefl1 := first_rel_refl.
Let Htrans1 := first_rel_trans.

Lemma addToScratchpad_first log : respects first_rel (addToScratchpad log).
Proof. resp leaf_first. Qed.

Lemma updateTaskStatus_first st why :
  respects first_rel (updateTaskStatus st why).
Proof. pose proof addToScratchpad_first. resp leaf_first. Qed.

Lemma unlockVault_first passphrase :
  respects first_rel (unlockVault W passphrase).
Proof. resp leaf_first. Qed.

(** [installs m]: run on a task at its first step, [m] leaves the step
    index within the plan. *)
Definition installs {A} (m : M A) : Prop :=
  forall s, step_inv_store s /\ at_first_step s ->
            step_inv_store (final (m s)).

Lemma installs_bind {A B} (m : M A) (k : A -> M B) :
  respects first_rel m -> (forall a, installs (k a)) -> installs (bind m k).
Proof.
  intros Hm Hk s Hs. unfold bind. specialize (Hm s Hs).
  destruct (m s) as [a s'|e s'|s']; cbn [final] in *; try tauto.
  apply Hk, Hm.
Qed.

Lemma installs_inv {A} (m : M A) : respects inv_rel m -> installs m.
Proof. intros Hm s [Hs _]. apply Hm, Hs. Qed.

Lemma installs_first {A} (m : M A) : respects first_rel m -> installs m.
Proof. intros Hm s Hs. apply Hm, Hs. Qed.

Lemma planFor_inv g research : respects inv_rel (planFor W self g research).
Proof. pose proof addToScratchpad_inv. resp leaf_inv. Qed.

Lemma handleUnlockVault_installs passphrase :
  installs (handleUnlockVault W self passphrase).
Proof.
  pose proof addToScratchpad_first. pose proof updateTaskStatus_first.
  pose proof unlockVault_first. pose proof planFor_inv.
  unfold handleUnlockVault.
  apply installs_bind; [resp leaf_first|]. intros s0.
  destruct (currentTask s0); [|apply installs_first; resp leaf_first].
  apply installs_bind; [auto|]. intros [|]; [|apply installs_first; resp leaf_first].
  apply installs_bind; [resp leaf_first|]. intros t.
  destruct (researcherDecision t); [|apply installs_first; resp leaf_first].
  apply installs_bind; [auto|]. intros _.
  apply installs_bind; [auto|]. intros _.
  apply installs_bind; [resp leaf_first|]. intros t'.
  apply installs_inv. auto.
Qed.

Lemma attemptStrategy_installs strategy :
  installs (orchestrate W self (ATTEMPT_STRATEGY strategy)).
Proof.
  pose proof updateTaskStatus_first.
  unfold orchestrate.
  apply installs_bind; [resp leaf_first|]. intros s0.
  destruct (currentTask s0); [|apply installs_first; resp leaf_first].
  apply installs_bind; [resp leaf_first|]. intros _.
  apply installs_bind; [auto|]. intros _.
  apply installs_inv, self_inv. reflexivity.
Qed.

(** *** Timers and suspended calls *)

Lemma longWaitElapsed_inv : respects inv_rel (longWaitElapsed self).
Proof.
  pose proof addToScratchpad_inv. pose proof (self_inv (ACTION_COMPLETE None)).
  resp leaf_inv.
Qed.

Lemma saveCompletedTask_first : respects first_rel (saveCompletedTask W).
Proof. resp leaf_first. Qed.

(** Every stage of the debate flow but the last leaves the plan and the
    step alone. *)
Lemma nextRevision_inv personas agentTables revisedSolutions rest :
  respects inv_rel (nextRevision personas agentTables revisedSolutions rest).
Proof. pose proof addToScratchpad_inv. resp leaf_inv. Qed.

Lemma nextTable_inv personas tables rest :
  respects inv_rel (nextTable personas tables rest).
Proof.
  pose proof addToScratchpad_inv. pose proof nextRevision_inv.
  resp leaf_inv.
Qed.

Lemma personasGenerated_inv o : respects inv_rel (personasGenerated o).
Proof.
  pose proof addToScratchpad_inv. pose proof nextTable_inv.
  pose proof (fun why => updateTaskStatus_inv THINKING why eq_refl).
  pose proof (fun why => updateTaskStatus_inv FAILED why eq_refl).
  resp leaf_inv.
Qed.

Lemma tableReceived_inv personas tables rest o :
  respects inv_rel (tableReceived personas tables rest o).
Proof.
  pose proof nextTable_inv.
  pose proof (fun why => updateTaskStatus_inv FAILED why eq_refl).
  resp leaf_inv.
Qed.

Lemma revisionReceived_inv personas agentTables revisedSolutions rest o :
  respects inv_rel
    (revisionReceived personas agentTables revisedSolutions rest o).
Proof.
  pose proof nextRevision_inv.
  pose proof (fun why => updateTaskStatus_inv FAILED why eq_refl).
  resp leaf_inv.
Qed.

(** The consensus installs its plan without resetting the step. *)
Lemma consensusReceived_first o : respects first_rel (consensusReceived W o).
Proof.
  pose proof addToScratchpad_first. pose proof updateTaskStatus_first.
  pose proof saveCompletedTask_first.
  resp leaf_first.
Qed.

(** The save of a learned action never touches the task. *)
Lemma saveLearnedAction_located_inv payload o :
  respects inv_rel (saveLearnedAction_located W payload o).
Proof. resp leaf_inv. Qed.

Lemma saveLearnedAction_read_inv payload hostname taskDescription :
  respects inv_rel (saveLearnedAction_read payload hostname taskDescription).
Proof. resp leaf_inv. Qed.

Lemma saveLearnedAction_written_inv tools :
  respects inv_rel (saveLearnedAction_written tools).
Proof. resp leaf_inv. Qed.

Lemma continue_inv call answer :
  (forall o, answer <> ConsensusSettled o) ->
  respects inv_rel (continue W call answer).
Proof.
  pose proof personasGenerated_inv. pose proof tableReceived_inv.
  pose proof revisionReceived_inv. pose proof saveLearnedAction_located_inv.
  pose proof saveLearnedAction_read_inv.
  pose proof saveLearnedAction_written_inv.
  intros Hne.
  destruct call as [[]|[]], answer; try (exfalso; eapply Hne; reflexivity);
    cbn [continue]; resp leaf_inv.
Qed.

Lemma resume_inv i answer :
  (forall o, answer <> ConsensusSettled o) ->
  respects inv_rel (resume W i answer).
Proof.
  intros Hne. pose proof (fun call => continue_inv call answer Hne).
  resp leaf_inv.
Qed.

Lemma continue_first call o :
  respects first_rel (continue W call (ConsensusSettled o)).
Proof.
  pose proof consensusReceived_first.
  destruct call as [[]|[]]; cbn [continue]; resp leaf_first.
Qed.

Lemma resume_installs i o : installs (resume W i (ConsensusSettled o)).
Proof.
  pose proof continue_first. apply installs_first. resp leaf_first.
Qed.

End StepInvariant.

Lemma agentOrchestrator_step W fuel e s :
  step_inv_store s -> (installs_plan e = true -> at_first_step s) ->
  step_inv_store (after W fuel e s).
Proof.
  intros Hs Hfirst. unfold after.
  destruct fuel as [|fuel]; [exact Hs|].
  assert (Hself : forall e', internal e' = true ->
            respects inv_rel (agentOrchestrator W fuel e')).
  { intros e' He' s0. apply turn_rel_inv, (agentOrchestrator_turn W fuel e' He'). }
  destruct (internal e) eqn:Hint.
  - apply (turn_rel_inv _ _ (agentOrchestrator_turn W (S fuel) e Hint s)), Hs.
  - cbn [agentOrchestrator].
    destruct (installs_plan e) eqn:Hplan.
    + destruct e; try discriminate Hplan.
      * apply (handleUnlockVault_installs W _ Hself). auto.
      * apply (attemptStrategy_installs W _ Hself). auto.
    + apply (external_inv W _ Hself e Hint Hplan), Hs.
Qed.

Lemma occurrence_step W fuel o s :
  step_inv_store s -> (replans o = true -> at_first_step s) ->
  step_inv_store (next W fuel o s).
Proof.
  intros Hs Hfirst.
  assert (Hself : forall e, internal e = true ->
            respects inv_rel (agentOrchestrator W fuel e)).
  { intros e He s0. apply turn_rel_inv, (agentOrchestrator_turn W fuel e He). }
  destruct o as [e|id|i answer]; unfold next, occur.
  - apply agentOrchestrator_step; assumption.
  - assert (H : respects inv_rel (fireTimer W fuel id)).
    { pose proof (longWaitElapsed_inv _ Hself). unfold fireTimer.
      pose proof inv_rel_refl. pose proof inv_rel_trans. resp leaf_inv. }
    apply H, Hs.
  - destruct answer;
      try (apply (resume_inv W); [discriminate|exact Hs]).
    apply (resume_installs W). split; [exact Hs|]. apply Hfirst. reflexivity.
Qed.

(** Property X24.  The step index stays within the plan.  Through any run
    of occurrences (events reaching the orchestrator, timers firing, the
    calls started without [await] going on) with any budget, in which what
    installs a plan without resetting the step ([UNLOCK_VAULT],
    [ATTEMPT_STRATEGY] and the consensus of a debate flow) comes only while
    the task is at its first step, [currentStep] of the active task is [0]
    or below the length of its plan, and it is [0] while the task is being
    researched, planned or waits for the passphrase. *)
Theorem step_index_stays_within_the_plan (W : World) (fuel : nat)
    (run : list Occurrence) (s : Store) :
  step_inv_store s -> well_timed W fuel run s ->
  forall t, currentTask (session W fuel run s) = Some t ->
    (currentStep t = 0 \/ currentStep t < length (plan t)) /\
    (status t = RESEARCHING \/ status t = PLANNING \/
     status t = AWAITING_PASSPHRASE -> currentStep t = 0).
Proof.
  intros Hs Htimed.
  enough (H : step_inv_store (session W fuel run s)).
  { intros t Ht. unfold step_inv_store in H. rewrite Ht in H. exact H. }
  revert s Hs Htimed. induction run as [|o run IH]; intros s Hs Htimed.
  - exact Hs.
  - cbn [session]. destruct Htimed as [Hfirst Hrest].
    apply IH; [|exact Hrest].
    apply occurrence_step; assumption.
Qed.

(** A debate from the goal to its consensus, and the strategy attempted
    after it. *)
Definition debateRun : list Occurrence :=
  [Arrives (START_TASK "plan a trip");
   Settles 0 (PersonasSettled (Resolved [strategist]));
   Settles 0 (ReplySettled (Resolved (JStr "by train")));
   Settles 0 (ReplySettled (Resolved (JStr "by night train")));
   Settles 0 (ConsensusSettled
                (Resolved ("<p>Take the night train.</p>",
                           ["Open the rail site"; "Book a berth"])));
   Arrives (ATTEMPT_STRATEGY ["Open the rail site"; "Book a berth"])].

Lemma step_index_stays_within_the_plan_witness :
  step_inv_store (session debateWorld 8 debateRun emptyStore) /\
  (fun t => (status t, plan t, currentStep t))
    <$> currentTask
          (session debateWorld 8 (take 5 debateRun) emptyStore)
  = Some (COMPLETED, ["Open the rail site"; "Book a berth"], 0).
Proof.
  split; [|vm_compute; reflexivity].
  unfold step_inv_store.
  destruct (currentTask _) as [t|] eqn:Ht; [|exact I].
  apply (step_index_stays_within_the_plan debateWorld 8 debateRun emptyStore);
    [exact I| |exact Ht].
  unfold debateRun. cbn [well_timed replans installs_plan].
  split; [discriminate|]. split; [discriminate|]. split; [discriminate|].
  split; [discriminate|].
  split; [intros _; vm_compute; reflexivity|].
  split; [intros _; vm_compute; reflexivity|exact I].
Defined.

(** Without that condition the index can leave the plan: a strategy of one
    step, attempted while the task is at the third step of its plan, is
    installed with the step index unchanged; and so is the plan of a debate
    flow that an earlier task started, when its consensus comes while the
    current task is at its third step. *)
Example strategy_attempted_mid_plan :
  let s := storeOf (exampleTask EXECUTING ["a"; "b"; "c"] 2 0) in
  (fun t => (currentStep t, plan t))
    <$> currentTask (after offlineWorld 6 (ATTEMPT_STRATEGY ["x"]) s)
  = Some (2, ["x"]) /\
  (fun t => (currentStep t, plan t))
    <$> currentTask
          (next offlineWorld 6
             (Settles 0 (ConsensusSettled (Resolved ("<p>x</p>", ["x"]))))
             (set_unawaited [Debating AwaitingConsensus] s))
  = Some (2, ["x"]).
Proof. vm_compute. split; reflexivity. Qed.

(** ** Decisions that name a tab the task does not track *)

(** The actions [handleAction] sends to the page of a tab. *)
Definition page_action (a : Action) : bool :=
  match a with
  | CLICK | TYPE | GOTO | SUBMIT | SEARCH | SCROLL_DOWN | PRESS_ESCAPE | READ
  | EXTRACT_TEXT | SEARCH_PAGE => true
  | _ => false
  end.

(** The decisions [handleAction] sends to the Verifier first, and what the
    Verifier answers then. *)
Definition verified (decision : ManagerDecision) : bool :=
  needsVerification decision && truthy (url decision).

Definition verdictOn (W : World) (decision : ManagerDecision) (s : Store)
  : VerifierDecision :=
  match verifier_call W (calls s) (show (url decision)) with
  | Resolved response => response
  | Rejected _ => failOpen
  end.

(** The store while the Verifier is asked, once it has answered. *)
Definition verifying (decision : ManagerDecision) (s : Store) : Store :=
  set_calls (S (calls s))
    (logged ("Verifying URL: " +:+ show (url decision))
       (statusSet VERIFYING None s)).

(** The store in which [handleAction] carries a decision out: the one it
    found or, for a decision the Verifier let pass, the one after the
    verdict. *)
Definition carriedOutAt (decision : ManagerDecision) (s : Store) : Store :=
  if verified decision
  then logged "Verification successful. Proceeding with action."
         (verifying decision s)
  else s.

(** The store in which [handleAction] dispatches the failure: the task set to
    [EXECUTING], the thought and the failure logged. *)
Definition refusedAt (decision : ManagerDecision) (failure : string)
    (s : Store) : Store :=
  let s1 := statusSet EXECUTING None s in
  let turnLog :=
    match currentTask s1 with
    | Some t =>
        if negb (String.eqb (thought decision) "")
        then "Turn " +:+ pretty (turn t) +:+ ": " +:+ thought decision
        else "Turn " +:+ pretty (turn t)
             +:+ ": Warning - The manager decided on an action without providing a thought."
    | None => ""
    end in
  logged failure (logged turnLog s1).

Lemma refusedAt_task decision failure s t :
  currentTask s = Some t ->
  calls (refusedAt decision failure s) = calls s /\
  local (refusedAt decision failure s) = local s /\
  exists t', currentTask (refusedAt decision failure s) = Some t' /\
    status t' = EXECUTING /\ tabs t' = tabs t /\
    activeTabName t' = activeTabName t /\
    stepFailureCount t' = stepFailureCount t /\
    last (scratchpad t') = Some failure.
Proof.
  intros Ht. unfold refusedAt, statusSet, logged, notified. rewrite Ht.
  cbn [truthy]. fields.
  repeat split. eexists. split; [reflexivity|]. fields.
  repeat (split; [reflexivity|]). apply last_snoc.
Qed.

(** The task [handleAction] carries the decision out on. *)
Lemma carriedOutAt_task decision s t :
  currentTask s = Some t ->
  calls (carriedOutAt decision s)
  = (if verified decision then S (calls s) else calls s) /\
  local (carriedOutAt decision s) = local s /\
  exists t', currentTask (carriedOutAt decision s) = Some t' /\
    tabs t' = tabs t /\ activeTabName t' = activeTabName t /\
    stepFailureCount t' = stepFailureCount t /\ turn t' = turn t.
Proof.
  intros Ht. unfold carriedOutAt, verifying. destruct (verified decision).
  - destruct (verifying_task ("Verifying URL: " +:+ show (url decision))
                "Verification successful. Proceeding with action."
                (S (calls s)) s t Ht) as (Htask & Hcalls & Hlocal & _).
    split; [exact Hcalls|]. split; [exact Hlocal|].
    eexists. split; [exact Htask|]. fields. auto.
  - eauto 10.
Qed.

(** [handleAction] up to the action, for a decision that is not vetoed. *)
Lemma handleAction_carries_out W self decision a s t :
  currentTask s = Some t -> action decision = Some a ->
  (verified decision = true -> vetoes (verdictOn W decision s) = false) ->
  handleAction W self decision s
  = performAction W self decision a (carriedOutAt decision s).
Proof.
  intros Ht Ha Hpass. unfold carriedOutAt.
  destruct (verified decision) eqn:Hv.
  - unfold verified in Hv. apply andb_true_iff in Hv as [Hneeds Hurl].
    rewrite (handleAction_verifies W self decision a s t Ht Ha Hneeds Hurl).
    cbv zeta. fold (verdictOn W decision s). rewrite (Hpass eq_refl).
    rewrite (bind_eq _ _ _ _ _ (addToScratchpad_eq _ _)). reflexivity.
  - unfold handleAction, bind at 1, get at 1. rewrite Ht, Ha.
    unfold verified in Hv. rewrite Hv. reflexivity.
Qed.

(** The action refused for its tab, from the store it is carried out in. *)
Lemma performAction_refuses W (self : AgentEvent -> M unit) decision a s t :
  currentTask s = Some t ->
  (a = CHANGE_TAB ->
   negb (truthy (tabName decision))
   || negb (truthy_num (tabs t !! or_else (tabName decision) "")) = true ->
   performAction W self decision a s
   = self (ACTION_FAILED (Some decision))
       (refusedAt decision
          ("Failed to change tab: Tab name '" +:+ show (tabName decision)
           +:+ "' does not exist.") s)) /\
  (page_action a = true -> is_click_or_submit a = false ->
   a <> EXTRACT_TEXT ->
   truthy_num (tabs t !! or_else (tabName decision) (activeTabName t))
   = false ->
   performAction W self decision a s
   = self (ACTION_FAILED (Some decision))
       (refusedAt decision
          ("Failed to execute action '" +:+ action_name a
           +:+ "'. Reason: Agent tried to act on a tab named '"
           +:+ or_else (tabName decision) (activeTabName t)
           +:+ "' which does not exist.") s)).
Proof.
  intros Ht.
  assert (Hstart : forall k : M unit,
    (updateTaskStatus EXECUTING None ;;
     t0 <- theTask ;;
     (if negb (String.eqb (thought decision) "")
      then addToScratchpad
             ("Turn " +:+ pretty (turn t0) +:+ ": " +:+ thought decision)
      else addToScratchpad
             ("Turn " +:+ pretty (turn t0)
              +:+ ": Warning - The manager decided on an action without providing a thought.")) ;;
     k) s
    = k (logged
           (if negb (String.eqb (thought decision) "")
            then "Turn " +:+ pretty (turn t) +:+ ": " +:+ thought decision
            else "Turn " +:+ pretty (turn t)
                 +:+ ": Warning - The manager decided on an action without providing a thought.")
           (statusSet EXECUTING None s))).
  { intros k. rewrite (bind_eq _ _ _ _ _ (updateTaskStatus_eq _ _ _)).
    unfold bind at 1, theTask at 1, statusSet, notified. rewrite Ht.
    cbn [truthy]. fields.
    destruct (negb (String.eqb (thought decision) ""));
      rewrite (bind_eq _ _ _ _ _ (addToScratchpad_eq _ _)); reflexivity. }
  set (turnLog :=
         if negb (String.eqb (thought decision) "")
         then "Turn " +:+ pretty (turn t) +:+ ": " +:+ thought decision
         else "Turn " +:+ pretty (turn t)
              +:+ ": Warning - The manager decided on an action without providing a thought.")
    in *.
  assert (Hset : currentTask (statusSet EXECUTING None s)
                 = Some (set_status EXECUTING t)).
  { unfold statusSet, notified. rewrite Ht. cbn [truthy]. fields. reflexivity. }
  assert (Hcur : currentTask (logged turnLog (statusSet EXECUTING None s))
                 = Some (set_scratchpad (scratchpad t ++ [turnLog])
                           (set_status EXECUTING t))).
  { unfold logged at 1. rewrite Hset. unfold notified. fields. reflexivity. }
  assert (Hrefused : forall failure,
    logged failure (logged turnLog (statusSet EXECUTING None s))
    = refusedAt decision failure s).
  { intros failure. unfold refusedAt. cbv zeta. rewrite Hset. fields.
    reflexivity. }
  assert (Hafter : forall target s0,
    a <> EXTRACT_TEXT ->
    afterAction W self decision a [] target false s0
    = self (ACTION_FAILED (Some decision)) s0).
  { intros target s0 Hne. unfold afterAction. cbn [andb].
    unfold bind at 1, ret at 1.
    destruct (decide (a = EXTRACT_TEXT)); [contradiction|reflexivity]. }
  split.
  - intros -> Hunknown.
    unfold performAction. cbn [is_click_or_submit]. rewrite Hstart.
    unfold bind at 1, ret at 1. unfold bind at 1, theTask at 1.
    rewrite Hcur. fields. rewrite Hunknown.
    rewrite (bind_eq _ _ _ _ _ (addToScratchpad_eq _ _)).
    rewrite Hafter by discriminate. rewrite Hrefused. reflexivity.
  - intros Hpage Hclick Hne Hunknown.
    unfold performAction. rewrite Hclick, Hstart.
    unfold bind at 1, ret at 1.
    destruct a; try discriminate Hpage; try discriminate Hclick;
      try contradiction;
      unfold bind at 1, theTask at 1; rewrite Hcur; fields;
      rewrite Hunknown; cbn [negb];
      rewrite (bind_eq _ _ _ _ _ (addToScratchpad_eq _ _));
      rewrite Hafter by discriminate; rewrite Hrefused; reflexivity.
Qed.

(** Property X25.  A decision aimed at a tab the task does not track
    touches no tab.  For [CHANGE_TAB] without a name or with a name that
    is not a tracked tab, and for a page action (other than a click or a
    submit, which list the tabs first, and [EXTRACT_TEXT], which dispatches
    nothing) whose tab is not tracked: a decision that needs verification
    and has a URL is sent to the Verifier first, and that is the one call
    [handleAction] makes outside; unless the verdict vetoes the decision,
    [handleAction] then logs the failure and dispatches [ACTION_FAILED] with
    the decision, the task in [EXECUTING] with its tabs and active tab
    unchanged.  A vetoed decision is not carried out: [ACTION_FAILED] is
    dispatched after the alert, the task still in [VERIFYING]. *)
Theorem untracked_tab_is_not_touched (W : World)
    (self : AgentEvent -> M unit) (decision : ManagerDecision) (a : Action)
    (s : Store) (t : AgentState) :
  currentTask s = Some t -> action decision = Some a ->
  let passes :=
    verified decision = true -> vetoes (verdictOn W decision s) = false in
  let s0 := carriedOutAt decision s in
  (passes -> a = CHANGE_TAB ->
   negb (truthy (tabName decision))
   || negb (truthy_num (tabs t !! or_else (tabName decision) "")) = true ->
   handleAction W self decision s
   = self (ACTION_FAILED (Some decision))
       (refusedAt decision
          ("Failed to change tab: Tab name '" +:+ show (tabName decision)
           +:+ "' does not exist.") s0)) /\
  (passes -> page_action a = true -> is_click_or_submit a = false ->
   a <> EXTRACT_TEXT ->
   truthy_num (tabs t !! or_else (tabName decision) (activeTabName t))
   = false ->
   handleAction W self decision s
   = self (ACTION_FAILED (Some decision))
       (refusedAt decision
          ("Failed to execute action '" +:+ action_name a
           +:+ "'. Reason: Agent tried to act on a tab named '"
           +:+ or_else (tabName decision) (activeTabName t)
           +:+ "' which does not exist.") s0)) /\
  (forall failure,
     calls (refusedAt decision failure s0)
     = (if verified decision then S (calls s) else calls s) /\
     local (refusedAt decision failure s0) = local s /\
     exists t', currentTask (refusedAt decision failure s0) = Some t' /\
       status t' = EXECUTING /\ tabs t' = tabs t /\
       activeTabName t' = activeTabName t /\
       stepFailureCount t' = stepFailureCount t /\
       last (scratchpad t') = Some failure) /\
  (verified decision = true -> vetoes (verdictOn W decision s) = true ->
   let alert :=
     "Security Alert: Navigation to " +:+ show (url decision)
     +:+ " blocked. Reason: "
     +:+ template W (field "reason" (verdictOn W decision s)) in
   let blocked := logged alert (verifying decision s) in
   handleAction W self decision s
   = self (ACTION_FAILED (Some decision)) blocked /\
   calls blocked = S (calls s) /\ local blocked = local s /\
   exists t', currentTask blocked = Some t' /\ status t' = VERIFYING /\
     tabs t' = tabs t /\ activeTabName t' = activeTabName t /\
     stepFailureCount t' = stepFailureCount t).
Proof.
  intros Ht Ha passes s0.
  destruct (carriedOutAt_task decision s t Ht)
    as (Hcalls0 & Hlocal0 & t0 & Ht0 & Htabs0 & Hactive0 & Hfails0 & Hturn0).
  fold s0 in Hcalls0, Hlocal0, Ht0.
  destruct (performAction_refuses W self decision a s0 t0 Ht0)
    as [Hchange Hpage].
  rewrite Htabs0, Hactive0 in *.
  split; [|split; [|split]].
  - intros Hpass -> Hunknown.
    rewrite (handleAction_carries_out W self decision CHANGE_TAB s t Ht Ha Hpass).
    apply Hchange; [reflexivity|exact Hunknown].
  - intros Hpass Hp Hclick Hne Hunknown.
    rewrite (handleAction_carries_out W self decision a s t Ht Ha Hpass).
    apply Hpage; assumption.
  - intros failure.
    destruct (refusedAt_task decision failure s0 t0 Ht0)
      as (Hc & Hl & t' & Ht' & Hst' & Htabs' & Hactive' & Hfails' & Hlast').
    split; [congruence|]. split; [congruence|].
    exists t'. repeat (split; [congruence|]). exact Hlast'.
  - intros Hv Hveto. cbv zeta.
    unfold verified in Hv. apply andb_true_iff in Hv as [Hneeds Hurl].
    rewrite (handleAction_verifies W self decision a s t Ht Ha Hneeds Hurl).
    cbv zeta. fold (verdictOn W decision s). rewrite Hveto.
    rewrite (bind_eq _ _ _ _ _ (addToScratchpad_eq _ _)).
    split; [reflexivity|].
    destruct (verifying_task ("Verifying URL: " +:+ show (url decision))
                ("Security Alert: Navigation to " +:+ show (url decision)
                 +:+ " blocked. Reason: "
                 +:+ template W (field "reason" (verdictOn W decision s)))
                (S (calls s)) s t Ht) as (Htask & Hc & Hl & _).
    unfold verifying. split; [exact Hc|]. split; [exact Hl|].
    eexists. split; [exact Htask|]. fields. auto.
Qed.

Lemma untracked_tab_is_not_touched_witness :
  let decision :=
    {| thought := "to the fares"; action := Some GOTO;
       tabName := Some "results"; selector := None; text := None;
       url := Some "https://kayak.com/fares"; answer := None; reason := None;
       duration := None; query := None; value := None |} in
  let s := storeOf (exampleTask THINKING ["open kayak.com"] 0 0) in
  handleAction clickWorld (agentOrchestrator clickWorld 0) decision s
  = Exhausted
      (refusedAt decision
         "Failed to execute action 'GOTO'. Reason: Agent tried to act on a tab named 'results' which does not exist."
         (carriedOutAt decision s)) /\
  calls (carriedOutAt decision s) = 1.
Proof.
  intros decision s.
  destruct (untracked_tab_is_not_touched clickWorld
              (agentOrchestrator clickWorld 0) decision GOTO s
              (exampleTask THINKING ["open kayak.com"] 0 0)
              eq_refl eq_refl) as (_ & H & _).
  split; [|reflexivity].
  apply H; try reflexivity. discriminate.
Defined.

(** ** The companion app ([sendStateToWearable])

    [updateUI] starts [sendStateToWearable] without awaiting it.  The call
    runs to its [fetch] at once and settles later, so that several calls can
    be under way; the two halves are modelled apart.  The module keeps two
    variables for it, the circuit breaker and the time of the last
    attempt. *)

Record Companion := {
  isCompanionAppConnected : bool;
  lastConnectionAttempt : Z
}.

Definition CONNECTION_RETRY_DELAY : Z := 5000.

(** The state when the service worker is loaded. *)
Definition companionAtLoad : Companion :=
  {| isCompanionAppConnected := true; lastConnectionAttempt := 0 |}.

(** The body of the POST. *)
Record WatchState := {
  ws_goal : string;
  ws_status : TaskStatus;
  ws_answer : option string
}.

(** [sendStateToWearable] as far as its [fetch], at time [now]: the state
    it posts, if it posts. *)
Definition sendStateToWearable_begin (isMobile : bool)
    (task : option AgentState) (now : Z) (c : Companion)
  : option WatchState * Companion :=
  match task with
  | None => (None, c)
  | Some t =>
      if negb isMobile then (None, c)
      else if negb (isCompanionAppConnected c)
              && Z.ltb (now - lastConnectionAttempt c) CONNECTION_RETRY_DELAY
      then (None, c)
      else
        (Some {| ws_goal := originalGoal t; ws_status := status t;
                 ws_answer := if truthy (finalAnswer t) then finalAnswer t
                              else None |},
         {| isCompanionAppConnected := isCompanionAppConnected c;
            lastConnectionAttempt := now |})
  end.

(** The rest of the call, when the request has settled; [accepted] when the
    response was [ok] and its JSON body had the status ['OK'], and not when
    the request was rejected or answered otherwise. *)
Definition sendStateToWearable_settle (accepted : bool) (c : Companion)
  : Companion :=
  if accepted then
    if negb (isCompanionAppConnected c)
    then {| isCompanionAppConnected := true;
            lastConnectionAttempt := lastConnectionAttempt c |}
    else c
  else
    if isCompanionAppConnected c
    then {| isCompanionAppConnected := false;
            lastConnectionAttempt := lastConnectionAttempt c |}
    else c.

(** What happens to the module, in order: a call at some time for the task
    of that moment, or the settlement of a request. *)
Inductive CompanionStep :=
| Called (now : Z) (task : option AgentState)
| Settled (accepted : bool).

(** The requests posted along a run, each with its time and with the state
    of the breaker when it was posted, and the state the run ends in. *)
Fixpoint companionRun (isMobile : bool) (steps : list CompanionStep)
    (c : Companion) : list (Z * bool) * Companion :=
  match steps with
  | [] => ([], c)
  | Called now task :: rest =>
      let '(posted, c') := sendStateToWearable_begin isMobile task now c in
      let '(posts, final) := companionRun isMobile rest c' in
      (match posted with
       | Some _ => (now, isCompanionAppConnected c) :: posts
       | None => posts
       end, final)
  | Settled accepted :: rest =>
      companionRun isMobile rest (sendStateToWearable_settle accepted c)
  end.

(** Each request posted while the breaker is open comes at least the retry
    delay after [last]. *)
Fixpoint spaced (last : Z) (posts : list (Z * bool)) : Prop :=
  match posts with
  | [] => True
  | (now, connected) :: rest =>
      (connected = false -> CONNECTION_RETRY_DELAY <= now - last)%Z /\
      spaced now rest
  end.

Lemma settle_keeps_last accepted c :
  lastConnectionAttempt (sendStateToWearable_settle accepted c)
  = lastConnectionAttempt c.
Proof.
  unfold sendStateToWearable_settle.
  destruct accepted, (isCompanionAppConnected c); reflexivity.
Qed.

Lemma companionRun_spaced isMobile steps c :
  spaced (lastConnectionAttempt c) (fst (companionRun isMobile steps c)).
Proof.
  revert c. induction steps as [|[now task|accepted] steps IH]; intros c.
  - exact I.
  - cbn [companionRun]. unfold sendStateToWearable_begin.
    destruct task as [t|]; [|specialize (IH c); destruct (companionRun _ _ c); exact IH].
    destruct (negb isMobile);
      [specialize (IH c); destruct (companionRun _ _ c); exact IH|].
    destruct (negb (isCompanionAppConnected c)
              && Z.ltb (now - lastConnectionAttempt c) CONNECTION_RETRY_DELAY)
      eqn:Hopen.
    + specialize (IH c). destruct (companionRun _ _ c). exact IH.
    + specialize (IH {| isCompanionAppConnected := isCompanionAppConnected c;
                        lastConnectionAttempt := now |}).
      destruct (companionRun _ _ _) as [posts final]. cbn [fst spaced] in *.
      split; [|exact IH].
      intros Hc. rewrite Hc in Hopen. cbn [negb andb] in Hopen.
      apply Z.ltb_ge in Hopen. exact Hopen.
  - cbn [companionRun]. rewrite <- (settle_keeps_last accepted c). apply IH.
Qed.

(** Property X26.  The circuit breaker of the companion app.  Nothing is
    posted off a mobile browser or without a task.  Along any run of calls
    and settlements, a request posted while the breaker is open (the last
    settlement seen was a failure) comes at least 5000 ms after the request
    posted before it; a settlement changes the breaker only, closing it on
    an accepted request and opening it on any other; and a request that is
    posted carries the goal, the status and the answer of the task, [null]
    for an answer that is missing or empty. *)
Theorem companion_breaker (isMobile : bool) (steps : list CompanionStep)
    (c : Companion) :
  spaced (lastConnectionAttempt c) (fst (companionRun isMobile steps c)) /\
  (forall now task,
     isMobile = false \/ task = None ->
     sendStateToWearable_begin isMobile task now c = (None, c)) /\
  (forall accepted,
     isCompanionAppConnected (sendStateToWearable_settle accepted c) = accepted /\
     lastConnectionAttempt (sendStateToWearable_settle accepted c)
     = lastConnectionAttempt c) /\
  (forall now task posted c',
     sendStateToWearable_begin isMobile task now c = (Some posted, c') ->
     lastConnectionAttempt c' = now /\
     isCompanionAppConnected c' = isCompanionAppConnected c /\
     exists t, task = Some t /\ ws_goal posted = originalGoal t /\
       ws_status posted = status t /\
       ws_answer posted
       = (if truthy (finalAnswer t) then finalAnswer t else None)).
Proof.
  split; [apply companionRun_spaced|]. split; [|split].
  - intros now task [-> | ->]; [destruct task|]; reflexivity.
  - intros accepted. split; [|apply settle_keeps_last].
    unfold sendStateToWearable_settle.
    destruct accepted, (isCompanionAppConnected c) eqn:E; cbn; congruence.
  - intros now task posted c' H. unfold sendStateToWearable_begin in H.
    destruct task as [t|]; [|discriminate].
    destruct (negb isMobile); [discriminate|].
    destruct (_ && _); [discriminate|].
    injection H as <- <-. cbn. eauto 10.
Qed.

(** A failed request at 1000 ms, then calls at 3000 ms and at 7000 ms: the
    second call posts nothing. *)
Lemma companion_breaker_witness :
  let task := Some (exampleTask EXECUTING ["open kayak.com"] 0 0) in
  let run := [Called 1000 task; Settled false; Called 3000 task;
              Called 7000 task] in
  fst (companionRun true run companionAtLoad)
  = [(1000%Z, true); (7000%Z, false)] /\
  spaced 0 (fst (companionRun true run companionAtLoad)).
Proof.
  intros task run. split; [reflexivity|].
  exact (proj1 (companion_breaker true run companionAtLoad)).
Defined.

(** ** From the goal to the answer *)

(** A task for [g] in status [st], with plan [steps] at its first step,
    after [n] turns, with the tabs [opened]. *)
Definition shaped (g : string) (st : TaskStatus) (steps : list string)
    (n : nat) (opened : gmap string nat) (t : AgentState) : Prop :=
  originalGoal t = g /\ status t = st /\ plan t = steps /\
  currentStep t = 0 /\ turn t = n /\ tabs t = opened /\
  activeTabName t = "main".

Ltac shape :=
  unfold shaped in *; fields;
  repeat match goal with H : _ /\ _ |- _ => destruct H end;
  repeat match goal with
         | H : originalGoal ?t = _ |- _ => rewrite H; clear H
         | H : status ?t = _ |- _ => rewrite H; clear H
         | H : plan ?t = _ |- _ => rewrite H; clear H
         | H : currentStep ?t = _ |- _ => rewrite H; clear H
         | H : turn ?t = _ |- _ => rewrite H; clear H
         | H : tabs ?t = _ |- _ => rewrite H; clear H
         | H : activeTabName ?t = _ |- _ => rewrite H; clear H
         end;
  rewrite ?insert_empty;
  repeat split; reflexivity.

Lemma saveHistoricalTask_session_key W g s :
  beachdai_session_key (final (saveHistoricalTask W g s))
  = beachdai_session_key s.
Proof.
  unfold saveHistoricalTask. destruct (is_blank g); [reflexivity|].
  unfold bind at 1, get at 1.
  destruct (existsb _ (historicalTasks (local s))); reflexivity.
Qed.

Section FirstTurn.

Variable W : World.
Variables (g coords host : string) (rd : ResearcherDecision)
          (pd : PlannerDecision) (tab : nat) (snapshot : PageSnapshot)
          (decision : ManagerDecision) (p : PresenterDecision).
Variable self : AgentEvent -> M unit.
Variable Q : unit -> Store -> Prop.

Hypothesis triaged : forall n, triage_call W n g = Resolved Standard_Flow.
Hypothesis located : forall n, geolocation W n = Position coords.
Hypothesis researched :
  forall n location, researcher_call W n g location = Resolved rd.
Hypothesis needs_browser : requires_browser rd = true.
Hypothesis needs_no_vault : requires_vault rd = false.
Hypothesis planned :
  forall n prompt, planner_call W n prompt = Resolved (Some pd).

(** [START_TASK] as far as the dispatch of [RESEARCH_COMPLETE]. *)
Lemma research_phase s :
  (forall s' t', currentTask s' = Some t' -> shaped g RESEARCHING [] 0 ∅ t' ->
     beachdai_session_key s' = beachdai_session_key s ->
     wp (self (RESEARCH_COMPLETE (Some rd))) Q s') ->
  wp (handleStartTask W self g) Q s.
Proof.
  intros Hnext. unfold handleStartTask. apply wp_bind.
  assert (Hreplace : wp (replaceTask W g)
    (fun _ s1 => exists t1, currentTask s1 = Some t1 /\
                            shaped g RESEARCHING [] 0 ∅ t1 /\
                            beachdai_session_key s1 = beachdai_session_key s) s).
  { unfold replaceTask. wp_run.
    destruct (currentTask s) as [prior|]; [destruct (decide _)|].
    - pose proof (saveHistoricalTask_session_key W (originalGoal prior) s)
        as Hkey.
      destruct (saveHistoricalTask_spec W (originalGoal prior) s)
        as (s0 & E & _).
      rewrite E in Hkey. cbn [final] in Hkey.
      eapply wp_eq; [exact E|]. wp_run.
      eexists; split; [reflexivity|]. split; [shape|exact Hkey].
    - wp_run. eexists; split; [reflexivity|]. split; [shape|reflexivity].
    - wp_run. eexists; split; [reflexivity|]. split; [shape|reflexivity]. }
  eapply wp_conseq; [exact Hreplace|]. clear Hreplace.
  intros [] s1 (t1 & Ht1 & Hshape & Hkey1).
  unfold researchTask. apply wp_try_catch.
  unfold getTriageDecision. wp_run. rewrite triaged. wp_run.
  unfold getPreflightContext, getUserLocation. wp_run. rewrite located. wp_run.
  unfold getResearcherFacts, await. wp_run.
  replace (originalGoal t1) with g by (symmetry; apply Hshape).
  rewrite researched. wp_run.
  eapply Hnext; [present|shape|fields; exact Hkey1].
Qed.


Hypothesis plan_has_steps : pd_plan pd <> [].
Hypothesis tab_opens : forall n u, tabs_create W n u = Resolved (Some (S tab)).
Hypothesis observed : forall n id, observation W n id = Snapshot snapshot.
Hypothesis on_host : URL_hostname W (ps_url snapshot) = Some host.
Hypothesis decided :
  forall n t seen learned,
    manager_call W n t seen learned = Resolved (Some decision).

(** [PLAN_COMPLETE] as far as the dispatch of [RUN_NEXT_TURN]. *)
Lemma planned_phase opened s t :
  currentTask s = Some t -> shaped g PLANNING [] 0 opened t ->
  (forall s' t', currentTask s' = Some t' ->
     shaped g PLANNING (pd_plan pd) 0 opened t' ->
     wp (self RUN_NEXT_TURN) Q s') ->
  wp (orchestrate W self (PLAN_COMPLETE (Some pd))) Q s.
Proof.
  intros Ht Hshape Hnext. unfold orchestrate. wp_run. rewrite Ht.
  wp_run. unfold onStatus.
  replace (status t) with PLANNING by (symmetry; apply Hshape).
  wp_run.
  eapply wp_conseq; [eapply Hnext; [present|shape]|].
  intros [] s' HQ. exact HQ.
Qed.

(** The first turn, as far as the dispatch of the Manager's decision. *)
Lemma turn_phase s t :
  currentTask s = Some t -> shaped g PLANNING (pd_plan pd) 0 ∅ t ->
  (forall s' t', currentTask s' = Some t' ->
     shaped g THINKING (pd_plan pd) 1 {["main" := S tab]} t' ->
     wp (self (ACTION_COMPLETE (Some decision))) Q s') ->
  wp (orchestrate W self RUN_NEXT_TURN) Q s.
Proof.
  intros Ht Hshape Hnext. unfold orchestrate. wp_run. rewrite Ht.
  wp_run. unfold onStatus.
  replace (status t) with PLANNING by (symmetry; apply Hshape).
  wp_run. unfold runNextTurn. wp_run. rewrite Ht.
  replace (status t) with PLANNING by (symmetry; apply Hshape).
  cbn [non_execution_state].
  replace (plan t) with (pd_plan pd) by (symmetry; apply Hshape).
  destruct (decide (length (pd_plan pd) = 0)) as [Hnil|_].
  { destruct (pd_plan pd); [contradiction|discriminate]. }
  wp_run.
  replace (tabs t) with (∅ : gmap string nat) by (symmetry; apply Hshape).
  destruct (decide (size (∅ : gmap string nat) = 0)) as [_|Hne];
    [|contradiction Hne; apply map_size_empty].
  wp_run. unfold getStartTab. apply wp_try_catch. wp_run.
  unfold await. wp_run. rewrite tab_opens. wp_run.
  cbn [truthy_num from_option id]. wp_run. cbn [negb]. wp_run.
  apply wp_try_catch. unfold observeCurrentState. wp_run.
  rewrite observed. wp_run.
  unfold hostname_of. rewrite on_host. wp_run.
  unfold getLearnedToolsForHost. wp_run.
  unfold getRelevantLearnedTool.
  destruct (learnedTools (local s) !! host) as [tools|];
    [destruct (decide (size tools = 0))|]; wp_run.
  all: apply wp_try_catch; unfold getManagerDecision; wp_run.
  all: unfold getPreflightContext, getUserLocation; wp_run; rewrite located;
    wp_run; rewrite decided; wp_run.
  all: eapply wp_conseq; [eapply Hnext; [present|shape]|].
  all: intros [] s' HQ; exact HQ.
Qed.

Hypothesis answers_ : action decision = Some ANSWER.
Hypothesis presented :
  forall n t a why, presenter_call W n t a why = Resolved (Some p).

(** The answer the task ends with. *)
Definition presentedAnswer (p : PresenterDecision) : string :=
  if truthy (call_to_action p)
  then summary p +:+ nl +:+ nl +:+ show (call_to_action p)
  else summary p.

(** The Manager's [ANSWER], to the end. *)
Lemma answer_phase steps n opened s t :
  currentTask s = Some t -> shaped g THINKING steps n opened t ->
  wp (orchestrate W self (ACTION_COMPLETE (Some decision)))
    (fun _ s' => exists t', currentTask s' = Some t' /\
       shaped g COMPLETED steps n opened t' /\
       finalAnswer t' = Some (presentedAnswer p) /\
       isPartialSuccess t' = Some false /\
       (String.eqb (presentedAnswer p) "" = false ->
        exists now stored,
          completedTasks (local s')
          = {| ct_goal := g; ct_answer := presentedAnswer p;
               ct_timestamp := now |} :: stored)) s.
Proof.
  intros Ht Hshape. unfold orchestrate. wp_run. rewrite Ht.
  wp_run. unfold onStatus.
  replace (status t) with THINKING by (symmetry; apply Hshape).
  unfold handleAction. wp_run. rewrite Ht, answers_.
  unfold needsVerification. rewrite answers_. cbn [andb].
  unfold performAction. wp_run.
  destruct (negb (String.eqb (thought decision) "")); wp_run.
  all: cbn [is_click_or_submit]; wp_run.
  all: unfold presentFinal, getPresenterDecision; wp_run; rewrite presented;
    wp_run.
  all: unfold presentedAnswer; destruct (truthy (call_to_action p)); wp_run.
  all: (eapply wp_saveCompletedTask_answer; [present|fields; reflexivity|]);
    intros s' Ht' Hsaved; wp_run.
  all: eexists; split; [exact Ht'|]; split; [shape|].
  all: fields; unfold show; cbn [from_option id].
  all: split; [reflexivity|]; split; [reflexivity|].
  all: intros Hne; unfold answerSaved in Hsaved; fields;
    unfold show in Hsaved; cbn [from_option id] in Hsaved;
    rewrite Hne in Hsaved;
    replace g with (originalGoal t) by apply Hshape; exact Hsaved.
Qed.

End FirstTurn.



(** ** A task behind the locked vault *)

Section VaultGate.

Variable W : World.
Variables (g coords : string) (rd : ResearcherDecision) (pd : PlannerDecision).
Variable self : AgentEvent -> M unit.
Variable Q : unit -> Store -> Prop.

Hypothesis located : forall n, geolocation W n = Position coords.
Hypothesis needs_vault : requires_vault rd = true.
Hypothesis planned :
  forall n prompt, planner_call W n prompt = Resolved (Some pd).

(** [RESEARCH_COMPLETE] before the locked vault. *)
Lemma gate_phase s t :
  currentTask s = Some t -> shaped g RESEARCHING [] 0 ∅ t ->
  truthy (beachdai_session_key s) = false ->
  wp (orchestrate W self (RESEARCH_COMPLETE (Some rd)))
    (fun _ s' => exists t', currentTask s' = Some t' /\
       shaped g AWAITING_PASSPHRASE [] 0 ∅ t' /\
       researcherDecision t' = Some rd) s.
Proof.
  intros Ht Hshape Hlocked. unfold orchestrate. wp_run. rewrite Ht.
  wp_run. unfold onStatus.
  replace (status t) with RESEARCHING by (symmetry; apply Hshape).
  wp_run. unfold isVaultUnlocked. wp_run.
  rewrite needs_vault, Hlocked. cbn [negb andb]. wp_run.
  eexists. split; [reflexivity|]. split; [shape|reflexivity].
Qed.

(** [UNLOCK_VAULT] with the passphrase, as far as the dispatch of
    [PLAN_COMPLETE]. *)
Lemma unlock_phase passphrase st opened s t s1 :
  currentTask s = Some t -> shaped g st [] 0 opened t ->
  researcherDecision t = Some rd ->
  unlockVault W passphrase s = Return true s1 ->
  currentTask s1 = Some t ->
  (forall s' t', currentTask s' = Some t' -> shaped g PLANNING [] 0 opened t' ->
     wp (self (PLAN_COMPLETE (Some pd))) Q s') ->
  wp (handleUnlockVault W self passphrase) Q s.
Proof.
  intros Ht Hshape Hrd Hunlock Ht1 Hnext.
  unfold handleUnlockVault. wp_run. rewrite Ht.
  eapply wp_bind, wp_eq; [exact Hunlock|]. cbv iota. wp_run. rewrite Hrd. wp_run.
  unfold planFor, getPlannerDecision, getSimilarCompletedTasks. wp_run.
  unfold getPreflightContext, getUserLocation. wp_run. rewrite located. wp_run.
  rewrite planned. wp_run.
  eapply Hnext; [present|shape].
Qed.

End VaultGate.

(** A world for the example of the vault gate: the ciphertext names its
    key, and the Researcher asks for the vault. *)
Definition gatedWorld : World :=
  let W := exampleWorld Standard_Flow ["Go to kayak.com"]
             (exampleDecision ANSWER) in
  {| Date_now := Date_now W;
     Math_random := Math_random W;
     AES_encrypt := keyedEncrypt;
     AES_decrypt := keyedDecrypt;
     PBKDF2 := PBKDF2 W;
     JSON_stringify := JSON_stringify W;
     String_of := String_of W;
     URL_hostname := URL_hostname W;
     geolocation := geolocation W;
     newTaskUrl := newTaskUrl W;
     triage_call := triage_call W;
     researcher_call := fun _ _ _ =>
       Resolved {| rs_thought := "needs a stored password"; facts := [];
                   requires_browser := false; requires_vault := true |};
     planner_call := planner_call W;
     manager_call := manager_call W;
     verifier_call := verifier_call W;
     presenter_call := presenter_call W;
     teacher_call := teacher_call W;
     relevant_tool := relevant_tool W;
     tabs_get := tabs_get W;
     tabs_create := tabs_create W;
     tabs_update := tabs_update W;
     tabs_query := tabs_query W;
     tabs_query_active := tabs_query_active W;
     observation := observation W;
     execute_on_page := execute_on_page W;
     searchPage := searchPage W |}.

(** Property X28.  A task whose research asks for the vault stops at
    [AWAITING_PASSPHRASE] while the vault is locked: nothing is planned and no
    turn is run.  The right passphrase then resumes it, through the plan and
    the first turn to the answer, whether or not the research asked for the
    browser. *)
Theorem locked_vault_gates_the_task (W : World) (fuel : nat)
    (g coords host salt check passphrase : string)
    (rd : ResearcherDecision) (pd : PlannerDecision)
    (tab : nat) (snapshot : PageSnapshot) (decision : ManagerDecision)
    (p : PresenterDecision) (s : Store) :
  (forall n, triage_call W n g = Resolved Standard_Flow) ->
  (forall n, geolocation W n = Position coords) ->
  (forall n location, researcher_call W n g location = Resolved rd) ->
  requires_vault rd = true ->
  (forall n prompt, planner_call W n prompt = Resolved (Some pd)) ->
  pd_plan pd <> [] ->
  (forall n u, tabs_create W n u = Resolved (Some (S tab))) ->
  (forall n id, observation W n id = Snapshot snapshot) ->
  URL_hostname W (ps_url snapshot) = Some host ->
  (forall n t seen learned,
     manager_call W n t seen learned = Resolved (Some decision)) ->
  action decision = Some ANSWER ->
  (forall n t a why, presenter_call W n t a why = Resolved (Some p)) ->
  truthy (beachdai_session_key s) = false ->
  beachdai_vault_salt (local s) = Some salt -> String.eqb salt "" = false ->
  beachdai_vault_check (local s) = Some check -> String.eqb check "" = false ->
  AES_decrypt W check (deriveKey W passphrase salt) = Resolved CHECK_STRING ->
  exists s1 t1 s2 t2,
    agentOrchestrator W (2 + fuel) (START_TASK g) s = Return tt s1 /\
    currentTask s1 = Some t1 /\ originalGoal t1 = g /\
    status t1 = AWAITING_PASSPHRASE /\ plan t1 = [] /\ turn t1 = 0 /\
    tabs t1 = ∅ /\ beachdai_session_key s1 = beachdai_session_key s /\
    agentOrchestrator W (4 + fuel) (UNLOCK_VAULT passphrase) s1
    = Return tt s2 /\
    currentTask s2 = Some t2 /\ originalGoal t2 = g /\
    status t2 = COMPLETED /\ plan t2 = pd_plan pd /\ turn t2 = 1 /\
    tabs t2 = {["main" := S tab]} /\
    finalAnswer t2 = Some (presentedAnswer p).
Proof.
  intros Htriage Hloc Hres Hvault Hplan Hsteps Htab Hobs Hhost Hman Hanswer
         Hpres Hlocked Hsalt Hsalt' Hcheck Hcheck' Hopen.
  assert (HA : wp (agentOrchestrator W (2 + fuel) (START_TASK g))
    (fun _ s' => exists t', currentTask s' = Some t' /\
       shaped g AWAITING_PASSPHRASE [] 0 ∅ t' /\
       researcherDecision t' = Some rd) s).
  { change (2 + fuel) with (S (S fuel)).
    cbn [agentOrchestrator orchestrate].
    eapply (research_phase W g coords rd); try eassumption.
    intros s' t' Ht' Hshape' Hkey.
    eapply (gate_phase W g rd); try eassumption.
    rewrite Hkey. exact Hlocked. }
  apply wp_returns in HA as ([] & s1 & E1 & t1 & Ht1 & Hshape1 & Hrd1).
  pose proof (agentOrchestrator_vaultConfig W (2 + fuel) (START_TASK g) s)
    as Hconfig.
  rewrite E1 in Hconfig. unfold same_on, vaultConfig in Hconfig.
  cbn [final] in Hconfig. injection Hconfig as Hsalt1 Hcheck1.
  assert (Hkey1 : beachdai_session_key s1 = beachdai_session_key s).
  { pose proof (agentOrchestrator_session_key W (2 + fuel) (START_TASK g)
                  ltac:(discriminate) s) as Hkey.
    rewrite E1 in Hkey. exact Hkey. }
  assert (Hunlock : unlockVault W passphrase s1
    = Return true
        (set_session_key (Some (deriveKey W passphrase salt)) s1)).
  { unfold unlockVault, bind, get, ret, modify.
    rewrite Hsalt1, Hcheck1, Hsalt, Hcheck. unfold truthy.
    rewrite Hsalt', Hcheck'. cbn [negb from_option id].
    rewrite Hopen. rewrite String.eqb_refl. reflexivity. }
  assert (HB : wp (agentOrchestrator W (4 + fuel) (UNLOCK_VAULT passphrase))
    (fun _ s' => exists t', currentTask s' = Some t' /\
       shaped g COMPLETED (pd_plan pd) 1 {["main" := S tab]} t' /\
       finalAnswer t' = Some (presentedAnswer p)) s1).
  { change (4 + fuel) with (S (S (S (S fuel)))).
    cbn [agentOrchestrator orchestrate].
    eapply (unlock_phase W g coords rd pd); try eassumption.
    intros s2 t2 Ht2 Hshape2.
    eapply (planned_phase W g pd); try eassumption.
    intros s3 t3 Ht3 Hshape3.
    eapply (turn_phase W g coords host pd tab snapshot decision);
      try eassumption.
    intros s4 t4 Ht4 Hshape4.
    eapply wp_conseq; [eapply (answer_phase W g decision p); eassumption|].
    intros [] s5 (t5 & Ht5 & Hshape5 & Hfinal5 & _).
    exists t5. auto. }
  apply wp_returns in HB as ([] & s2 & E2 & t2 & Ht2 & Hshape2 & Hfinal2).
  destruct Hshape1 as (Hg1 & Hst1 & Hp1 & _ & Hturn1 & Htabs1 & _).
  destruct Hshape2 as (Hg2 & Hst2 & Hp2 & _ & Hturn2 & Htabs2 & _).
  exists s1, t1, s2, t2. auto 20.
Qed.

Lemma locked_vault_gates_the_task_witness :
  let s := set_session_key None
             (final (initializeVault gatedWorld "00ff" "open sesame"
                       emptyStore)) in
  exists s1 t1 s2 t2,
    agentOrchestrator gatedWorld 2 (START_TASK "pay the water bill") s
    = Return tt s1 /\
    currentTask s1 = Some t1 /\ status t1 = AWAITING_PASSPHRASE /\
    turn t1 = 0 /\
    agentOrchestrator gatedWorld 4 (UNLOCK_VAULT "open sesame") s1
    = Return tt s2 /\
    currentTask s2 = Some t2 /\ status t2 = COMPLETED /\
    finalAnswer t2 = Some "done".
Proof.
  intros s.
  destruct (locked_vault_gates_the_task gatedWorld 0
              "pay the water bill" "33.7, -84.4" "kayak.com" "00ff"
              (keyedEncrypt CHECK_STRING
                 (deriveKey gatedWorld "open sesame" "00ff"))
              "open sesame"
              {| rs_thought := "needs a stored password"; facts := [];
                 requires_browser := false; requires_vault := true |}
              {| pd_thought := "as planned"; pd_plan := ["Go to kayak.com"] |}
              6
              {| ps_url := "https://kayak.com/flights"; ps_title := "Kayak";
                 mainContent := ""; interactiveElements := [] |}
              (exampleDecision ANSWER)
              {| summary := "done"; call_to_action := None |}
              s)
    as (s1 & t1 & s2 & t2 & E1 & Ht1 & _ & Hst1 & _ & Hturn1 & _ & _ & E2 &
        Ht2 & _ & Hst2 & _ & _ & _ & Hfinal2);
    try (intros; reflexivity); try discriminate.
  exists s1, t1, s2, t2. auto 12.
Defined.
